(* ===== verification/_CoqProject ===== *)
-Q . S2P
Prelude.v
GoStrings.v
GoPath.v
Json.v
JsonFacts.v
Regex.v
GoStruct.v
GoFloat.v
GoNet.v
Host.v
SimHost.v
Store.v
StoreFacts.v
Wg.v
WgFacts.v
Bird.v
BirdFacts.v
Primitives.v
Crypto.v
Ws.v
WsFacts.v
Handler.v
Network.v
Update.v
KeyExchange.v
Metrics.v
Main.v
World.v
Answers.v
HandlerFacts.v
SyncFacts.v
NetworkFacts.v
UpdateFacts.v
KeyFacts.v
MetricsFacts.v
MainFacts.v
