(* ===== verification/Prelude.v ===== *)
(** * The DN42 autopeer agent

    A verification library of the Autopeer agent: the daemon that runs on a DN42 node, keeps a
    WebSocket to a center, and sets up, removes and reports WireGuard tunnels with BGP sessions
    on the center's orders.

    ** The program and the files that model it

    The agent is [main] with nine packages.  [main] loads the configuration, opens the store, gets
    a key pair, and wires a handler to a WebSocket client and a metrics collector.  The client
    reads frames and hands each message to the handler; the handler calls the WireGuard and BIRD
    managers and the store, and answers through the client's send queue; the collector sends a
    heartbeat at every tick.

    - [internal/store/store.go]: [Store], facts in [StoreFacts].  A [Store] is an open bbolt
      database; every method is a [Definition] of the same name.
    - [internal/wg/wg.go]: [Wg], facts in [WgFacts].
    - [internal/bird/bird.go]: [Bird], facts in [BirdFacts].
    - [internal/crypto/crypto.go]: [Crypto], on [Primitives].
    - [internal/ws/client.go]: [Ws], facts in [WsFacts].  [Client] is the struct, with the frames
      queued and written; [run_step] is the goroutine of [Run] as a step relation, interleaved
      with reads, sends, writes and [Close].
    - [internal/handler/handler.go]: [Handler] (peers and BIRD commands), [KeyExchange] (key
      exchange, [HandleMessage], one turn of [readLoop]), and the update commands in [Update].
      The state of every handler is [HState]: the node, the store, the client and the channel of
      the key exchange.
    - [internal/handler/network.go]: [Network], facts in [NetworkFacts].
    - [internal/handler/update_helpers.go]: [Update], facts in [UpdateFacts].
    - [internal/metrics/metrics.go]: [Metrics], facts in [MetricsFacts].
    - [internal/config/config.go] and [cmd/agent/main.go]: [Main], facts in [MainFacts].

    Facts about several parts are in [Answers] (every command is answered once), [HandlerFacts]
    (peer.add), [SyncFacts] (peers.sync, peer.remove, peers.import) and [KeyFacts] (key exchange
    and frames).  What the Go language and its library do is modelled where the agent uses it:
    [GoStrings], [GoPath], [Json] with [JsonFacts], [GoStruct] (decoding into structs), [Regex],
    [GoFloat], [GoNet], and in [Primitives] SHA-256, HMAC and X25519, checked on the test vectors
    of their standards.  [Host] is the node: files and commands.

    ** How the code is modelled

    This file has the Go error values and results ([error], [res]), the state monad [M] whose
    computations return or halt (a panic, an exit, a re-exec, a send that blocks for ever), its
    weakest preconditions [wp] with their rules and tactics, and 64-bit integers.  A Go function
    that returns an error is a computation in [M S (res A)]; early returns are matches; loops are
    [mfold].  Strings and byte slices are byte strings.  Integers are [Z] with [wrap64] where the
    code can overflow.

    Failures are part of the state: [sys_faults] scripts which of the successive system calls
    fail, a failed write leaving any prefix, and [st_faults] which commits of the database fail.
    A theorem about all states is therefore a theorem about every sequence of failures; as the
    calls after a point may all fail, it also covers the files a crash at that point leaves.

    Code outside the repository is a parameter, with the behaviour the agent relies on as the
    laws of a class, and a concrete instance that satisfies them for the witnesses:
    - the programs [wg], [wg-quick], [birdc], [ping], ...: [HostEnv] with [QuietCommands] and
      [WgLaws]; instance in [SimHost];
    - bbolt: [Bolt] with [BoltLaws]; instance [MemBolt] in [StoreFacts];
    - the AEAD and HKDF of golang.org/x/crypto: [Aead] with [AeadLaws], [Hkdf] with [HkdfLaws];
      instances [TagAead] and, by RFC 5869, [rfc_hkdf];
    - the resolver, the web server, [os.CreateTemp] and [syscall.Exec]: [Resolver], [UpdateEnv]
      with [TempLaws]; the YAML decoder: [Yaml]; the random source: [Rng].
    [World] puts the instances together into a node on which the handlers run.

    ** What the theorems show

    - Store: every writing operation refines an abstract map, or fails without effect; round trip;
      every iteration calls its function once per stored peer, in key order.
    - WireGuard and BIRD: each operation on every branch, with its frame on the files; what is
      written is read back by the scanners; the configuration file, read by the documented format
      of wg ([wg_settings]), has exactly the settings of the peer; wg's dump is read exactly;
      bounded route output.
    - Handlers: each command is answered exactly once, a peers.sync that does not decode apart;
      peer.add ends with the tunnel up and recorded, or down and not recorded; peer.remove leaves
      neither tunnel nor files; peers.sync follows a relation ([peer_step]) that says of each
      listed peer whether it is skipped, applied or failed and what is done on the node;
      peers.import is a comprehension.
    - Looking glass: the exact set of accepted addresses; only bounded probes of accepted
      addresses run.
    - Crypto, client and key exchange: frames round trip; Send on every branch; the connection
      loop keeps its bounds in all interleavings and never panics; both ends derive one key; an
      encrypted client serves only sealed frames.
    - Update: the binary in place is always the old one or one with the announced digest; the
      backup restores the old one.
    - Metrics and start: heartbeats report exactly the stored peers wg knows, and a collection
      sends exactly one or says why not; the key pair survives restarts; a start fails for one of
      the listed reasons or sets every part up from the configuration file; foreign directories
      are left alone.
    - Theorems of kind error show where the code does less than its documentation or names say:
      rollback after an update, peers renamed by a sync, custom file names, leftovers of a failed
      peer.add, surplus acknowledgements, unauthenticated and plain-text phases, traceroute times,
      the ASN of an interface name.  They are stated for every node in the situation they
      describe; where programs have to succeed or fail, [programs] says which do.

    ** Bounds and fuel

    [parse_value] of the JSON decoder has the length of the text as fuel, enough for any text as
    every call consumes a character ([JsonFacts] proves that printed values are read back), and
    the nesting bound of encoding/json.  Decimal printing has the bit length of the number as
    fuel, proved enough.  The digits of a float are searched up to 17, which always suffice for
    a double; the blocks of SHA-256 and the 255 steps of X25519 are counted by their inputs.

    X25519's agreement on a shared secret is a hypothesis about the keys at hand ([dh_agree]),
    computed in the witnesses.

    ** What is not modelled

    Logging; deadlines, ping frames and the framing of the WebSocket library; the wording of JSON
    errors; signal handling; symbolic links and file ownership.  The pings of one heartbeat, which
    run beside each other, are taken in order, and the key exchange, which runs beside the read
    loop, is split at its wait: its channel ([keychan]) holds the messages sent and knows whether
    the exchange is still to receive, so a send blocks exactly when nobody will ever take it.  The
    iteration order of Go maps is that of [map_to_list].

    ** Plan

    Still to come: the read loop and the key exchange as one interleaved step relation; the
    parsers of ping and birdc's detail output against printers of their formats; the heartbeat's
    JSON read back by the center. *)

From stdpp Require Export base tactics list strings gmap fin_maps sets.
From Stdlib Require Export ZArith NArith Lia.
From Stdlib Require Import Ascii.
#[global] Open Scope Z_scope.
#[global] Arguments String.append : simpl nomatch.

(** ** Go errors and fallible results *)

(** A Go [error] value that is not nil: its text ([err.Error()]) and whether [os.IsNotExist]
    recognises it.  [fmt.Errorf] wraps an error in a type [os.IsNotExist] does not look into. *)
Record error := Error { err_notexist : bool; err_text : string }.

(** [fmt.Errorf] with the given, already formatted, text. *)
Definition errorf (text : string) : error := Error false text.

(** The pair [(T, error)] a Go function returns, when exactly one of the two is meaningful. *)
Inductive res (A : Type) : Type :=
| Ok (a : A)
| Err (e : error).
Arguments Ok {A} a.
Arguments Err {A} e.

Definition is_ok {A} (r : res A) : bool :=
  match r with Ok _ => true | Err _ => false end.

Definition res_map {A B} (f : A -> B) (r : res A) : res B :=
  match r with Ok a => Ok (f a) | Err e => Err e end.

Definition res_bind {A B} (r : res A) (f : A -> res B) : res B :=
  match r with Ok a => f a | Err e => Err e end.

(** [fmt.Errorf("prefix: %w", err)]. *)
Definition wrap (prefix : string) (e : error) : error :=
  errorf (prefix +:+ ": " +:+ err_text e).

Definition res_wrap {A} (prefix : string) (r : res A) : res A :=
  match r with Ok a => Ok a | Err e => Err (wrap prefix e) end.

(** ** A state monad whose computations may end the process

    [Halt] is the end of the goroutine that runs the computation: the process exits or replaces
    itself, panics, or blocks for ever. *)

Inductive halt :=
| Exit (code : Z)
| ExecSelf (path : string)
| Panic (why : string)
| Blocked (why : string).

Inductive out (A : Type) : Type :=
| Ret (a : A)
| Halt (h : halt).
Arguments Ret {A} a.
Arguments Halt {A} h.

Definition M (S A : Type) : Type := S -> out A * S.

#[global] Instance M_ret S : MRet (M S) := fun A a s => (Ret a, s).
#[global] Instance M_bind S : MBind (M S) := fun A B f m s =>
  match m s with
  | (Ret a, s') => f a s'
  | (Halt h, s') => (Halt h, s')
  end.

Definition mget {S} : M S S := fun s => (Ret s, s).
Definition mput {S} (s' : S) : M S unit := fun _ => (Ret tt, s').
Definition modify {S} (f : S -> S) : M S unit := fun s => (Ret tt, f s).
Definition gets {S A} (f : S -> A) : M S A := fun s => (Ret (f s), s).
Definition mhalt {S A} (h : halt) : M S A := fun s => (Halt h, s).

(** Run a computation on a part of a larger state. *)
Definition zoom {S T A} (get : T -> S) (put : S -> T -> T) (m : M S A) : M T A :=
  fun t => let '(o, s') := m (get t) in (o, put s' t).

(** [for _, x := range l { body(x) }], the body threading an accumulator. *)
Fixpoint mfold {S A B} (body : B -> A -> M S B) (l : list A) (acc : B) : M S B :=
  match l with
  | [] => mret acc
  | x :: l' => body acc x ≫= mfold body l'
  end.

Definition mfor {S A} (body : A -> M S unit) (l : list A) : M S unit :=
  mfold (fun _ x => body x) l tt.

(** ** Weakest preconditions

    [wp m Q s]: from [s], [m] returns (it does not halt) and its value and final state satisfy
    [Q].  [wpo] also lets the post-condition speak of a halted run. *)

Definition wpo {S A} (m : M S A) (Q : out A -> S -> Prop) (s : S) : Prop :=
  let '(o, s') := m s in Q o s'.

Definition wp {S A} (m : M S A) (Q : A -> S -> Prop) (s : S) : Prop :=
  match m s with
  | (Ret a, s') => Q a s'
  | (Halt _, _) => False
  end.

Create HintDb agent.
Create HintDb agent_wp.

Section wp_rules.
Context {S : Type}.

Lemma wp_ret {A} (a : A) (Q : A -> S -> Prop) s : Q a s -> wp (mret a) Q s.
Proof. done. Qed.

Lemma wp_bind {A B} (m : M S A) (f : A -> M S B) Q s :
  wp m (fun a => wp (f a) Q) s -> wp (m ≫= f) Q s.
Proof. unfold wp, mbind, M_bind. by destruct (m s) as [[a|h] s']. Qed.

Lemma wp_mono {A} (m : M S A) (Q Q' : A -> S -> Prop) s :
  wp m Q s -> (forall a s', Q a s' -> Q' a s') -> wp m Q' s.
Proof. unfold wp. destruct (m s) as [[a|h] s']; [auto|done]. Qed.

Lemma wp_conj {A} (m : M S A) (Q Q' : A -> S -> Prop) s :
  wp m Q s -> wp m Q' s -> wp m (fun a s' => Q a s' /\ Q' a s') s.
Proof. unfold wp. by destruct (m s) as [[a|h] s']. Qed.

Lemma wp_gets {A} (f : S -> A) (Q : A -> S -> Prop) s : Q (f s) s -> wp (gets f) Q s.
Proof. done. Qed.

Lemma wp_modify (f : S -> S) (Q : unit -> S -> Prop) s : Q tt (f s) -> wp (modify f) Q s.
Proof. done. Qed.

Lemma wp_zoom {T A} (get : T -> S) put (m : M S A) (Q : A -> T -> Prop) t :
  wp m (fun a s' => Q a (put s' t)) (get t) -> wp (zoom get put m) Q t.
Proof. unfold wp, zoom. by destruct (m (get t)) as [[a|h] s']. Qed.

(** The value and the final state of a computation that returns. *)
Lemma wp_run {A} (m : M S A) (Q : A -> S -> Prop) s :
  wp m Q s <-> exists a s', m s = (Ret a, s') /\ Q a s'.
Proof.
  unfold wp. destruct (m s) as [[a|h] s']; split.
  - eauto.
  - intros (? & ? & [= -> ->] & ?). done.
  - done.
  - by intros (? & ? & [=] & ?).
Qed.

(** A computation whose result is known. *)
Lemma wp_eq {A} (m : M S A) (Q : A -> S -> Prop) s a s' : m s = (Ret a, s') -> Q a s' -> wp m Q s.
Proof. intros E H. unfold wp. by rewrite E. Qed.

Lemma bind_run {A B} (m : M S A) (f : A -> M S B) s a s' : m s = (Ret a, s') -> (m ≫= f) s = f a s'.
Proof. intros E. unfold mbind, M_bind. by rewrite E. Qed.

(** A loop keeps an invariant every iteration keeps, on the elements already seen and the
    elements to come. *)
Lemma wp_mfold {A B} (I : list A -> B -> S -> Prop) (body : B -> A -> M S B) l :
  forall acc done s (Q : B -> S -> Prop),
  I done acc s ->
  (forall d x b s0, x ∈ l -> I d b s0 -> wp (body b x) (fun b' s1 => I (d ++ [x]) b' s1) s0) ->
  (forall b s1, I (done ++ l) b s1 -> Q b s1) ->
  wp (mfold body l acc) Q s.
Proof.
  induction l as [|x l IH]; intros acc dn s Q HI Hstep HQ; cbn.
  - apply wp_ret, HQ. by rewrite app_nil_r.
  - apply wp_bind. eapply wp_mono; [apply Hstep; [left|done]|].
    intros b s1 Hb. eapply IH; [done| |].
    + intros d y b0 s0 Hy. apply Hstep. by right.
    + intros b0 s2. rewrite <-app_assoc. apply HQ.
Qed.

End wp_rules.

#[export] Hint Resolve wp_ret wp_gets wp_modify : agent_wp.

(** Step through the binds, reads and writes of a computation. *)
Ltac wp_step :=
  lazymatch goal with
  | |- wp (_ ≫= _) _ _ => apply wp_bind
  | |- wp (mret _) _ _ => apply wp_ret
  | |- wp (gets _) _ _ => apply wp_gets
  | |- wp (modify _) _ _ => apply wp_modify
  | |- wp (zoom _ _ _) _ _ => apply wp_zoom
  end.
Ltac wp_steps := repeat wp_step.

(** Case analysis on the test of the [if] or [match] at the head of the goal. *)
Ltac wp_case :=
  match goal with
  | |- wp (if ?b then _ else _) _ _ => let E := fresh "E" in destruct b eqn:E
  | |- wp (match ?x with _ => _ end) _ _ => let E := fresh "E" in destruct x eqn:E
  end.

(** Open the existentials and conjunctions of the context. *)
Ltac open_hyps :=
  repeat match goal with
  | H : exists _, _ |- _ => let x := fresh "x" in destruct H as [x H]
  | H : _ /\ _ |- _ => destruct H
  end.

(** ** Machine integers *)

(** Two's-complement wrap-around to 64 bits. *)
Definition wrap64 (z : Z) : Z := (z + 2^63) mod 2^64 - 2^63.

Definition int64 (z : Z) : Prop := - 2^63 <= z < 2^63.

Lemma wrap64_range z : int64 (wrap64 z).
Proof. unfold int64, wrap64. pose proof (Z.mod_pos_bound (z + 2^63) (2^64)). lia. Qed.

Lemma wrap64_id z : int64 z -> wrap64 z = z.
Proof. unfold int64, wrap64. intros. rewrite Z.mod_small; lia. Qed.

#[export] Hint Resolve wrap64_range : agent.


(** Unsigned 64-bit wrap-around. *)
Definition wrapu64 (z : Z) : Z := z mod 2^64.

(** Two's-complement arithmetic agrees with arithmetic modulo [2^64]. *)
Lemma wrap64_mod z : wrap64 z mod 2^64 = z mod 2^64.
Proof. unfold wrap64. rewrite Zminus_mod_idemp_l. f_equal. lia. Qed.
