(* ===== verification/GoStrings.v ===== *)
(** The functions of Go's [strings], [strconv], [unicode/utf8], [encoding/hex] and [bufio] the
    agent uses.  A Go string, like a byte slice, is a sequence of bytes: Rocq's [string]. *)

From S2P Require Import Prelude.
From Stdlib Require Import Ascii.

Definition LF : ascii := "010"%char.
Definition CR : ascii := "013"%char.
Definition TAB : ascii := "009"%char.
Definition DQ : ascii := "034"%char.
Definition nl : string := String LF "".

Definition slen (s : string) : nat := String.length s.

Fixpoint stake (n : nat) (s : string) : string :=
  match n, s with
  | S n', String c s' => String c (stake n' s')
  | _, _ => ""
  end.

Fixpoint sdrop (n : nat) (s : string) : string :=
  match n, s with
  | S n', String _ s' => sdrop n' s'
  | _, _ => s
  end.

Fixpoint sforall (p : ascii -> bool) (s : string) : bool :=
  match s with
  | "" => true
  | String c s' => p c && sforall p s'
  end.

(** ** Append and length *)

Lemma sapp_assoc (a b c : string) : (a +:+ b) +:+ c = a +:+ (b +:+ c).
Proof. induction a; cbn; [done|by f_equal]. Qed.
Lemma sapp_nil_r (a : string) : a +:+ "" = a.
Proof. induction a; cbn; [done|by f_equal]. Qed.
Lemma sapp_nil_l (a : string) : "" +:+ a = a.
Proof. done. Qed.
Lemma sapp_cons c (a b : string) : String c a +:+ b = String c (a +:+ b).
Proof. done. Qed.
Lemma slen_app a b : slen (a +:+ b) = (slen a + slen b)%nat.
Proof. induction a; cbn; [done|by f_equal]. Qed.
Lemma sapp_inv_head (a b c : string) : a +:+ b = a +:+ c -> b = c.
Proof. induction a as [|x a IH]; cbn; intros H; [done|injection H; auto]. Qed.
Lemma sapp_inv_tail (a b c : string) : a +:+ c = b +:+ c -> a = b.
Proof.
  revert b. induction a as [|x a IH]; intros [|y b] H; cbn in *; [done| | |].
  1,2: apply (f_equal slen) in H; cbn in H; rewrite ?slen_app in H; unfold slen in *; lia.
  injection H as -> H. f_equal. auto.
Qed.
Lemma sforall_app p a b : sforall p (a +:+ b) = sforall p a && sforall p b.
Proof. induction a; cbn; [done|]. by rewrite IHa, andb_assoc. Qed.
Lemma sforall_impl (p q : ascii -> bool) s :
  (forall c, p c = true -> q c = true) -> sforall p s = true -> sforall q s = true.
Proof.
  intros Hpq. induction s as [|c s IH]; cbn; [done|].
  rewrite !andb_true_iff. intros [??]. auto.
Qed.
Lemma stake_app a b : stake (slen a) (a +:+ b) = a.
Proof. induction a; cbn; [by destruct b|by f_equal]. Qed.
Lemma sdrop_app a b : sdrop (slen a) (a +:+ b) = b.
Proof. induction a; cbn; [by destruct b|done]. Qed.
Lemma stake_sdrop n s : stake n s +:+ sdrop n s = s.
Proof. revert s. induction n as [|n IH]; intros [|c s]; cbn; try done. by rewrite IH. Qed.
Lemma slen_stake n s : slen (stake n s) = (n `min` slen s)%nat.
Proof. revert s. induction n as [|n IH]; intros [|c s]; cbn; try done. by rewrite IH. Qed.
Lemma slen_sdrop n s : slen (sdrop n s) = (slen s - n)%nat.
Proof. revert s. induction n; intros [|c s]; cbn; done. Qed.

Create Rewrite HintDb sapp.
#[export] Hint Rewrite sapp_assoc sapp_nil_r sapp_cons sapp_nil_l : sapp.

(** ** [strings]: prefixes, suffixes, search *)

Fixpoint HasPrefix (s p : string) {struct p} : bool :=
  match p, s with
  | "", _ => true
  | String a p', String b s' => bool_decide (a = b) && HasPrefix s' p'
  | _, _ => false
  end.

Definition HasSuffix (s suf : string) : bool :=
  (slen suf <=? slen s)%nat && bool_decide (sdrop (slen s - slen suf) s = suf).

Definition TrimSuffix (s suf : string) : string :=
  if HasSuffix s suf then stake (slen s - slen suf) s else s.

Fixpoint Contains (s sub : string) : bool :=
  HasPrefix s sub ||
  match s with
  | "" => false
  | String _ s' => Contains s' sub
  end.

(** [strings.Split] on a one-byte separator. *)
Fixpoint split_on (sep : ascii) (s : string) : list string :=
  match s with
  | "" => [""]
  | String c s' =>
      if decide (c = sep) then "" :: split_on sep s'
      else match split_on sep s' with
           | h :: t => String c h :: t
           | [] => [String c ""]
           end
  end.

Fixpoint sjoin (sep : string) (l : list string) : string :=
  match l with
  | [] => ""
  | [x] => x
  | x :: l' => x +:+ sep +:+ sjoin sep l'
  end.

Lemma HasPrefix_app p s : HasPrefix (p +:+ s) p = true.
Proof. induction p; cbn; [by destruct s|]. by rewrite bool_decide_true. Qed.

Lemma HasPrefix_spec s p : HasPrefix s p = true <-> exists r, s = p +:+ r.
Proof.
  split; [|intros [r ->]; apply HasPrefix_app].
  revert s. induction p as [|a p IH]; intros [|b s]; cbn; try done; [by exists ""|eauto|].
  rewrite andb_true_iff, bool_decide_eq_true. intros [-> [r ->]%IH]. by exists r.
Qed.

Lemma Contains_app a sub b : Contains (a +:+ sub +:+ b) sub = true.
Proof.
  induction a as [|c a IH]; cbn -[HasPrefix].
  - destruct (sub +:+ b) eqn:E; cbn -[HasPrefix]; rewrite <-E, HasPrefix_app; done.
  - by rewrite IH, orb_true_r.
Qed.

Lemma HasSuffix_app a suf : HasSuffix (a +:+ suf) suf = true.
Proof.
  unfold HasSuffix. rewrite slen_app.
  replace (slen a + slen suf - slen suf)%nat with (slen a) by lia.
  rewrite sdrop_app, bool_decide_true by done. rewrite andb_true_r.
  apply Nat.leb_le. lia.
Qed.

Lemma TrimSuffix_app a suf : TrimSuffix (a +:+ suf) suf = a.
Proof.
  unfold TrimSuffix. rewrite HasSuffix_app, slen_app.
  replace (slen a + slen suf - slen suf)%nat with (slen a) by lia. apply stake_app.
Qed.

Lemma HasSuffix_spec s suf : HasSuffix s suf = true <-> exists a, s = a +:+ suf.
Proof.
  split; [|intros [a ->]; apply HasSuffix_app].
  unfold HasSuffix. rewrite andb_true_iff, bool_decide_eq_true. intros [_ H].
  exists (stake (slen s - slen suf) s).
  pose proof (stake_sdrop (slen s - slen suf) s) as E. by rewrite H in E.
Qed.

Lemma split_on_nonempty sep s : split_on sep s <> [].
Proof. destruct s; cbn; [done|]. case_decide; [done|]. by destruct (split_on sep s). Qed.

(** A text that holds no separator is one piece. *)
Lemma split_on_none sep s :
  sforall (fun c => negb (bool_decide (c = sep))) s = true -> split_on sep s = [s].
Proof.
  induction s as [|c s IH]; cbn; [done|].
  rewrite andb_true_iff, negb_true_iff, bool_decide_eq_false. intros [Hc Hs].
  rewrite decide_False by done. by rewrite IH.
Qed.

Lemma split_on_app sep a b :
  sforall (fun c => negb (bool_decide (c = sep))) a = true ->
  split_on sep (a +:+ String sep b) = a :: split_on sep b.
Proof.
  induction a as [|c a IH]; cbn; [by rewrite decide_True|].
  rewrite andb_true_iff, negb_true_iff, bool_decide_eq_false. intros [Hc Ha].
  rewrite decide_False by done. by rewrite IH.
Qed.

(** ** [strconv]: decimal integers *)

Definition code (c : ascii) : N := N_of_ascii c.
Definition is_digit (c : ascii) : bool := ((48 <=? code c) && (code c <=? 57))%N.
Definition digit_val (c : ascii) : N := (code c - 48)%N.
Definition digit_char (d : N) : ascii := ascii_of_N (48 + d).

(** The value of a digit string, most significant digit first. *)
Fixpoint dec_val_from (acc : N) (s : string) : N :=
  match s with
  | "" => acc
  | String c s' => dec_val_from (10 * acc + digit_val c) s'
  end.
Definition dec_val (s : string) : N := dec_val_from 0 s.

Fixpoint utoa_aux (fuel : nat) (n : N) (acc : string) : string :=
  match fuel with
  | O => acc
  | S fuel' =>
      let acc' := String (digit_char (n mod 10)) acc in
      if (n <? 10)%N then acc' else utoa_aux fuel' (n / 10) acc'
  end.

(** Decimal text of a natural number; [N.size_nat n + 1] steps are enough because a decimal
    digit takes at least one bit. *)
Definition utoa (n : N) : string := utoa_aux (S (N.size_nat n)) n "".

(** [strconv.Itoa], and the [%d] verb. *)
Definition Itoa (z : Z) : string :=
  if z <? 0 then "-" +:+ utoa (Z.to_N (- z)) else utoa (Z.to_N z).

(** [strconv.ParseInt(s, 10, 64)] and [strconv.Atoi(s)] on a 64-bit platform: the value Go
    returns (which callers that drop the error still use) and whether there was an error.  Out of
    range gives the nearest 64-bit bound. *)
Definition ParseInt (s : string) : Z * bool :=
  let '(neg, digits) :=
    match s with
    | String "-"%char s' => (true, s')
    | String "+"%char s' => (false, s')
    | _ => (false, s)
    end in
  if bool_decide (digits = "") || negb (sforall is_digit digits) then (0, false)
  else
    let n := Z.of_N (dec_val digits) in
    if neg then if n <=? 2^63 then (- n, true) else (- 2^63, false)
    else if n <? 2^63 then (n, true) else (2^63 - 1, false).

Lemma digit_char_spec d : (d < 10)%N ->
  is_digit (digit_char d) = true /\ digit_val (digit_char d) = d.
Proof.
  intros Hd. unfold is_digit, digit_val, digit_char, code.
  rewrite N_ascii_embedding by lia. split; [|lia].
  apply andb_true_iff. rewrite !N.leb_le. lia.
Qed.

Lemma dec_val_from_app acc a b :
  dec_val_from acc (a +:+ b) = dec_val_from (dec_val_from acc a) b.
Proof. revert acc. induction a; intros; cbn; auto. Qed.

(** The digits of [n] are put in front of the text accumulated so far. *)
Lemma dec_val_from_mono s a b : (a < b)%N -> (dec_val_from a s < dec_val_from b s)%N.
Proof. revert a b. induction s; intros; cbn; [done|]. apply IHs. lia. Qed.

Lemma utoa_aux_app fuel n acc : utoa_aux fuel n acc = utoa_aux fuel n "" +:+ acc.
Proof.
  revert n acc. induction fuel as [|f IH]; intros n acc; cbn; [done|].
  destruct (n <? 10)%N; [done|].
  rewrite IH, (IH _ (String _ "")), sapp_assoc. done.
Qed.

Lemma div10_lt n p : (n < 2 * p)%N -> (10 <= n)%N ->
  (n / 10 < p)%N /\ (n / 10)%N <> 0%N /\ (10 * (n / 10) + n mod 10)%N = n.
Proof.
  intros Hn Hge. pose proof (N.div_mod n 10 ltac:(done)) as H.
  pose proof (N.mod_lt n 10 ltac:(done)) as Hm.
  generalize dependent (n / 10)%N. generalize dependent (n mod 10)%N. intros. lia.
Qed.

Lemma utoa_aux_val fuel n : (n < 2 ^ N.of_nat fuel)%N -> n <> 0%N \/ fuel <> O ->
  dec_val (utoa_aux fuel n "") = n /\ sforall is_digit (utoa_aux fuel n "") = true.
Proof.
  revert n. induction fuel as [|f IH]; intros n Hn Hne.
  { change (2 ^ N.of_nat 0)%N with 1%N in Hn. lia. }
  cbn [utoa_aux]. destruct (digit_char_spec (n mod 10)) as [Hd Hv]; [by apply N.mod_lt|].
  destruct (N.ltb_spec n 10) as [Hlt|Hge].
  - unfold dec_val. cbn. rewrite Hd, Hv, N.mod_small by done. split; [lia|done].
  - rewrite utoa_aux_app.
    rewrite Nat2N.inj_succ, N.pow_succ_r' in Hn.
    destruct (div10_lt n _ Hn) as (Hlt & Hpos & Hdm); [done|].
    destruct (IH (n / 10)%N) as [IHv IHd]; [done|by left|].
    rewrite sforall_app, IHd. unfold dec_val in *. rewrite dec_val_from_app, IHv.
    cbn. by rewrite Hd, Hv.
Qed.

Lemma utoa_fuel n : (n < 2 ^ N.of_nat (S (N.size_nat n)))%N.
Proof.
  rewrite Nat2N.inj_succ, N.pow_succ_r'.
  enough (n < 2 ^ N.of_nat (N.size_nat n))%N by lia.
  destruct n as [|p]; [done|]. cbn [N.size_nat].
  induction p as [p IH|p IH|]; cbn [Pos.size_nat];
    rewrite ?Nat2N.inj_succ, ?N.pow_succ_r'; [lia|lia|done].
Qed.

(** [strconv] round trip on naturals: the printed digits denote the number. *)
Lemma dec_val_utoa n : dec_val (utoa n) = n.
Proof. apply utoa_aux_val; [apply utoa_fuel|by right]. Qed.

Lemma utoa_digits n : sforall is_digit (utoa n) = true.
Proof. apply utoa_aux_val; [apply utoa_fuel|by right]. Qed.

Lemma utoa_nonempty n : utoa n <> "".
Proof.
  unfold utoa. cbn [utoa_aux]. destruct (n <? 10)%N; [done|].
  rewrite utoa_aux_app. by destruct (utoa_aux _ _ "").
Qed.

Lemma utoa_inj n m : utoa n = utoa m -> n = m.
Proof. intros H. by rewrite <-(dec_val_utoa n), <-(dec_val_utoa m), H. Qed.

Lemma Itoa_inj z w : Itoa z = Itoa w -> z = w.
Proof.
  unfold Itoa. intros H.
  assert (Hd : forall a b, "-" +:+ utoa a <> utoa b).
  { intros a b E. pose proof (utoa_digits b) as D. rewrite <-E in D. by cbn in D. }
  destruct (Z.ltb_spec z 0), (Z.ltb_spec w 0).
  - injection H as H%utoa_inj. lia.
  - by apply Hd in H.
  - symmetry in H. by apply Hd in H.
  - apply utoa_inj in H. lia.
Qed.

Lemma Itoa_nonneg z : 0 <= z -> Itoa z = utoa (Z.to_N z).
Proof. intros. unfold Itoa. destruct (Z.ltb_spec z 0); [lia|done]. Qed.

(** A digit string does not start with a sign. *)
Lemma ParseInt_digits s : s <> "" -> sforall is_digit s = true ->
  ParseInt s = if Z.of_N (dec_val s) <? 2^63 then (Z.of_N (dec_val s), true) else (2^63 - 1, false).
Proof.
  intros Hne Hd. unfold ParseInt.
  destruct s as [|c s]; [done|].
  assert (code c <> 43 /\ code c <> 45)%N as [Hp Hm].
  { cbn in Hd. apply andb_true_iff in Hd as [Hc _]. unfold is_digit in Hc.
    apply andb_true_iff in Hc. rewrite !N.leb_le in Hc. lia. }
  assert (Hmatch : forall T (f g : string -> T) (h : T),
    match c with "-"%char => f s | "+"%char => g s | _ => h end = h).
  { intros. destruct c as [[] [] [] [] [] [] [] []]; try done; exfalso; cbn in *; lia. }
  transitivity (let '(neg, digits) := (false, String c s) in
    if bool_decide (digits = "") || negb (sforall is_digit digits) then (0, false)
    else let n := Z.of_N (dec_val digits) in
      if neg then if n <=? 2^63 then (- n, true) else (- 2^63, false)
      else if n <? 2^63 then (n, true) else (2^63 - 1, false)).
  { by rewrite (Hmatch _ (fun s => (true, s)) (fun s => (false, s))). }
  by rewrite bool_decide_false, Hd by done.
Qed.

Lemma ParseInt_utoa n : Z.of_N n < 2^63 -> ParseInt (utoa n) = (Z.of_N n, true).
Proof.
  intros Hn. rewrite ParseInt_digits by (apply utoa_nonempty || apply utoa_digits).
  rewrite dec_val_utoa. destruct (Z.ltb_spec (Z.of_N n) (2^63)); [done|lia].
Qed.

(** [strconv] round trip on 64-bit integers. *)
Lemma ParseInt_Itoa z : int64 z -> ParseInt (Itoa z) = (z, true).
Proof.
  unfold int64. intros Hz. unfold Itoa. destruct (Z.ltb_spec z 0).
  - unfold ParseInt. cbn [String.append].
    rewrite bool_decide_false by apply utoa_nonempty. rewrite utoa_digits, dec_val_utoa.
    cbn -[Z.pow Z.leb Z.of_N Z.to_N]. rewrite Z2N.id by lia.
    destruct (Z.leb_spec (- z) (2^63)); [f_equal; lia|lia].
  - rewrite ParseInt_utoa; rewrite Z2N.id by lia; [done|lia].
Qed.

(** ** [unicode/utf8] *)

Definition byte_in (lo hi : N) (c : ascii) : bool := ((lo <=? code c) && (code c <=? hi))%N.
Definition cont (c : ascii) : bool := byte_in 128 191 c.

(** The well-formed two-, three- and four-byte sequences. *)
Definition seq2 (a b : ascii) : bool := byte_in 194 223 a && cont b.
Definition seq3 (a b c : ascii) : bool :=
  ((byte_in 224 224 a && byte_in 160 191 b)
   || (byte_in 225 236 a && cont b)
   || (byte_in 237 237 a && byte_in 128 159 b)
   || (byte_in 238 239 a && cont b)) && cont c.
Definition seq4 (a b c d : ascii) : bool :=
  ((byte_in 240 240 a && byte_in 144 191 b)
   || (byte_in 241 243 a && cont b)
   || (byte_in 244 244 a && byte_in 128 143 b)) && cont c && cont d.

(** The string cut the way [range] over a Go string cuts it: well-formed encodings, and single
    bytes ([false]) where there is none. *)
Fixpoint runes (s : string) : list (bool * string) :=
  match s with
  | "" => []
  | String a s1 =>
      if (code a <? 128)%N then (true, String a "") :: runes s1
      else match s1 with
      | "" => (false, String a "") :: runes s1
      | String b s2 =>
          if seq2 a b then (true, String a (String b "")) :: runes s2
          else match s2 with
          | "" => (false, String a "") :: runes s1
          | String c s3 =>
              if seq3 a b c then (true, String a (String b (String c ""))) :: runes s3
              else match s3 with
              | "" => (false, String a "") :: runes s1
              | String d s4 =>
                  if seq4 a b c d
                  then (true, String a (String b (String c (String d "")))) :: runes s4
                  else (false, String a "") :: runes s1
              end
          end
      end
  end.

(** [utf8.ValidString]. *)
Definition valid_utf8 (s : string) : bool := forallb fst (runes s).

Fixpoint sconcat (l : list string) : string :=
  match l with
  | [] => ""
  | x :: l' => x +:+ sconcat l'
  end.

(** Induction on strings by length. *)
Lemma string_len_ind (P : string -> Prop) :
  (forall s, (forall t, (slen t < slen s)%nat -> P t) -> P s) -> forall s, P s.
Proof.
  intros H s. remember (slen s) as n eqn:E. revert s E.
  induction (lt_wf n) as [n _ IH]. intros s ->. apply H. intros t Ht. by eapply IH.
Qed.

Lemma runes_concat s : sconcat (runes s).*2 = s.
Proof.
  induction s as [s IH] using string_len_ind.
  destruct s as [|a s1]; [done|]. cbn [runes]. unfold slen in IH. cbn in IH.
  repeat case_match; cbn -[runes]; subst; rewrite ?IH; try done; cbn; lia.
Qed.

Lemma valid_utf8_ascii s : sforall (fun c => code c <? 128)%N s = true -> valid_utf8 s = true.
Proof.
  unfold valid_utf8. induction s as [|c s IH]; cbn; [done|].
  rewrite andb_true_iff. intros [Hc Hs]. rewrite Hc. cbn. auto.
Qed.

(** ** White space: [strings.TrimSpace], [strings.Fields] *)

(** [unicode.IsSpace] on an encoded rune: tab, newline, vertical tab, form feed, carriage return,
    space, U+0085, U+00A0, U+1680, U+2000 to U+200A, U+2028, U+2029, U+202F, U+205F, U+3000. *)
Definition is_space_byte (c : ascii) : bool :=
  (byte_in 9 13 c || (code c =? 32)%N).
Definition is_space_rune (r : string) : bool :=
  match r with
  | String a "" => is_space_byte a
  | String a (String b "") => (code a =? 194)%N && ((code b =? 133) || (code b =? 160))%N
  | String a (String b (String c "")) =>
      ((code a =? 225) && (code b =? 154) && (code c =? 128))%N
      || ((code a =? 226) && (code b =? 128))%N
         && (byte_in 128 138 c || byte_in 168 169 c || (code c =? 175)%N)
      || ((code a =? 226) && (code b =? 129) && (code c =? 159))%N
      || ((code a =? 227) && (code b =? 128) && (code c =? 128))%N
  | _ => false
  end.

Fixpoint drop_spaces (l : list string) : list string :=
  match l with
  | [] => []
  | r :: l' => if is_space_rune r then drop_spaces l' else l
  end.

Definition TrimSpace (s : string) : string :=
  sconcat (reverse (drop_spaces (reverse (drop_spaces (runes s).*2)))).

(** [cur] is the field being read, empty between two fields. *)
Fixpoint fields_from (cur : string) (l : list string) : list string :=
  match l with
  | [] => if decide (cur = "") then [] else [cur]
  | r :: l' =>
      if is_space_rune r
      then if decide (cur = "") then fields_from "" l' else cur :: fields_from "" l'
      else fields_from (cur +:+ r) l'
  end.
Definition Fields (s : string) : list string := fields_from "" (runes s).*2.

(** [strings.ToLower] on ASCII text; other bytes are kept. *)
Definition lower (c : ascii) : ascii :=
  if byte_in 65 90 c then ascii_of_N (code c + 32) else c.
Fixpoint smap (f : ascii -> ascii) (s : string) : string :=
  match s with
  | "" => ""
  | String c s' => String (f c) (smap f s')
  end.
Definition ToLower (s : string) : string := smap lower s.

(** ** [bufio.Scanner] on lines

    A line ends at a newline, or at the end of a non-empty rest; one trailing carriage return is
    dropped.  The scanner stops for good at a line that does not fit its 64 KiB buffer. *)
Definition drop_cr (s : string) : string := TrimSuffix s (String CR "").

Definition raw_lines (s : string) : list string :=
  let l := split_on LF s in
  match last l with
  | Some "" => removelast l
  | _ => l
  end.

Definition line_fits (s : string) : bool := Z.of_nat (slen s) <? 65536.

Fixpoint take_fitting (l : list string) : list string :=
  match l with
  | [] => []
  | x :: l' => if line_fits x then x :: take_fitting l' else []
  end.

Definition scan_lines (s : string) : list string := drop_cr <$> take_fitting (raw_lines s).

(** ** [encoding/hex] *)

Definition hex_char (d : N) : ascii :=
  if (d <? 10)%N then ascii_of_N (48 + d) else ascii_of_N (87 + d).

Definition hex_val (c : ascii) : option N :=
  if is_digit c then Some (code c - 48)%N
  else if byte_in 97 102 c then Some (code c - 87)%N
  else if byte_in 65 70 c then Some (code c - 55)%N
  else None.

Fixpoint EncodeToString (s : string) : string :=
  match s with
  | "" => ""
  | String c s' => String (hex_char (code c / 16)) (String (hex_char (code c mod 16)) (EncodeToString s'))
  end.

(** [hex.DecodeString]: [None] on an odd length or a byte that is no hex digit. *)
Fixpoint DecodeString (s : string) : option string :=
  match s with
  | "" => Some ""
  | String a (String b s') =>
      match hex_val a, hex_val b, DecodeString s' with
      | Some x, Some y, Some r => Some (String (ascii_of_N (16 * x + y)) r)
      | _, _, _ => None
      end
  | String _ "" => None
  end.

Lemma hex_val_char d : (d < 16)%N -> hex_val (hex_char d) = Some d.
Proof. intros Hd. destruct d as [|p]; [done|]. do 4 (destruct p as [p|p|]; try done); lia. Qed.

(** Hexadecimal round trip. *)
Lemma DecodeString_Encode s : DecodeString (EncodeToString s) = Some s.
Proof.
  induction s as [|c s IH]; [done|]. cbn [EncodeToString DecodeString].
  pose proof (N_ascii_bounded c) as Hc. fold (code c) in Hc.
  rewrite !hex_val_char, IH by (apply N.mod_lt; lia) || (apply N.Div0.div_lt_upper_bound; lia).
  f_equal. f_equal. rewrite <-N.div_mod by lia. apply ascii_N_embedding.
Qed.

(** ** Lines and separated fields *)

(** [c] does not occur in [s]. *)
Definition free_of (c : ascii) (s : string) : bool := sforall (fun x => negb (bool_decide (x = c))) s.

(** Lines, each ended by a newline. *)
Definition unlines (l : list string) : string := sconcat ((fun x => x +:+ nl) <$> l).

Lemma free_of_app c a b : free_of c (a +:+ b) = free_of c a && free_of c b.
Proof. apply sforall_app. Qed.

Lemma free_of_digits c s : is_digit c = false -> sforall is_digit s = true -> free_of c s = true.
Proof. intros Hc. apply sforall_impl. intros x Hx. apply negb_true_iff, bool_decide_eq_false. intros ->. congruence. Qed.

Lemma free_of_Itoa c z : is_digit c = false -> c <> "-"%char -> free_of c (Itoa z) = true.
Proof.
  intros Hd Hm. unfold Itoa. case_match.
  - cbn. rewrite bool_decide_false by done. apply free_of_digits; [done|apply utoa_digits].
  - apply free_of_digits; [done|apply utoa_digits].
Qed.

Lemma unlines_cons x l : unlines (x :: l) = x +:+ String LF (unlines l).
Proof. unfold unlines. cbn. by rewrite sapp_assoc. Qed.

Lemma split_unlines l : Forall (fun x => free_of LF x = true) l -> split_on LF (unlines l) = l ++ [""].
Proof.
  induction 1 as [|x l Hx _ IH]; [done|]. rewrite unlines_cons, split_on_app by done. by rewrite IH.
Qed.

(** A line a scanner gives back as it is. *)
Definition plain_line (x : string) : bool :=
  free_of LF x && negb (HasSuffix x (String CR "")) && line_fits x.

Lemma scan_unlines l : Forall (fun x => plain_line x = true) l -> scan_lines (unlines l) = l.
Proof.
  intros H. unfold scan_lines, raw_lines. rewrite split_unlines.
  2:{ eapply Forall_impl; [done|]. intros x. unfold plain_line. rewrite !andb_true_iff. tauto. }
  rewrite last_snoc. rewrite removelast_last.
  induction H as [|x l Hx _ IH]; [done|]. unfold plain_line in Hx.
  rewrite !andb_true_iff, negb_true_iff in Hx. destruct Hx as [[_ Hcr] Hfit].
  cbn [take_fitting]. rewrite Hfit. cbn [fmap list_fmap]. f_equal; [|done].
  unfold drop_cr, TrimSuffix. by rewrite Hcr.
Qed.

Lemma split_sjoin c l : l <> [] -> Forall (fun x => free_of c x = true) l ->
  split_on c (sjoin (String c "") l) = l.
Proof.
  intros Hne H. induction H as [|x l Hx H IH]; [done|].
  destruct l as [|y l]; [by apply split_on_none|].
  change (sjoin (String c "") (x :: y :: l)) with (x +:+ String c (sjoin (String c "") (y :: l))).
  rewrite split_on_app by done. by rewrite IH.
Qed.

Lemma free_of_sjoin c sep l : free_of c sep = true -> Forall (fun x => free_of c x = true) l ->
  free_of c (sjoin sep l) = true.
Proof.
  intros Hs H. induction H as [|x l Hx H IH]; [done|]. destruct l as [|y l]; [done|].
  change (sjoin sep (x :: y :: l)) with (x +:+ sep +:+ sjoin sep (y :: l)).
  by rewrite !free_of_app, Hx, Hs, IH.
Qed.
