(* ===== verification/GoPath.v ===== *)
(** [path/filepath] on a Unix system: the lexical operations the agent applies to paths. *)

From S2P Require Import Prelude GoStrings.
From Stdlib Require Import Ascii.

Definition SEP : ascii := "/"%char.

Definition rooted (p : string) : bool := HasPrefix p "/".

(** One element of a path, added to the elements already kept (last one first). *)
Definition clean_step (isroot : bool) (acc : list string) (e : string) : list string :=
  if bool_decide (e = "") || bool_decide (e = ".") then acc
  else if bool_decide (e = "..") then
    match acc with
    | [] => if isroot then [] else [".."]
    | x :: acc' => if bool_decide (x = "..") then ".." :: acc else acc'
    end
  else e :: acc.

(** The elements of the cleaned path, last one first. *)
Definition clean_rev (p : string) : list string :=
  fold_left (clean_step (rooted p)) (split_on SEP p) [].

Definition elems (p : string) : list string := reverse (clean_rev p).

Definition of_elems (isroot : bool) (l : list string) : string :=
  if isroot then "/" +:+ sjoin "/" l
  else match l with [] => "." | _ => sjoin "/" l end.

(** [filepath.Clean]. *)
Definition Clean (p : string) : string := of_elems (rooted p) (elems p).

(** [filepath.Join]: leading empty elements are skipped. *)
Fixpoint Join (l : list string) : string :=
  match l with
  | [] => ""
  | e :: l' => if decide (e = "") then Join l' else Clean (sjoin "/" l)
  end.

(** The path up to and including its last separator, and what follows it. *)
Fixpoint split_last (p : string) : string * string :=
  match p with
  | "" => ("", "")
  | String c p' =>
      let '(d, b) := split_last p' in
      if decide (d = "") then
        if decide (c = SEP) then (String c "", b) else ("", String c b)
      else (String c d, b)
  end.

(** [filepath.Dir]. *)
Definition Dir (p : string) : string := Clean (split_last p).1.

Fixpoint strip_seps_rev (l : list ascii) : list ascii :=
  match l with
  | c :: l' => if decide (c = SEP) then strip_seps_rev l' else l
  | [] => []
  end.
Definition strip_trailing_seps (p : string) : string :=
  String.string_of_list_ascii (reverse (strip_seps_rev (reverse (String.list_ascii_of_string p)))).

(** [filepath.Base]. *)
Definition Base (p : string) : string :=
  if decide (p = "") then "."
  else
    let b := (split_last (strip_trailing_seps p)).2 in
    if decide (b = "") then "/" else b.

Fixpoint strip_common (a b : list string) : list string * list string :=
  match a, b with
  | x :: a', y :: b' => if decide (x = y) then strip_common a' b' else (a, b)
  | _, _ => (a, b)
  end.

(** [filepath.Rel]: [None] when the target cannot be reached lexically. *)
Definition Rel (base targ : string) : option string :=
  let base := Clean base in
  let targ := Clean targ in
  if decide (targ = base) then Some "."
  else if negb (Bool.eqb (rooted base) (rooted targ)) then None
  else
    let '(b, t) := strip_common (elems base) (elems targ) in
    if decide (head b = Some "..") then None
    else Some (sjoin "/" (((fun _ => "..") <$> b) ++ t)).

Example Clean_dots : Clean "/a/./b//../c/" = "/a/c".
Proof. reflexivity. Qed.
Example Join_conf : Join ["/etc/wireguard/"; "dn42" +:+ ".conf"] = "/etc/wireguard/dn42.conf".
Proof. reflexivity. Qed.
Example Join_escape : Join ["/etc/wireguard/"; "../passwd"] = "/etc/passwd".
Proof. reflexivity. Qed.
Example Dir_rel : Dir "peers.db" = ".".
Proof. reflexivity. Qed.
Example Base_trailing : Base "/a/b//" = "b".
Proof. reflexivity. Qed.
Example Rel_up : Rel "/var/lib" "/var/cache/x" = Some "../cache/x".
Proof. reflexivity. Qed.

(** An ordinary file name: one path element that [Clean] keeps. *)
Definition plain_name (e : string) : bool :=
  negb (bool_decide (e = "")) && negb (bool_decide (e = ".")) && negb (bool_decide (e = ".."))
  && sforall (fun c => negb (bool_decide (c = SEP))) e.

Lemma split_on_app_tail sep (a b : string) :
  sforall (fun c => negb (bool_decide (c = sep))) b = true ->
  split_on sep (a +:+ String sep b) = split_on sep a ++ [b].
Proof.
  intros Hb. induction a as [|c a IH]; cbn.
  - rewrite decide_True by done. by rewrite split_on_none.
  - case_decide; [by rewrite IH|].
    rewrite IH. pose proof (split_on_nonempty sep a). by destruct (split_on sep a).
Qed.

Lemma clean_step_plain isroot acc e : plain_name e = true -> clean_step isroot acc e = e :: acc.
Proof.
  unfold plain_name, clean_step. rewrite !andb_true_iff, !negb_true_iff.
  intros [[[-> ->] ->] _]. done.
Qed.

(** A plain name under a directory is the directory's elements and the name. *)
Lemma Join_plain (d e : string) : d <> "" -> plain_name e = true ->
  Join [d; e] = of_elems (rooted d) (elems d ++ [e]).
Proof.
  intros Hd He. transitivity (Clean (d +:+ String SEP e)).
  { cbn. by rewrite decide_False. }
  unfold Clean, elems, clean_rev.
  assert (rooted (d +:+ String SEP e) = rooted d) as -> by (destruct d; [done|reflexivity]).
  rewrite split_on_app_tail by (apply andb_true_iff in He; tauto).
  rewrite fold_left_app. cbn [fold_left]. by rewrite clean_step_plain, reverse_cons.
Qed.

Lemma sjoin_snoc l x : l <> [] -> sjoin "/" (l ++ [x]) = sjoin "/" l +:+ "/" +:+ x.
Proof.
  induction l as [|a l IH]; [done|]. intros _. destruct l as [|b l]; [done|].
  change (sjoin "/" ((a :: b :: l) ++ [x])) with (a +:+ "/" +:+ sjoin "/" ((b :: l) ++ [x])).
  change (sjoin "/" (a :: b :: l)) with (a +:+ "/" +:+ sjoin "/" (b :: l)).
  rewrite IH by done. by autorewrite with sapp.
Qed.

(** Two plain names under one directory give one path only if they are equal. *)
Lemma Join_plain_inj d e1 e2 : d <> "" -> plain_name e1 = true -> plain_name e2 = true ->
  Join [d; e1] = Join [d; e2] -> e1 = e2.
Proof.
  intros Hd H1 H2. rewrite !Join_plain by done. unfold of_elems.
  destruct (elems d) as [|a l] eqn:E.
  - destruct (rooted d); cbn; [|done]. by intros [= ->].
  - rewrite !sjoin_snoc by done. destruct (rooted d).
    + intros H%sapp_inv_head%sapp_inv_head%sapp_inv_head. done.
    + by intros H%sapp_inv_head%sapp_inv_head.
Qed.
