(* ===== verification/Json.v ===== *)
(** [encoding/json]: JSON values, the encoder's text, the decoder's parser, and decoding into Go
    structs.  Every message and every stored peer of the agent goes through it. *)

From S2P Require Import Prelude GoStrings.
From Stdlib Require Import Ascii.

(** A JSON value.  Numbers keep their literal text, as Go's decoder does until it knows the
    target type; object members keep their order and their duplicates. *)
#[warnings="-register-all"]
Inductive jval :=
| JNull
| JBool (b : bool)
| JNum (lit : string)
| JStr (s : string)
| JArr (l : list jval)
| JObj (l : list (string * jval)).

(** Induction that reaches the elements of arrays and objects. *)
Section jval_ind.
Context (P : jval -> Prop).
Context (Hnull : P JNull) (Hbool : forall b, P (JBool b)) (Hnum : forall n, P (JNum n))
  (Hstr : forall s, P (JStr s)) (Harr : forall l, Forall P l -> P (JArr l))
  (Hobj : forall l, Forall (fun kv => P kv.2) l -> P (JObj l)).

Fixpoint jval_deep_ind (j : jval) : P j :=
  match j with
  | JNull => Hnull
  | JBool b => Hbool b
  | JNum n => Hnum n
  | JStr s => Hstr s
  | JArr l => Harr l ((fix go l : Forall P l :=
      match l with
      | [] => Forall_nil_2 P
      | x :: l' => Forall_cons_2 P x l' (jval_deep_ind x) (go l')
      end) l)
  | JObj l => Hobj l ((fix go l : Forall (fun kv => P kv.2) l :=
      match l with
      | [] => Forall_nil_2 _
      | x :: l' => Forall_cons_2 _ x l' (jval_deep_ind x.2) (go l')
      end) l)
  end.
End jval_ind.

(** ** The encoder *)

Definition BS : ascii := "\"%char.
Definition hex2 (c : ascii) : string :=
  String (hex_char (code c / 16)) (String (hex_char (code c mod 16)) "").
Definition u_escape (hex : string) : string := String BS (String "u" hex).

(** U+FFFD, which stands for bytes that are not UTF-8. *)
Definition replacement : string :=
  String "239" (String "191" (String "189" "")).

Definition esc_byte (c : ascii) : string :=
  if bool_decide (c = DQ) || bool_decide (c = BS) then String BS (String c "")
  else if (code c =? 8)%N then String BS "b"
  else if (code c =? 12)%N then String BS "f"
  else if (code c =? 10)%N then String BS "n"
  else if (code c =? 13)%N then String BS "r"
  else if (code c =? 9)%N then String BS "t"
  else if (code c <? 32)%N || bool_decide (c ∈ ["<"%char; ">"%char; "&"%char])
  then u_escape ("00" +:+ hex2 c)
  else String c "".

Definition LS : string := String "226" (String "128" (String "168" "")).
Definition PS : string := String "226" (String "128" (String "169" "")).

Definition esc_rune (r : bool * string) : string :=
  match r with
  | (false, _) => u_escape "fffd"
  | (true, String c "") => esc_byte c
  | (true, s) => if decide (s = LS) then u_escape "2028"
                 else if decide (s = PS) then u_escape "2029" else s
  end.

Definition escape (s : string) : string := sconcat (esc_rune <$> runes s).
Definition quote (s : string) : string := String DQ (escape s +:+ String DQ "").

Fixpoint json_print (j : jval) : string :=
  match j with
  | JNull => "null"
  | JBool true => "true"
  | JBool false => "false"
  | JNum lit => lit
  | JStr s => quote s
  | JArr l => "[" +:+ sjoin "," (json_print <$> l) +:+ "]"
  | JObj l => "{" +:+ sjoin "," ((fun kv => quote kv.1 +:+ ":" +:+ json_print kv.2) <$> l) +:+ "}"
  end.

(** ** The parser *)

Definition is_ws (c : ascii) : bool :=
  bool_decide (c ∈ [" "%char; TAB; LF; CR]).

Fixpoint skip_ws (s : string) : string :=
  match s with
  | String c s' => if is_ws c then skip_ws s' else s
  | "" => ""
  end.

(** The text of a string literal up to its closing quote, escapes kept. *)
Fixpoint scan_str (s : string) : option (string * string) :=
  match s with
  | "" => None
  | String c s1 =>
      if decide (c = DQ) then Some ("", s1)
      else if decide (c = BS) then
        match s1 with
        | "" => None
        | String e s2 =>
            '(b, r) ← scan_str s2; Some (String c (String e b), r)
        end
      else if (code c <? 32)%N then None
      else '(b, r) ← scan_str s1; Some (String c b, r)
  end.

Definition coerce_utf8 (s : string) : string :=
  sconcat ((fun r : bool * string => if r.1 then r.2 else replacement) <$> runes s).

Definition simple_escape (e : ascii) : option ascii :=
  if bool_decide (e ∈ [DQ; BS; "/"%char]) then Some e
  else if decide (e = "b"%char) then Some "008"%char
  else if decide (e = "f"%char) then Some "012"%char
  else if decide (e = "n"%char) then Some LF
  else if decide (e = "r"%char) then Some CR
  else if decide (e = "t"%char) then Some TAB
  else None.

Definition hex4 (a b c d : ascii) : option N :=
  w ← hex_val a; x ← hex_val b; y ← hex_val c; z ← hex_val d;
  Some (4096 * w + 256 * x + 16 * y + z)%N.

(** [utf8.AppendRune]; a surrogate is no rune and becomes U+FFFD. *)
Definition utf8_encode (r : N) : string :=
  if (r <? 128)%N then String (ascii_of_N r) ""
  else if (r <? 2048)%N then
    String (ascii_of_N (192 + r / 64)) (String (ascii_of_N (128 + r mod 64)) "")
  else if ((55296 <=? r) && (r <? 57344))%N then replacement
  else if (r <? 65536)%N then
    String (ascii_of_N (224 + r / 4096)) (String (ascii_of_N (128 + (r / 64) mod 64))
      (String (ascii_of_N (128 + r mod 64)) ""))
  else
    String (ascii_of_N (240 + r / 262144)) (String (ascii_of_N (128 + (r / 4096) mod 64))
      (String (ascii_of_N (128 + (r / 64) mod 64)) (String (ascii_of_N (128 + r mod 64)) ""))).

Definition high_surrogate (r : N) : bool := ((55296 <=? r) && (r <? 56320))%N.
Definition low_surrogate (r : N) : bool := ((56320 <=? r) && (r <? 57344))%N.

(** The [\uXXXX] escape at the head of the text, if there is one. *)
Definition u_escape_at (s : string) : option N :=
  match s with
  | String x (String "u" (String a (String b (String c (String d _))))) =>
      if decide (x = BS) then hex4 a b c d else None
  | _ => None
  end.

Fixpoint unescape (s : string) : option string :=
  match s with
  | "" => Some ""
  | String c s1 =>
      if decide (c = BS) then
        match s1 with
        | String "u" (String h1 (String h2 (String h3 (String h4 s2)))) =>
            r ← hex4 h1 h2 h3 h4;
            match (if high_surrogate r then u_escape_at s2 else None), s2 with
            | Some r2, String _ (String _ (String _ (String _ (String _ (String _ s3))))) =>
                if low_surrogate r2 then
                  t ← unescape s3;
                  Some (utf8_encode (65536 + (r - 55296) * 1024 + (r2 - 56320)) +:+ t)
                else t ← unescape s2; Some (replacement +:+ t)
            | _, _ => t ← unescape s2; Some (utf8_encode r +:+ t)
            end
        | String e s2 => x ← simple_escape e; t ← unescape s2; Some (String x t)
        | "" => None
        end
      else t ← unescape s1; Some (String c t)
  end.

Definition parse_str (s : string) : option (string * string) :=
  '(body, rest) ← scan_str s;
  t ← unescape (coerce_utf8 body);
  Some (t, rest).

(** A number literal: sign, integer part without leading zeros, fraction, exponent. *)
Fixpoint span_digits (s : string) : string * string :=
  match s with
  | String c s' => if is_digit c then let '(d, r) := span_digits s' in (String c d, r) else ("", s)
  | "" => ("", "")
  end.

Definition scan_int (s : string) : option (string * string) :=
  match s with
  | String c s' =>
      if decide (c = "0"%char) then Some ("0", s')
      else if is_digit c then Some (span_digits s) else None
  | "" => None
  end.

Definition scan_frac (s : string) : option (string * string) :=
  match s with
  | String "." s' =>
      let '(d, r) := span_digits s' in
      if decide (d = "") then None else Some ("." +:+ d, r)
  | _ => Some ("", s)
  end.

Definition scan_exp (s : string) : option (string * string) :=
  match s with
  | String c s' =>
      if bool_decide (c ∈ ["e"%char; "E"%char]) then
        let '(sg, s2) := match s' with
                         | String "+" t => ("+", t)
                         | String "-" t => ("-", t)
                         | _ => ("", s')
                         end in
        let '(d, r) := span_digits s2 in
        if decide (d = "") then None else Some (String c (sg +:+ d), r)
      else Some ("", s)
  | "" => Some ("", s)
  end.

Definition scan_unsigned (s : string) : option (string * string) :=
  '(i, s2) ← scan_int s;
  '(f, s3) ← scan_frac s2;
  '(e, s4) ← scan_exp s3;
  Some (i +:+ f +:+ e, s4).

Definition scan_number (s : string) : option (string * string) :=
  let '(sg, s1) := match s with String "-" t => ("-", t) | _ => ("", s) end in
  '(u, r) ← scan_unsigned s1;
  Some (sg +:+ u, r).

(** [json] refuses values nested deeper than this. *)
Definition max_depth : N := 10000.

(** The text after the byte [c], when the text starts with it. *)
Definition byte_at (c : ascii) (s : string) : option string :=
  match s with
  | String x r => if decide (x = c) then Some r else None
  | "" => None
  end.

(** A value at the head of [s], and the text after it.  [fuel] bounds the recursion; every
    level consumes at least one byte of the text. *)
Fixpoint parse_value (fuel : nat) (depth : N) (s : string) : option (jval * string) :=
  match fuel with
  | O => None
  | S f =>
      match s with
      | "" => None
      | String c s1 =>
          if decide (c = DQ) then '(t, r) ← parse_str s1; Some (JStr t, r)
          else if decide (c = "["%char) then
            if (max_depth <=? depth)%N then None
            else match byte_at "]" (skip_ws s1) with
                 | Some r => Some (JArr [], r)
                 | None => '(l, r) ← parse_elems f (depth + 1) (skip_ws s1); Some (JArr l, r)
                 end
          else if decide (c = "{"%char) then
            if (max_depth <=? depth)%N then None
            else match byte_at "}" (skip_ws s1) with
                 | Some r => Some (JObj [], r)
                 | None => '(l, r) ← parse_members f (depth + 1) (skip_ws s1); Some (JObj l, r)
                 end
          else if HasPrefix s "null" then Some (JNull, sdrop 4 s)
          else if HasPrefix s "true" then Some (JBool true, sdrop 4 s)
          else if HasPrefix s "false" then Some (JBool false, sdrop 5 s)
          else '(n, r) ← scan_number s; Some (JNum n, r)
      end
  end
with parse_elems (fuel : nat) (depth : N) (s : string) : option (list jval * string) :=
  match fuel with
  | O => None
  | S f =>
      '(v, r) ← parse_value f depth s;
      match skip_ws r with
      | String "," r' => '(l, r'') ← parse_elems f depth (skip_ws r'); Some (v :: l, r'')
      | String "]" r' => Some ([v], r')
      | _ => None
      end
  end
with parse_members (fuel : nat) (depth : N) (s : string) : option (list (string * jval) * string) :=
  match fuel with
  | O => None
  | S f =>
      match s with
      | String c s1 =>
          if decide (c = DQ) then
            '(k, r) ← parse_str s1;
            match skip_ws r with
            | String ":" r' =>
                '(v, r2) ← parse_value f depth (skip_ws r');
                match skip_ws r2 with
                | String "," r3 => '(l, r4) ← parse_members f depth (skip_ws r3); Some ((k, v) :: l, r4)
                | String "}" r3 => Some ([(k, v)], r3)
                | _ => None
                end
            | _ => None
            end
          else None
      | "" => None
      end
  end.

(** [json.Unmarshal]'s view of its input: the value, or a syntax error. *)
Definition json_parse (s : string) : option jval :=
  match parse_value (2 * slen s + 2) 0 (skip_ws s) with
  | Some (j, r) => if decide (skip_ws r = "") then Some j else None
  | None => None
  end.

Definition sample : jval :=
  JObj [("a", JArr [JNum "-12.5e3"; JStr ("x" +:+ String DQ (String LF "<y")); JNull]); ("b", JObj []); ("c", JBool true)].
Example sample_roundtrip : json_parse (json_print sample) = Some sample.
Proof. vm_compute. reflexivity. Qed.
