(* ===== verification/JsonFacts.v ===== *)
(** The JSON decoder reads back what the encoder writes. *)

From S2P Require Import Prelude GoStrings Json.
From Stdlib Require Import Ascii.

(** ** Texts made of well-formed runes *)

Definition ok_rune (r : string) : Prop := runes r = [(true, r)].

Inductive utf8 : string -> Prop :=
| utf8_nil : utf8 ""
| utf8_cons r s : ok_rune r -> utf8 s -> utf8 (r +:+ s).

Lemma runes_ok_app r t : ok_rune r -> runes (r +:+ t) = (true, r) :: runes t.
Proof.
  unfold ok_rune. destruct r as [|a [|b [|c [|d r]]]]; cbn -[runes]; intros H; try done.
  - revert H. cbn. by destruct (code a <? 128)%N.
  - revert H. cbn. destruct (code a <? 128)%N; [done|]. by destruct (seq2 a b).
  - revert H. cbn. destruct (code a <? 128)%N; [done|].
    destruct (seq2 a b); [done|]. by destruct (seq3 a b c).
  - revert H. cbn. destruct (code a <? 128)%N; [done|].
    destruct (seq2 a b); [done|]. destruct (seq3 a b c); [done|].
    destruct (seq4 a b c d); [|done]. intros [= Hr]. by destruct r.
Qed.

Lemma runes_cons_inv s r l : runes s = (true, r) :: l ->
  ok_rune r /\ exists s', s = r +:+ s' /\ runes s' = l.
Proof.
  unfold ok_rune. destruct s as [|a s1]; [done|]. cbn [runes].
  repeat case_match; intros [= <- <-]; subst; cbn;
    repeat match goal with H : _ = true |- _ => rewrite H | H : _ = false |- _ => rewrite H end;
    eauto.
Qed.

Lemma valid_utf8_utf8 s : valid_utf8 s = true -> utf8 s.
Proof.
  unfold valid_utf8. induction s as [s IH] using string_len_ind.
  destruct (runes s) as [|[[] r] l] eqn:E; cbn; [| |done]; intros Hv.
  - pose proof (runes_concat s) as Hc. rewrite E in Hc. cbn in Hc. subst. constructor.
  - apply runes_cons_inv in E as (Hr & s' & -> & <-). constructor; [done|]. apply IH; [|done].
    rewrite slen_app. destruct r; [done|]. cbn. lia.
Qed.

Lemma utf8_ascii s : sforall (fun c => code c <? 128)%N s = true -> utf8 s.
Proof.
  induction s as [|c s IH]; cbn; [constructor|].
  rewrite andb_true_iff. intros [Hc Hs].
  apply (utf8_cons (String c "")); [|auto]. unfold ok_rune. cbn. by rewrite Hc.
Qed.

Lemma utf8_app a b : utf8 a -> utf8 b -> utf8 (a +:+ b).
Proof. induction 1; [done|]. intros. rewrite sapp_assoc. constructor; auto. Qed.

Lemma utf8_one r : ok_rune r -> utf8 r.
Proof. intros. rewrite <-(sapp_nil_r r). constructor; [done|constructor]. Qed.

Lemma coerce_utf8_id s : utf8 s -> coerce_utf8 s = s.
Proof.
  unfold coerce_utf8. induction 1 as [|r s Hr Hs IH]; [done|].
  rewrite runes_ok_app by done. cbn. by rewrite IH.
Qed.

(** The bytes of a rune of several bytes are not ASCII. *)
Lemma byte_in_high lo hi c : byte_in lo hi c = true -> (128 <= lo)%N -> (128 <=? code c)%N = true.
Proof. intros [H _]%andb_true_iff Hlo. rewrite N.leb_le in *. lia. Qed.

Lemma seq2_high a b : seq2 a b = true -> (128 <=? code b)%N = true.
Proof. intros [_ E]%andb_true_iff. by eapply byte_in_high. Qed.

Lemma seq3_high a b c : seq3 a b c = true -> (128 <=? code b)%N = true /\ (128 <=? code c)%N = true.
Proof.
  intros [E Ec]%andb_true_iff. rewrite !orb_true_iff, !andb_true_iff in E.
  split; [|by eapply byte_in_high].
  destruct E as [[[[_ E]|[_ E]]|[_ E]]|[_ E]]; by eapply byte_in_high.
Qed.

Lemma seq4_high a b c d : seq4 a b c d = true ->
  (128 <=? code b)%N = true /\ (128 <=? code c)%N = true /\ (128 <=? code d)%N = true.
Proof.
  intros [[E Ec]%andb_true_iff Ed]%andb_true_iff. rewrite !orb_true_iff, !andb_true_iff in E.
  split_and!; [|by eapply byte_in_high..].
  destruct E as [[[_ E]|[_ E]]|[_ E]]; by eapply byte_in_high.
Qed.

Lemma ok_rune_multi a b r : ok_rune (String a (String b r)) ->
  sforall (fun c => 128 <=? code c)%N (String a (String b r)) = true.
Proof.
  unfold ok_rune. cbn [runes].
  destruct (N.ltb_spec (code a) 128) as [|Ha%N.leb_le]; [done|]. cbn [sforall]. rewrite Ha.
  destruct (seq2 a b) eqn:E2.
  { intros [= Hr]. destruct r; [|done]. by rewrite (seq2_high a b). }
  destruct r as [|c r]; [done|]. destruct (seq3 a b c) eqn:E3.
  { intros [= Hr]. destruct r; [|done]. apply seq3_high in E3 as [-> ?]. cbn. by rewrite andb_true_r. }
  destruct r as [|d r]; [done|]. destruct (seq4 a b c d) eqn:E4; [|done].
  intros [= Hr]. destruct r; [|done]. apply seq4_high in E4 as (-> & H1 & H2). cbn. by rewrite H1, H2.
Qed.

(** ** String literals *)

Lemma escape_ok_app r s : ok_rune r -> escape (r +:+ s) = esc_rune (true, r) +:+ escape s.
Proof. intros Hr. unfold escape. by rewrite runes_ok_app. Qed.

(** What [scan_str] passes over unchanged. *)
Definition scan_safe (w : string) : Prop := forall t,
  scan_str (w +:+ t) = ('(b, q) ← scan_str t; Some (w +:+ b, q)).

Lemma scan_safe_nil : scan_safe "".
Proof. intros t. cbn. by destruct (scan_str t) as [[]|]. Qed.

Lemma scan_safe_app a b : scan_safe a -> scan_safe b -> scan_safe (a +:+ b).
Proof.
  intros Ha Hb t. rewrite sapp_assoc, Ha, Hb.
  destruct (scan_str t) as [[x y]|]; cbn; [by rewrite sapp_assoc|done].
Qed.

(** A text of printable bytes and two-byte escapes. *)
Fixpoint safe (s : string) : bool :=
  match s with
  | "" => true
  | String c s1 =>
      if decide (c = BS) then match s1 with String _ s2 => safe s2 | "" => false end
      else (32 <=? code c)%N && negb (bool_decide (c = DQ)) && safe s1
  end.

Lemma safe_scan_safe s : safe s = true -> scan_safe s.
Proof.
  induction s as [s IH] using string_len_ind. destruct s as [|c s1]; [intros; apply scan_safe_nil|].
  cbn. case_decide as Hb.
  - destruct s1 as [|e s2]; [done|]. intros Hs t. cbn. rewrite decide_False, decide_True by (subst; done).
    rewrite IH by first [done | unfold slen; cbn; lia]. by destruct (scan_str t) as [[]|].
  - rewrite !andb_true_iff, negb_true_iff, bool_decide_eq_false, N.leb_le.
    intros [[Hc Hq] Hs] t. cbn. rewrite !decide_False by done.
    destruct (N.ltb_spec (code c) 32); [lia|].
    rewrite IH by first [done | unfold slen; cbn; lia]. by destruct (scan_str t) as [[]|].
Qed.

Lemma high_safe s : sforall (fun c => 128 <=? code c)%N s = true -> safe s = true.
Proof.
  induction s as [|c s IH]; [done|]. cbn. rewrite andb_true_iff, N.leb_le. intros [Hc Hs].
  rewrite decide_False by (intros ->; cbn in Hc; lia).
  rewrite bool_decide_false by (intros ->; cbn in Hc; lia).
  rewrite IH by done. destruct (N.leb_spec 32 (code c)); [done|lia].
Qed.

Lemma scan_safe_esc_byte c : scan_safe (esc_byte c).
Proof. apply safe_scan_safe. destruct c as [[] [] [] [] [] [] [] []]; reflexivity. Qed.

Lemma scan_safe_esc_rune r : ok_rune r -> scan_safe (esc_rune (true, r)).
Proof.
  intros Hr. destruct r as [|a [|b r]]; [done| apply scan_safe_esc_byte|].
  apply safe_scan_safe. cbn [esc_rune]. repeat case_decide; [done..|].
  by apply high_safe, ok_rune_multi.
Qed.

Lemma scan_str_escape s rest : utf8 s ->
  scan_str (escape s +:+ String DQ rest) = Some (escape s, rest).
Proof.
  intros Hs. assert (Hsafe : scan_safe (escape s)).
  { induction Hs as [|r s Hr Hs IH]; [apply scan_safe_nil|].
    rewrite escape_ok_app by done. apply scan_safe_app; [by apply scan_safe_esc_rune|done]. }
  rewrite Hsafe. cbn [scan_str]. rewrite decide_True by done. cbn. by rewrite sapp_nil_r.
Qed.

(** What [unescape] turns back into the text [r]. *)
Definition unesc_to (w r : string) : Prop := forall t,
  unescape (w +:+ t) = (x ← unescape t; Some (r +:+ x)).

Lemma unesc_to_app w r w' r' : unesc_to w r -> unesc_to w' r' -> unesc_to (w +:+ w') (r +:+ r').
Proof.
  intros H H' t. rewrite sapp_assoc, H, H'.
  destruct (unescape t); cbn; [by rewrite sapp_assoc|done].
Qed.

Lemma unesc_to_high s : sforall (fun c => 128 <=? code c)%N s = true -> unesc_to s s.
Proof.
  induction s as [|c s IH]; [intros _ t; cbn; by destruct (unescape t)|].
  cbn. rewrite andb_true_iff, N.leb_le. intros [Hc Hs].
  apply (unesc_to_app (String c "") (String c "")); [|auto].
  intros t. cbn. rewrite decide_False; [done|]. intros ->. cbn in Hc. lia.
Qed.

Lemma unesc_to_esc_byte c : (code c < 128)%N -> unesc_to (esc_byte c) (String c "").
Proof.
  intros Hc t. destruct c as [[] [] [] [] [] [] [] []]; try reflexivity; by cbn in Hc.
Qed.

Lemma unesc_to_esc_rune r : ok_rune r -> unesc_to (esc_rune (true, r)) r.
Proof.
  intros Hr. destruct r as [|a [|b r]]; [done| |].
  - apply unesc_to_esc_byte. unfold ok_rune in Hr. cbn in Hr.
    by destruct (N.ltb_spec (code a) 128).
  - cbn [esc_rune]. repeat case_decide; [subst..|].
    + rewrite H. by intros t.
    + rewrite H0. by intros t.
    + by apply unesc_to_high, ok_rune_multi.
Qed.

Lemma unescape_escape s : utf8 s -> unescape (escape s) = Some s.
Proof.
  intros Hs. assert (He : unesc_to (escape s) s).
  { induction Hs as [|r s Hr Hs IH]; [intros t; cbn; by destruct (unescape t)|].
    rewrite escape_ok_app by done. apply unesc_to_app; [by apply unesc_to_esc_rune|done]. }
  specialize (He ""). by rewrite sapp_nil_r in He; cbn in He; rewrite sapp_nil_r in He.
Qed.

Lemma esc_byte_ascii c : (code c < 128)%N -> sforall (fun c => code c <? 128)%N (esc_byte c) = true.
Proof. destruct c as [[] [] [] [] [] [] [] []]; intros Hc; try reflexivity; by cbn in Hc. Qed.

Lemma utf8_escape s : utf8 s -> utf8 (escape s).
Proof.
  induction 1 as [|r s Hr Hs IH]; [constructor|]. rewrite escape_ok_app by done.
  apply utf8_app; [|done]. destruct r as [|a [|b r]]; [done| |].
  - apply utf8_ascii, esc_byte_ascii. unfold ok_rune in Hr. cbn in Hr.
    by destruct (N.ltb_spec (code a) 128).
  - cbn [esc_rune]. repeat case_decide; [by apply utf8_ascii..|by apply utf8_one].
Qed.

(** A string literal reads back as the string. *)
Lemma parse_str_quote s rest : utf8 s -> parse_str (escape s +:+ String DQ rest) = Some (s, rest).
Proof.
  intros Hs. unfold parse_str. rewrite scan_str_escape by done. cbn.
  rewrite coerce_utf8_id by by apply utf8_escape. by rewrite unescape_escape.
Qed.

(** ** Integer literals *)

(** What may follow a value: the end, a separator, or a closing bracket. *)
Definition stops (s : string) : bool :=
  match s with
  | "" => true
  | String c _ => bool_decide (c ∈ [","%char; "]"%char; "}"%char])
  end.

Lemma span_digits_app d rest : sforall is_digit d = true -> stops rest = true ->
  span_digits (d +:+ rest) = (d, rest).
Proof.
  intros Hd Hr. induction d as [|c d IH]; cbn.
  - destruct rest as [|c r]; [done|]. cbn in Hr. apply bool_decide_eq_true in Hr.
    cbn. destruct (is_digit c) eqn:E; [exfalso|done]. set_unfold in Hr.
    by destruct Hr as [->|[->|[->|[]]]].
  - cbn in Hd. apply andb_true_iff in Hd as [-> Hd]. by rewrite IH.
Qed.

(** The digits of a positive number do not start with zero. *)
Lemma utoa_aux_head fuel n : (n < 2 ^ N.of_nat fuel)%N -> n <> 0%N ->
  exists c s, utoa_aux fuel n "" = String c s /\ is_digit c = true /\ c <> "0"%char.
Proof.
  revert n. induction fuel as [|f IH]; intros n Hn Hne.
  { change (2 ^ N.of_nat 0)%N with 1%N in Hn. lia. }
  cbn [utoa_aux]. destruct (N.ltb_spec n 10).
  - rewrite N.mod_small by done. destruct (digit_char_spec n) as [Hd Hv]; [done|].
    eexists _, _. split; [done|]. split; [done|]. intros E. rewrite E in Hv. by destruct Hne.
  - rewrite Nat2N.inj_succ, N.pow_succ_r' in Hn.
    destruct (div10_lt n _ Hn) as (Hlt & Hpos & _); [done|].
    destruct (IH (n / 10)%N) as (c & s & E & Hc & Hz); [done..|].
    rewrite utoa_aux_app, E. eexists _, _. done.
Qed.

Lemma scan_int_utoa n rest : stops rest = true -> scan_int (utoa n +:+ rest) = Some (utoa n, rest).
Proof.
  intros Hr. destruct (decide (n = 0%N)) as [->|Hn]; [done|].
  pose proof (span_digits_app (utoa n) rest (utoa_digits n) Hr) as Hsp.
  destruct (utoa_aux_head (S (N.size_nat n)) n (utoa_fuel n) Hn) as (c & s & E & Hc & H0).
  fold (utoa n) in E. rewrite E in *. cbn [scan_int String.append].
  rewrite decide_False by done. by rewrite Hc, <-Hsp.
Qed.

Lemma scan_tail rest : stops rest = true -> scan_frac rest = Some ("", rest) /\ scan_exp rest = Some ("", rest).
Proof.
  destruct rest as [|c r]; [done|]. cbn [stops]. intros Hc%bool_decide_eq_true.
  set_unfold in Hc. destruct Hc as [->|[->|[->|[]]]]; done.
Qed.

Lemma digit_not_minus c s : is_digit c = true ->
  match String c s with String "-" t => ("-", t) | _ => ("", String c s) end = ("", String c s).
Proof. destruct c as [[] [] [] [] [] [] [] []]; done. Qed.

Lemma scan_unsigned_utoa n rest : stops rest = true ->
  scan_unsigned (utoa n +:+ rest) = Some (utoa n, rest).
Proof.
  intros Hr. destruct (scan_tail rest Hr) as [Hf He]. unfold scan_unsigned.
  rewrite scan_int_utoa by done. cbn -[scan_frac scan_exp]. rewrite Hf.
  cbn -[scan_exp]. rewrite He. cbn. by rewrite !sapp_nil_r.
Qed.

Lemma scan_number_Itoa z rest : stops rest = true ->
  scan_number (Itoa z +:+ rest) = Some (Itoa z, rest).
Proof.
  intros Hr. unfold Itoa. destruct (z <? 0).
  - change (scan_number (("-" +:+ utoa (Z.to_N (- z))) +:+ rest))
      with ('(u, r) ← scan_unsigned (utoa (Z.to_N (- z)) +:+ rest); Some ("-" +:+ u, r)).
    by rewrite scan_unsigned_utoa.
  - pose proof (scan_unsigned_utoa (Z.to_N z) rest Hr) as Hi.
    pose proof (utoa_digits (Z.to_N z)) as Hd.
    destruct (utoa (Z.to_N z)) as [|c s] eqn:E; [by apply utoa_nonempty in E|].
    cbn in Hd. apply andb_true_iff in Hd as [Hd _].
    unfold scan_number. cbn [String.append] in *. by rewrite digit_not_minus, Hi.
Qed.

(** The first byte of an integer literal starts no other kind of value. *)
Lemma Itoa_head z : exists c s, Itoa z = String c s /\ (is_digit c = true \/ c = "-"%char).
Proof.
  unfold Itoa. destruct (z <? 0); [eauto|].
  pose proof (utoa_digits (Z.to_N z)) as Hd. destruct (utoa (Z.to_N z)) as [|c s] eqn:E.
  - by apply utoa_nonempty in E.
  - cbn in Hd. apply andb_true_iff in Hd as [Hd _]. eauto.
Qed.

Lemma num_head_dispatch f d c s : is_digit c = true \/ c = "-"%char ->
  parse_value (S f) d (String c s) = ('(n, r) ← scan_number (String c s); Some (JNum n, r)).
Proof. intros [H| ->]; [|done]. destruct c as [[] [] [] [] [] [] [] []]; done. Qed.

Lemma skip_ws_head c s : is_ws c = false -> skip_ws (String c s) = String c s.
Proof. intros H. cbn. by rewrite H. Qed.

(** ** Values *)

(** The values the agent encodes: 64-bit integers in canonical form and UTF-8 strings. *)
Fixpoint json_wf (j : jval) : bool :=
  match j with
  | JNull | JBool _ => true
  | JNum lit => bool_decide (lit = Itoa (ParseInt lit).1)
  | JStr s => valid_utf8 s
  | JArr l => forallb json_wf l
  | JObj l => forallb (fun kv => valid_utf8 kv.1 && json_wf kv.2) l
  end.

Definition jmax (l : list N) : N := foldr N.max 0%N l.

(** Nesting depth, and the fuel the parser needs. *)
Fixpoint jdepth (j : jval) : N :=
  match j with
  | JArr l => 1 + jmax (jdepth <$> l)
  | JObj l => 1 + jmax ((fun kv => jdepth kv.2) <$> l)
  | _ => 0
  end.

Fixpoint jneed (j : jval) : nat :=
  match j with
  | JArr l => S (sum_list ((fun x => S (jneed x)) <$> l))
  | JObj l => S (sum_list ((fun kv => S (jneed kv.2)) <$> l))
  | _ => 1
  end.

Definition value_head (c : ascii) : bool :=
  is_digit c || bool_decide (c ∈ ["-"%char; DQ; "["%char; "{"%char; "n"%char; "t"%char; "f"%char]).

Lemma json_print_head j : json_wf j = true -> exists c s, json_print j = String c s /\ value_head c = true.
Proof.
  destruct j as [|[]|lit|s|l|l]; cbn; intros H; try by eexists _, _.
  apply bool_decide_eq_true in H. destruct (Itoa_head (ParseInt lit).1) as (c & s & E & Hc).
  rewrite H, E. exists c, s. split; [done|]. unfold value_head. destruct Hc as [->| ->]; done.
Qed.

Lemma value_head_ws c : value_head c = true -> is_ws c = false /\ c <> "]"%char /\ c <> "}"%char.
Proof. destruct c as [[] [] [] [] [] [] [] []]; done. Qed.

Lemma skip_ws_print j t : json_wf j = true -> skip_ws (json_print j +:+ t) = json_print j +:+ t.
Proof.
  intros (c & s & -> & Hc)%json_print_head. apply skip_ws_head. by apply value_head_ws.
Qed.

Definition parses (j : jval) : Prop := forall fuel d rest,
  (jneed j <= fuel)%nat -> (d + jdepth j <= max_depth)%N -> stops rest = true ->
  parse_value fuel d (json_print j +:+ rest) = Some (j, rest).

Definition elems_text (l : list jval) : string := sjoin "," (json_print <$> l).
Definition member_text (kv : string * jval) : string := quote kv.1 +:+ ":" +:+ json_print kv.2.
Definition members_text (l : list (string * jval)) : string := sjoin "," (member_text <$> l).

Lemma parse_elems_print l : l <> [] -> Forall parses l -> forallb json_wf l = true ->
  forall fuel d rest, (sum_list ((fun x => S (jneed x)) <$> l) <= fuel)%nat ->
  (d + jmax (jdepth <$> l) <= max_depth)%N ->
  parse_elems fuel d (elems_text l +:+ String "]" rest) = Some (l, rest).
Proof.
  unfold elems_text. induction l as [|j l IH]; [done|].
  intros _ [Hj Hl]%Forall_cons [Hw Hws]%andb_true_iff [|fuel] d rest Hf Hd; cbn in Hf, Hd; [lia|].
  destruct l as [|j' l].
  - cbn [fmap list_fmap sjoin parse_elems]. rewrite Hj by (done || cbn in *; lia). done.
  - change (sjoin "," (json_print <$> j :: j' :: l))
      with (json_print j +:+ "," +:+ sjoin "," (json_print <$> j' :: l)).
    cbn [parse_elems]. autorewrite with sapp. rewrite Hj by (done || cbn in *; lia).
    cbn [mbind option_bind]. rewrite skip_ws_head by done.
    assert (Hs : forall t, skip_ws (sjoin "," (json_print <$> j' :: l) +:+ t)
                   = sjoin "," (json_print <$> j' :: l) +:+ t).
    { intros t. apply andb_true_iff in Hws as [Hw' _].
      destruct (json_print_head j' Hw') as (c & s & E & Hc).
      cbn [fmap list_fmap sjoin]. rewrite E. destruct (json_print <$> l); apply skip_ws_head, value_head_ws, Hc. }
    rewrite Hs, IH; [done|done|done|done|cbn in *; lia|cbn in *; lia].
Qed.

Lemma members_head kv l t : exists s, members_text (kv :: l) +:+ t = String DQ s.
Proof. unfold members_text, member_text, quote. destruct l; cbn; eauto. Qed.

(** One member, and the choice on what follows it. *)
Lemma parse_member_step k j fuel d t :
  utf8 k -> json_wf j = true -> parses j -> (jneed j <= fuel)%nat ->
  (d + jdepth j <= max_depth)%N -> stops t = true ->
  parse_members (S fuel) d (member_text (k, j) +:+ t) =
    match skip_ws t with
    | String "," r3 => '(l, r4) ← parse_members fuel d (skip_ws r3); Some ((k, j) :: l, r4)
    | String "}" r3 => Some ([(k, j)], r3)
    | _ => None
    end.
Proof.
  intros Hk Hw Hj Hf Hd Ht. unfold member_text, quote. cbn [fst snd]. autorewrite with sapp.
  cbn [parse_members]. rewrite decide_True by done. rewrite parse_str_quote by done.
  cbn [mbind option_bind]. rewrite skip_ws_head by done. rewrite skip_ws_print by done.
  by rewrite Hj.
Qed.

Lemma parse_members_print l : l <> [] -> Forall (fun kv => parses kv.2) l ->
  forallb (fun kv => valid_utf8 kv.1 && json_wf kv.2) l = true ->
  forall fuel d rest, (sum_list ((fun kv => S (jneed kv.2)) <$> l) <= fuel)%nat ->
  (d + jmax ((fun kv => jdepth kv.2) <$> l) <= max_depth)%N ->
  parse_members fuel d (members_text l +:+ String "}" rest) = Some (l, rest).
Proof.
  induction l as [|[k j] l IH]; [done|].
  intros _ [Hj Hl]%Forall_cons [[Hk Hw]%andb_true_iff Hws]%andb_true_iff [|fuel] d rest Hf Hd;
    cbn in Hf, Hd; [lia|].
  apply valid_utf8_utf8 in Hk.
  destruct l as [|kv l].
  - unfold members_text. cbn [fmap list_fmap sjoin].
    rewrite parse_member_step; try done; cbn in *; lia.
  - change (members_text ((k, j) :: kv :: l))
      with (member_text (k, j) +:+ "," +:+ members_text (kv :: l)).
    rewrite !sapp_assoc. rewrite parse_member_step; try done; [|cbn in *; lia..].
    rewrite sapp_cons, sapp_nil_l, skip_ws_head by done.
    destruct (members_head kv l (String "}" rest)) as [s Es].
    rewrite Es, skip_ws_head, <-Es, IH; try done; cbn in *; lia.
Qed.

Lemma json_print_arr l t : json_print (JArr l) +:+ t = String "[" (elems_text l +:+ String "]" t).
Proof. cbn. by rewrite sapp_assoc. Qed.

Lemma json_print_obj l t : json_print (JObj l) +:+ t = String "{" (members_text l +:+ String "}" t).
Proof. cbn. by rewrite sapp_assoc. Qed.

Lemma json_parses j : json_wf j = true -> parses j.
Proof.
  induction j as [|b|lit|s|l IH|l IH] using jval_deep_ind; intros Hw [|f] d rest Hf Hd Hr;
    try (cbn in Hf; lia).
  - done.
  - by destruct b.
  - cbn in Hw. apply bool_decide_eq_true in Hw. cbn [json_print]. rewrite Hw.
    pose proof (scan_number_Itoa (ParseInt lit).1 rest Hr) as Hn.
    destruct (Itoa_head (ParseInt lit).1) as (c & s & E & Hc). rewrite E in *.
    cbn [String.append] in *. by rewrite num_head_dispatch, Hn.
  - cbn in Hw. cbn [json_print quote String.append parse_value]. rewrite decide_True by done.
    rewrite sapp_assoc. cbn [String.append]. by rewrite parse_str_quote by by apply valid_utf8_utf8.
  - rewrite json_print_arr. cbn [parse_value]. rewrite decide_False, decide_True by done.
    cbn in Hf, Hd, Hw. destruct (N.leb_spec max_depth d); [lia|].
    destruct l as [|j l]; [done|].
    pose proof Hw as [Hj _]%andb_true_iff. destruct (json_print_head j Hj) as (c & s & E & Hc).
    destruct (value_head_ws c Hc) as (Hws & Hne & _).
    assert (exists s', elems_text (j :: l) +:+ String "]" rest = String c s') as [s' Es'].
    { unfold elems_text. cbn [fmap list_fmap sjoin]. rewrite E. destruct (json_print <$> l); cbn; eauto. }
    assert (HF : Forall parses (j :: l)).
    { apply Forall_forall. intros x Hx. eapply Forall_forall in IH; [|done]. apply IH.
      by eapply forallb_forall in Hw; [|by apply list_elem_of_In]. }
    pose proof (parse_elems_print (j :: l) ltac:(done) HF Hw f (d + 1) rest) as Hp.
    rewrite Es' in *. rewrite skip_ws_head by done. cbn [byte_at].
    rewrite decide_False by done. by rewrite Hp by (cbn in *; lia).
  - rewrite json_print_obj. cbn [parse_value]. rewrite !decide_False, decide_True by done.
    cbn in Hf, Hd, Hw. destruct (N.leb_spec max_depth d); [lia|].
    destruct l as [|kv l]; [done|].
    destruct (members_head kv l (String "}" rest)) as [s' Es'].
    assert (HF : Forall (fun kv => parses kv.2) (kv :: l)).
    { apply Forall_forall. intros x Hx. eapply Forall_forall in IH; [|done]. apply IH.
      eapply forallb_forall in Hw; [|by apply list_elem_of_In]. by apply andb_true_iff in Hw as [_ ?]. }
    pose proof (parse_members_print (kv :: l) ltac:(done) HF Hw f (d + 1) rest) as Hp.
    rewrite Es' in *. rewrite skip_ws_head by done. cbn [byte_at].
    rewrite decide_False by done. by rewrite Hp by (cbn in *; lia).
Qed.

(** ** The round trip *)

Lemma sjoin_len l : l <> [] -> (slen (sjoin "," l) + 1)%nat = sum_list ((fun s => S (slen s)) <$> l).
Proof.
  induction l as [|x l IH]; [done|]. intros _. destruct l as [|y l].
  - cbn. unfold slen. lia.
  - change (sjoin "," (x :: y :: l)) with (x +:+ "," +:+ sjoin "," (y :: l)).
    rewrite !slen_app. specialize (IH ltac:(done)).
    change (sum_list ((fun s => S (slen s)) <$> x :: y :: l))
      with (S (slen x) + sum_list ((fun s => S (slen s)) <$> y :: l))%nat.
    rewrite <-IH. change (slen ",") with 1%nat. lia.
Qed.

Lemma sum_list_le {A} (f g : A -> nat) l : Forall (fun x => (f x <= g x)%nat) l ->
  (sum_list (f <$> l) <= sum_list (g <$> l))%nat.
Proof. induction 1; cbn; lia. Qed.

Lemma jneed_len j : json_wf j = true -> (jneed j <= slen (json_print j))%nat.
Proof.
  induction j as [|b|lit|s|l IH|l IH] using jval_deep_ind; intros Hw; cbn in Hw.
  1,2: try destruct b; cbn; lia.
  - destruct (json_print_head (JNum lit) Hw) as (c & s & E & _). rewrite E. cbn. lia.
  - cbn. lia.
  - rewrite <-(sapp_nil_r (json_print _)), json_print_arr. cbn [jneed slen String.length].
    fold (slen (elems_text l +:+ "]")). rewrite slen_app. change (slen "]") with 1%nat.
    destruct l as [|j l]; [cbn; lia|]. unfold elems_text. rewrite sjoin_len by done.
    rewrite <-list_fmap_compose. apply le_n_S, sum_list_le, Forall_forall. intros x Hx. cbn.
    eapply Forall_forall in IH; [|done]. apply le_n_S, IH.
    by eapply forallb_forall in Hw; [|by apply list_elem_of_In].
  - rewrite <-(sapp_nil_r (json_print _)), json_print_obj. cbn [jneed slen String.length].
    fold (slen (members_text l +:+ "}")). rewrite slen_app. change (slen "}") with 1%nat.
    destruct l as [|kv l]; [cbn; lia|]. unfold members_text. rewrite sjoin_len by done.
    rewrite <-list_fmap_compose. apply le_n_S, sum_list_le, Forall_forall. intros x Hx.
    eapply Forall_forall in IH; [|done]. unfold compose, member_text. rewrite !slen_app.
    eapply forallb_forall in Hw; [|by apply list_elem_of_In].
    apply andb_true_iff in Hw as [_ Hw]. specialize (IH Hw). lia.
Qed.

(** Decoding the encoder's text gives the value back. *)
Lemma json_parse_print j : json_wf j = true -> (jdepth j <= max_depth)%N ->
  json_parse (json_print j) = Some j.
Proof.
  intros Hw Hd. unfold json_parse. rewrite <-(sapp_nil_r (json_print j)).
  rewrite skip_ws_print by done. rewrite json_parses; [done|done| |lia|done].
  pose proof (jneed_len j Hw). rewrite sapp_nil_r. lia.
Qed.

(** Well-formedness of the objects the agent encodes, member by member. *)
Lemma json_wf_int z : int64 z -> json_wf (JNum (Itoa z)) = true.
Proof. intros Hz. unfold json_wf. apply bool_decide_eq_true. by rewrite ParseInt_Itoa. Qed.

Lemma json_wf_obj_cons k j l : valid_utf8 k = true -> json_wf j = true ->
  json_wf (JObj l) = true -> json_wf (JObj ((k, j) :: l)) = true.
Proof. intros Hk Hj Hl. cbn [json_wf forallb fst snd] in *. by rewrite Hk, Hj. Qed.
