(* ===== verification/Regex.v ===== *)
(** [regexp]: the regular expressions the agent uses, with Go's leftmost-first semantics (the
    leftmost match; among the matches there, the one a backtracking search finds first).  Every
    repetition in the agent's patterns is a greedy repetition of one character class, so the
    matcher recurs on the pattern and on the text and needs no fuel. *)

From S2P Require Import Prelude GoStrings.
From Stdlib Require Import Ascii.

Inductive re :=
| RLit (s : string)              (* a literal text *)
| RClass (p : ascii -> bool)     (* one byte of a class *)
| RStar (p : ascii -> bool)      (* [p*], greedy *)
| RSeq (a b : re)
| RAlt (a b : re)                (* [a|b], [a] preferred *)
| RGroup (n : nat) (a : re)      (* the [n]th capturing group *)
| RBegin                         (* [^] *)
| REnd.                          (* [$] *)

Definition REps : re := RLit "".
Definition RPlus (p : ascii -> bool) : re := RSeq (RClass p) (RStar p).
Definition ROpt (a : re) : re := RAlt a REps.
Fixpoint RCat (l : list re) : re :=
  match l with
  | [] => REps
  | [a] => a
  | a :: l' => RSeq a (RCat l')
  end.

(** [\d], [\s], [\S] and [.]. *)
Definition c_digit : ascii -> bool := is_digit.
Definition c_space (c : ascii) : bool :=
  bool_decide (c ∈ [" "%char; TAB; LF; "012"%char; CR]).
Definition c_nonspace (c : ascii) : bool := negb (c_space c).
Definition c_any (c : ascii) : bool := negb (bool_decide (c = LF)).

(** Captured texts, the last one recorded first. *)
Definition caps := list (nat * string).

(** A continuation gets whether the position is the start of the text, the rest of the text and
    the captures; the answer is the captures of a full match and the text after it. *)
Definition kont := bool -> string -> caps -> option (caps * string).

Fixpoint star_loop (p : ascii -> bool) (k : kont) (cs : caps) (at0 : bool) (s : string)
  : option (caps * string) :=
  match s with
  | String c s' =>
      if p c then
        match star_loop p k cs false s' with
        | Some x => Some x
        | None => k at0 s cs
        end
      else k at0 s cs
  | "" => k at0 s cs
  end.

Fixpoint rmatch (r : re) (at0 : bool) (s : string) (cs : caps) (k : kont) : option (caps * string) :=
  match r with
  | RLit t =>
      if HasPrefix s t then k (at0 && bool_decide (t = "")) (sdrop (slen t) s) cs else None
  | RClass p =>
      match s with
      | String c s' => if p c then k false s' cs else None
      | "" => None
      end
  | RStar p => star_loop p k cs at0 s
  | RSeq a b => rmatch a at0 s cs (fun at1 s1 cs1 => rmatch b at1 s1 cs1 k)
  | RAlt a b =>
      match rmatch a at0 s cs k with
      | Some x => Some x
      | None => rmatch b at0 s cs k
      end
  | RGroup n a =>
      rmatch a at0 s cs (fun at1 s1 cs1 => k at1 s1 ((n, stake (slen s - slen s1) s) :: cs1))
  | RBegin => if at0 then k at0 s cs else None
  | REnd => match s with "" => k at0 s cs | _ => None end
  end.

Definition accept : kont := fun _ s cs => Some (cs, s).

(** A match that starts at the head of the text. *)
Definition match_here (r : re) (at0 : bool) (s : string) : option (caps * string) :=
  rmatch r at0 s [] accept.

(** The leftmost match: its captures and the text after it. *)
Fixpoint find_from (r : re) (at0 : bool) (s : string) : option (caps * string) :=
  match match_here r at0 s with
  | Some x => Some x
  | None => match s with
            | "" => None
            | String _ s' => find_from r false s'
            end
  end.

(** [FindStringSubmatch]: the captures of the leftmost match, a group that took no part in the
    match being the empty text. *)
Definition FindSubmatch (r : re) (s : string) : option caps := fst <$> find_from r true s.

Fixpoint group (cs : caps) (n : nat) : string :=
  match cs with
  | [] => ""
  | (m, t) :: cs' => if decide (m = n) then t else group cs' n
  end.

(** [FindAllStringSubmatch(s, -1)] for a pattern that matches no empty text: successive leftmost
    matches, each in the text after the one before.  A match consumes at least one byte, so the
    length of the text is enough fuel. *)
Fixpoint find_all (fuel : nat) (r : re) (at0 : bool) (s : string) : list caps :=
  match fuel with
  | O => []
  | S f =>
      match find_from r at0 s with
      | Some (cs, s') => cs :: find_all f r false s'
      | None => []
      end
  end.
Definition FindAllSubmatch (r : re) (s : string) : list caps := find_all (slen s) r true s.

(** ** Matching known texts *)

Lemma rmatch_lit t at0 s cs k :
  rmatch (RLit t) at0 (t +:+ s) cs k = k (at0 && bool_decide (t = "")) s cs.
Proof. cbn. by rewrite HasPrefix_app, sdrop_app. Qed.

(** A greedy repetition takes the whole run of its class when the rest of the pattern can follow
    there. *)
Lemma star_loop_run p k cs at0 run s x :
  sforall p run = true ->
  match s with String c _ => p c = false | "" => True end ->
  k (at0 && bool_decide (run = "")) s cs = Some x ->
  star_loop p k cs at0 (run +:+ s) = Some x.
Proof.
  revert at0. induction run as [|c run IH]; intros at0 Hp Hs Hk.
  - cbn in *. rewrite andb_true_r in Hk. destruct s as [|c s]; cbn; [done|]. by rewrite Hs.
  - cbn in *. apply andb_true_iff in Hp as [-> Hp]. rewrite (IH false); [done|done|done|].
    rewrite bool_decide_false, andb_false_r in Hk by done. done.
Qed.

(** When the rest of the pattern fails on every longer piece of the run, the repetition backs
    off to the piece where it succeeds. *)
Lemma star_loop_backoff p k cs at0 run tail s x :
  sforall p run = true -> sforall p tail = true ->
  match s with String c _ => p c = false | "" => True end ->
  (forall a0 pre post, tail = pre +:+ post -> pre <> "" -> k a0 (post +:+ s) cs = None) ->
  k (at0 && bool_decide (run = "")) (tail +:+ s) cs = Some x ->
  star_loop p k cs at0 (run +:+ tail +:+ s) = Some x.
Proof.
  intros Hrun Htail Hs Hfail. revert at0. induction run as [|c run IH]; intros at0 Hk.
  - cbn [String.append]. rewrite andb_true_r in Hk.
    assert (Hnone : forall t pre a0, tail = pre +:+ t -> pre <> "" -> star_loop p k cs a0 (t +:+ s) = None).
    { induction t as [|c t IHt]; intros pre a0 Et Hpre; cbn.
      - destruct s as [|c s]; cbn; [|rewrite Hs]; apply (Hfail a0 pre ""); done.
      - assert (p c = true) as Hc.
        { rewrite Et, sforall_app in Htail. cbn in Htail. rewrite !andb_true_iff in Htail. tauto. }
        rewrite Hc, (IHt (pre +:+ String c "")).
        + apply (Hfail a0 pre (String c t)); done.
        + rewrite Et. by rewrite sapp_assoc.
        + by destruct pre. }
    destruct tail as [|c t]; cbn in *.
    + destruct s as [|c s]; cbn; [done|]. by rewrite Hs.
    + apply andb_true_iff in Htail as [Hc _]. rewrite Hc.
      by rewrite (Hnone t (String c "") false) by done.
  - cbn in *. apply andb_true_iff in Hrun as [-> Hrun]. rewrite (IH Hrun false); [done|].
    by rewrite bool_decide_false, andb_false_r in Hk by done.
Qed.

(** A pattern that starts with a literal cannot match where the text does not start with it. *)
Lemma find_from_skip r at0 c s :
  match_here r at0 (String c s) = None -> find_from r at0 (String c s) = find_from r false s.
Proof. intros H. cbn. by rewrite H. Qed.

Lemma find_from_here r at0 s x : match_here r at0 s = Some x -> find_from r at0 s = Some x.
Proof. intros H. destruct s; cbn; by rewrite H. Qed.

Example find_digits :
  (fun cs => group cs 0) <$> FindSubmatch (RGroup 0 (RPlus c_digit)) "dn424242420123_x" = Some "424242420123".
Proof. reflexivity. Qed.

(** A captured run of a class, as long as it can be. *)
Lemma rmatch_group_run n p at0 run s cs k x :
  run <> "" -> sforall p run = true ->
  match s with String c _ => p c = false | "" => True end ->
  k false s ((n, run) :: cs) = Some x ->
  rmatch (RGroup n (RPlus p)) at0 (run +:+ s) cs k = Some x.
Proof.
  intros Hne Hp Hs Hk. destruct run as [|c run]; [done|]. cbn in Hp. apply andb_true_iff in Hp as [Hc Hp].
  cbn [rmatch RPlus String.append]. rewrite Hc. apply star_loop_run; [done|done|].
  rewrite andb_false_l. rewrite <-Hk. do 3 f_equal.
  change (String c (run +:+ s)) with (String c run +:+ s). rewrite slen_app.
  replace (slen (String c run) + slen s - slen s)%nat with (slen (String c run)) by lia. apply stake_app.
Qed.

(** The leftmost match of a pattern is after a piece of the text where it does not match. *)
Lemma find_from_app r at0 pre s :
  (forall a0 x y, pre = x +:+ y -> y <> "" -> match_here r a0 (y +:+ s) = None) ->
  pre <> "" -> find_from r at0 (pre +:+ s) = find_from r false s.
Proof.
  revert at0. induction pre as [|c pre IH]; intros at0 Hno Hne; [done|]. rewrite sapp_cons.
  rewrite find_from_skip by (apply (Hno at0 "" (String c pre)); done).
  destruct pre as [|d pre]; [done|]. apply IH; [|done]. intros a0 x y E Hy. apply (Hno a0 (String c x) y); [|done].
  by rewrite E.
Qed.

(** ** Skipping text where a leading literal cannot match *)

(** [t] and [y] differ within the length of both. *)
Fixpoint clash (t y : string) : bool :=
  match t, y with
  | String a t', String b y' => negb (bool_decide (a = b)) || clash t' y'
  | _, _ => false
  end.

Fixpoint all_clash (t pre : string) : bool :=
  match pre with
  | "" => true
  | String _ p => clash t pre && all_clash t p
  end.

Lemma clash_sound t y s : clash t y = true -> HasPrefix (y +:+ s) t = false.
Proof.
  revert y. induction t as [|a t IH]; intros [|b y]; cbn; try done.
  rewrite orb_true_iff, negb_true_iff, bool_decide_eq_false. intros [H|H]; apply andb_false_iff.
  - left. apply bool_decide_eq_false. congruence.
  - right. auto.
Qed.

Lemma all_clash_app t a b : all_clash t a = true -> all_clash t b = true -> all_clash t (a +:+ b) = true.
Proof.
  intros Ha Hb. induction a as [|c a IH]; [done|]. cbn -[clash] in *. apply andb_true_iff in Ha as [Hc Ha].
  rewrite IH by done. rewrite andb_true_r. change (String c (a +:+ b)) with (String c a +:+ b).
  generalize dependent (String c a). clear. induction t as [|x t IH]; intros [|y s]; cbn; try done.
  rewrite !orb_true_iff. intros [?|?]; auto.
Qed.

Lemma all_clash_class p a t s : p a = false -> sforall p s = true -> all_clash (String a t) s = true.
Proof.
  intros Ha. induction s as [|c s IH]; [done|]. cbn. rewrite !andb_true_iff. intros [Hc Hs]. split; [|auto].
  apply orb_true_iff. left. apply negb_true_iff, bool_decide_eq_false. congruence.
Qed.

Lemma find_from_lit_skip t b at0 pre s : all_clash t pre = true ->
  find_from (RSeq (RLit t) b) at0 (pre +:+ s) = find_from (RSeq (RLit t) b) (at0 && bool_decide (pre = "")) s.
Proof.
  revert at0. induction pre as [|c pre IH]; intros at0; cbn -[clash find_from].
  - by rewrite andb_true_r.
  - rewrite andb_true_iff. intros [Hc Hp]. rewrite andb_false_r. rewrite find_from_skip.
    + rewrite IH by done. done.
    + unfold match_here. cbn -[HasPrefix]. change (String c (pre +:+ s)) with (String c pre +:+ s).
      by rewrite clash_sound.
Qed.
