(* ===== verification/GoStruct.v ===== *)
(** [json.Unmarshal] into a Go struct: members are matched to fields by name, first exactly and
    then ignoring case; the last of several members for one field wins; [null] leaves a plain
    field as it is and clears a pointer; a value of the wrong kind is an error. *)

From S2P Require Import Prelude GoStrings Json.
From Stdlib Require Import Ascii.

(** A field's decoder stores a JSON value into the struct; [None] is a type error. *)
Definition setter (T : Type) : Type := jval -> T -> option T.
Definition sfields (T : Type) : Type := list (string * setter T).

(** Case folding of member names: ASCII letters, and the two other runes that fold to an ASCII
    letter, U+212A (k) and U+017F (s). *)
Fixpoint fold_key (s : string) : string :=
  match s with
  | "" => ""
  | String a s1 =>
      match s1 with
      | String b s2 =>
          if ((code a =? 197) && (code b =? 191))%N then String "s" (fold_key s2)
          else match s2 with
               | String c s3 =>
                   if ((code a =? 226) && (code b =? 132) && (code c =? 170))%N
                   then String "k" (fold_key s3) else String (lower a) (fold_key s1)
               | "" => String (lower a) (fold_key s1)
               end
      | "" => String (lower a) ""
      end
  end.

Definition find_field {T} (fs : sfields T) (k : string) : option (setter T) :=
  match list_find (fun f => f.1 = k) fs with
  | Some (_, f) => Some f.2
  | None => (fun f => f.2.2) <$> list_find (fun f => fold_key f.1 = fold_key k) fs
  end.

Definition decode_member {T} (fs : sfields T) (acc : option T) (kv : string * jval) : option T :=
  t ← acc;
  match find_field fs kv.1 with
  | Some set => set kv.2 t
  | None => Some t
  end.

Definition decode_members {T} (fs : sfields T) (l : list (string * jval)) (t : T) : option T :=
  fold_left (decode_member fs) l (Some t).

(** Decode a value into a struct that already holds [t]. *)
Definition decode_struct {T} (fs : sfields T) : setter T := fun j t =>
  match j with
  | JNull => Some t
  | JObj l => decode_members fs l t
  | _ => None
  end.

(** [json.Unmarshal(raw, &v)] with [v] zero; [None] for [raw] is a nil [json.RawMessage], whose
    empty text is a syntax error. *)
Definition Unmarshal {T} (fs : sfields T) (zero : T) (raw : option jval) : option T :=
  j ← raw; decode_struct fs j zero.

(** ** Decoders of the field types the agent uses *)

Definition d_string {T} (set : string -> T -> T) : setter T := fun j t =>
  match j with
  | JStr s => Some (set s t)
  | JNull => Some t
  | _ => None
  end.

(** [int64] and [int]: an integer literal in the 64-bit range. *)
Definition d_int {T} (set : Z -> T -> T) : setter T := fun j t =>
  match j with
  | JNum lit => let '(z, ok) := ParseInt lit in
                if ok && negb (HasPrefix lit "+") then Some (set z t) else None
  | JNull => Some t
  | _ => None
  end.

Definition d_bool {T} (set : bool -> T -> T) : setter T := fun j t =>
  match j with
  | JBool b => Some (set b t)
  | JNull => Some t
  | _ => None
  end.

(** A pointer field: [null] makes it nil. *)
Definition d_ptr {T A} (dec : (A -> T -> T) -> setter T) (set : option A -> T -> T) : setter T :=
  fun j t => match j with
             | JNull => Some (set None t)
             | _ => dec (fun a => set (Some a)) j t
             end.

(** [json.RawMessage]: the value itself, [null] included. *)
Definition d_raw {T} (set : option jval -> T -> T) : setter T := fun j t => Some (set (Some j) t).

(** A slice: element [i] is decoded into the element already there, or into a zero one. *)
Fixpoint decode_elems {A} (dec : setter A) (zero : A) (old : list A) (l : list jval) : option (list A) :=
  match l with
  | [] => Some []
  | j :: l' =>
      a ← dec j (default zero (head old));
      r ← decode_elems dec zero (tail old) l';
      Some (a :: r)
  end.

Definition d_slice {T A} (dec : setter A) (zero : A) (get : T -> list A) (set : list A -> T -> T)
  : setter T := fun j t =>
  match j with
  | JNull => Some (set [] t)
  | JArr l => (fun r => set r t) <$> decode_elems dec zero (get t) l
  | _ => None
  end.

(** ** Encoding structs *)

Definition e_string (k s : string) : list (string * jval) := [(k, JStr s)].
Definition e_int (k : string) (z : Z) : list (string * jval) := [(k, JNum (Itoa z))].
Definition e_string_omit (k s : string) : list (string * jval) :=
  if decide (s = "") then [] else [(k, JStr s)].

(** A decoder run on the members an encoder wrote, one field at a time. *)
Lemma decode_members_nil {T} (fs : sfields T) t : decode_members fs [] t = Some t.
Proof. done. Qed.

Lemma decode_members_cons {T} (fs : sfields T) k j l t set t' :
  find_field fs k = Some set -> set j t = Some t' ->
  decode_members fs ((k, j) :: l) t = decode_members fs l t'.
Proof. intros Hf Hs. unfold decode_members. cbn. by rewrite Hf, Hs. Qed.

Lemma d_int_Itoa {T} (set : Z -> T -> T) z t : int64 z -> d_int set (JNum (Itoa z)) t = Some (set z t).
Proof.
  intros Hz. unfold d_int. rewrite ParseInt_Itoa by done.
  assert (HasPrefix (Itoa z) "+" = false) as ->; [|done].
  unfold Itoa. destruct (z <? 0); [done|].
  pose proof (utoa_digits (Z.to_N z)) as Hd. destruct (utoa (Z.to_N z)) as [|c s] eqn:E; [done|].
  cbn in *. apply andb_true_iff in Hd as [Hd _].
  rewrite bool_decide_false; [done|]. intros <-. done.
Qed.
