(* ===== verification/GoFloat.v ===== *)
(** [float64]: IEEE 754 doubles as the Standard Library's specification floats, with
    [strconv.ParseFloat] and the decimal format [encoding/json] writes. *)

From S2P Require Import Prelude GoStrings.
From Stdlib Require Import Ascii SpecFloat.

Abbreviation float64 := spec_float.

#[global] Instance float64_eq_dec : EqDecision float64.
Proof. solve_decision. Defined.

Definition fzero : float64 := S754_zero false.

(** The double nearest to [(-1)^neg * num / den], ties to even; infinite beyond the range. *)
Definition round_ratio (neg : bool) (num : N) (den : positive) : float64 :=
  match num with
  | N0 => S754_zero neg
  | Npos p => SFdiv 53 1024 (S754_finite neg p 0) (S754_finite false den 0)
  end.

(** The double nearest to [(-1)^neg * m * 10^e]. *)
Definition of_decimal (neg : bool) (m : N) (e : Z) : float64 :=
  if 0 <=? e then round_ratio neg (m * 10 ^ Z.to_N e) 1
  else round_ratio neg m (Pos.pow 10 (Z.to_pos (- e))).

Definition is_inf (f : float64) : bool := match f with S754_infinity _ => true | _ => false end.

(** ** [strconv.ParseFloat]

    The value and whether the error is nil; a value out of range is an infinity and an error,
    malformed text is zero and an error.  Decimal numbers and the names of the special values are
    read; hexadecimal mantissas and digit separators, which no program the agent reads from
    prints, count as malformed. *)

Fixpoint digit_run (s : string) : string * string :=
  match s with
  | String c s' => if is_digit c then let '(d, r) := digit_run s' in (String c d, r) else ("", s)
  | "" => ("", "")
  end.

Definition parse_exponent (s : string) : option Z :=
  match s with
  | "" => Some 0
  | String c s' =>
      if bool_decide (lower c = "e"%char) then
        let '(neg, digits) := match s' with
                              | String "-" d => (true, d)
                              | String "+" d => (false, d)
                              | _ => (false, s')
                              end in
        if bool_decide (digits = "") || negb (sforall is_digit digits) then None
        else let v := Z.min (Z.of_N (dec_val digits)) 10000 in Some (if neg then - v else v)
      else None
  end.

Definition parse_special (s : string) : option float64 :=
  let '(neg, signed, body) := match s with
                              | String "-" r => (true, true, r)
                              | String "+" r => (false, true, r)
                              | _ => (false, false, s)
                              end in
  let b := ToLower body in
  if bool_decide (b = "inf") || bool_decide (b = "infinity") then Some (S754_infinity neg)
  else if bool_decide (b = "nan") && negb signed then Some S754_nan
  else None.

Definition parse_decimal (s : string) : option float64 :=
  let '(neg, body) := match s with
                      | String "-" r => (true, r)
                      | String "+" r => (false, r)
                      | _ => (false, s)
                      end in
  let '(int, r1) := digit_run body in
  let '(frac, r2) := match r1 with String "." r => digit_run r | _ => ("", r1) end in
  if bool_decide (int +:+ frac = "") then None
  else e ← parse_exponent r2;
       Some (of_decimal neg (dec_val (int +:+ frac)) (e - Z.of_nat (slen frac))).

Definition ParseFloat (s : string) : float64 * bool :=
  match parse_special s with
  | Some f => (f, true)
  | None => match parse_decimal s with
            | Some f => (f, negb (is_inf f))
            | None => (fzero, false)
            end
  end.

(** ** The shortest decimal that reads back as the same double *)

(** [floor (num / den * 10^k)]. *)
Definition scaled (num : N) (den : positive) (k : Z) : N :=
  if 0 <=? k then (num * 10 ^ Z.to_N k / Npos den)%N else (num / (Npos den * 10 ^ Z.to_N (- k)))%N.

(** The decimal exponent [k] with [10^(k-1) <= num / den < 10^k], from an estimate that is at most
    one off. *)
Definition dec_exponent (num : N) (den : positive) : Z :=
  let est := (Z.of_N (N.log2 num) - Z.of_N (N.log2 (Npos den))) * 30103 / 100000 - 1 in
  let fits k := (0 <? scaled num den (1 - k))%N in
  if fits (est + 3) then est + 3 else if fits (est + 2) then est + 2 else if fits (est + 1) then est + 1 else est.

(** With [n] digits: the nearer of the two neighbours that reads back. *)
Definition try_digits (f : float64) (num : N) (den : positive) (k : Z) (n : nat) : option (N * Z) :=
  let e := Z.of_nat n - k in
  let lo := scaled num den e in
  let up := (lo + 1)%N in
  let twice := scaled (2 * num) den e in
  let reads d := bool_decide (of_decimal false d (- e) = f) in
  let order := if (twice <=? 2 * lo)%N then [lo; up] else [up; lo] in
  (fun d => (d, - e)) <$> List.find reads order.

Fixpoint shortest_from (f : float64) (num : N) (den : positive) (k : Z) (n fuel : nat) : N * Z :=
  match fuel with
  | O => (scaled num den (17 - k), k - 17)
  | S fuel' => match try_digits f num den k n with
               | Some d => d
               | None => shortest_from f num den k (S n) fuel'
               end
  end.

(** Drop the trailing zeros of a digit string. *)
Fixpoint trim_zeros (s : string) : string :=
  match s with
  | "" => ""
  | String c s' => let r := trim_zeros s' in
                   if bool_decide (r = "") && bool_decide (c = "0"%char) then "" else String c r
  end.

Fixpoint zeros (n : nat) : string := match n with O => "" | S m => String "0" (zeros m) end.

(** The digits and the position of the decimal point of a positive double: [0.digits * 10^k].
    Seventeen digits always read back. *)
Definition shortest (m : positive) (e : Z) : string * Z :=
  let '(num, den) := if 0 <=? e then (Npos m * 2 ^ Z.to_N e, 1%positive)%N
                     else (Npos m, Pos.pow 2 (Z.to_pos (- e))) in
  let f := S754_finite false m e in
  let '(d, ex) := shortest_from f num den (dec_exponent num den) 1 17 in
  let ds := utoa d in (trim_zeros ds, Z.of_nat (slen ds) + ex).

(** Plain notation from [1e-6] up to [1e21], scientific outside. *)
Definition layout (ds : string) (k : Z) : string :=
  let n := Z.of_nat (slen ds) in
  if (-5 <=? k) && (k <=? 21) then
    if k <=? 0 then "0." +:+ zeros (Z.to_nat (- k)) +:+ ds
    else if n <=? k then ds +:+ zeros (Z.to_nat (k - n))
    else stake (Z.to_nat k) ds +:+ "." +:+ sdrop (Z.to_nat k) ds
  else
    let ex := k - 1 in
    stake 1 ds +:+ (if n =? 1 then "" else "." +:+ sdrop 1 ds)
      +:+ "e" +:+ (if ex <? 0 then "-" +:+ utoa (Z.to_N (- ex))
                   else "+" +:+ (if ex <? 10 then "0" else "") +:+ utoa (Z.to_N ex)).

(** The number literal [encoding/json] writes; [None]: infinities and NaN are an error. *)
Definition json_float (f : float64) : option string :=
  match f with
  | S754_zero neg => Some (if neg then "-0" else "0")
  | S754_finite neg m e => let '(ds, k) := shortest m e in
                           Some ((if neg then "-" else "") +:+ layout ds k)
  | _ => None
  end.

Example ParseFloat_examples : ParseFloat "0.1" = (S754_finite false 7205759403792794 (-56), true)
  /\ (ParseFloat "1.2.3").2 = false /\ (ParseFloat ".").2 = false.
Proof. vm_compute. auto. Qed.
Example json_float_examples :
  (fun s => json_float (ParseFloat s).1) <$> ["0.1"; "12.345"; "0"; "100"; "33.3333"; "1e-7"; "1e21"; "123456789012345678"; "0.30000000000000004"; "5e-324"; "9007199254740993"; "-2.50"]
  = Some <$> ["0.1"; "12.345"; "0"; "100"; "33.3333"; "1e-7"; "1e+21"; "123456789012345680"; "0.30000000000000004"; "5e-324"; "9007199254740992"; "-2.5"].
Proof. vm_compute. reflexivity. Qed.
