(* ===== verification/GoNet.v ===== *)
(** Package [net]: textual IP addresses, CIDR prefixes and the address classes the agent asks
    about.  A [net.IP] is its bytes, sixteen of them for the result of [ParseIP]. *)

From S2P Require Import Prelude GoStrings.
From Stdlib Require Import Ascii.

Abbreviation IP := (list Z).

(** ** Parsing *)

(** One decimal octet: one or more digits, no leading zero, at most 255. *)
Definition parse_octet (s : string) : option Z :=
  if bool_decide (s = "") || negb (sforall is_digit s) then None
  else if HasPrefix s "0" && negb (bool_decide (s = "0")) then None
  else let v := Z.of_N (dec_val s) in if v <=? 255 then Some v else None.

(** Four octets between dots. *)
Definition parseIPv4 (s : string) : option IP :=
  match split_on "."%char s with
  | [_; _; _; _] as l => mapM parse_octet l
  | _ => None
  end.

(** The leading hexadecimal digits of a text: how many, their value, and the text after them. *)
Fixpoint hex_run (s : string) (acc : N) (n : nat) : nat * N * string :=
  match s with
  | String c s' =>
      match hex_val c with
      | Some d => hex_run s' (16 * acc + d)%N (S n)
      | None => (n, acc, s)
      end
  | "" => (n, acc, s)
  end.

(** The groups of an IPv6 address after an optional leading [::].  At most eight groups fit, so
    the loop runs at most eight times; the answer is the bytes and where [::] stood. *)
Fixpoint v6_groups (rounds : nat) (s : string) (ip : IP) (ellipsis : option nat) : option (IP * option nat * string) :=
  match rounds with
  | O => Some (ip, ellipsis, s)
  | S rounds' =>
      let '(n, acc, s') := hex_run s 0 0 in
      if ((n =? 0) || (4 <? n))%nat then None
      else if HasPrefix s' "." then
        if bool_decide (ellipsis = None) && negb (length ip =? 12)%nat then None
        else if (16 <? length ip + 4)%nat then None
        else v4 ← parseIPv4 s; Some (ip ++ v4, ellipsis, "")
      else
        let ip' := ip ++ [Z.of_N (acc / 256); Z.of_N (acc mod 256)] in
        if bool_decide (s' = "") then Some (ip', ellipsis, "")
        else if negb (HasPrefix s' ":") || bool_decide (s' = ":") then None
        else
          let s2 := sdrop 1 s' in
          if HasPrefix s2 ":" then
            match ellipsis with
            | Some _ => None
            | None =>
                let s3 := sdrop 1 s2 in
                if bool_decide (s3 = "") then Some (ip', Some (length ip'), "")
                else v6_groups rounds' s3 ip' (Some (length ip'))
            end
          else v6_groups rounds' s2 ip' ellipsis
  end.

Definition v6_expand (r : IP * option nat * string) : option IP :=
  let '(ip, ellipsis, s) := r in
  if negb (bool_decide (s = "")) then None
  else match ellipsis with
  | Some e => if (length ip <? 16)%nat
              then Some (take e ip ++ replicate (16 - length ip) 0 ++ drop e ip) else None
  | None => if (length ip =? 16)%nat then Some ip else None
  end.

(** An IPv6 address without a zone. *)
Definition parseIPv6 (s : string) : option IP :=
  if HasPrefix s "::" then
    let s := sdrop 2 s in
    if bool_decide (s = "") then Some (replicate 16 0) else v6_groups 8 s [] (Some 0%nat) ≫= v6_expand
  else v6_groups 8 s [] None ≫= v6_expand.

Definition v4_mapped (ip4 : IP) : IP := replicate 10 0 ++ [255; 255] ++ ip4.

(** [netip.ParseAddr] of an address without zone: the first dot, colon or percent sign decides
    which kind it is; [true] marks an IPv4 address. *)
Fixpoint addr_kind (s : string) : option bool :=
  match s with
  | "" => None
  | String "." _ => Some true
  | String ":" _ => Some false
  | String "%" _ => None
  | String _ s' => addr_kind s'
  end.
Definition ParseAddr (s : string) : option (bool * IP) :=
  match addr_kind s with
  | Some true => (fun ip => (true, ip)) <$> parseIPv4 s
  | Some false => if Contains s "%" then None else (fun ip => (false, ip)) <$> parseIPv6 s
  | None => None
  end.

(** [net.ParseIP]: always the sixteen-byte form. *)
Definition ParseIP (s : string) : option IP :=
  (fun r : bool * IP => if r.1 then v4_mapped r.2 else r.2) <$> ParseAddr s.

(** ** Prefixes *)

Record IPNet := MkIPNet { net_ip : IP; net_mask : IP }.

(** [net.CIDRMask(ones, 8*bytes)]. *)
Fixpoint CIDRMask (ones : Z) (bytes : nat) : IP :=
  match bytes with
  | O => []
  | S b => (if 8 <=? ones then 255 else 255 - (255 / 2 ^ Z.max ones 0)) :: CIDRMask (ones - 8) b
  end.

Definition mask_bytes (ip m : IP) : IP := zip_with Z.land ip m.

(** The prefix length after the slash: digits only, below [0xFFFFFF]. *)
Definition dtoi (s : string) : option Z :=
  if bool_decide (s = "") || negb (sforall is_digit s) then None
  else let v := Z.of_N (dec_val s) in if v <? 16777215 then Some v else None.

(** Cut a text at its first slash. *)
Fixpoint cut_slash (s : string) : option (string * string) :=
  match s with
  | "" => None
  | String "/" s' => Some ("", s')
  | String c s' => '(a, b) ← cut_slash s'; Some (String c a, b)
  end.

(** [net.ParseCIDR]: the network of the prefix. *)
Definition ParseCIDR (s : string) : option IPNet :=
  '(addr, mask) ← cut_slash s;
  '(is4, ip) ← ParseAddr addr;
  n ← dtoi mask;
  let bytes := if is4 : bool then 4%nat else 16%nat in
  if n <=? 8 * Z.of_nat bytes then
    let m := CIDRMask n bytes in Some (MkIPNet (mask_bytes ip m) m)
  else None.

(** ** Address classes *)

Definition To4 (ip : IP) : option IP :=
  if decide (length ip = 4%nat) then Some ip
  else if decide (take 12 ip = replicate 10 0 ++ [255; 255] /\ length ip = 16%nat) then Some (drop 12 ip)
  else None.

(** [n.Contains(ip)]. *)
Definition IPNet_Contains (n : IPNet) (ip : IP) : bool :=
  let ip := default ip (To4 ip) in
  bool_decide (length ip = length (net_ip n) /\
    mask_bytes (net_ip n) (net_mask n) = mask_bytes ip (net_mask n)).

(** Byte [i] of an address. *)
Definition byte (ip : IP) (i : nat) : Z := default 0 (ip !! i).

Definition IPv6loopback : IP := replicate 15 0 ++ [1].

Definition IsUnspecified (ip : IP) : bool :=
  match To4 ip with
  | Some ip4 => bool_decide (ip4 = [0; 0; 0; 0])
  | None => bool_decide (ip = replicate 16 0)
  end.

Definition IsLoopback (ip : IP) : bool :=
  match To4 ip with
  | Some ip4 => byte ip4 0 =? 127
  | None => bool_decide (ip = IPv6loopback)
  end.

Definition IsMulticast (ip : IP) : bool :=
  match To4 ip with
  | Some ip4 => Z.land (byte ip4 0) 240 =? 224
  | None => (length ip =? 16)%nat && (byte ip 0 =? 255)
  end.

Definition IsInterfaceLocalMulticast (ip : IP) : bool :=
  (length ip =? 16)%nat && (byte ip 0 =? 255) && (Z.land (byte ip 1) 15 =? 1).

Definition IsLinkLocalMulticast (ip : IP) : bool :=
  match To4 ip with
  | Some ip4 => (byte ip4 0 =? 224) && (byte ip4 1 =? 0) && (byte ip4 2 =? 0)
  | None => (length ip =? 16)%nat && (byte ip 0 =? 255) && (Z.land (byte ip 1) 15 =? 2)
  end.

Definition IsLinkLocalUnicast (ip : IP) : bool :=
  match To4 ip with
  | Some ip4 => (byte ip4 0 =? 169) && (byte ip4 1 =? 254)
  | None => (length ip =? 16)%nat && (byte ip 0 =? 254) && (Z.land (byte ip 1) 192 =? 128)
  end.

Definition IPv4bcast : IP := v4_mapped [255; 255; 255; 255].

Definition IsGlobalUnicast (ip : IP) : bool :=
  ((length ip =? 4)%nat || (length ip =? 16)%nat)
  && negb (bool_decide (To4 ip = Some [255; 255; 255; 255]))
  && negb (IsUnspecified ip) && negb (IsLoopback ip) && negb (IsMulticast ip)
  && negb (IsLinkLocalUnicast ip).

Example ParseIP_v4 : ParseIP "172.20.0.53" = Some (v4_mapped [172; 20; 0; 53]).
Proof. reflexivity. Qed.
Example ParseIP_v6 : ParseIP "fe80::ade0:1" =
  Some ([254; 128] ++ replicate 10 0 ++ [173; 224; 0; 1]).
Proof. reflexivity. Qed.
Example ParseIP_bad : [ParseIP "1.2.3"; ParseIP "01.2.3.4"; ParseIP "fe80::1%eth0"; ParseIP "1:2:3:4:5:6:7::8";
  ParseIP "1::2::3"; ParseIP "12345::"; ParseIP "-1.2.3.4"; ParseIP "dn42.eu"] =
  [None; None; None; None; None; None; None; None].
Proof. reflexivity. Qed.
