(* ===== verification/Host.v ===== *)
(** The node the agent runs on: the files it reads and writes through package [os] and the
    commands it runs through [os/exec].

    File operations have their documented effect or fail: [sys_faults] scripts which of the
    successive system calls fail and with what text, so a statement about every state covers
    every failure.  The programs the agent runs ([wg], [wg-quick], [birdc], [ping], ...) are not
    part of it: [run_cmd] is a parameter, and what the agent relies on is stated as laws. *)

From S2P Require Import Prelude GoStrings GoPath Json.
From stdpp Require Import sorting.
From Stdlib Require Import Ascii.

Record fnode := FNode { f_isdir : bool; f_data : string; f_perm : Z }.

Abbreviation fs := (gmap string fnode).

(** What a finished command gives back: [err == nil], [err.Error()], [Output()] and
    [CombinedOutput()]. *)
Record cmdres := CmdRes { cmd_ok : bool; cmd_err : string; cmd_stdout : string; cmd_output : string }.

(** The parameters: the node behind the files, the programs on it, and the wording of the errors
    [encoding/json] makes (which the agent only passes on). *)
Class HostEnv := {
  host : Type;
  run_cmd : list string -> fs * host -> cmdres * (fs * host);
  json_errmsg : option jval -> string;
}.

(** A scripted failure of a system call: its text and, for a write, how many bytes got through
    first. *)
Record fault := Fault { ft_text : string; ft_written : nat }.

(** Byte-wise order on names, the order of [os.ReadDir] and of a bolt cursor. *)
Definition str_le (a b : string) : Prop := String.leb a b = true.
#[global] Instance str_le_dec : RelDecision str_le.
Proof. intros a b. unfold str_le. apply _. Defined.

Definition by_key {A} (a b : string * A) : Prop := str_le a.1 b.1.
#[global] Instance by_key_dec {A} : RelDecision (@by_key A).
Proof. intros a b. unfold by_key. apply _. Defined.

Section sys.
Context `{env : HostEnv}.

Record Sys := MkSys { sys_fs : fs; sys_host : host; sys_faults : list (option fault) }.

Definition set_fs (f : fs) (s : Sys) : Sys := MkSys f (sys_host s) (sys_faults s).

(** Does the next system call fail? *)
Definition next_fault : M Sys (option fault) := fun s =>
  match sys_faults s with
  | [] => (Ret None, s)
  | x :: l => (Ret x, MkSys (sys_fs s) (sys_host s) l)
  end.

Definition path_error (notexist : bool) (op path why : string) : error :=
  Error notexist (op +:+ " " +:+ path +:+ ": " +:+ why).
Definition ENOENT : string := "no such file or directory".
Definition EISDIR : string := "is a directory".

(** A system call on the files: fails as scripted, or computes its answer and the new files. *)
Definition syscall {A} (op path : string) (f : fs -> res A * fs) : M Sys (res A) :=
  ft ← next_fault;
  match ft with
  | Some e => mret (Err (path_error false op path (ft_text e)))
  | None => fun s => let '(r, fs') := f (sys_fs s) in (Ret r, set_fs fs' s)
  end.

(** [os.OpenFile(path, O_CREATE|O_WRONLY|O_TRUNC, perm)]: the permissions only apply to a file it
    creates. *)
Definition OpenTrunc (path : string) (perm : Z) : M Sys (res unit) :=
  syscall "open" path (fun files =>
    match files !! path with
    | Some n => if f_isdir n then (Err (path_error false "open" path EISDIR), files)
                else (Ok tt, <[path := FNode false "" (f_perm n)]> files)
    | None => (Ok tt, <[path := FNode false "" perm]> files)
    end).

(** Writing [data] to the freshly truncated file at [path]; a failed write leaves a prefix. *)
Definition WriteOpened (path data : string) : M Sys (res unit) :=
  ft ← next_fault;
  let put d s := set_fs (alter (fun n => FNode (f_isdir n) d (f_perm n)) path (sys_fs s)) s in
  match ft with
  | Some e => modify (put (stake (ft_written e) data)) ≫= fun _ =>
              mret (Err (path_error false "write" path (ft_text e)))
  | None => modify (put data) ≫= fun _ => mret (Ok tt)
  end.

Definition child_of (dir path : string) : option string :=
  if HasPrefix path (dir +:+ "/") then
    let name := sdrop (slen dir + 1) path in
    if bool_decide (name = "") || Contains name "/" then None else Some name
  else None.

(** [os.Remove] of a file or an empty directory. *)
Definition Remove (path : string) : M Sys (res unit) :=
  syscall "remove" path (fun files =>
    match files !! path with
    | None => (Err (path_error true "remove" path ENOENT), files)
    | Some n =>
        if f_isdir n && existsb (fun kv => bool_decide (is_Some (child_of path kv.1))) (map_to_list files)
        then (Err (path_error false "remove" path "directory not empty"), files)
        else (Ok tt, delete path files)
    end).

(** [os.Stat]. *)
Definition Stat (path : string) : M Sys (res fnode) :=
  syscall "stat" path (fun files =>
    match files !! path with
    | None => (Err (path_error true "stat" path ENOENT), files)
    | Some n => (Ok n, files)
    end).

(** [os.IsNotExist(err)] on the error of a [Stat]. *)
Definition IsNotExist {A} (r : res A) : bool :=
  match r with Err e => err_notexist e | Ok _ => false end.

(** [os.ReadFile]. *)
Definition ReadFile (path : string) : M Sys (res string) :=
  syscall "open" path (fun files =>
    match files !! path with
    | None => (Err (path_error true "open" path ENOENT), files)
    | Some n => if f_isdir n then (Err (path_error false "read" path EISDIR), files)
                else (Ok (f_data n), files)
    end).

Definition entries (dir : string) (files : fs) : list (string * bool) :=
  let named := omap (fun kv => (fun n => (n, f_isdir kv.2)) <$> child_of dir kv.1) (map_to_list files) in
  merge_sort by_key named.

(** [os.ReadDir]: the entries of a directory by name.  A directory is there when it has a node of
    its own or something in it. *)
Definition ReadDir (dir : string) : M Sys (res (list (string * bool))) :=
  syscall "open" dir (fun files =>
    match files !! Clean dir, entries (Clean dir) files with
    | Some n, l => if f_isdir n then (Ok l, files) else (Err (path_error false "readdirent" dir "not a directory"), files)
    | None, [] => (Err (path_error true "open" dir ENOENT), files)
    | None, l => (Ok l, files)
    end).

(** [os.Rename]. *)
Definition Rename (src dst : string) : M Sys (res unit) :=
  syscall "rename" (src +:+ " " +:+ dst) (fun files =>
    match files !! src with
    | None => (Err (path_error true "rename" (src +:+ " " +:+ dst) ENOENT), files)
    | Some n =>
        match files !! dst with
        | Some m => if f_isdir m then (Err (path_error false "rename" (src +:+ " " +:+ dst) EISDIR), files)
                    else (Ok tt, <[dst := n]> (delete src files))
        | None => (Ok tt, <[dst := n]> (delete src files))
        end
    end).

(** [os.Chmod]. *)
Definition Chmod (path : string) (perm : Z) : M Sys (res unit) :=
  syscall "chmod" path (fun files =>
    match files !! path with
    | None => (Err (path_error true "chmod" path ENOENT), files)
    | Some n => (Ok tt, <[path := FNode (f_isdir n) (f_data n) perm]> files)
    end).

(** A system call whose only effect on the files can be to fail: [Open] for reading, [Sync],
    [Close]. *)
Definition touch (op path : string) : M Sys (res unit) :=
  syscall op path (fun files => (Ok tt, files)).

(** [exec.Command(argv[0], argv[1:]...)] run to its end. *)
Definition run (argv : list string) : M Sys cmdres := fun s =>
  let '(r, (fs', h')) := run_cmd argv (sys_fs s, sys_host s) in
  (Ret r, MkSys fs' h' (sys_faults s)).

(** ** Rules *)

(** A system call fails and changes nothing, or takes effect. *)
Lemma wp_syscall {A} op path (f : fs -> res A * fs) (Q : res A -> Sys -> Prop) s :
  (forall e fl, err_notexist e = false -> Q (Err e) (MkSys (sys_fs s) (sys_host s) fl)) ->
  (forall fl, Q (f (sys_fs s)).1 (MkSys (f (sys_fs s)).2 (sys_host s) fl)) ->
  wp (syscall op path f) Q s.
Proof.
  intros Herr Hok. destruct s as [files h [|[e|] fl]]; unfold wp, syscall, mbind, M_bind, next_fault; cbn in *.
  - specialize (Hok []). by destruct (f files).
  - by apply Herr.
  - specialize (Hok fl). by destruct (f files).
Qed.

(** Without a scripted failure the calls do what they are for. *)
Lemma syscall_ok {A} op path (f : fs -> res A * fs) files h :
  syscall op path f (MkSys files h []) = (Ret (f files).1, MkSys (f files).2 h []).
Proof. unfold syscall, mbind, M_bind. cbn. by destruct (f files). Qed.

Definition no_dir (files : fs) (path : string) : Prop := forall n, files !! path = Some n -> f_isdir n = false.

Lemma OpenTrunc_ok path perm files h : no_dir files path -> exists p,
  OpenTrunc path perm (MkSys files h []) = (Ret (Ok tt), MkSys (<[path := FNode false "" p]> files) h []).
Proof.
  intros Hd. unfold OpenTrunc. rewrite syscall_ok. unfold no_dir in Hd.
  destruct (files !! path) as [n|]; [rewrite (Hd n eq_refl)|]; cbn [fst snd]; eauto.
Qed.

Lemma WriteOpened_ok path d0 p data files h :
  WriteOpened path data (MkSys (<[path := FNode false d0 p]> files) h [])
  = (Ret (Ok tt), MkSys (<[path := FNode false data p]> files) h []).
Proof.
  unfold WriteOpened, mbind, M_bind, next_fault, modify, set_fs. cbn -[alter]. do 2 f_equal.
  apply map_eq. intros k. rewrite lookup_alter, !lookup_insert. repeat case_decide; subst; done.
Qed.

Lemma Remove_ok path files h : no_dir files path -> exists r,
  Remove path (MkSys files h []) = (Ret r, MkSys (delete path files) h []).
Proof.
  intros Hd. unfold Remove. rewrite syscall_ok. unfold no_dir in Hd.
  destruct (files !! path) as [n|] eqn:E; [rewrite (Hd n eq_refl)|]; cbn [fst snd andb]; [eauto|].
  rewrite delete_id by done. eauto.
Qed.

Lemma wp_OpenTrunc path perm (Q : res unit -> Sys -> Prop) s :
  (forall e fl, Q (Err e) (MkSys (sys_fs s) (sys_host s) fl)) ->
  (forall p fl, Q (Ok tt) (MkSys (<[path := FNode false "" p]> (sys_fs s)) (sys_host s) fl)) ->
  wp (OpenTrunc path perm) Q s.
Proof.
  intros Herr Hok. apply wp_syscall; [auto|]. intros fl.
  destruct (sys_fs s !! path) as [n|] eqn:E; [|cbn; apply Hok].
  destruct (f_isdir n); cbn; [apply Herr|apply Hok].
Qed.

Lemma wp_WriteOpened path d0 p data (Q : res unit -> Sys -> Prop) files h fl0 :
  (forall e d fl, Q (Err e) (MkSys (<[path := FNode false d p]> files) h fl)) ->
  (forall fl, Q (Ok tt) (MkSys (<[path := FNode false data p]> files) h fl)) ->
  wp (WriteOpened path data) Q (MkSys (<[path := FNode false d0 p]> files) h fl0).
Proof.
  intros Herr Hok. unfold WriteOpened. apply wp_bind.
  assert (Ha : forall d, alter (fun n => FNode (f_isdir n) d (f_perm n)) path
      (<[path := FNode false d0 p]> files) = <[path := FNode false d p]> files).
  { intros d. apply map_eq. intros k. rewrite lookup_alter, !lookup_insert.
    repeat case_decide; subst; done. }
  destruct fl0 as [|[e|] fl]; unfold wp at 1, next_fault; cbn -[alter];
    wp_steps; unfold set_fs; cbn -[alter]; rewrite Ha; [apply Hok|apply Herr|apply Hok].
Qed.

(** Removing a plain file: afterwards it is gone, unless the call failed. *)
Lemma wp_Remove path (Q : res unit -> Sys -> Prop) s :
  (forall e fl, Q (Err e) (MkSys (sys_fs s) (sys_host s) fl)) ->
  (forall fl, Q (Ok tt) (MkSys (delete path (sys_fs s)) (sys_host s) fl)) ->
  wp (Remove path) Q s.
Proof.
  intros Herr Hok. apply wp_syscall; [auto|]. intros fl.
  destruct (sys_fs s !! path) as [n|]; [|apply Herr]. case_match; [apply Herr|apply Hok].
Qed.

Lemma Remove_cases path s : exists r s', Remove path s = (Ret r, s') /\ sys_host s' = sys_host s /\
  (sys_fs s' = sys_fs s \/ sys_fs s' = delete path (sys_fs s)) /\
  (sys_faults s = [] -> (forall n, sys_fs s !! path = Some n -> f_isdir n = false) -> sys_fs s' !! path = None).
Proof.
  unfold Remove, syscall, mbind, M_bind, next_fault. destruct s as [files h [|ft fl]]; cbn [sys_faults sys_fs sys_host].
  - destruct (files !! path) as [n|] eqn:E; [|by eexists _, _; split_and!; auto].
    destruct (f_isdir n) eqn:Ed.
    + destruct (existsb _ _); cbn [andb]; eexists _, _; (split_and!; [done|done|cbn; auto|]); intros _ Hn;
        specialize (Hn n eq_refl); congruence.
    + eexists _, _; split_and!; [done|done|cbn; auto|]. intros. cbn. apply lookup_delete_eq.
  - destruct ft; [by eexists _, _; split_and!; auto|].
    cbn [sys_fs]. destruct (files !! path) as [n|]; [destruct (f_isdir n), (existsb _ _)|]; cbn [andb]; eexists _, _;
      (split_and!; [done|done|cbn; auto|done]).
Qed.

Lemma wp_Stat path (Q : res fnode -> Sys -> Prop) s :
  (forall r fl, (sys_fs s !! path <> None -> IsNotExist r = false) ->
     Q r (MkSys (sys_fs s) (sys_host s) fl)) ->
  wp (Stat path) Q s.
Proof.
  intros HQ. apply wp_syscall; [intros; by apply HQ|]. intros fl.
  destruct (sys_fs s !! path); cbn; by apply HQ.
Qed.

Lemma wp_run_cmd argv (Q : cmdres -> Sys -> Prop) s :
  (let x := run_cmd argv (sys_fs s, sys_host s) in
   Q x.1 (MkSys x.2.1 x.2.2 (sys_faults s))) ->
  wp (run argv) Q s.
Proof. unfold wp, run. by destruct (run_cmd argv (sys_fs s, sys_host s)) as [r [f' h']]. Qed.

End sys.

#[global] Arguments Sys {env}.
#[global] Arguments MkSys {env} _ _ _.

(** The programs the agent runs do not write files of the agent. *)
Class QuietCommands (env : HostEnv) : Prop :=
  run_cmd_fs : forall argv files h, (run_cmd argv (files, h)).2.1 = files.
