(* ===== verification/SimHost.v ===== *)
(** A small concrete host: interfaces that [wg-quick] brings up and down, a BIRD whose check and
    reload can be made to fail, and canned outputs.  It shows that the laws assumed of the
    programs on the host can hold. *)

From S2P Require Import Prelude GoStrings GoPath Json Host.

Record sim := MkSim {
  sim_up : gset string;        (* interfaces that exist *)
  sim_check : bool;            (* does [birdc configure check] accept? *)
  sim_reload : bool;           (* does [birdc configure] succeed? *)
  sim_output : string;         (* the output of every other command *)
}.

Definition sim_conf_dir : string := "/etc/wireguard".
Definition sim_conf (i : string) : string := Join [sim_conf_dir; i +:+ ".conf"].

Definition answer (ok : bool) (out : string) : cmdres :=
  CmdRes ok (if ok then "" else "exit status 1") out out.

Definition sim_run (argv : list string) (st : gmap string fnode * sim) : cmdres * (gmap string fnode * sim) :=
  let '(files, h) := st in
  let set_up u := MkSim u (sim_check h) (sim_reload h) (sim_output h) in
  match argv with
  | [prog; verb; i] =>
      if decide (prog = "wg-quick" /\ verb = "up") then
        if decide (i ∈ sim_up h) then (answer false "already exists", st)
        else (answer true "", (files, set_up ({[i]} ∪ sim_up h)))
      else if decide (prog = "wg-quick" /\ verb = "down") then
        if decide (i ∈ sim_up h /\ is_Some (files !! sim_conf i)) then
          (answer true "", (files, set_up (sim_up h ∖ {[i]})))
        else (answer false "is not a WireGuard interface", st)
      else if decide (prog = "wg" /\ verb = "show") then
        (answer (bool_decide (i ∈ sim_up h)) "", st)
      else if decide (verb = "configure") then (answer (sim_check h) "", st)
      else (answer true (sim_output h), st)
  | [_; verb] =>
      if decide (verb = "configure") then (answer (sim_reload h) "", st) else (answer true (sim_output h), st)
  | _ => (answer true (sim_output h), st)
  end.

Lemma sim_run_up i files h : sim_run ["wg-quick"; "up"; i] (files, h) =
  if decide (i ∈ sim_up h) then (answer false "already exists", (files, h))
  else (answer true "", (files, MkSim ({[i]} ∪ sim_up h) (sim_check h) (sim_reload h) (sim_output h))).
Proof. unfold sim_run. by rewrite decide_True. Qed.

Lemma sim_run_down i files h : sim_run ["wg-quick"; "down"; i] (files, h) =
  if decide (i ∈ sim_up h /\ is_Some (files !! sim_conf i))
  then (answer true "", (files, MkSim (sim_up h ∖ {[i]}) (sim_check h) (sim_reload h) (sim_output h)))
  else (answer false "is not a WireGuard interface", (files, h)).
Proof. unfold sim_run. rewrite decide_False by naive_solver. by rewrite decide_True. Qed.

Lemma sim_run_show i files h :
  sim_run ["wg"; "show"; i] (files, h) = (answer (bool_decide (i ∈ sim_up h)) "", (files, h)).
Proof. unfold sim_run. rewrite !decide_False by naive_solver. by rewrite decide_True. Qed.

#[global] Instance SimEnv : HostEnv := {|
  host := sim;
  run_cmd := sim_run;
  json_errmsg _ := "invalid JSON";
|}.

#[global] Instance sim_quiet : QuietCommands SimEnv.
Proof.
  intros argv files h. cbn. destruct argv as [|? [|? [|? [|]]]]; cbn [sim_run]; repeat case_match; by simplify_eq.
Qed.

(** No command changes how BIRD is made to behave. *)
Lemma sim_settings argv files h check reload : sim_check h = check /\ sim_reload h = reload ->
  sim_check (sim_run argv (files, h)).2.2 = check /\ sim_reload (sim_run argv (files, h)).2.2 = reload.
Proof. destruct argv as [|? [|? [|? [|]]]]; cbn [sim_run]; repeat case_match; by simplify_eq. Qed.

Definition sim0 : sim := MkSim ∅ true true "".
Definition sim_sys (h : sim) : Sys := MkSys (env := SimEnv) ∅ h [].
