(* ===== verification/Store.v ===== *)
(** Package [store]: the agent's persistent state in a bolt database (src/internal/store).

    bbolt is a library: its database is a parameter, the class [Bolt], and what the store relies
    on is the class [BoltLaws].  [MemBolt] is a database that satisfies them.  The store's own
    operations are defined over the interface, and refine an abstract store: a map of peers and
    a few optional values. *)

From S2P Require Import Prelude GoStrings Json JsonFacts GoStruct Host.
From stdpp Require Import sorting.
From Stdlib Require Import Ascii.
Open Scope Z_scope.

(** ** The database interface *)

(** Transactions read and write buckets of byte-string pairs; [b_cursor] is what a cursor walks
    over, [b_keyn] is [Stats().KeyN]. *)
Class Bolt := {
  db : Type;
  b_create : string -> db -> res db;
  b_has : string -> db -> bool;
  b_get : string -> string -> db -> option string;
  b_put : string -> string -> string -> db -> res db;
  b_delete : string -> string -> db -> res db;
  b_cursor : string -> db -> list (string * string);
  b_keyn : string -> db -> Z;
}.

(** Largest key and value bolt accepts. *)
Definition MaxKeySize : Z := 32768.
Definition MaxValueSize : Z := 2^31 - 2.

Definition key_ok (k v : string) : bool :=
  negb (bool_decide (k = "")) && (Z.of_nat (slen k) <=? MaxKeySize) && (Z.of_nat (slen v) <=? MaxValueSize).

(** Documented behaviour of bbolt: a put of an acceptable pair succeeds and is seen by later
    reads of its key only, an empty or oversized key or an oversized value is refused, deletes
    succeed and remove one key, the cursor walks over the pairs in key order. *)
Class BoltLaws (B : Bolt) : Prop := {
  b_create_has : forall b d d', b_create b d = Ok d' -> b_has b d' = true;
  b_create_keep : forall b b' d d', b_create b d = Ok d' -> b_has b' d = true -> b_has b' d' = true;
  b_create_get : forall b b' k d d', b_create b d = Ok d' -> b_get b' k d' = b_get b' k d;
  b_put_ok : forall b k v d, b_has b d = true -> key_ok k v = true -> exists d', b_put b k v d = Ok d';
  b_put_bad : forall b k v d, key_ok k v = false -> is_ok (b_put b k v d) = false;
  b_put_get : forall b k v d d' b' k', b_put b k v d = Ok d' ->
    b_get b' k' d' = if decide (b = b' /\ k = k') then Some v else b_get b' k' d;
  b_put_has : forall b k v d d' b', b_put b k v d = Ok d' -> b_has b' d' = b_has b' d;
  b_delete_ok : forall b k d, b_has b d = true -> exists d', b_delete b k d = Ok d';
  b_delete_get : forall b k d d' b' k', b_delete b k d = Ok d' ->
    b_get b' k' d' = if decide (b = b' /\ k = k') then None else b_get b' k' d;
  b_delete_has : forall b k d d' b', b_delete b k d = Ok d' -> b_has b' d' = b_has b' d;
  b_cursor_in : forall b d k v, (k, v) ∈ b_cursor b d <-> b_get b k d = Some v;
  b_cursor_nodup : forall b d, NoDup (b_cursor b d).*1;
  b_cursor_sorted : forall b d, Sorted str_le (b_cursor b d).*1;
  b_keyn_len : forall b d, b_keyn b d = Z.of_nat (length (b_cursor b d));
}.

(** ** The store *)

Definition bucketPeers : string := "peers".
Definition bucketMeta : string := "meta".
Definition bucketKeys : string := "keys".
Definition keyVersion : string := "version".
Definition keyUpdateID : string := "update_id".
Definition keyLocalPriv : string := "local_priv".
Definition keyLocalPub : string := "local_pub".
Definition keyServerPub : string := "server_pub".

Record PeerInfo := MkPeerInfo {
  ASN : Z;
  RemoteLLA : string;
  WgInterface : string;
  BgpProtoName : string;
  BirdConfigFilename : string;
}.

#[global] Instance PeerInfo_eq_dec : EqDecision PeerInfo.
Proof. solve_decision. Defined.

Definition PeerInfo_zero : PeerInfo := MkPeerInfo 0 "" "" "" "".

Definition PeerInfo_fields : sfields PeerInfo := [
  ("asn", d_int (fun z i => MkPeerInfo z (RemoteLLA i) (WgInterface i) (BgpProtoName i) (BirdConfigFilename i)));
  ("remote_lla", d_string (fun s i => MkPeerInfo (ASN i) s (WgInterface i) (BgpProtoName i) (BirdConfigFilename i)));
  ("wg_interface", d_string (fun s i => MkPeerInfo (ASN i) (RemoteLLA i) s (BgpProtoName i) (BirdConfigFilename i)));
  ("bgp_proto_name", d_string (fun s i => MkPeerInfo (ASN i) (RemoteLLA i) (WgInterface i) s (BirdConfigFilename i)));
  ("bird_config_filename", d_string (fun s i => MkPeerInfo (ASN i) (RemoteLLA i) (WgInterface i) (BgpProtoName i) s))
].

(** [json.Marshal(info)] and [json.Unmarshal(data, &info)]. *)
Definition marshal_peer (i : PeerInfo) : string :=
  json_print (JObj (e_int "asn" (ASN i) ++ e_string "remote_lla" (RemoteLLA i)
    ++ e_string "wg_interface" (WgInterface i) ++ e_string "bgp_proto_name" (BgpProtoName i)
    ++ e_string_omit "bird_config_filename" (BirdConfigFilename i))).

Definition unmarshal_peer (data : string) : option PeerInfo :=
  Unmarshal PeerInfo_fields PeerInfo_zero (json_parse data).

#[global] Arguments marshal_peer : simpl never.
#[global] Arguments unmarshal_peer : simpl never.

(** The open database, whether [Close] was called, and the script of commits that fail. *)
Section store.
Context `{B : Bolt}.

Record Store := MkStore { st_db : db; st_open : bool; st_faults : list (option string) }.

Definition db_closed : error := errorf "database not open".

(** [db.Update]: the function runs on a copy; its error, or a failed commit, rolls it back. *)
Definition Update (fn : db -> res db) : M Store (res unit) := fun s =>
  if st_open s then
    match fn (st_db s) with
    | Err e => (Ret (Err e), s)
    | Ok d' =>
        match st_faults s with
        | Some e :: l => (Ret (Err (errorf e)), MkStore (st_db s) (st_open s) l)
        | None :: l => (Ret (Ok tt), MkStore d' (st_open s) l)
        | [] => (Ret (Ok tt), MkStore d' (st_open s) [])
        end
    end
  else (Ret (Err db_closed), s).

(** [db.View]. *)
Definition View {A} (fn : db -> res A) : M Store (res A) := fun s =>
  (Ret (if st_open s then fn (st_db s) else Err db_closed), s).

(** [Open]: [opened] is what [bolt.Open] gave, a new or an existing database or an error. *)
Definition Open (opened : res db) (faults : list (option string)) : res Store :=
  match opened with
  | Err e => Err (wrap "bolt open" e)
  | Ok d =>
      let created :=
        res_bind (res_wrap "create peers bucket" (b_create bucketPeers d)) (fun d1 =>
        res_bind (res_wrap "create meta bucket" (b_create bucketMeta d1)) (fun d2 =>
        res_wrap "create keys bucket" (b_create bucketKeys d2))) in
      match created, faults with
      | Err e, _ => Err e
      | Ok _, Some e :: _ => Err (errorf e)
      | Ok d3, None :: l => Ok (MkStore d3 true l)
      | Ok d3, [] => Ok (MkStore d3 true [])
      end
  end.

Definition Close : M Store unit := modify (fun s => MkStore (st_db s) false (st_faults s)).

Definition PutPeer (peerID : string) (info : PeerInfo) : M Store (res unit) :=
  Update (b_put bucketPeers peerID (marshal_peer info)).

(** The wording of a decoding error is the library's; nothing looks at it. *)
Definition decode_error : error := errorf "json: cannot unmarshal".

Definition GetPeer (peerID : string) : M Store (res PeerInfo) :=
  View (fun d =>
    match b_get bucketPeers peerID d with
    | None => Err (errorf ("peer " +:+ peerID +:+ " not found"))
    | Some data => match unmarshal_peer data with
                   | Some info => Ok info
                   | None => Err decode_error
                   end
    end).

Definition DeletePeer (peerID : string) : M Store (res unit) :=
  Update (b_delete bucketPeers peerID).

(** The loop of [ForEachPeer]: the callback on every value that decodes, in the order of the
    cursor, until it returns an error.  What the callback assigns outside itself is the
    accumulator. *)
Fixpoint each_peer {T} (fn : T -> string -> PeerInfo -> T * option error) (l : list (string * string)) (acc : T)
  : T * option error :=
  match l with
  | [] => (acc, None)
  | (k, v) :: l' =>
      match unmarshal_peer v with
      | None => each_peer fn l' acc
      | Some info =>
          match fn acc k info with
          | (acc', Some e) => (acc', Some e)
          | (acc', None) => each_peer fn l' acc'
          end
      end
  end.

Definition ForEachPeer {T} (fn : T -> string -> PeerInfo -> T * option error) (acc : T) : M Store (T * option error) :=
  fun s => (Ret (if st_open s then each_peer fn (b_cursor bucketPeers (st_db s)) acc else (acc, Some db_closed)), s).

Definition PeerCount : M Store (res Z) :=
  View (fun d => Ok (if b_has bucketPeers d then b_keyn bucketPeers d else 0)).

(** Delete every key the cursor met, then put the new peers, in one transaction. *)
Definition delete_all (keys : list string) (d : db) : res db :=
  fold_left (fun acc k => res_bind acc (b_delete bucketPeers k)) keys (Ok d).
Definition put_all (peers : list (string * PeerInfo)) (d : db) : res db :=
  fold_left (fun acc p => res_bind acc (b_put bucketPeers p.1 (marshal_peer p.2))) peers (Ok d).

(** [ReplaceAll(peers)]; [range] visits the map in an unspecified order, here that of
    [map_to_list], and no two entries share a key. *)
Definition ReplaceAll (peers : gmap string PeerInfo) : M Store (res unit) :=
  Update (fun d => res_bind (delete_all (b_cursor bucketPeers d).*1 d) (put_all (map_to_list peers))).

(** The loop of [IsASNTracked] stops at the first match. *)
Fixpoint asn_found (asn : Z) (l : list (string * string)) : bool :=
  match l with
  | [] => false
  | (_, v) :: l' =>
      match unmarshal_peer v with
      | None => asn_found asn l'
      | Some info => if ASN info =? asn then true else asn_found asn l'
      end
  end.

Definition IsASNTracked (asn : Z) : M Store (res bool) :=
  View (fun d => Ok (asn_found asn (b_cursor bucketPeers d))).

Definition GetVersion : M Store (res string) :=
  View (fun d => Ok (default "" (b_get bucketMeta keyVersion d))).
Definition PutVersion (v : string) : M Store (res unit) := Update (b_put bucketMeta keyVersion v).
Definition GetUpdateID : M Store (res string) :=
  View (fun d => Ok (default "" (b_get bucketMeta keyUpdateID d))).
Definition PutUpdateID (id : string) : M Store (res unit) := Update (b_put bucketMeta keyUpdateID id).

Definition HasKeyPair : M Store bool :=
  r ← View (fun d => Ok (b_has bucketKeys d && bool_decide (is_Some (b_get bucketKeys keyLocalPriv d))
         && bool_decide (is_Some (b_get bucketKeys keyLocalPub d))));
  mret (match r with Ok b => b | Err _ => false end).

Definition PutKeyPair (priv pub : string) : M Store (res unit) :=
  Update (fun d => res_bind (b_put bucketKeys keyLocalPriv priv d) (b_put bucketKeys keyLocalPub pub)).

Definition GetKeyPair : M Store (res (string * string)) :=
  View (fun d =>
    if b_has bucketKeys d then
      match b_get bucketKeys keyLocalPriv d, b_get bucketKeys keyLocalPub d with
      | Some priv, Some pub => Ok (priv, pub)
      | _, _ => Err (errorf "key pair not found")
      end
    else Err (errorf "keys bucket not found")).

Definition PutServerPubKey (pub : string) : M Store (res unit) := Update (b_put bucketKeys keyServerPub pub).

Definition GetServerPubKey : M Store (res string) :=
  View (fun d =>
    if b_has bucketKeys d then
      match b_get bucketKeys keyServerPub d with
      | Some pub => Ok pub
      | None => Err (errorf "server public key not found")
      end
    else Err (errorf "keys bucket not found")).

End store.
