(* ===== verification/StoreFacts.v ===== *)
(** The store keeps what it is given: codec round trip, a database that satisfies the bolt laws,
    and the refinement of the abstract store. *)

From S2P Require Import Prelude GoStrings Json JsonFacts GoStruct Host Store.
From stdpp Require Import sorting.
From Stdlib Require Import Ascii.
Open Scope Z_scope.

(** ** A peer survives encoding and decoding *)

(** What a peer the agent stores looks like: its text fields come out of decoded JSON, so they
    are UTF-8. *)
Definition peer_wf (i : PeerInfo) : Prop :=
  int64 (ASN i) /\ valid_utf8 (RemoteLLA i) = true /\ valid_utf8 (WgInterface i) = true
  /\ valid_utf8 (BgpProtoName i) = true /\ valid_utf8 (BirdConfigFilename i) = true.

#[global] Instance int64_dec z : Decision (int64 z).
Proof. unfold int64. apply _. Defined.
#[global] Instance peer_wf_dec i : Decision (peer_wf i).
Proof. unfold peer_wf. apply _. Defined.

Lemma unmarshal_marshal i : peer_wf i -> unmarshal_peer (marshal_peer i) = Some i.
Proof.
  intros (Hz & H1 & H2 & H3 & H4). unfold unmarshal_peer, marshal_peer.
  rewrite json_parse_print.
  - destruct i as [asn lla wg proto file].
    cbn [Unmarshal mbind option_bind decode_struct]. unfold e_int, e_string, e_string_omit.
    cbn [ASN RemoteLLA WgInterface BgpProtoName BirdConfigFilename] in *. cbn [app].
    erewrite decode_members_cons; [|reflexivity|by apply d_int_Itoa].
    do 3 (erewrite decode_members_cons; [|reflexivity|reflexivity]).
    case_decide; subst; [reflexivity|].
    by erewrite decode_members_cons; [|reflexivity|reflexivity].
  - unfold e_int, e_string, e_string_omit. cbn [app].
    apply json_wf_obj_cons; [done|by apply json_wf_int|].
    do 3 (apply json_wf_obj_cons; [done|done|]).
    case_decide; [done|]. by apply json_wf_obj_cons.
  - unfold e_string_omit. by case_decide.
Qed.

(** ** An in-memory database satisfies the laws *)

Lemma ascii_compare_refl c : Ascii.compare c c = Eq.
Proof. apply N.compare_refl. Qed.

#[global] Instance str_le_total : Total str_le.
Proof.
  intros a b. unfold str_le, String.leb. rewrite (String.compare_antisym a b).
  destruct (String.compare b a); cbn; auto.
Qed.
#[global] Instance by_key_total {A} : Total (@by_key A).
Proof. intros a b. apply str_le_total. Qed.

Lemma by_key_sorted {A} (l : list (string * A)) : Sorted by_key l -> Sorted str_le l.*1.
Proof.
  induction 1 as [|x l Hs IH Hh]; [constructor|]. constructor; [done|].
  destruct Hh; constructor. done.
Qed.

Definition mem_bucket (b : string) (d : gmap string (gmap string string)) : gmap string string :=
  default ∅ (d !! b).

#[global] Instance MemBolt : Bolt := {
  db := gmap string (gmap string string);
  b_create b d := Ok (match d !! b with Some _ => d | None => <[b := ∅]> d end);
  b_has b d := bool_decide (is_Some (d !! b));
  b_get b k d := mem_bucket b d !! k;
  b_put b k v d :=
    match d !! b with
    | Some m => if key_ok k v then Ok (<[b := <[k := v]> m]> d) else Err (errorf "key required")
    | None => Err (errorf "bucket not found")
    end;
  b_delete b k d := Ok (match d !! b with Some m => <[b := delete k m]> d | None => d end);
  b_cursor b d := merge_sort by_key (map_to_list (mem_bucket b d));
  b_keyn b d := Z.of_nat (size (mem_bucket b d));
}.

Lemma mem_bucket_insert b m d b' :
  mem_bucket b' (<[b := m]> d) = if decide (b = b') then m else mem_bucket b' d.
Proof. unfold mem_bucket. rewrite lookup_insert. by case_decide. Qed.

Lemma mem_has_insert b (m : gmap string string) d b' : is_Some (d !! b) ->
  bool_decide (is_Some (<[b := m]> d !! b')) = bool_decide (is_Some ((d : gmap string (gmap string string)) !! b')).
Proof.
  intros Hb. apply bool_decide_ext. rewrite lookup_insert. case_decide; [subst|done].
  split; intros; eauto.
Qed.

#[global] Instance MemBolt_laws : BoltLaws MemBolt.
Proof.
  split; cbn.
  - intros b d ? [= <-]. apply bool_decide_eq_true. destruct (d !! b) eqn:E; [by rewrite E|].
    by rewrite lookup_insert_eq.
  - intros b b' d ? [= <-] Hb%bool_decide_eq_true. apply bool_decide_eq_true.
    destruct (d !! b) eqn:E; [done|]. rewrite lookup_insert. by case_decide.
  - intros b b' k d ? [= <-]. destruct (d !! b) eqn:E; [done|].
    rewrite mem_bucket_insert. case_decide; [|done]. subst. unfold mem_bucket. by rewrite E.
  - intros b k v d [m ->]%bool_decide_eq_true ->. eauto.
  - intros b k v d ->. by destruct (d !! b).
  - intros b k v d d' b' k'. destruct (d !! b) as [m|] eqn:E; [|done].
    destruct (key_ok k v); [|done]. intros [= <-]. rewrite mem_bucket_insert.
    destruct (decide (b = b')) as [<-|Hb]; [|by rewrite decide_False by tauto].
    rewrite lookup_insert. unfold mem_bucket. rewrite E.
    repeat case_decide; tauto.
  - intros b k v d d' b'. destruct (d !! b) as [m|] eqn:E; [|done].
    destruct (key_ok k v); [|done]. intros [= <-]. apply mem_has_insert. eauto.
  - eauto.
  - intros b k d ? b' k' [= <-]. destruct (d !! b) as [m|] eqn:E.
    + rewrite mem_bucket_insert. destruct (decide (b = b')) as [<-|Hb]; [|by rewrite decide_False by tauto].
      rewrite lookup_delete. unfold mem_bucket. rewrite E.
      repeat case_decide; tauto.
    + case_decide as Hd; [|done]. destruct Hd as [-> ->]. unfold mem_bucket. by rewrite E.
  - intros b k d ? b' [= <-]. destruct (d !! b) as [m|] eqn:E; [|done]. apply mem_has_insert. eauto.
  - intros b d k v. rewrite merge_sort_Permutation. apply elem_of_map_to_list.
  - intros b d. rewrite merge_sort_Permutation. apply NoDup_fst_map_to_list.
  - intros b d. apply by_key_sorted, Sorted_merge_sort, _.
  - intros b d. rewrite merge_sort_Permutation. by rewrite length_map_to_list.
Qed.

(** ** The abstract store *)

Record AStore := MkAStore {
  a_peers : gmap string PeerInfo;
  a_version : option string;
  a_update_id : option string;
  a_key_pair : option string * option string;
  a_server_pub : option string;
}.

(** The operations that write. *)
Inductive store_op :=
| OpPutPeer (id : string) (info : PeerInfo)
| OpDeletePeer (id : string)
| OpReplaceAll (peers : gmap string PeerInfo)
| OpPutVersion (v : string)
| OpPutUpdateID (id : string)
| OpPutKeyPair (priv pub : string)
| OpPutServerPubKey (pub : string).

Definition aexec (op : store_op) (a : AStore) : AStore :=
  let '(MkAStore p v u k s) := a in
  match op with
  | OpPutPeer id info => MkAStore (<[id := info]> p) v u k s
  | OpDeletePeer id => MkAStore (delete id p) v u k s
  | OpReplaceAll m => MkAStore m v u k s
  | OpPutVersion v' => MkAStore p (Some v') u k s
  | OpPutUpdateID u' => MkAStore p v (Some u') k s
  | OpPutKeyPair priv pub => MkAStore p v u (Some priv, Some pub) s
  | OpPutServerPubKey pub => MkAStore p v u k (Some pub)
  end.

Definition op_wf (op : store_op) : Prop :=
  match op with
  | OpPutPeer _ info => peer_wf info
  | OpReplaceAll m => map_Forall (fun _ i => peer_wf i) m
  | _ => True
  end.

Section refinement.
Context `{B : Bolt} {L : BoltLaws B}.

Definition sexec (op : store_op) : M Store (res unit) :=
  match op with
  | OpPutPeer id info => PutPeer id info
  | OpDeletePeer id => DeletePeer id
  | OpReplaceAll m => ReplaceAll m
  | OpPutVersion v => PutVersion v
  | OpPutUpdateID u => PutUpdateID u
  | OpPutKeyPair priv pub => PutKeyPair priv pub
  | OpPutServerPubKey pub => PutServerPubKey pub
  end.

(** The decodable values of the bucket of peers, in key order. *)
Definition peers_of (d : db) : list (string * PeerInfo) :=
  omap (fun kv => (fun i => (kv.1, i)) <$> unmarshal_peer kv.2) (b_cursor bucketPeers d).

(** The peers of a database as a map, and the abstract store it represents. *)
Definition peers_map (d : db) : gmap string PeerInfo := list_to_map (peers_of d).

Definition abs (d : db) : AStore :=
  MkAStore (peers_map d) (b_get bucketMeta keyVersion d) (b_get bucketMeta keyUpdateID d)
    (b_get bucketKeys keyLocalPriv d, b_get bucketKeys keyLocalPub d) (b_get bucketKeys keyServerPub d).

Definition has_buckets (d : db) : bool := b_has bucketPeers d && b_has bucketMeta d && b_has bucketKeys d.

Definition store_ok (s : Store) : Prop := st_open s = true /\ has_buckets (st_db s) = true.

Lemma peers_of_in d id i : (id, i) ∈ peers_of d <-> b_get bucketPeers id d ≫= unmarshal_peer = Some i.
Proof.
  unfold peers_of. rewrite list_elem_of_omap. split.
  - intros ([k v] & Hin & Hu). apply b_cursor_in in Hin. cbn in Hu.
    destruct (unmarshal_peer v) eqn:E; cbn in Hu; [|done]. injection Hu as -> ->. by rewrite Hin.
  - intros (v & Hv & Hu)%bind_Some. exists (id, v). split; [by apply b_cursor_in|].
    cbn. by rewrite Hu.
Qed.

Lemma peers_of_nodup d : NoDup (peers_of d).*1.
Proof.
  unfold peers_of. pose proof (b_cursor_nodup bucketPeers d) as Hn.
  induction (b_cursor bucketPeers d) as [|[k v] l IH]; cbn; [constructor|].
  cbn in Hn. apply NoDup_cons in Hn as [Hk Hn].
  destruct (unmarshal_peer v); cbn; [|auto]. constructor; [|auto].
  intros Hin. apply Hk. apply list_elem_of_fmap in Hin as ([k' i] & -> & Hin).
  apply list_elem_of_omap in Hin as ([k2 v2] & Hin & E). cbn in E.
  destruct (unmarshal_peer v2); cbn in E; [|done]. injection E as -> ->.
  apply list_elem_of_fmap. eexists; split; [|exact Hin]. done.
Qed.

(** A peer is visible exactly when its key holds a decodable value. *)
Lemma peers_map_lookup d id : peers_map d !! id = b_get bucketPeers id d ≫= unmarshal_peer.
Proof.
  apply option_eq. intros i. rewrite <-peers_of_in. unfold peers_map.
  symmetry. apply elem_of_list_to_map. apply peers_of_nodup.
Qed.

(** One successful put or delete, seen on the peers. *)
Lemma peers_map_put d d' id info : peer_wf info ->
  b_put bucketPeers id (marshal_peer info) d = Ok d' -> peers_map d' = <[id := info]> (peers_map d).
Proof.
  intros Hw Hp. apply map_eq. intros k. rewrite peers_map_lookup, (b_put_get _ _ _ _ _ _ _ Hp).
  rewrite lookup_insert, peers_map_lookup. repeat case_decide; try tauto.
  rewrite <-(unmarshal_marshal info) by done. reflexivity.
Qed.

Lemma peers_map_delete d d' id : b_delete bucketPeers id d = Ok d' -> peers_map d' = delete id (peers_map d).
Proof.
  intros Hp. apply map_eq. intros k. rewrite peers_map_lookup, (b_delete_get _ _ _ _ _ _ Hp).
  rewrite lookup_delete, peers_map_lookup. repeat case_decide; tauto.
Qed.

(** A put or delete in one bucket leaves the other buckets alone. *)
Lemma b_put_other b k v d d' b' k' : b_put b k v d = Ok d' -> b <> b' -> b_get b' k' d' = b_get b' k' d.
Proof. intros Hp Hb. rewrite (b_put_get _ _ _ _ _ _ _ Hp), decide_False; [done|tauto]. Qed.

Lemma peers_map_ext d d' : (forall k, b_get bucketPeers k d' = b_get bucketPeers k d) ->
  peers_map d' = peers_map d.
Proof. intros H. apply map_eq. intros k. by rewrite !peers_map_lookup, H. Qed.

(** The bulk delete and the bulk put of [ReplaceAll]. *)
Lemma delete_all_spec keys d d' : delete_all keys d = Ok d' ->
  (forall b, b_has b d' = b_has b d) /\
  (forall b k, b_get b k d' = if decide (b = bucketPeers /\ k ∈ keys) then None else b_get b k d).
Proof.
  unfold delete_all. revert d'. induction keys as [|k0 keys IH] using rev_ind; intros d' Hd.
  - injection Hd as ->. split; [done|]. intros. rewrite decide_False; [done|]. intros [_ H%not_elem_of_nil]. done.
  - rewrite fold_left_app in Hd. cbn [fold_left] in Hd.
    destruct (fold_left _ keys (Ok d)) as [d1|] eqn:E; cbn [res_bind fst snd] in Hd; [|done].
    destruct (IH d1 eq_refl) as [Hh Hg]. split.
    + intros b. by rewrite (b_delete_has _ _ _ _ _ Hd).
    + intros b k. rewrite (b_delete_get _ _ _ _ _ _ Hd), Hg.
      pose proof (elem_of_app keys [k0] k) as Ha. rewrite list_elem_of_singleton in Ha.
      repeat case_decide; naive_solver.
Qed.

Lemma put_all_spec l d d' : Forall (fun p => peer_wf p.2) l -> put_all l d = Ok d' ->
  (forall b, b_has b d' = b_has b d) /\
  (forall b k, b <> bucketPeers -> b_get b k d' = b_get b k d) /\
  peers_map d' = list_to_map (reverse l) ∪ peers_map d.
Proof.
  unfold put_all. revert d'. induction l as [|[id i] l IH] using rev_ind; intros d' Hw Hd.
  - injection Hd as ->. split_and!; [done..|]. cbn. by rewrite (left_id_L ∅ (∪)).
  - rewrite fold_left_app in Hd. cbn [fold_left] in Hd. apply Forall_app in Hw as [Hw Hi].
    destruct (fold_left _ l (Ok d)) as [d1|] eqn:E; cbn [res_bind fst snd] in Hd; [|done].
    destruct (IH d1 Hw eq_refl) as (Hh & Hg & Hp). split_and!.
    + intros b. by rewrite (b_put_has _ _ _ _ _ _ Hd).
    + intros b k Hb. rewrite (b_put_other _ _ _ _ _ _ _ Hd) by done. auto.
    + apply Forall_cons in Hi as [Hi _]. rewrite (peers_map_put _ _ _ _ Hi Hd), Hp.
      rewrite reverse_app. cbn. by rewrite insert_union_l.
Qed.

Lemma put_all_map m d d' : map_Forall (fun _ i => peer_wf i) m -> put_all (map_to_list m) d = Ok d' ->
  (forall b, b_has b d' = b_has b d) /\
  (forall b k, b <> bucketPeers -> b_get b k d' = b_get b k d) /\
  peers_map d' = m ∪ peers_map d.
Proof.
  intros Hw Hp. apply put_all_spec in Hp as (Hh & Hg & ->).
  - split_and!; [done..|]. f_equal. rewrite <-(list_to_map_to_list m) at 2.
    apply list_to_map_proper; [|by rewrite reverse_Permutation].
    rewrite fmap_reverse, reverse_Permutation. apply NoDup_fst_map_to_list.
  - apply Forall_forall. intros [k i] Hin. apply elem_of_map_to_list in Hin. by apply (Hw k).
Qed.

(** A transaction that keeps the buckets keeps the store open; it commits or changes nothing. *)
Lemma Update_cases (fn : db -> res db) s : st_open s = true ->
  exists r s', Update fn s = (Ret r, s') /\ st_open s' = true /\
    if is_ok r then fn (st_db s) = Ok (st_db s') else st_db s' = st_db s.
Proof.
  intros Ho. unfold Update. rewrite Ho.
  destruct (fn (st_db s)) as [d'|e]; [|by eexists _, _].
  destruct (st_faults s) as [|[e|] l]; by eexists _, _.
Qed.

Lemma has_buckets_ext (d d' : db) : (forall b, b_has b d' = b_has b d) -> has_buckets d' = has_buckets d.
Proof. intros H. unfold has_buckets. by rewrite !H. Qed.

(** The transaction functions behind the writing operations. *)
Definition op_tx (op : store_op) (d : db) : res db :=
  match op with
  | OpPutPeer id info => b_put bucketPeers id (marshal_peer info) d
  | OpDeletePeer id => b_delete bucketPeers id d
  | OpReplaceAll m => res_bind (delete_all (b_cursor bucketPeers d).*1 d) (put_all (map_to_list m))
  | OpPutVersion v => b_put bucketMeta keyVersion v d
  | OpPutUpdateID u => b_put bucketMeta keyUpdateID u d
  | OpPutKeyPair priv pub =>
      res_bind (b_put bucketKeys keyLocalPriv priv d) (b_put bucketKeys keyLocalPub pub)
  | OpPutServerPubKey pub => b_put bucketKeys keyServerPub pub d
  end.

Lemma sexec_tx op : sexec op = Update (op_tx op).
Proof. by destruct op. Qed.

Lemma abs_put b k v d d' : b <> bucketPeers -> b_put b k v d = Ok d' ->
  (forall b0, b_has b0 d' = b_has b0 d) /\ peers_map d' = peers_map d /\
  (forall b0 k0, b_get b0 k0 d' = if decide (b = b0 /\ k = k0) then Some v else b_get b0 k0 d).
Proof.
  intros Hb Hp. split_and!.
  - intros b0. apply (b_put_has _ _ _ _ _ _ Hp).
  - apply peers_map_ext. intros k0. by apply (b_put_other _ _ _ _ _ _ _ Hp).
  - intros b0 k0. apply (b_put_get _ _ _ _ _ _ _ Hp).
Qed.

Lemma replace_tx m d d' : map_Forall (fun _ i => peer_wf i) m -> op_tx (OpReplaceAll m) d = Ok d' ->
  (forall b, b_has b d' = b_has b d) /\ abs d' = aexec (OpReplaceAll m) (abs d).
Proof.
  intros Hw H. cbn [op_tx] in H. destruct (delete_all _ d) as [d1|] eqn:E; cbn [res_bind] in H; [|done].
  apply delete_all_spec in E as [Hh1 Hg1]. apply put_all_map in H as (Hh2 & Hg2 & Hp); [|done].
  split; [intros; by rewrite Hh2|]. unfold abs, aexec.
  assert (peers_map d1 = ∅) as E1.
  { apply map_eq. intros k. rewrite peers_map_lookup, Hg1, lookup_empty. case_decide as Hd; [done|].
    destruct (b_get bucketPeers k d) as [v|] eqn:Hv; [|done].
    destruct Hd. split; [done|]. apply list_elem_of_fmap. exists (k, v). by rewrite b_cursor_in. }
  rewrite Hp, E1, (right_id_L ∅ (∪)), !Hg2, !Hg1 by done. f_equal; repeat case_decide; naive_solver.
Qed.

Lemma op_tx_abs op d d' : op_wf op -> op_tx op d = Ok d' ->
  (forall b, b_has b d' = b_has b d) /\ abs d' = aexec op (abs d).
Proof.
  intros Hw H. destruct op as [id info|id|m|v|u|priv pub|pub]; [| |by apply replace_tx|..];
    cbn [op_tx op_wf] in *.
  - split; [intros; apply (b_put_has _ _ _ _ _ _ H)|]. unfold abs, aexec.
    by rewrite (peers_map_put _ _ _ _ Hw H), !(b_put_other _ _ _ _ _ _ _ H) by done.
  - split; [intros; apply (b_delete_has _ _ _ _ _ H)|]. unfold abs, aexec.
    rewrite (peers_map_delete _ _ _ H), !(b_delete_get _ _ _ _ _ _ H). by rewrite !decide_False by naive_solver.
  - apply abs_put in H as (Hh & Hp & Hg); [|done]. split; [done|]. unfold abs, aexec. by rewrite Hp, !Hg.
  - apply abs_put in H as (Hh & Hp & Hg); [|done]. split; [done|]. unfold abs, aexec. by rewrite Hp, !Hg.
  - destruct (b_put bucketKeys keyLocalPriv priv d) as [d1|] eqn:E; cbn [res_bind] in H; [|done].
    apply abs_put in E as (Hh1 & Hp1 & Hg1); [|done]. apply abs_put in H as (Hh & Hp & Hg); [|done].
    split; [intros; by rewrite Hh|]. unfold abs, aexec. by rewrite Hp, Hp1, !Hg, !Hg1.
  - apply abs_put in H as (Hh & Hp & Hg); [|done]. split; [done|]. unfold abs, aexec. by rewrite Hp, !Hg.
Qed.

(** A writing operation succeeds with its abstract effect, or fails and changes nothing. *)
Lemma wp_sexec op s : store_ok s -> op_wf op ->
  wp (sexec op) (fun r s' => store_ok s' /\
    abs (st_db s') = if is_ok r then aexec op (abs (st_db s)) else abs (st_db s)) s.
Proof.
  intros [Ho Hb] Hw. rewrite sexec_tx. apply wp_run.
  destruct (Update_cases (op_tx op) s Ho) as (r & s' & -> & Ho' & Hr).
  exists r, s'. split; [done|]. destruct (is_ok r).
  - apply op_tx_abs in Hr as [Hh Ha]; [|done]. split; [|done]. split; [done|].
    by rewrite (has_buckets_ext _ _ Hh).
  - split; [split; [done|by rewrite Hr]|by rewrite Hr].
Qed.

Lemma wp_GetPeer id s : store_ok s ->
  wp (GetPeer id) (fun r s' => s' = s /\ match r with
    | Ok i => a_peers (abs (st_db s)) !! id = Some i
    | Err _ => a_peers (abs (st_db s)) !! id = None
    end) s.
Proof.
  intros [Ho _]. unfold wp, GetPeer, View. rewrite Ho. cbn [abs a_peers]. rewrite peers_map_lookup.
  destruct (b_get bucketPeers id (st_db s)) as [d|]; cbn; [|done]. by destruct (unmarshal_peer d).
Qed.

End refinement.

(** Dropping elements keeps a list of keys sorted. *)
#[global] Instance str_le_trans : Transitive str_le.
Proof.
  unfold str_le, String.leb. intros a. induction a as [|x a IH]; intros [|y b] [|z c]; cbn; try done.
  destruct (Ascii.compare x y) eqn:E1; [|..|done]; destruct (Ascii.compare y z) eqn:E2; try done.
  - apply Ascii.compare_eq_iff in E1, E2. subst. rewrite ascii_compare_refl. apply IH.
  - apply Ascii.compare_eq_iff in E1. subst. by rewrite E2.
  - apply Ascii.compare_eq_iff in E2. subst. by rewrite E1.
  - unfold Ascii.compare in *. rewrite N.compare_lt_iff in *.
    assert (((N_of_ascii x ?= N_of_ascii z)%N = Lt)) as ->; [|done]. apply N.compare_lt_iff. lia.
Qed.

Lemma omap_fst_sorted {A C} (f : A -> option C) (l : list (string * A)) :
  Sorted str_le l.*1 -> Sorted str_le (omap (fun kv => (fun i => (kv.1, i)) <$> f kv.2) l).*1.
Proof.
  intros Hs%Sorted_StronglySorted; [|apply _]. apply StronglySorted_Sorted.
  induction l as [|[k a] l IH]; cbn; [constructor|]. cbn in Hs.
  apply StronglySorted_inv in Hs as [Hs Hk]. destruct (f a); cbn; [|auto].
  constructor; [auto|]. apply Forall_forall. intros x Hx. eapply Forall_forall in Hk; [done|].
  apply list_elem_of_fmap in Hx as ([k' c'] & -> & Hx). apply list_elem_of_omap in Hx as ([k2 a2] & Hin & E).
  cbn in E. destruct (f a2); cbn in E; [|done]. injection E as -> ->.
  apply list_elem_of_fmap. eexists; split; [|exact Hin]. done.
Qed.

(** ** Iteration *)

(** A callback on the peers of a list, until it returns an error. *)
Fixpoint visit {T} (fn : T -> string -> PeerInfo -> T * option error) (l : list (string * PeerInfo)) (acc : T)
  : T * option error :=
  match l with
  | [] => (acc, None)
  | p :: l' => match fn acc p.1 p.2 with (a, None) => visit fn l' a | r => r end
  end.

Section iteration.
Context `{B : Bolt}.

Lemma ForEachPeer_visit {T} (fn : T -> string -> PeerInfo -> T * option error) acc s : st_open s = true ->
  ForEachPeer fn acc s = (Ret (visit fn (peers_of (st_db s)) acc), s).
Proof.
  intros Ho. unfold ForEachPeer. rewrite Ho. do 2 f_equal. unfold peers_of. revert acc.
  induction (b_cursor bucketPeers (st_db s)) as [|[k v] l IH]; intros acc; cbn; [done|].
  destruct (unmarshal_peer v) as [i|]; cbn; [|apply IH]. destruct (fn acc k i) as [a [e|]]; cbn; [done|apply IH].
Qed.

(** A callback that never fails folds over the peers. *)
Lemma visit_pure {T} (fn : T -> string -> PeerInfo -> T * option error) l acc : (forall a k i, (fn a k i).2 = None) ->
  visit fn l acc = (fold_left (fun a p => (fn a p.1 p.2).1) l acc, None).
Proof.
  intros H. revert acc. induction l as [|p l IH]; intros acc; cbn; [done|].
  specialize (H acc p.1 p.2). destruct (fn acc p.1 p.2) as [a [e|]]; [done|apply IH].
Qed.

Lemma IsASNTracked_eq asn s : st_open s = true ->
  IsASNTracked asn s = (Ret (Ok (existsb (fun p => ASN p.2 =? asn) (peers_of (st_db s)))), s).
Proof.
  intros Ho. unfold IsASNTracked, View. rewrite Ho. do 3 f_equal. unfold peers_of.
  induction (b_cursor bucketPeers (st_db s)) as [|[k v] l IH]; cbn; [done|].
  destruct (unmarshal_peer v) as [i|]; cbn; [|done]. by destruct (ASN i =? asn).
Qed.

End iteration.

(** ** Properties *)

Section properties.
Context `{B : Bolt} {L : BoltLaws B}.

(** C2: Each writing operation of the store (PutPeer, DeletePeer, ReplaceAll, PutVersion,
    PutUpdateID, PutKeyPair, PutServerPubKey) either succeeds and has the effect of its abstract
    counterpart on the map of peers and the stored values, or fails and leaves the abstract store
    as it was; the store stays open with its buckets either way. *)
Theorem store_refines op s : store_ok s -> op_wf op ->
  exists r s', sexec op s = (Ret r, s') /\ store_ok s' /\
    abs (st_db s') = if is_ok r then aexec op (abs (st_db s)) else abs (st_db s).
Proof.
  intros Hs Hw. destruct (proj1 (wp_run _ _ _) (wp_sexec op s Hs Hw)) as (r & s' & E & H). eauto.
Qed.

(** C17: A peer PutPeer stored is what GetPeer returns for its id, and GetPeer of every other id
    answers as before; with an acceptable key and no failing commit PutPeer does succeed. *)
Theorem put_get_peer id info s : store_ok s -> peer_wf info ->
  (key_ok id (marshal_peer info) = true -> st_faults s = [] -> exists s', PutPeer id info s = (Ret (Ok tt), s')) /\
  (forall s', PutPeer id info s = (Ret (Ok tt), s') ->
    (GetPeer id s').1 = Ret (Ok info) /\
    forall id', id' <> id -> (GetPeer id' s').1 = (GetPeer id' s).1).
Proof.
  intros [Ho Hb] Hw. unfold PutPeer. split.
  - intros Hk Hf. unfold has_buckets in Hb. rewrite !andb_true_iff in Hb.
    destruct (b_put_ok bucketPeers id (marshal_peer info) (st_db s)) as [d' Hd]; [tauto|done|].
    unfold Update. rewrite Ho, Hd, Hf. eauto.
  - intros s' E. destruct (Update_cases (b_put bucketPeers id (marshal_peer info)) s Ho)
      as (r & s1 & E' & Ho' & Hr). rewrite E' in E. injection E as -> ->. cbn [is_ok] in Hr.
    unfold GetPeer, View. rewrite Ho, Ho'. cbn [fst]. split.
    + rewrite (b_put_get _ _ _ _ _ _ _ Hr), decide_True by done. by rewrite unmarshal_marshal.
    + intros id' Hne. by rewrite (b_put_get _ _ _ _ _ _ _ Hr), decide_False by naive_solver.
Qed.

(** C18: There is one list of the stored peers, with the decodable values of the bucket and
    nothing else, every id once and in key order, which every ForEachPeer goes through: its
    callback sees the peers of the list one by one until it returns an error, and that error is
    what ForEachPeer returns.  IsASNTracked answers whether some peer of the list has the ASN. *)
Theorem foreach_peer_complete s : store_ok s ->
  exists l : list (string * PeerInfo), NoDup l.*1 /\ Sorted str_le l.*1 /\
    (forall id info, (id, info) ∈ l <->
       exists v, b_get bucketPeers id (st_db s) = Some v /\ unmarshal_peer v = Some info) /\
    (forall T (fn : T -> string -> PeerInfo -> T * option error) acc, ForEachPeer fn acc s = (Ret (visit fn l acc), s)) /\
    (forall asn, exists b, IsASNTracked asn s = (Ret (Ok b), s) /\
      (b = true <-> exists id info, (id, info) ∈ l /\ ASN info = asn)).
Proof.
  intros [Ho Hb]. exists (peers_of (st_db s)). split_and!.
  - apply peers_of_nodup.
  - unfold peers_of. apply omap_fst_sorted, b_cursor_sorted.
  - intros id info. rewrite peers_of_in. apply bind_Some.
  - intros T fn acc. by apply ForEachPeer_visit.
  - intros asn. eexists. split; [by apply IsASNTracked_eq|]. rewrite existsb_exists. split.
    + intros ([id i] & Hin%list_elem_of_In & E%Z.eqb_eq). eauto.
    + intros (id & i & Hl & <-). exists (id, i). cbn. rewrite Z.eqb_refl. split; [|done]. by apply list_elem_of_In.
Qed.

End properties.

(** An empty store on the in-memory database, and one peer. *)
Definition mem_store : Store :=
  MkStore (B := MemBolt) {[ bucketPeers := ∅; bucketMeta := ∅; bucketKeys := ∅ ]} true [].
Definition peer_example : PeerInfo := MkPeerInfo 4242420123 "fe80::123" "dn42peer" "dn42_4242420123" "".

Lemma store_refines_witness : store_ok mem_store /\ op_wf (OpPutPeer "p1" peer_example) /\
  exists r s', sexec (OpPutPeer "p1" peer_example) mem_store = (Ret r, s') /\ store_ok s' /\
    abs (st_db s') = if is_ok r then aexec (OpPutPeer "p1" peer_example) (abs (st_db mem_store))
                     else abs (st_db mem_store).
Proof.
  assert (H1 : store_ok mem_store) by (split; reflexivity).
  assert (H2 : op_wf (OpPutPeer "p1" peer_example)) by (split_and!; done).
  split_and!; [exact H1|exact H2|]. exact (store_refines _ _ H1 H2).
Defined.

Lemma put_get_peer_witness : exists s', PutPeer "p1" peer_example mem_store = (Ret (Ok tt), s') /\
  (GetPeer "p1" s').1 = Ret (Ok peer_example).
Proof.
  destruct (put_get_peer "p1" peer_example mem_store) as [H1 H2]; [split; reflexivity|split_and!; done|].
  destruct H1 as [s' E]; [vm_compute; reflexivity|reflexivity|]. exists s'. split; [exact E|apply H2, E].
Defined.

(** Two peers, and a value that is not a peer between them. *)
Definition three_keys : Store := MkStore (B := MemBolt)
  {[ bucketPeers := {[ "a" := marshal_peer peer_example; "b" := "junk"; "c" := marshal_peer peer_example ]};
     bucketMeta := ∅; bucketKeys := ∅ ]} true [].

Lemma foreach_peer_complete_witness :
  (ForEachPeer (fun l k _ => (l ++ [k], None)) [] three_keys).1 = Ret (["a"; "c"], None) /\
  exists l : list (string * PeerInfo), ForEachPeer (fun n _ _ => (S n, None)) O three_keys =
    (Ret (visit (fun n _ _ => (S n, None)) l O), three_keys) /\ NoDup l.*1.
Proof.
  split; [vm_compute; reflexivity|].
  destruct (foreach_peer_complete three_keys) as (l & H1 & _ & _ & H2 & _); [split; vm_compute; reflexivity|].
  exists l. split; [apply H2|exact H1].
Defined.
