(* ===== verification/Wg.v ===== *)
(** Package [wg]: WireGuard tunnels, one configuration file and one interface per peer. *)

From S2P Require Import Prelude GoStrings GoPath Json Regex GoFloat GoNet Host.
From Stdlib Require Import Ascii.

(** [%q]: a double-quoted Go string.  Runes outside ASCII are taken as printable. *)
Definition quote_ascii (c : ascii) : string :=
  let esc (x : string) := String "\" x in
  match N.to_nat (code c) with
  | 34%nat => String "\" (String DQ "")
  | 92%nat => esc "\"
  | 7%nat => esc "a" | 8%nat => esc "b" | 12%nat => esc "f" | 10%nat => esc "n"
  | 13%nat => esc "r" | 9%nat => esc "t" | 11%nat => esc "v"
  | _ => if (code c <? 32)%N || (code c =? 127)%N
         then esc "x" +:+ EncodeToString (String c "") else String c ""
  end.
Definition quote_rune (r : bool * string) : string :=
  if r.1 then match r.2 with
              | String c "" => quote_ascii c
              | t => t
              end
  else "\x" +:+ EncodeToString r.2.
Definition Quote (s : string) : string :=
  String DQ (sconcat (quote_rune <$> runes s) +:+ String DQ "").

Record Manager := MkManager { wgDir : string; birdPeerDir : string; privateKey : string; ourLLA : string }.

Definition NewManager (wgDir birdPeerDir privateKey ourLLA : string) : Manager :=
  MkManager wgDir birdPeerDir privateKey ourLLA.

Record PeerConfig := MkPeerConfig {
  pc_asn : Z;
  pc_privateKey : string;
  pc_listenPort : Z;
  pc_ourLLA : string;
  pc_remotePubkey : string;
  pc_remoteEndpoint : string;
  pc_mtu : option Z;
  pc_psk : option string;
}.

(** The lines of the configuration file; an optional field is a line when its pointer is not
    nil. *)
Definition config_lines (c : PeerConfig) : list string :=
  [ "# AutoPeer ASN: " +:+ Itoa (pc_asn c);
    "[Interface]";
    "PrivateKey = " +:+ pc_privateKey c;
    "ListenPort = " +:+ Itoa (pc_listenPort c);
    "Address = " +:+ pc_ourLLA c +:+ "/64" ]
  ++ match pc_mtu c with Some mtu => ["MTU = " +:+ Itoa mtu] | None => [] end
  ++ [ "Table = off";
       "";
       "[Peer]";
       "PublicKey = " +:+ pc_remotePubkey c ]
  ++ match pc_psk c with Some psk => ["PresharedKey = " +:+ psk] | None => [] end
  ++ [ "AllowedIPs = 172.20.0.0/14, fd00::/8, fe80::/10";
       "Endpoint = " +:+ pc_remoteEndpoint c;
       "PersistentKeepalive = 25" ].

(** [tmpl.Execute(f, cfg)]: every line ends in a newline. *)
Definition wgConfigTmpl (c : PeerConfig) : string := unlines (config_lines c).

Definition InterfaceName (asn : Z) : string := "dn42" +:+ Itoa asn.

Definition ConfigDir (m : Manager) : string := wgDir m.

Definition confPath (m : Manager) (ifName : string) : string := Join [wgDir m; ifName +:+ ".conf"].

Record InterfaceStats := MkStats {
  Name : string;
  RxBytes : Z;
  TxBytes : Z;
  LastHandshake : string;
  ActualEndpoint : string;
}.

Record ScannedPeer := MkScanned {
  InterfaceName_ : string;
  sc_asn : Z;
  sc_remotePubkey : string;
  sc_remoteEndpoint : string;
  sc_listenPort : Z;
  sc_ourLLA : string;
}.

Definition field (l : list string) (i : nat) : string := default "" (l !! i).

(** One line of [wg show all dump]: five fields start an interface, nine are a peer of it. *)
Definition stats_line (st : string * list InterfaceStats) (line : string) : string * list InterfaceStats :=
  let '(currentIf, stats) := st in
  let fields := split_on TAB line in
  if (length fields <? 2)%nat then st
  else if (length fields =? 5)%nat then (field fields 0, stats)
  else if (9 <=? length fields)%nat && negb (bool_decide (currentIf = "")) then
    let '(rx, _) := ParseInt (field fields 6) in
    let '(tx, _) := ParseInt (field fields 7) in
    (currentIf, stats ++ [MkStats currentIf rx tx (field fields 5) (field fields 3)])
  else st.

Definition parse_stats (out : string) : list InterfaceStats :=
  (fold_left stats_line (scan_lines out) ("", [])).2.

(** [rttRe]. *)
Definition c_decimal (c : ascii) : bool := is_digit c || bool_decide (c = "."%char).
Definition rttRe : re := RCat [
  RAlt (RLit "time") (RLit "rtt"); RClass (fun c => bool_decide (c = "="%char \/ c = "<"%char));
  RGroup 1 (RPlus c_decimal); RStar c_space; RLit "ms"].

Definition asnFromNameRe : re := RGroup 0 (RPlus c_digit).

Definition extractASNFromIface (name : string) : option Z :=
  match FindSubmatch asnFromNameRe name with
  | None => None
  | Some cs => let '(n, ok) := ParseInt (group cs 0) in if ok then Some n else None
  end.

(** The pattern of [readASNFromWGConfig]. *)
Definition asnCommentRe : re := RSeq (RLit "# AutoPeer ASN: ") (RGroup 1 (RPlus c_digit)).

Definition asn_of_config (confPath data : string) : res Z :=
  match FindSubmatch asnCommentRe data with
  | None => Err (errorf ("no ASN comment in " +:+ confPath))
  | Some cs => let '(n, ok) := ParseInt (group cs 1) in
               if ok then Ok n
               else Err (errorf ("strconv.ParseInt: parsing " +:+ Quote (group cs 1) +:+ ": value out of range"))
  end.

(** The lines of [wg show <iface> dump]: four fields are the interface, eight a peer; the last of
    each counts. *)
Definition scan_dump_line (st : string * string * Z) (line : string) : string * string * Z :=
  let '(pubkey, endpoint, port) := st in
  let fields := split_on TAB line in
  if (length fields <? 2)%nat then st
  else if (length fields =? 4)%nat then (pubkey, endpoint, (ParseInt (field fields 2)).1)
  else if (8 <=? length fields)%nat then (field fields 0, field fields 2, port)
  else st.

Definition neg_one : float64 := round_ratio true 1 1.

Definition rtt_of_output (out : string) : float64 :=
  match FindSubmatch rttRe out with
  | None => neg_one
  | Some cs => let '(rtt, ok) := ParseFloat (group cs 1) in if ok then rtt else neg_one
  end.

Section wg.
Context `{env : HostEnv}.

Definition AddPeerWithIface (m : Manager) (ifName : string) (asn listenPort : Z)
    (remotePubkey remoteEndpoint : string) (mtu : option Z) (psk : option string) : M Sys (res unit) :=
  if (asn <=? 0) || bool_decide (remotePubkey = "") || bool_decide (remoteEndpoint = "") then
    mret (Err (errorf ("invalid peer config: asn=" +:+ Itoa asn +:+ " pubkey=" +:+ Quote remotePubkey
                       +:+ " endpoint=" +:+ Quote remoteEndpoint)))
  else
    let configPath := confPath m ifName in
    let cfg := MkPeerConfig asn (privateKey m) listenPort (ourLLA m) remotePubkey remoteEndpoint mtu psk in
    f ← OpenTrunc configPath 384;
    match f with
    | Err e => mret (Err (wrap "create wg config" e))
    | Ok _ =>
        w ← WriteOpened configPath (wgConfigTmpl cfg);
        match w with
        | Err e => mret (Err (wrap "write wg config" e))
        | Ok _ =>
            r ← run ["wg-quick"; "up"; ifName];
            if cmd_ok r then mret (Ok tt)
            else mret (Err (errorf ("wg-quick up " +:+ ifName +:+ ": " +:+ cmd_output r +:+ ": " +:+ cmd_err r)))
        end
    end.

Definition AddPeer (m : Manager) (asn listenPort : Z) (remotePubkey remoteEndpoint : string)
    (mtu : option Z) (psk : option string) : M Sys (res unit) :=
  AddPeerWithIface m (InterfaceName asn) asn listenPort remotePubkey remoteEndpoint mtu psk.

(** The interface goes down first; the deferred removal of the file comes last.  Neither failure
    is reported. *)
Definition RemovePeerByIface (m : Manager) (ifName : string) : M Sys (res unit) :=
  _ ← run ["wg-quick"; "down"; ifName];
  _ ← Remove (confPath m ifName);
  mret (Ok tt).

Definition RemovePeer (m : Manager) (asn : Z) : M Sys (res unit) :=
  RemovePeerByIface m (InterfaceName asn).

Definition IsPeerUp (m : Manager) (ifName : string) : M Sys bool :=
  r ← run ["wg"; "show"; ifName];
  mret (cmd_ok r).

Definition GetStats (m : Manager) : M Sys (res (list InterfaceStats)) :=
  r ← run ["wg"; "show"; "all"; "dump"];
  if cmd_ok r then mret (Ok (parse_stats (cmd_stdout r)))
  else mret (Err (errorf ("wg show: " +:+ cmd_err r))).

Definition readASNFromWGConfig (m : Manager) (ifName : string) : M Sys (res Z) :=
  data ← ReadFile (confPath m ifName);
  mret (res_bind data (asn_of_config (confPath m ifName))).

Definition scan_entry (m : Manager) (peers : list ScannedPeer) (entry : string * bool)
  : M Sys (list ScannedPeer) :=
  if entry.2 || negb (HasSuffix entry.1 ".conf") then mret peers
  else
    let ifName := TrimSuffix entry.1 ".conf" in
    asn ← match extractASNFromIface ifName with
          | Some n => mret (Some n)
          | None => r ← readASNFromWGConfig m ifName;
                    mret (match r with Ok n => Some n | Err _ => None end)
          end;
    match asn with
    | None => mret peers
    | Some asn =>
        r ← run ["wg"; "show"; ifName; "dump"];
        if cmd_ok r then
          let '(pubkey, endpoint, port) :=
            fold_left scan_dump_line (scan_lines (cmd_stdout r)) ("", "", 0) in
          if decide (pubkey = "") then mret peers
          else mret (peers ++ [MkScanned ifName asn pubkey endpoint port (ourLLA m)])
        else mret peers
    end.

Definition ScanPeers (m : Manager) : M Sys (res (list ScannedPeer)) :=
  entries ← ReadDir (wgDir m);
  match entries with
  | Err e => mret (Err (wrap "read wg dir" e))
  | Ok l => peers ← mfold (scan_entry m) l []; mret (Ok peers)
  end.

(** [-1] when the address cannot be pinged, the ping fails or its output shows no time. *)
Definition PingPeer (remoteLLA ifName : string) : M Sys float64 :=
  match ParseIP remoteLLA with
  | None => mret neg_one
  | Some ip =>
      if negb (IsLinkLocalUnicast ip) && negb (IsGlobalUnicast ip) then mret neg_one
      else if IsLoopback ip || IsMulticast ip || IsUnspecified ip then mret neg_one
      else
        r ← run ["ping"; "-6"; "-c"; "1"; "-W"; "3"; "-I"; ifName; remoteLLA];
        if cmd_ok r then mret (rtt_of_output (cmd_output r)) else mret neg_one
  end.

End wg.

Example wgConfigTmpl_example :
  wgConfigTmpl (MkPeerConfig 4242420123 "priv" 20123 "fe80::1" "pub" "host:1" (Some 1420) None) =
"# AutoPeer ASN: 4242420123
[Interface]
PrivateKey = priv
ListenPort = 20123
Address = fe80::1/64
MTU = 1420
Table = off

[Peer]
PublicKey = pub
AllowedIPs = 172.20.0.0/14, fd00::/8, fe80::/10
Endpoint = host:1
PersistentKeepalive = 25
".
Proof. reflexivity. Qed.

Example rtt_example : json_float (rtt_of_output "64 bytes from fe80::1: icmp_seq=1 ttl=64 time=0.321 ms") = Some "0.321".
Proof. vm_compute. reflexivity. Qed.
