(* ===== verification/WgFacts.v ===== *)
(** Properties of package [wg]. *)

From S2P Require Import Prelude GoStrings GoPath Json Regex GoFloat GoNet Host SimHost Wg.
From Stdlib Require Import Ascii.

(** ** The configuration file *)

Lemma asn_of_config_render path c : 0 < pc_asn c < 2^63 -> asn_of_config path (wgConfigTmpl c) = Ok (pc_asn c).
Proof.
  intros H. unfold asn_of_config, FindSubmatch, wgConfigTmpl, config_lines. cbn [app]. rewrite unlines_cons, sapp_assoc.
  erewrite find_from_here.
  2:{ unfold match_here, asnCommentRe. cbn [rmatch]. rewrite HasPrefix_app, sdrop_app.
      rewrite Itoa_nonneg by lia. apply (rmatch_group_run 1 c_digit false); [apply utoa_nonempty|apply utoa_digits|done|done]. }
  cbn [fmap option_fmap option_map fst group]. rewrite decide_True by done.
  rewrite ParseInt_utoa by lia. by rewrite Z2N.id by lia.
Qed.

(** A field that stays on its line. *)
Definition one_line (s : string) : bool := free_of LF s.

Definition cfg_one_line (c : PeerConfig) : bool :=
  one_line (pc_privateKey c) && one_line (pc_ourLLA c) && one_line (pc_remotePubkey c)
  && one_line (pc_remoteEndpoint c) && one_line (default "" (pc_psk c)).

Lemma config_lines_one c : cfg_one_line c = true -> Forall (fun l => free_of LF l = true) (config_lines c).
Proof.
  unfold cfg_one_line, one_line. rewrite !andb_true_iff. intros [[[[H1 H2] H3] H4] H5].
  unfold config_lines. destruct (pc_mtu c), (pc_psk c); cbn [app];
    repeat constructor; rewrite ?free_of_app, ?free_of_Itoa, ?H1, ?H2, ?H3, ?H4 by done; try done.
  all: by cbn in H5; rewrite H5.
Qed.

(** ** Reading a configuration file

    The format of wg(8) and wg-quick(8): white space in a line does not count, a comment goes from
    [#] to the end of the line, [[Name]] opens a section, and any other line is a setting of the
    section, its name before the first [=]. *)

Fixpoint squeeze (s : string) : string :=
  match s with
  | "" => ""
  | String c s' => if is_space_byte c then squeeze s' else String c (squeeze s')
  end.
Fixpoint uncomment (s : string) : string :=
  match s with
  | "" => ""
  | String c s' => if bool_decide (c = "#"%char) then "" else String c (uncomment s')
  end.
Fixpoint cut_eq (s : string) : option (string * string) :=
  match s with
  | "" => None
  | String c s' => if bool_decide (c = "="%char) then Some ("", s')
                   else (fun kv => (String c kv.1, kv.2)) <$> cut_eq s'
  end.

(** The sections read so far, the last one first. *)
Definition sections := list (string * list (string * string)).
Definition read_line (line : string) (acc : sections) : option sections :=
  let text := squeeze (uncomment line) in
  if bool_decide (text = "") then Some acc
  else if HasPrefix text "[" && HasSuffix text "]" then Some ((TrimSuffix (sdrop 1 text) "]", []) :: acc)
  else match cut_eq text, acc with
       | Some kv, (name, l) :: acc' => Some ((name, l ++ [kv]) :: acc')
       | _, _ => None
       end.
Fixpoint read_lines (lines : list string) (acc : sections) : option sections :=
  match lines with
  | [] => Some (reverse acc)
  | line :: rest => read_line line acc ≫= read_lines rest
  end.
Definition wg_settings (text : string) : option sections := read_lines (split_on LF text) [].

(** A field with no white space and no comment. *)
Definition plain_field (s : string) : bool := sforall (fun c => negb (is_space_byte c) && negb (bool_decide (c = "#"%char))) s.

Definition cfg_plain (c : PeerConfig) : bool :=
  plain_field (pc_privateKey c) && plain_field (pc_ourLLA c) && plain_field (pc_remotePubkey c)
  && plain_field (pc_remoteEndpoint c) && plain_field (default "" (pc_psk c)).

Lemma squeeze_app a b : squeeze (a +:+ b) = squeeze a +:+ squeeze b.
Proof. induction a as [|c a IH]; cbn; [done|]. rewrite IH. by destruct (is_space_byte c). Qed.

Lemma squeeze_plain s : plain_field s = true -> squeeze s = s.
Proof.
  unfold plain_field. induction s as [|c s IH]; cbn; [done|]. rewrite !andb_true_iff, negb_true_iff.
  intros [[-> _] H]. by rewrite IH.
Qed.

Lemma uncomment_app a b : free_of "#"%char a = true -> uncomment (a +:+ b) = a +:+ uncomment b.
Proof.
  induction a as [|c a IH]; cbn; [done|]. rewrite andb_true_iff, negb_true_iff. intros [H1 H2].
  by rewrite H1, IH.
Qed.

Lemma uncomment_plain s : plain_field s = true -> uncomment s = s.
Proof.
  unfold plain_field. induction s as [|c s IH]; cbn; [done|]. rewrite !andb_true_iff, !negb_true_iff.
  intros [[_ ->] H]. by rewrite IH.
Qed.

Lemma cut_eq_app k v : free_of "="%char k = true -> cut_eq (k +:+ String "="%char v) = Some (k, v).
Proof.
  induction k as [|c k IH]; cbn; [done|]. rewrite andb_true_iff, negb_true_iff. intros [H1 H2].
  by rewrite H1, IH.
Qed.

Lemma plain_one_line s : plain_field s = true -> one_line s = true.
Proof.
  unfold plain_field, one_line, free_of. apply sforall_impl. intros c. rewrite andb_true_iff, !negb_true_iff.
  intros [H _]. apply bool_decide_eq_false. intros ->. done.
Qed.

Lemma cfg_plain_one_line c : cfg_plain c = true -> cfg_one_line c = true.
Proof.
  unfold cfg_plain, cfg_one_line. rewrite !andb_true_iff. intros [[[[? ?] ?] ?] ?]. split_and!; by apply plain_one_line.
Qed.

Lemma plain_Itoa z : plain_field (Itoa z) = true.
Proof.
  assert (Hd : forall n, plain_field (utoa n) = true).
  { intros n. unfold plain_field. eapply sforall_impl; [|apply utoa_digits]. intros c. unfold is_digit, is_space_byte, byte_in.
    rewrite andb_true_iff, !N.leb_le. intros [H1 H2]. rewrite andb_true_iff, !negb_true_iff, orb_false_iff, andb_false_iff.
    split; [split; [right; apply N.leb_gt; lia|apply N.eqb_neq; lia]|].
    apply bool_decide_eq_false. intros ->. cbn in H1. lia. }
  unfold Itoa. destruct (z <? 0); [|apply Hd]. cbn. apply Hd.
Qed.

(** The name of a setting: letters. *)
Definition letters (key : string) : bool :=
  negb (bool_decide (key = "")) && sforall (fun c => byte_in 65 90 c || byte_in 97 122 c) key.

Lemma letters_plain key : letters key = true -> plain_field key = true /\ free_of "="%char key = true /\ HasPrefix key "[" = false.
Proof.
  unfold letters. rewrite andb_true_iff. intros [Hne Hl].
  assert (Hc : forall c, byte_in 65 90 c || byte_in 97 122 c = true ->
    negb (is_space_byte c) && negb (bool_decide (c = "#"%char)) = true /\ negb (bool_decide (c = "="%char)) = true /\ c <> "["%char).
  { intros c. by destruct c as [[] [] [] [] [] [] [] []]. }
  split_and!.
  - eapply sforall_impl; [|exact Hl]. intros c H. apply Hc, H.
  - eapply sforall_impl; [|exact Hl]. intros c H. apply Hc, H.
  - destruct key as [|c key]; [done|]. cbn in Hl. apply andb_true_iff in Hl as [Hl _]. cbn.
    rewrite bool_decide_false; [done|]. intros <-. done.
Qed.

Lemma read_setting key v name l acc rest : letters key = true -> plain_field v = true ->
  read_lines ((key +:+ " = " +:+ v) :: rest) ((name, l) :: acc) = read_lines rest ((name, l ++ [(key, v)]) :: acc).
Proof.
  intros Hk Hv. destruct (letters_plain key Hk) as (Hp & He & Hb). cbn [read_lines]. unfold read_line.
  assert (squeeze (uncomment (key +:+ " = " +:+ v)) = key +:+ String "="%char v) as ->.
  { rewrite <-sapp_assoc, uncomment_app.
    - rewrite uncomment_plain, !squeeze_app, (squeeze_plain key), (squeeze_plain v) by done.
      change (squeeze " = ") with "=". by rewrite sapp_assoc.
    - rewrite free_of_app. assert (free_of "#"%char key = true) as ->; [|done].
      eapply sforall_impl; [|exact Hp]. intros c. rewrite andb_true_iff. by intros [_ ?]. }
  cbv zeta. destruct key as [|c key]; [done|].
  rewrite bool_decide_false by done. assert (HasPrefix (String c key +:+ String "="%char v) "[" = false) as ->.
  { cbn in Hb |- *. by destruct (bool_decide _). }
  cbn [andb]. by rewrite cut_eq_app.
Qed.

(** A line that is known can be read as it stands. *)
Lemma read_known line acc acc' rest : read_line line acc = Some acc' ->
  read_lines (line :: rest) acc = read_lines rest acc'.
Proof. intros H. cbn [read_lines]. by rewrite H. Qed.

(** ** Interface names *)

Lemma extract_digits pre digits : sforall (fun c => negb (is_digit c)) pre = true ->
  sforall is_digit digits = true -> digits <> "" ->
  (fun cs => group cs 0) <$> FindSubmatch asnFromNameRe (pre +:+ digits) = Some digits.
Proof.
  intros Hpre Hd Hne. unfold FindSubmatch.
  assert (Hm : match_here asnFromNameRe false digits = Some ([(0%nat, digits)], "")
               /\ match_here asnFromNameRe true digits = Some ([(0%nat, digits)], "")).
  { rewrite <-(sapp_nil_r digits) at 1 3. split; by apply rmatch_group_run. }
  destruct Hm as [Hf Ht]. destruct (decide (pre = "")) as [->|Hp].
  - cbn [String.append]. by rewrite (find_from_here _ _ _ _ Ht).
  - rewrite find_from_app; [by rewrite (find_from_here _ _ _ _ Hf)| |done].
    intros a0 x y -> Hy. rewrite sforall_app in Hpre. apply andb_true_iff in Hpre as [_ Hy'].
    destruct y as [|c y]; [done|]. cbn in Hy'. apply andb_true_iff in Hy' as [Hc _].
    unfold match_here, asnFromNameRe. cbn. unfold c_digit. apply negb_true_iff in Hc. by rewrite Hc.
Qed.

(** ** [wg show all dump] *)

Record dump_peer := MkDumpPeer {
  dp_pubkey : string; dp_psk : string; dp_endpoint : string; dp_allowed : string;
  dp_handshake : Z; dp_rx : Z; dp_tx : Z; dp_keepalive : string;
}.
Record dump_iface := MkDumpIface {
  di_name : string; di_private : string; di_public : string; di_port : string; di_fwmark : string;
  di_peers : list dump_peer;
}.

Definition tabbed (l : list string) : string := sjoin (String TAB "") l.

(** The documented output: a line of five fields for an interface, then one of nine fields for
    each of its peers. *)
Definition dump_peer_fields (name : string) (p : dump_peer) : list string :=
  [name; dp_pubkey p; dp_psk p; dp_endpoint p; dp_allowed p; Itoa (dp_handshake p);
   Itoa (dp_rx p); Itoa (dp_tx p); dp_keepalive p].
Definition dump_iface_rows (i : dump_iface) : list (list string) :=
  [di_name i; di_private i; di_public i; di_port i; di_fwmark i]
  :: (dump_peer_fields (di_name i) <$> di_peers i).
Definition wg_dump (l : list dump_iface) : string := unlines (tabbed <$> (l ≫= dump_iface_rows)).

Definition dump_stats (i : dump_iface) : list InterfaceStats :=
  (fun p => MkStats (di_name i) (dp_rx p) (dp_tx p) (Itoa (dp_handshake p)) (dp_endpoint p)) <$> di_peers i.

(** Rows a dump can hold: fields without tabs, lines that fit a scanner, named interfaces and
    64-bit counters. *)
Definition row_ok (r : list string) : bool := forallb (free_of TAB) r && plain_line (tabbed r).
Definition dump_iface_ok (i : dump_iface) : Prop :=
  di_name i <> "" /\ Forall (fun r => row_ok r = true) (dump_iface_rows i)
  /\ Forall (fun p => int64 (dp_rx p) /\ int64 (dp_tx p)) (di_peers i).

Lemma split_row r : r <> [] -> row_ok r = true -> split_on TAB (tabbed r) = r.
Proof.
  unfold row_ok. rewrite andb_true_iff, forallb_forall. intros Hne [H _].
  apply split_sjoin; [done|]. apply Forall_forall. intros x Hx. by apply H, list_elem_of_In.
Qed.

Lemma stats_iface_line i st : row_ok [di_name i; di_private i; di_public i; di_port i; di_fwmark i] = true ->
  stats_line st (tabbed [di_name i; di_private i; di_public i; di_port i; di_fwmark i]) = (di_name i, st.2).
Proof. intros H. unfold stats_line. rewrite split_row by done. by destruct st. Qed.

Lemma stats_peer_line name acc p : name <> "" -> row_ok (dump_peer_fields name p) = true ->
  int64 (dp_rx p) -> int64 (dp_tx p) ->
  stats_line (name, acc) (tabbed (dump_peer_fields name p)) =
  (name, acc ++ [MkStats name (dp_rx p) (dp_tx p) (Itoa (dp_handshake p)) (dp_endpoint p)]).
Proof.
  intros Hn H Hr Ht. unfold stats_line. rewrite split_row by done.
  change (length (dump_peer_fields name p)) with 9%nat. cbn [Nat.ltb Nat.leb Nat.eqb].
  rewrite bool_decide_false by done. cbn [negb andb].
  change (field (dump_peer_fields name p) 6) with (Itoa (dp_rx p)).
  change (field (dump_peer_fields name p) 7) with (Itoa (dp_tx p)).
  by rewrite (ParseInt_Itoa _ Hr), (ParseInt_Itoa _ Ht).
Qed.

Lemma stats_iface i st : dump_iface_ok i ->
  exists name, fold_left stats_line (tabbed <$> dump_iface_rows i) st = (name, st.2 ++ dump_stats i).
Proof.
  intros (Hn & Hrows & Hnum). unfold dump_iface_rows in *. apply Forall_cons in Hrows as [Hi Hps].
  cbn [fmap list_fmap fold_left]. rewrite stats_iface_line by done. unfold dump_stats.
  exists (di_name i). generalize st.2. induction (di_peers i) as [|p ps IH]; intros acc; cbn [fmap list_fmap fold_left].
  - by rewrite app_nil_r.
  - cbn in Hps. apply Forall_cons in Hps as [Hp Hps]. apply Forall_cons in Hnum as [[??] Hnum].
    rewrite stats_peer_line by done. rewrite IH by done. by rewrite <-app_assoc.
Qed.

Lemma parse_stats_dump l : Forall dump_iface_ok l -> parse_stats (wg_dump l) = l ≫= dump_stats.
Proof.
  intros H. unfold parse_stats, wg_dump. rewrite scan_unlines.
  2:{ apply Forall_fmap, Forall_bind. eapply Forall_impl; [done|]. intros i (_ & Hr & _).
      eapply Forall_impl; [done|]. intros r. unfold row_ok. rewrite andb_true_iff. by intros [_ ?]. }
  enough (forall st, exists name, fold_left stats_line (tabbed <$> (l ≫= dump_iface_rows)) st
    = (name, st.2 ++ (l ≫= dump_stats))) as Hall.
  { by destruct (Hall ("", [])) as [name ->]. }
  induction H as [|i l Hi _ IH]; intros st; cbn [mbind list_bind].
  - exists st.1. destruct st. by rewrite app_nil_r.
  - rewrite fmap_app, fold_left_app. destruct (stats_iface i st Hi) as [n1 ->].
    destruct (IH (n1, st.2 ++ dump_stats i)) as [n2 ->]. exists n2. cbn. by rewrite app_assoc.
Qed.

(** ** Operations *)

Section operations.
Context `{env : HostEnv} {Q : QuietCommands env}.

(** The host after [argv] ran on the files of [s]. *)
Definition host_after (argv : list string) (files : fs) (h : host) : host := (run_cmd argv (files, h)).2.2.
Definition cmd_succeeds (argv : list string) (files : fs) (h : host) : bool := cmd_ok (run_cmd argv (files, h)).1.

Lemma wp_run_quiet argv (P : cmdres -> Sys -> Prop) s :
  P (run_cmd argv (sys_fs s, sys_host s)).1
    (MkSys (sys_fs s) (host_after argv (sys_fs s) (sys_host s)) (sys_faults s)) ->
  wp (run argv) P s.
Proof. intros H. apply wp_run_cmd. cbn zeta. rewrite run_cmd_fs. exact H. Qed.

Definition valid_peer (asn : Z) (remotePubkey remoteEndpoint : string) : bool :=
  (0 <? asn) && negb (bool_decide (remotePubkey = "")) && negb (bool_decide (remoteEndpoint = "")).

(** How far an addition got: it was refused, the file could not be created, it could not be
    written, or [wg-quick] ran on the complete file. *)
Inductive add_outcome (m : Manager) (ifName : string) (text : string) (s : Sys) : res unit -> Sys -> Prop :=
| add_refused e fl : add_outcome m ifName text s (Err e) (MkSys (sys_fs s) (sys_host s) fl)
| add_partial e d p fl : add_outcome m ifName text s (Err e)
    (MkSys (<[confPath m ifName := FNode false d p]> (sys_fs s)) (sys_host s) fl)
| add_ran r p fl :
    let files := <[confPath m ifName := FNode false text p]> (sys_fs s) in
    is_ok r = cmd_succeeds ["wg-quick"; "up"; ifName] files (sys_host s) ->
    add_outcome m ifName text s r
      (MkSys files (host_after ["wg-quick"; "up"; ifName] files (sys_host s)) fl).

Definition peer_text (m : Manager) (asn listenPort : Z) (pk ep : string) mtu psk : string :=
  wgConfigTmpl (MkPeerConfig asn (privateKey m) listenPort (ourLLA m) pk ep mtu psk).

Lemma wp_AddPeerWithIface m ifName asn port pk ep mtu psk s :
  wp (AddPeerWithIface m ifName asn port pk ep mtu psk)
     (fun r s' => add_outcome m ifName (peer_text m asn port pk ep mtu psk) s r s' /\
        (valid_peer asn pk ep = false -> is_ok r = false /\ s' = s)) s.
Proof.
  unfold AddPeerWithIface, valid_peer. destruct s as [files h fl].
  destruct ((asn <=? 0) || bool_decide (pk = "") || bool_decide (ep = "")) eqn:E.
  - wp_steps. split; [constructor|done].
  - assert (forall P : Prop, (0 <? asn) && negb (bool_decide (pk = "")) && negb (bool_decide (ep = "")) = false -> P) as Hv.
    { intros P. rewrite !orb_false_iff in E. destruct E as [[E1 ->] ->]. cbn.
      rewrite !andb_true_r. apply Z.leb_gt in E1. intros E2%Z.ltb_ge. lia. }
    wp_steps. apply wp_OpenTrunc; intros; wp_steps; [split; [constructor|apply Hv]|].
    cbn [sys_fs sys_host]. apply wp_WriteOpened; intros; wp_steps;
      [split; [by apply (add_partial m ifName _ (MkSys files h fl))|apply Hv]|].
    apply wp_run_quiet. cbn beta. cbn [sys_fs sys_host sys_faults].
    wp_case; wp_steps; (split; [|apply Hv]); apply (add_ran m ifName _ (MkSys files h fl)); symmetry; exact E0.
Qed.

(** The files of an addition: only the peer's own file can differ. *)
Lemma add_outcome_frame m ifName text s r s' path : add_outcome m ifName text s r s' ->
  path <> confPath m ifName -> sys_fs s' !! path = sys_fs s !! path.
Proof.
  intros [e fl|e d p fl|r' p fl files Hc] Hp; cbn [sys_fs]; [done| |unfold files]; by rewrite lookup_insert_ne.
Qed.

Lemma wp_RemovePeerByIface m ifName (P : res unit -> Sys -> Prop) s :
  (let h' := host_after ["wg-quick"; "down"; ifName] (sys_fs s) (sys_host s) in
   (forall fl, P (Ok tt) (MkSys (sys_fs s) h' fl)) /\
   (forall fl, P (Ok tt) (MkSys (delete (confPath m ifName) (sys_fs s)) h' fl))) ->
  wp (RemovePeerByIface m ifName) P s.
Proof.
  intros [H1 H2]. unfold RemovePeerByIface. wp_step. apply wp_run_quiet. wp_step. apply wp_Remove; intros; wp_steps; auto.
Qed.

(** The operations without failing calls. *)
Lemma wg_add_ok m ifName asn port pk ep mtu psk files h : valid_peer asn pk ep = true -> no_dir files (confPath m ifName) ->
  exists r p, let new := <[confPath m ifName := FNode false (peer_text m asn port pk ep mtu psk) p]> files in
    AddPeerWithIface m ifName asn port pk ep mtu psk (MkSys files h []) =
      (Ret r, MkSys new (host_after ["wg-quick"; "up"; ifName] new h) []) /\
    is_ok r = cmd_succeeds ["wg-quick"; "up"; ifName] new h.
Proof.
  intros Hv Hd. destruct (OpenTrunc_ok (confPath m ifName) 384 files h Hd) as [p Eo].
  set (new := <[confPath m ifName := FNode false (peer_text m asn port pk ep mtu psk) p]> files).
  enough (W : wp (AddPeerWithIface m ifName asn port pk ep mtu psk) (fun r s' =>
      s' = MkSys new (host_after ["wg-quick"; "up"; ifName] new h) [] /\
      is_ok r = cmd_succeeds ["wg-quick"; "up"; ifName] new h) (MkSys files h [])).
  { apply wp_run in W as (r & s' & E & -> & H). exists r, p. by split. }
  unfold AddPeerWithIface, valid_peer in *. rewrite !andb_true_iff, !negb_true_iff, Z.ltb_lt in Hv.
  destruct Hv as [[Ha ->] ->]. rewrite (proj2 (Z.leb_gt asn 0)) by lia. cbn [orb].
  wp_step. eapply wp_eq; [exact Eo|]. cbn beta iota. wp_step. eapply wp_eq; [apply WriteOpened_ok|]. cbn beta iota.
  fold (peer_text m asn port pk ep mtu psk). fold new. wp_step. apply wp_run_quiet. cbn beta. unfold cmd_succeeds.
  cbn [sys_fs sys_host sys_faults]. wp_case; by wp_step.
Qed.

Lemma wg_remove_ok m ifName files h : no_dir files (confPath m ifName) ->
  RemovePeerByIface m ifName (MkSys files h []) =
  (Ret (Ok tt), MkSys (delete (confPath m ifName) files) (host_after ["wg-quick"; "down"; ifName] files h) []).
Proof.
  intros Hd. destruct (Remove_ok _ _ (host_after ["wg-quick"; "down"; ifName] files h) Hd) as [r0 Er].
  enough (W : wp (RemovePeerByIface m ifName) (fun r s' => r = Ok tt /\ s' = MkSys (delete (confPath m ifName) files)
    (host_after ["wg-quick"; "down"; ifName] files h) []) (MkSys files h [])).
  { by apply wp_run in W as (r & s' & E & -> & ->). }
  unfold RemovePeerByIface. wp_step. apply wp_run_quiet. cbn [sys_fs sys_host sys_faults].
  wp_step. eapply wp_eq; [exact Er|]. by wp_step.
Qed.

Lemma peer_up_eq m ifName s : IsPeerUp m ifName s =
  (Ret (cmd_succeeds ["wg"; "show"; ifName] (sys_fs s) (sys_host s)),
   MkSys (sys_fs s) (host_after ["wg"; "show"; ifName] (sys_fs s) (sys_host s)) (sys_faults s)).
Proof.
  destruct s as [files h fl]. unfold IsPeerUp, run, mbind, M_bind, cmd_succeeds, host_after. cbn [sys_fs sys_host sys_faults].
  pose proof (run_cmd_fs ["wg"; "show"; ifName] files h) as Hq. destruct (run_cmd _ _) as [r [f' h']]. cbn in Hq. by subst f'.
Qed.

(** C12: AddPeerWithIface returns on every input.  An invalid peer (ASN not positive, no key or no
    endpoint) is refused without touching anything; otherwise only the file of the interface can
    change, and success means that the file holds the complete rendered configuration and that
    [wg-quick up] ran on it and succeeded. *)
Theorem wg_add_peer m ifName asn port pk ep mtu psk s :
  exists r s', AddPeerWithIface m ifName asn port pk ep mtu psk s = (Ret r, s') /\
    (valid_peer asn pk ep = false -> is_ok r = false /\ s' = s) /\
    (forall path, path <> confPath m ifName -> sys_fs s' !! path = sys_fs s !! path) /\
    (is_ok r = true ->
      (exists p, sys_fs s' !! confPath m ifName = Some (FNode false (peer_text m asn port pk ep mtu psk) p)) /\
      cmd_succeeds ["wg-quick"; "up"; ifName] (sys_fs s') (sys_host s) = true /\
      sys_host s' = host_after ["wg-quick"; "up"; ifName] (sys_fs s') (sys_host s)).
Proof.
  destruct (proj1 (wp_run _ _ _) (wp_AddPeerWithIface m ifName asn port pk ep mtu psk s)) as (r & s' & E & Ho & Hv).
  exists r, s'. split_and!; [done|done|by intros; eapply add_outcome_frame|].
  intros Hr. destruct Ho as [| |r p fl files Hc]; [done|done|]. cbn [sys_fs sys_host].
  split_and!; [|by transitivity (is_ok r)|done]. exists p. apply lookup_insert_eq.
Qed.

(** C23: The ASN that AddPeerWithIface recorded in the file of a peer is the one
    readASNFromWGConfig reads back from it. *)
Theorem wg_asn_roundtrip m ifName asn port pk ep mtu psk s s' :
  0 < asn < 2^63 -> AddPeerWithIface m ifName asn port pk ep mtu psk s = (Ret (Ok tt), s') ->
  sys_faults s' = [] ->
  (readASNFromWGConfig m ifName s').1 = Ret (Ok asn).
Proof.
  intros Ha E Hf. pose proof (wp_AddPeerWithIface m ifName asn port pk ep mtu psk s) as H.
  unfold wp in H. rewrite E in H. destruct H as [H _]. inversion H as [| |r p fl files Hc Hr Hs]; subst s'.
  cbn in Hf. subst fl. unfold readASNFromWGConfig, ReadFile, syscall, mbind, M_bind, next_fault. cbn [sys_faults sys_fs].
  unfold files. rewrite lookup_insert_eq. cbn [f_isdir f_data]. unfold mret, M_ret. cbn [fst res_bind].
  unfold peer_text. by rewrite asn_of_config_render.
Qed.

(** C24: RemovePeerByIface always succeeds: it runs [wg-quick down] while the file is still there,
    then removes the file, and touches no other file; with a plain file and no failing system
    call the file is gone. *)
Theorem wg_remove_peer m ifName s :
  exists s', RemovePeerByIface m ifName s = (Ret (Ok tt), s') /\
    sys_host s' = host_after ["wg-quick"; "down"; ifName] (sys_fs s) (sys_host s) /\
    (forall path, path <> confPath m ifName -> sys_fs s' !! path = sys_fs s !! path) /\
    (sys_faults s = [] -> (forall n, sys_fs s !! confPath m ifName = Some n -> f_isdir n = false) ->
      sys_fs s' !! confPath m ifName = None).
Proof.
  unfold RemovePeerByIface, run, mbind, M_bind.
  pose proof (run_cmd_fs ["wg-quick"; "down"; ifName] (sys_fs s) (sys_host s)) as Hq.
  unfold host_after. destruct (run_cmd _ _) as [r [files h]]. cbn in Hq. subst files.
  destruct (Remove_cases (confPath m ifName) (MkSys (sys_fs s) h (sys_faults s))) as (r' & s' & -> & Hh & Hfs & Hgone).
  exists s'. split_and!; [done|done| |done].
  intros path Hp. destruct Hfs as [->| ->]; [done|]. by rewrite lookup_delete_ne.
Qed.

(** C25: GetStats reads the documented output of [wg show all dump] exactly: one entry per peer,
    in order, with the name of its interface, its counters, handshake time and endpoint. *)
Theorem wg_get_stats m l s : Forall dump_iface_ok l ->
  cmd_succeeds ["wg"; "show"; "all"; "dump"] (sys_fs s) (sys_host s) = true ->
  cmd_stdout (run_cmd ["wg"; "show"; "all"; "dump"] (sys_fs s, sys_host s)).1 = wg_dump l ->
  (GetStats m s).1 = Ret (Ok (l ≫= dump_stats)).
Proof.
  intros Hl Hc Ho. enough (wp (GetStats m) (fun r _ => r = Ok (l ≫= dump_stats)) s) as H.
  { apply wp_run in H as (r & s' & -> & ->). done. }
  unfold GetStats. wp_step. apply wp_run_quiet. unfold cmd_succeeds in Hc. rewrite Hc. wp_steps.
  by rewrite Ho, parse_stats_dump.
Qed.

End operations.

(** The next line of a file: a setting with a plain value, or a fixed line. *)
Ltac read_kv key := etransitivity; [refine (read_setting key _ _ _ _ _ eq_refl _); first [assumption|apply plain_Itoa]|]; cbn [app].
Ltac read_to acc := etransitivity; [refine (read_known _ _ acc _ _); reflexivity|].
Ltac read_pair key v :=
  lazymatch goal with |- read_lines _ ((?n, ?l) :: ?acc) = _ => read_to ((n, l ++ [(key, v)]) :: acc) end; cbn [app].
Ltac read_section name := lazymatch goal with |- read_lines _ ?acc = _ => read_to ((name, @nil (string * string)) :: acc) end.
Ltac read_skip := lazymatch goal with |- read_lines _ ?acc = _ => read_to acc end.
Ltac read_interface := read_skip; read_section "Interface"; read_kv "PrivateKey"; read_kv "ListenPort"; read_kv "Address".
Ltac read_peer := read_pair "Table" "off"; read_skip; read_section "Peer"; read_kv "PublicKey".
Ltac read_end := read_pair "AllowedIPs" "172.20.0.0/14,fd00::/8,fe80::/10"; read_kv "Endpoint";
  read_pair "PersistentKeepalive" "25"; read_skip; reflexivity.

(** C29: The configuration file means what it should: read by the documented format of wg and
    wg-quick it has exactly the sections Interface and Peer, with exactly the settings of the
    peer's configuration in each, whatever the fields are as long as none holds white space or a
    comment sign: no field can add a setting of its own. *)
Theorem wg_config_settings c : cfg_plain c = true -> wg_settings (wgConfigTmpl c) =
  Some [ ("Interface",
           [("PrivateKey", pc_privateKey c); ("ListenPort", Itoa (pc_listenPort c)); ("Address", pc_ourLLA c +:+ "/64")]
           ++ match pc_mtu c with Some mtu => [("MTU", Itoa mtu)] | None => [] end ++ [("Table", "off")]);
         ("Peer",
           [("PublicKey", pc_remotePubkey c)]
           ++ match pc_psk c with Some psk => [("PresharedKey", psk)] | None => [] end
           ++ [("AllowedIPs", "172.20.0.0/14,fd00::/8,fe80::/10"); ("Endpoint", pc_remoteEndpoint c);
               ("PersistentKeepalive", "25")]) ].
Proof.
  intros Hc. pose proof Hc as Hl%cfg_plain_one_line. unfold wg_settings, wgConfigTmpl.
  rewrite split_unlines by (by apply config_lines_one). unfold cfg_plain in Hc. rewrite !andb_true_iff in Hc.
  destruct Hc as [[[[H1 H2] H3] H4] H5]. pose proof (plain_Itoa (pc_listenPort c)) as H6.
  assert (H7 : plain_field (pc_ourLLA c +:+ "/64") = true) by (unfold plain_field in *; by rewrite sforall_app, H2).
  unfold config_lines. destruct (pc_mtu c) as [mtu|], (pc_psk c) as [psk|]; cbn [app] in *; cbn [default] in H5;
    [read_interface; read_kv "MTU"; read_peer; read_kv "PresharedKey"; read_end
    |read_interface; read_kv "MTU"; read_peer; read_end
    |read_interface; read_peer; read_kv "PresharedKey"; read_end
    |read_interface; read_peer; read_end].
Qed.

(** C40: The ASN extractASNFromIface reads off the interface name the agent itself gives a peer is
    never the peer's ASN: the digits of the prefix [dn42] are read as part of the number. *)
Theorem extract_asn_wrong asn : 0 < asn -> extractASNFromIface (InterfaceName asn) <> Some asn.
Proof.
  intros Ha. unfold extractASNFromIface, InterfaceName. rewrite Itoa_nonneg by lia.
  change ("dn42" +:+ utoa (Z.to_N asn)) with ("dn" +:+ ("42" +:+ utoa (Z.to_N asn))).
  pose proof (extract_digits "dn" ("42" +:+ utoa (Z.to_N asn))) as H.
  rewrite sforall_app, utoa_digits in H. specialize (H eq_refl eq_refl ltac:(done)).
  destruct (FindSubmatch _ _) as [cs|]; [|done]. cbn in H. injection H as ->.
  destruct (ParseInt _) as [n ok] eqn:E. destruct ok; [|done]. intros [= ->].
  rewrite ParseInt_digits in E; [|done|cbn; apply utoa_digits].
  case_match; [|done]. injection E as E. apply (f_equal Z.to_N) in E. rewrite N2Z.id in E.
  pose proof (dec_val_from_mono (utoa (Z.to_N asn)) 0 (dec_val_from 0 "42")) as Hm.
  rewrite <-dec_val_from_app in Hm. fold (dec_val (utoa (Z.to_N asn))) in Hm. rewrite dec_val_utoa in Hm.
  change (dec_val_from 0 ("42" +:+ utoa (Z.to_N asn))) with (dec_val ("42" +:+ utoa (Z.to_N asn))) in Hm.
  assert (0 < dec_val_from 0 "42")%N by (vm_compute; done).
  change (dec_val ("42" +:+ utoa (Z.to_N asn)) = Z.to_N asn) in E. rewrite E in Hm. lia.
Qed.

(** ** What the agent relies on of [wg] and [wg-quick]

    A host has a set of WireGuard interfaces; [wg show] succeeds on those; [wg-quick up] creates
    one and fails on one that exists, a failure leaving none behind; [wg-quick down] removes one,
    and does when the interface exists and its configuration file is in place; other programs of
    the agent leave the set alone. *)
Class WgLaws (env : HostEnv) := {
  up : host -> gset string;
  wg_conf_dir : string;
  wg_show_law : forall i files h, i ∉ ["all"; "interfaces"] ->
    cmd_succeeds ["wg"; "show"; i] files h = bool_decide (i ∈ up h);
  wg_up_law : forall i files h, up (host_after ["wg-quick"; "up"; i] files h) =
    if cmd_succeeds ["wg-quick"; "up"; i] files h then {[i]} ∪ up h else up h;
  wg_up_fresh : forall i files h, cmd_succeeds ["wg-quick"; "up"; i] files h = true -> i ∉ up h;
  wg_down_law : forall i files h, up (host_after ["wg-quick"; "down"; i] files h) =
    if cmd_succeeds ["wg-quick"; "down"; i] files h then up h ∖ {[i]} else up h;
  wg_down_works : forall i files h, i ∈ up h -> is_Some (files !! Join [wg_conf_dir; i +:+ ".conf"]) ->
    cmd_succeeds ["wg-quick"; "down"; i] files h = true;
  other_cmds : forall prog args files h, prog <> "wg-quick" -> up (host_after (prog :: args) files h) = up h;
}.

#[global] Instance sim_wg_laws : WgLaws SimEnv.
Proof.
  refine {| up := (sim_up : @host SimEnv -> _); wg_conf_dir := sim_conf_dir |};
    unfold cmd_succeeds, host_after; cbn [run_cmd SimEnv].
  - intros. by rewrite sim_run_show.
  - intros. rewrite sim_run_up. by case_decide.
  - intros i files h. rewrite sim_run_up. case_decide; cbn; [done|auto].
  - intros. rewrite sim_run_down. by case_decide.
  - intros i files h Hi Hf. rewrite sim_run_down, decide_True; done.
  - intros prog args files h Hp. unfold sim_run. destruct args as [|? [|? [|]]]; repeat case_decide; cbn; try done; naive_solver.
Defined.

(** ** Witnesses, on the simulated host *)

Definition sim_wg : Manager := NewManager "/etc/wireguard" "/etc/bird/peers" "PRIV=" "fe80::1".

Lemma wg_add_peer_witness :
  (AddPeerWithIface sim_wg "dn42x" 4242420123 20123 "PUB=" "host:1" None None (sim_sys sim0)).1 = Ret (Ok tt) /\
  exists r s', AddPeerWithIface sim_wg "dn42x" 4242420123 20123 "PUB=" "host:1" None None (sim_sys sim0) = (Ret r, s').
Proof.
  split; [vm_compute; reflexivity|].
  destruct (wg_add_peer sim_wg "dn42x" 4242420123 20123 "PUB=" "host:1" None None (sim_sys sim0)) as (r & s' & E & _).
  exists r, s'. exact E.
Defined.

Lemma wg_asn_roundtrip_witness :
  let s' := (AddPeerWithIface sim_wg "dn42x" 4242420123 20123 "PUB=" "host:1" None None (sim_sys sim0)).2 in
  (readASNFromWGConfig sim_wg "dn42x" s').1 = Ret (Ok 4242420123).
Proof.
  refine (wg_asn_roundtrip sim_wg "dn42x" 4242420123 20123 "PUB=" "host:1" None None (sim_sys sim0) _ _ _ _);
    [lia| |vm_compute; reflexivity].
  apply injective_projections; [vm_compute; reflexivity|reflexivity].
Defined.

Lemma wg_remove_peer_witness : exists s', RemovePeerByIface sim_wg "dn42x" (sim_sys sim0) = (Ret (Ok tt), s') /\
  sys_fs s' !! confPath sim_wg "dn42x" = None.
Proof.
  destruct (wg_remove_peer sim_wg "dn42x" (sim_sys sim0)) as (s' & E & _ & _ & H). exists s'. split; [exact E|].
  apply H; [reflexivity|]. intros n Hn. vm_compute in Hn. discriminate.
Defined.

(** Two interfaces, one with a peer. *)
Definition dump_example : list dump_iface := [
  MkDumpIface "dn42a" "priv" "pub" "20001" "off"
    [MkDumpPeer "pk" "(none)" "192.0.2.1:51820" "172.20.0.0/14" 1700000000 123 456 "25"];
  MkDumpIface "dn42b" "priv" "pub" "20002" "off" []].

Lemma wg_get_stats_witness :
  (GetStats sim_wg (sim_sys (MkSim ∅ true true (wg_dump dump_example)))).1 =
  Ret (Ok [MkStats "dn42a" 123 456 "1700000000" "192.0.2.1:51820"]).
Proof.
  refine (wg_get_stats sim_wg dump_example (sim_sys (MkSim ∅ true true (wg_dump dump_example))) _ _ _);
    [|reflexivity|reflexivity].
  repeat constructor; try reflexivity; try (vm_compute; discriminate); vm_compute; split; discriminate || reflexivity.
Defined.

Definition cfg_example : PeerConfig := MkPeerConfig 4242420123 "PRIV=" 20123 "fe80::1" "PUB=" "host:1" (Some 1420) (Some "PSK=").

Lemma wg_config_settings_witness : wg_settings (wgConfigTmpl cfg_example) =
  Some [ ("Interface", [("PrivateKey", "PRIV="); ("ListenPort", "20123"); ("Address", "fe80::1/64"); ("MTU", "1420"); ("Table", "off")]);
         ("Peer", [("PublicKey", "PUB="); ("PresharedKey", "PSK="); ("AllowedIPs", "172.20.0.0/14,fd00::/8,fe80::/10");
                   ("Endpoint", "host:1"); ("PersistentKeepalive", "25")]) ].
Proof. apply (wg_config_settings cfg_example). vm_compute. reflexivity. Defined.

Lemma extract_asn_wrong_witness : extractASNFromIface (InterfaceName 4242420123) <> Some 4242420123.
Proof. apply (extract_asn_wrong 4242420123). lia. Defined.
