(* ===== verification/Bird.v ===== *)
(** Package [bird]: BGP sessions, one protocol file per peer and the control program of BIRD.
    The mutex of the manager serialises writers; an operation is one step here. *)

From S2P Require Import Prelude GoStrings GoPath Json Regex GoFloat Host.
From Stdlib Require Import Ascii SpecFloat.

Record Manager := MkManager { peerDir : string; birdcPath : string }.

Definition NewManager (peerDir birdcPath : string) : Manager := MkManager peerDir birdcPath.

Definition ConfigDir (m : Manager) : string := peerDir m.

Record PeerConfig := MkPeerConfig {
  bc_asn : Z;
  bc_asnSuffix : string;
  bc_remoteLLA : string;
  bc_wgInterface : string;
}.

Definition birdConfigTmpl (c : PeerConfig) : string := unlines
  [ "protocol bgp dn42_" +:+ bc_asnSuffix c +:+ " from dnpeers {";
    "    neighbor " +:+ bc_remoteLLA c +:+ " % '" +:+ bc_wgInterface c +:+ "' as " +:+ Itoa (bc_asn c) +:+ ";";
    "}" ].

Definition conf_name (asn : Z) : string := "dn42_" +:+ Itoa asn +:+ ".conf".

(** ** Output of [birdc show protocols] *)

Record PeerState := MkPeerState { ps_name : string; ps_state : string }.

Record PeerDetail := MkPeerDetail {
  pd_name : string;
  pd_state : string;
  RoutesImported : Z;
  RoutesExported : Z;
  RoutesPreferred : Z;
  BGPUptimeSecs : Z;
}.

Record ScannedBGP := MkScannedBGP {
  sb_name : string;
  sb_protoName : string;
  sb_filename : string;
  sb_asn : Z;
  sb_remoteLLA : string;
  sb_wgInterface : string;
}.

Definition field (l : list string) (i : nat) : string := default "" (l !! i).

Definition state_line (states : list PeerState) (line : string) : list PeerState :=
  let fields := Fields line in
  if (length fields <? 6)%nat then states
  else if negb (bool_decide (field fields 1 = "BGP")) then states
  else states ++ [MkPeerState (field fields 0) (ToLower (field fields 5))].

Definition parse_states (out : string) : list PeerState := fold_left state_line (scan_lines out) [].

(** [routesRe], [neighborRe] and [protoNameRe]. *)
Definition routesRe : re := RCat [
  RLit "Routes:"; RPlus c_space; RGroup 1 (RPlus c_digit); RLit " imported,"; RPlus c_space;
  RGroup 2 (RPlus c_digit); RLit " exported";
  ROpt (RCat [RLit ","; RPlus c_space; RGroup 3 (RPlus c_digit); RLit " preferred"])].

Definition c_lla (c : ascii) : bool := bool_decide (is_Some (hex_val c)) || bool_decide (c = ":"%char).
Definition neighborRe : re := RCat [
  RLit "neighbor"; RPlus c_space; RGroup 1 (RCat [RLit "fe80:"; RPlus c_lla]); RPlus c_space; RLit "%";
  RStar c_space; RLit "'"; RGroup 2 (RPlus c_nonspace); RLit "'"; RPlus c_space; RLit "as"; RPlus c_space;
  RGroup 3 (RPlus c_digit)].

Definition protoNameRe : re := RCat [
  RLit "protocol"; RPlus c_space; RLit "bgp"; RPlus c_space; RGroup 1 (RPlus c_nonspace); RPlus c_space;
  RLit "from"; RPlus c_space; RLit "dnpeers"].

(** [fmt.Sscan(digits, &n)] with [n] zero: a leading zero makes the number octal, and a number
    that overflows leaves [n] as it was. *)
Definition is_octal (c : ascii) : bool := is_digit c && (code c <? 56)%N.
Fixpoint oct_val_from (acc : N) (s : string) : N :=
  match s with
  | String c s' => if is_octal c then oct_val_from (8 * acc + digit_val c) s' else acc
  | "" => acc
  end.
Definition Sscan_int (s : string) : Z :=
  if HasPrefix s "0" then
    let v := Z.of_N (oct_val_from 0 s) in if v <? 2^63 then v else 0
  else let '(v, ok) := ParseInt s in if ok then v else 0.

(** ** Times

    A moment is its nanoseconds since the start of 1970 in the local zone, which is taken to have
    a fixed offset. *)
Definition Second : Z := 10^9.
Definition day_ns : Z := 86400 * Second.

(** Days from 1970-01-01 to a date of the proleptic Gregorian calendar. *)
Definition days_from_civil (y m d : Z) : Z :=
  let y' := if m <=? 2 then y - 1 else y in
  let era := y' / 400 in
  let yoe := y' - era * 400 in
  let doy := (153 * (if 2 <? m then m - 3 else m + 9) + 2) / 5 + d - 1 in
  let doe := yoe * 365 + yoe / 4 - yoe / 100 + doy in
  era * 146097 + doe - 719468.

Definition is_leap (y : Z) : bool := (y mod 4 =? 0) && (negb (y mod 100 =? 0) || (y mod 400 =? 0)).
Definition days_in (m y : Z) : Z :=
  if m =? 2 then if is_leap y then 29 else 28
  else if (m =? 4) || (m =? 6) || (m =? 9) || (m =? 11) then 30 else 31.

Definition two_digits (a b : ascii) : option Z :=
  if is_digit a && is_digit b then Some (Z.of_N (10 * digit_val a + digit_val b)) else None.

(** A fraction of a second, or nothing, ends the text. *)
Definition frac_end (s : string) : bool :=
  match s with
  | "" => true
  | String p d => (bool_decide (p = "."%char) || bool_decide (p = ","%char))
                  && negb (bool_decide (d = "")) && sforall is_digit d
  end.

(** [time.ParseInLocation("15:04:05", s, time.Local)]: hour (one or two digits), minute, second. *)
Definition parse_clock_rest (h : Z) (s : string) : option (Z * Z * Z) :=
  match s with
  | String ":" (String m1 (String m2 (String ":" (String s1 (String s2 rest))))) =>
      m ← two_digits m1 m2; sec ← two_digits s1 s2;
      if (h <? 24) && (m <? 60) && (sec <? 60) && frac_end rest then Some (h, m, sec) else None
  | _ => None
  end.
Definition parse_clock (s : string) : option (Z * Z * Z) :=
  match s with
  | String a (String b s2) =>
      if is_digit b then h ← two_digits a b; parse_clock_rest h s2
      else h ← two_digits "0" a; parse_clock_rest h (String b s2)
  | _ => None
  end.

(** [time.ParseInLocation("2006-01-02", s, time.Local)]: year, month, day. *)
Definition parse_date (s : string) : option (Z * Z * Z) :=
  match s with
  | String y1 (String y2 (String y3 (String y4 (String "-" (String m1 (String m2 (String "-" (String d1 (String d2 ""))))))))) =>
      yh ← two_digits y1 y2; yl ← two_digits y3 y4; m ← two_digits m1 m2; d ← two_digits d1 d2;
      let y := 100 * yh + yl in
      if (1 <=? m) && (m <=? 12) && (1 <=? d) && (d <=? days_in m y) then Some (y, m, d) else None
  | _ => None
  end.

(** [Time.Sub] saturates at the range of a [Duration]. *)
Definition duration (ns : Z) : Z := Z.max (- 2^63) (Z.min (2^63 - 1) ns).

(** [int(d.Seconds())]: whole seconds plus the fraction, added as doubles and truncated. *)
Definition float_of_Z (z : Z) : float64 :=
  if z <? 0 then round_ratio true (Z.to_N (- z)) 1 else round_ratio false (Z.to_N z) 1.
Definition trunc (f : float64) : Z :=
  match f with
  | S754_finite neg m e =>
      let v := if 0 <=? e then Z.pos m * 2 ^ e else Z.pos m / 2 ^ (- e) in
      if neg then - v else v
  | _ => 0
  end.
Definition seconds (d : Z) : Z :=
  let sec := Z.quot d Second in
  let nsec := Z.rem d Second in
  trunc (SFadd 53 1024 (float_of_Z sec)
    (round_ratio (nsec <? 0) (Z.to_N (Z.abs nsec)) (Z.to_pos Second))).

Definition parseSinceToUptimeSecs (now : Z) (since : string) : Z :=
  match parse_clock since with
  | Some (h, m, s) =>
      let start := now / day_ns * day_ns + (3600 * h + 60 * m + s) * Second in
      let start := if now <? start then start - day_ns else start in
      seconds (duration (now - start))
  | None =>
      match parse_date since with
      | Some (y, m, d) => seconds (duration (now - days_from_civil y m d * day_ns))
      | None => 0
      end
  end.

(** The state of the loop of [GetPeerDetails]: finished protocols and the current one. *)
Definition detail_line (now : Z) (st : list PeerDetail * option PeerDetail) (line : string)
  : list PeerDetail * option PeerDetail :=
  let '(details, current) := st in
  let fields := Fields line in
  if negb (HasPrefix line " ") && (2 <=? length fields)%nat && bool_decide (field fields 1 = "BGP") then
    let details := match current with Some c => details ++ [c] | None => details end in
    let state := if (6 <=? length fields)%nat then ToLower (field fields 5) else "" in
    let since := if (5 <=? length fields)%nat then field fields 4 else "" in
    (details, Some (MkPeerDetail (field fields 0) state 0 0 0 (parseSinceToUptimeSecs now since)))
  else
    match current with
    | None => st
    | Some c =>
        match FindSubmatch routesRe line with
        | None => st
        | Some cs =>
            let preferred := if decide (group cs 3 = "") then 0 else Sscan_int (group cs 3) in
            (details, Some (MkPeerDetail (pd_name c) (pd_state c)
               (wrap64 (RoutesImported c + Sscan_int (group cs 1)))
               (wrap64 (RoutesExported c + Sscan_int (group cs 2)))
               (wrap64 (RoutesPreferred c + preferred)) (BGPUptimeSecs c)))
        end
    end.

Definition parse_details (now : Z) (out : string) : list PeerDetail :=
  let '(details, current) := fold_left (detail_line now) (scan_lines out) ([], None) in
  match current with Some c => details ++ [c] | None => details end.

Definition maxRouteOutput : nat := N.to_nat 65536.

(** [ShowRoute]'s arguments and the text it returns. *)
Definition route_args (target : string) (detailed : bool) : list string :=
  ["show"; "route"] ++ (if Contains target "/" then [target] else ["for"; target])
  ++ (if detailed then ["all"] else []).

Definition truncated_note : string := nl +:+ "... (output truncated)".
Definition cap_output (text : string) : string :=
  if (N.of_nat maxRouteOutput <? N.of_nat (slen text))%N then stake maxRouteOutput text +:+ truncated_note
  else text.

(** What one file of the peer directory holds. *)
Definition scan_file (name data : string) : option ScannedBGP :=
  cs ← FindSubmatch neighborRe data;
  let '(asn, ok) := ParseInt (group cs 3) in
  if ok : bool then
    let protoName := match FindSubmatch protoNameRe data with Some pm => group pm 1 | None => "" end in
    Some (MkScannedBGP (TrimSuffix name ".conf") protoName name asn (group cs 1) (group cs 2))
  else None.

Section bird.
Context `{env : HostEnv}.

Definition reloadLocked (m : Manager) : M Sys (res unit) :=
  r ← run [birdcPath m; "configure"];
  if cmd_ok r then mret (Ok tt)
  else mret (Err (errorf ("birdc configure: " +:+ cmd_output r +:+ ": " +:+ cmd_err r))).

Definition reload (m : Manager) : M Sys (res unit) := reloadLocked m.

Definition AddPeer (m : Manager) (asn : Z) (remoteLLA wgInterface : string) : M Sys (res unit) :=
  let configPath := Join [peerDir m; conf_name asn] in
  let cfg := MkPeerConfig asn (Itoa asn) remoteLLA wgInterface in
  f ← OpenTrunc configPath 420;
  match f with
  | Err e => mret (Err (wrap "create bird config" e))
  | Ok _ =>
      w ← WriteOpened configPath (birdConfigTmpl cfg);
      match w with
      | Err e => mret (Err (wrap "write bird config" e))
      | Ok _ =>
          check ← run [birdcPath m; "configure"; "check"];
          if cmd_ok check then reloadLocked m
          else
            _ ← Remove configPath;
            mret (Err (errorf ("bird config check failed: " +:+ cmd_output check)))
      end
  end.

Definition RemovePeerByFilename (m : Manager) (filename : string) : M Sys (res unit) :=
  _ ← Remove (Join [peerDir m; filename]);
  reloadLocked m.

Definition RemovePeer (m : Manager) (asn : Z) : M Sys (res unit) :=
  _ ← Remove (Join [peerDir m; conf_name asn]);
  reloadLocked m.

Definition birdc_protocol (m : Manager) (verb protoName : string) : M Sys (res unit) :=
  r ← run [birdcPath m; verb; protoName];
  if cmd_ok r then mret (Ok tt)
  else mret (Err (errorf ("birdc " +:+ verb +:+ " " +:+ protoName +:+ ": " +:+ cmd_output r +:+ ": " +:+ cmd_err r))).
Definition DisableProtocol (m : Manager) (protoName : string) : M Sys (res unit) :=
  birdc_protocol m "disable" protoName.
Definition EnableProtocol (m : Manager) (protoName : string) : M Sys (res unit) :=
  birdc_protocol m "enable" protoName.

Definition GetPeerStates (m : Manager) : M Sys (res (list PeerState)) :=
  r ← run [birdcPath m; "show"; "protocols"];
  if cmd_ok r then mret (Ok (parse_states (cmd_stdout r)))
  else mret (Err (errorf ("birdc show protocols: " +:+ cmd_err r))).

Definition ShowRoute (m : Manager) (target : string) (detailed : bool) : M Sys (res string) :=
  r ← run (birdcPath m :: route_args target detailed);
  if cmd_ok r then mret (Ok (cap_output (TrimSpace (cmd_output r))))
  else mret (Err (errorf ("birdc show route: " +:+ TrimSpace (cmd_output r)))).

Definition GetPeerDetails (m : Manager) (now : Z) : M Sys (res (list PeerDetail)) :=
  r ← run [birdcPath m; "show"; "protocols"; "all"];
  if cmd_ok r then mret (Ok (parse_details now (cmd_stdout r)))
  else mret (Err (errorf ("birdc show protocols all: " +:+ cmd_err r))).

Definition scan_entry (m : Manager) (peers : list ScannedBGP) (entry : string * bool) : M Sys (list ScannedBGP) :=
  if entry.2 || negb (HasSuffix entry.1 ".conf") then mret peers
  else
    data ← ReadFile (Join [peerDir m; entry.1]);
    match data with
    | Err _ => mret peers
    | Ok data => mret (peers ++ option_list (scan_file entry.1 data))
    end.

Definition ScanPeers (m : Manager) : M Sys (res (list ScannedBGP)) :=
  entries ← ReadDir (peerDir m);
  match entries with
  | Err e => mret (Err (wrap "read bird peer dir" e))
  | Ok l => peers ← mfold (scan_entry m) l []; mret (Ok peers)
  end.

End bird.

Example birdConfigTmpl_example : birdConfigTmpl (MkPeerConfig 4242420123 "4242420123" "fe80::123" "dn42peer") =
"protocol bgp dn42_4242420123 from dnpeers {
    neighbor fe80::123 % 'dn42peer' as 4242420123;
}
".
Proof. reflexivity. Qed.

Example scan_file_example : scan_file "dn42_4242420123.conf"
  (birdConfigTmpl (MkPeerConfig 4242420123 "4242420123" "fe80::123" "dn42peer")) =
  Some (MkScannedBGP "dn42_4242420123" "dn42_4242420123" "dn42_4242420123.conf" 4242420123 "fe80::123" "dn42peer").
Proof. vm_compute. reflexivity. Qed.

Example uptime_examples : parseSinceToUptimeSecs (90061 * Second) "01:00:00.123" = 61
  /\ parseSinceToUptimeSecs (90061 * Second) "02:00:00" = 82861
  /\ parseSinceToUptimeSecs (90061 * Second) "1970-01-01" = 90061
  /\ days_from_civil 2024 2 29 = 19782.
Proof. vm_compute. auto. Qed.

Example parse_details_example :
  parse_details 0 (unlines ["Name Proto Table State Since Info"; "dn42_1   BGP  --- up  00:00:00  Established";
    "  Channel ipv4"; "    Routes:         12 imported, 3 exported, 10 preferred"; "    Routes:         1 imported, 1 exported"])
  = [MkPeerDetail "dn42_1" "established" 13 4 10 0].
Proof. vm_compute. reflexivity. Qed.
