(* ===== verification/BirdFacts.v ===== *)
(** Properties of package [bird]. *)

From S2P Require Import Prelude GoStrings GoPath Json Regex GoFloat Host SimHost Wg WgFacts Bird.
From Stdlib Require Import Ascii.

(** ** Reading a protocol file back *)

Definition lla_ok (lla : string) : bool :=
  HasPrefix lla "fe80:" && negb (bool_decide (sdrop 5 lla = "")) && sforall c_lla (sdrop 5 lla).
Definition iface_ok (i : string) : bool :=
  negb (bool_decide (i = "")) && sforall c_nonspace i && free_of "'" i.

Lemma rmatch_seq a b at0 s cs k :
  rmatch (RSeq a b) at0 s cs k = rmatch a at0 s cs (fun at1 s1 cs1 => rmatch b at1 s1 cs1 k).
Proof. done. Qed.

Lemma rmatch_group n a at0 s cs k : rmatch (RGroup n a) at0 s cs k =
  rmatch a at0 s cs (fun at1 s1 cs1 => k at1 s1 ((n, stake (slen s - slen s1) s) :: cs1)).
Proof. done. Qed.

Lemma rmatch_lit_step t at0 s cs k x : (forall a0, k a0 s cs = Some x) ->
  rmatch (RLit t) at0 (t +:+ s) cs k = Some x.
Proof. intros H. by rewrite rmatch_lit. Qed.

Lemma stake_diff u t : stake (slen (u +:+ t) - slen t) (u +:+ t) = u.
Proof. rewrite slen_app. replace (slen u + slen t - slen t)%nat with (slen u) by lia. apply stake_app. Qed.

(** One or more bytes of a class, as many as there are. *)
Lemma rmatch_plus_run p at0 run s cs k x : run <> "" -> sforall p run = true ->
  match s with String c _ => p c = false | "" => True end ->
  k false s cs = Some x -> rmatch (RPlus p) at0 (run +:+ s) cs k = Some x.
Proof.
  intros Hne Hp Hs Hk. destruct run as [|c run]; [done|]. cbn in Hp. apply andb_true_iff in Hp as [Hc Hp].
  cbn [rmatch RPlus String.append]. rewrite Hc. by apply star_loop_run.
Qed.

Lemma rmatch_star_run p at0 run s cs k x : sforall p run = true ->
  match s with String c _ => p c = false | "" => True end ->
  (forall a0, k a0 s cs = Some x) -> rmatch (RStar p) at0 (run +:+ s) cs k = Some x.
Proof. intros Hp Hs Hk. cbn [rmatch]. apply star_loop_run; auto. Qed.

(** A captured run of a class that a literal of the same class follows. *)
Lemma rmatch_group_quoted n p at0 run q s cs k x :
  run <> "" -> sforall p run = true -> p q = true ->
  match s with String c _ => p c = false | "" => True end ->
  k false (String q s) ((n, run) :: cs) = Some x ->
  (forall a0, k a0 s ((n, run +:+ String q "") :: cs) = None) ->
  rmatch (RGroup n (RPlus p)) at0 (run +:+ String q s) cs k = Some x.
Proof.
  intros Hne Hp Hq Hs Hk Hno. destruct run as [|c run]; [done|]. cbn in Hp. apply andb_true_iff in Hp as [Hc Hp].
  cbn [rmatch RPlus String.append]. rewrite Hc.
  apply (star_loop_backoff p _ _ _ run (String q "")).
  - done.
  - cbn. by rewrite Hq.
  - done.
  - intros a0 pre post E Hpre. destruct pre as [|c1 pre]; [done|]. cbn in E. injection E as <- E.
    destruct pre; [|done]. cbn in E. subst post. cbn [String.append].
    replace (String c (run +:+ String q s)) with ((String c run +:+ String q "") +:+ s) by (by rewrite sapp_assoc).
    rewrite stake_diff. apply Hno.
  - cbn [String.append]. change (String c (run +:+ String q s)) with (String c run +:+ String q s).
    rewrite andb_false_l, stake_diff. exact Hk.
Qed.

Lemma nonspace_digit c : is_digit c = true -> c_space c = false.
Proof.
  intros H. apply bool_decide_eq_false. intros Hin. unfold c_space in *.
  repeat (apply elem_of_cons in Hin as [->|Hin]; [done|]). by apply elem_of_nil in Hin.
Qed.

Section scan.
Variables (asn : Z) (lla iface : string).
Hypotheses (Hasn : 0 <= asn < 2^63) (Hlla : lla_ok lla = true) (Hif : iface_ok iface = true).

Let text : string := birdConfigTmpl (MkPeerConfig asn (Itoa asn) lla iface).

Lemma match_neighbor :
  match_here neighborRe false ("neighbor " +:+ lla +:+ " % '" +:+ iface +:+ "' as " +:+ Itoa asn +:+ ";" +:+ nl +:+ "}" +:+ nl)
  = Some ([(3%nat, Itoa asn); (2%nat, iface); (1%nat, lla)], ";" +:+ nl +:+ "}" +:+ nl).
Proof.
  unfold lla_ok in Hlla. rewrite !andb_true_iff, HasPrefix_spec in Hlla. destruct Hlla as [[[l ->] Hl1] Hl2].
  rewrite negb_true_iff, bool_decide_eq_false in Hl1. cbn in Hl1, Hl2.
  unfold iface_ok in Hif. rewrite !andb_true_iff, negb_true_iff, bool_decide_eq_false in Hif.
  destruct Hif as [[Hi1 Hi2] Hi3].
  unfold match_here, neighborRe, RCat.
  change ("neighbor " +:+ ?x) with ("neighbor" +:+ (" " +:+ x)).
  rewrite rmatch_seq, rmatch_lit, rmatch_seq. apply (rmatch_plus_run c_space _ " "); [done|done|done|].
  set (rest := " % '" +:+ _). rewrite sapp_assoc.
  rewrite rmatch_seq, rmatch_group, rmatch_seq, rmatch_lit.
  apply (rmatch_plus_run c_lla _ l rest); [done|done|done|].
  replace ("fe80:" +:+ l +:+ rest) with (("fe80:" +:+ l) +:+ rest) by (by rewrite sapp_assoc).
  rewrite stake_diff. unfold rest.
  rewrite rmatch_seq. apply (rmatch_plus_run c_space _ " "); [done|done|done|].
  rewrite rmatch_seq. apply (rmatch_lit_step "%"). intros a1. rewrite rmatch_seq.
  apply (rmatch_star_run c_space _ " "); [done|done|]. intros a0.
  rewrite rmatch_seq. apply (rmatch_lit_step "'"). intros a2. rewrite rmatch_seq.
  apply (rmatch_group_quoted 2 c_nonspace _ iface "'"%char); [done|done|done|done| |].
  - rewrite rmatch_seq. apply (rmatch_lit_step "'"). intros a3. rewrite rmatch_seq.
    apply (rmatch_plus_run c_space _ " "); [done|done|done|].
    rewrite rmatch_seq. apply (rmatch_lit_step "as"). intros a4. rewrite rmatch_seq.
    apply (rmatch_plus_run c_space _ " "); [done|done| |].
    + rewrite Itoa_nonneg by lia. pose proof (utoa_nonempty (Z.to_N asn)). pose proof (utoa_digits (Z.to_N asn)) as Hd.
      destruct (utoa _) as [|c d]; [done|]. cbn in Hd |- *. apply andb_true_iff in Hd as [Hd _]. by apply nonspace_digit.
    + rewrite Itoa_nonneg by lia. apply (rmatch_group_run 3 c_digit false); [apply utoa_nonempty|apply utoa_digits|done|done].
  - intros a. done.
Qed.

Let tail3 : string := ";" +:+ nl +:+ "}" +:+ nl.

Lemma text_eq : text = ("protocol bgp dn42_" +:+ Itoa asn +:+ " from dnpeers {" +:+ nl +:+ "    ")
  +:+ ("neighbor " +:+ lla +:+ " % '" +:+ iface +:+ "' as " +:+ Itoa asn +:+ tail3).
Proof.
  unfold text, birdConfigTmpl. rewrite !unlines_cons. cbn [bc_asnSuffix bc_remoteLLA bc_wgInterface bc_asn].
  rewrite !sapp_assoc. reflexivity.
Qed.

Lemma find_neighbor : FindSubmatch neighborRe text = Some [(3%nat, Itoa asn); (2%nat, iface); (1%nat, lla)].
Proof.
  unfold FindSubmatch. rewrite text_eq. unfold neighborRe at 1. cbn [RCat]. rewrite find_from_lit_skip.
  - rewrite andb_false_r. pose proof (find_from_here _ _ _ _ match_neighbor) as E. unfold neighborRe in E.
    cbn [RCat] in E. unfold tail3. by rewrite E.
  - repeat apply all_clash_app; try done. rewrite Itoa_nonneg by lia.
    apply (all_clash_class is_digit); [done|apply utoa_digits].
Qed.

Lemma match_proto rest :
  match_here protoNameRe true ("protocol bgp dn42_" +:+ Itoa asn +:+ " from dnpeers" +:+ rest)
  = Some ([(1%nat, "dn42_" +:+ Itoa asn)], rest).
Proof.
  unfold match_here, protoNameRe, RCat.
  rewrite rmatch_seq. apply (rmatch_lit_step "protocol"). intros a1. rewrite rmatch_seq.
  apply (rmatch_plus_run c_space _ " "); [done|done|done|].
  rewrite rmatch_seq. apply (rmatch_lit_step "bgp"). intros a2. rewrite rmatch_seq.
  apply (rmatch_plus_run c_space _ " "); [done|done|done|]. rewrite rmatch_seq.
  change (rmatch (RGroup 1 (RPlus c_nonspace)) ?a ?s) with
    (rmatch (RGroup 1 (RPlus c_nonspace)) a (("dn42_" +:+ Itoa asn) +:+ (" from dnpeers" +:+ rest))).
  apply (rmatch_group_run 1 c_nonspace); [done| |done|].
  - rewrite sforall_app. apply andb_true_iff. split; [done|]. rewrite Itoa_nonneg by lia.
    eapply sforall_impl; [|apply utoa_digits]. intros c Hc. unfold c_nonspace. by rewrite nonspace_digit.
  - rewrite rmatch_seq. apply (rmatch_plus_run c_space _ " "); [done|done|done|].
    rewrite rmatch_seq. apply (rmatch_lit_step "from"). intros a3. rewrite rmatch_seq.
    apply (rmatch_plus_run c_space _ " "); [done|done|done|]. by apply (rmatch_lit_step "dnpeers").
Qed.

Lemma text_proto : exists rest, text = "protocol bgp dn42_" +:+ Itoa asn +:+ " from dnpeers" +:+ rest.
Proof. rewrite text_eq, !sapp_assoc. eexists. reflexivity. Qed.

(** Scanning the file [AddPeer] writes finds the peer. *)
Lemma scan_file_render name : scan_file name text =
  Some (MkScannedBGP (TrimSuffix name ".conf") ("dn42_" +:+ Itoa asn) name asn lla iface).
Proof.
  unfold scan_file. rewrite find_neighbor. cbn [mbind option_bind group]. repeat (rewrite decide_False by done; cbn [group]).
  rewrite !decide_True by done. rewrite ParseInt_Itoa by (unfold int64; lia).
  unfold FindSubmatch. destruct text_proto as [rest ->].
  rewrite (find_from_here _ _ _ _ (match_proto rest)). cbn [fmap option_fmap option_map fst group].
  by rewrite decide_True.
Qed.

End scan.

(** ** Operations *)

Section operations.
Context `{env : HostEnv} {Q : QuietCommands env}.

Definition bird_path (m : Manager) (asn : Z) : string := Join [peerDir m; conf_name asn].
Definition bird_text (asn : Z) (lla iface : string) : string :=
  birdConfigTmpl (MkPeerConfig asn (Itoa asn) lla iface).

Definition check_cmd (m : Manager) : list string := [birdcPath m; "configure"; "check"].
Definition reload_cmd (m : Manager) : list string := [birdcPath m; "configure"].

(** How far an addition got: the file could not be created, could not be written, was rejected by
    the check and removed (unless that failed too), or passed the check, after which BIRD was
    told to reload. *)
Inductive bird_add_outcome (m : Manager) (asn : Z) (text : string) (s : Sys) : res unit -> Sys -> Prop :=
| badd_refused e fl : bird_add_outcome m asn text s (Err e) (MkSys (sys_fs s) (sys_host s) fl)
| badd_partial e d p fl : bird_add_outcome m asn text s (Err e)
    (MkSys (<[bird_path m asn := FNode false d p]> (sys_fs s)) (sys_host s) fl)
| badd_rejected e p fl kept :
    let files := <[bird_path m asn := FNode false text p]> (sys_fs s) in
    cmd_succeeds (check_cmd m) files (sys_host s) = false ->
    bird_add_outcome m asn text s (Err e)
      (MkSys (if kept : bool then files else delete (bird_path m asn) files)
             (host_after (check_cmd m) files (sys_host s)) fl)
| badd_reloaded r p fl :
    let files := <[bird_path m asn := FNode false text p]> (sys_fs s) in
    let h1 := host_after (check_cmd m) files (sys_host s) in
    cmd_succeeds (check_cmd m) files (sys_host s) = true ->
    is_ok r = cmd_succeeds (reload_cmd m) files h1 ->
    bird_add_outcome m asn text s r (MkSys files (host_after (reload_cmd m) files h1) fl).

Lemma wp_reload m (P : res unit -> Sys -> Prop) s :
  (forall r, is_ok r = cmd_succeeds (reload_cmd m) (sys_fs s) (sys_host s) ->
     P r (MkSys (sys_fs s) (host_after (reload_cmd m) (sys_fs s) (sys_host s)) (sys_faults s))) ->
  wp (reloadLocked m) P s.
Proof.
  intros H. unfold reloadLocked. wp_step. apply wp_run_quiet. cbn beta. wp_case; wp_steps; apply H; symmetry; exact E.
Qed.

Lemma wp_bird_AddPeer m asn lla iface s :
  wp (Bird.AddPeer m asn lla iface) (bird_add_outcome m asn (bird_text asn lla iface) s) s.
Proof.
  unfold Bird.AddPeer. fold (bird_path m asn). destruct s as [files h fl].
  wp_step. apply wp_OpenTrunc; intros; wp_steps; [constructor|]. cbn [sys_fs sys_host].
  apply wp_WriteOpened; intros; wp_steps; [apply (badd_partial m asn _ (MkSys files h fl))|].
  apply wp_run_quiet. cbn beta. cbn [sys_fs sys_host sys_faults]. wp_case.
  - apply wp_reload. cbn [sys_fs sys_host sys_faults]. intros r Hr.
    apply (badd_reloaded m asn _ (MkSys files h fl)); [exact E|exact Hr].
  - wp_step. apply wp_Remove; intros; wp_steps; cbn [sys_fs sys_host].
    + apply (badd_rejected m asn _ (MkSys files h fl) _ _ _ true). exact E.
    + apply (badd_rejected m asn _ (MkSys files h fl) _ _ _ false). exact E.
Qed.

Lemma bird_add_frame m asn text s r s' path : bird_add_outcome m asn text s r s' ->
  path <> bird_path m asn -> sys_fs s' !! path = sys_fs s !! path.
Proof.
  intros [] Hp; cbn [sys_fs]; [done|by rewrite lookup_insert_ne| |unfold files; by rewrite lookup_insert_ne].
  unfold files. destruct kept; [|rewrite lookup_delete_ne by done]; by rewrite lookup_insert_ne.
Qed.

(** Without failing calls, an addition is decided by BIRD alone. *)
Lemma bird_add_ok m asn lla iface files h : no_dir files (bird_path m asn) -> exists r p,
  let new := <[bird_path m asn := FNode false (bird_text asn lla iface) p]> files in
  let h1 := host_after (check_cmd m) new h in
  Bird.AddPeer m asn lla iface (MkSys files h []) =
    (Ret r, if cmd_succeeds (check_cmd m) new h then MkSys new (host_after (reload_cmd m) new h1) []
            else MkSys (delete (bird_path m asn) new) h1 []) /\
  is_ok r = cmd_succeeds (check_cmd m) new h && cmd_succeeds (reload_cmd m) new h1.
Proof.
  intros Hd. destruct (OpenTrunc_ok (bird_path m asn) 420 files h Hd) as [p Eo].
  set (new := <[bird_path m asn := FNode false (bird_text asn lla iface) p]> files).
  set (h1 := host_after (check_cmd m) new h).
  enough (W : wp (Bird.AddPeer m asn lla iface) (fun r s' =>
      s' = (if cmd_succeeds (check_cmd m) new h then MkSys new (host_after (reload_cmd m) new h1) []
            else MkSys (delete (bird_path m asn) new) h1 []) /\
      is_ok r = cmd_succeeds (check_cmd m) new h && cmd_succeeds (reload_cmd m) new h1) (MkSys files h [])).
  { apply wp_run in W as (r & s' & E & -> & H). exists r, p. by split. }
  unfold Bird.AddPeer. fold (bird_path m asn). wp_step. eapply wp_eq; [exact Eo|]. cbn beta iota.
  wp_step. eapply wp_eq; [apply WriteOpened_ok|]. cbn beta iota. fold (bird_text asn lla iface). fold new.
  wp_step. apply wp_run_quiet. cbn beta. cbn [sys_fs sys_host sys_faults]. fold (check_cmd m). fold h1.
  unfold cmd_succeeds at 1 2. wp_case.
  - apply wp_reload. cbn [sys_fs sys_host sys_faults]. by intros r ->.
  - destruct (Remove_ok (bird_path m asn) new h1) as [r Er].
    { intros n. unfold new. rewrite lookup_insert_eq. by intros [= <-]. }
    wp_step. eapply wp_eq; [exact Er|]. by wp_step.
Qed.

Lemma bird_remove_ok m name files h : no_dir files (Join [peerDir m; name]) -> exists r,
  RemovePeerByFilename m name (MkSys files h []) =
  (Ret r, MkSys (delete (Join [peerDir m; name]) files)
            (host_after (reload_cmd m) (delete (Join [peerDir m; name]) files) h) []).
Proof.
  intros Hd. destruct (Remove_ok _ _ h Hd) as [r0 Er].
  enough (W : wp (RemovePeerByFilename m name) (fun r s' => s' = MkSys (delete (Join [peerDir m; name]) files)
    (host_after (reload_cmd m) (delete (Join [peerDir m; name]) files) h) []) (MkSys files h [])).
  { apply wp_run in W as (r & s' & E & ->). by exists r. }
  unfold RemovePeerByFilename. wp_step. eapply wp_eq; [exact Er|]. by apply wp_reload.
Qed.

(** C13: Adding a BGP session returns on every input and changes no file but the session's own.
    Success means that the complete protocol file was written, BIRD's check accepted the
    configuration and BIRD then reloaded it; and unless a system call fails, an addition that
    passes the check and the reload does succeed. *)
Theorem bird_add_peer m asn lla iface s :
  exists r s', Bird.AddPeer m asn lla iface s = (Ret r, s') /\
    (forall path, path <> bird_path m asn -> sys_fs s' !! path = sys_fs s !! path) /\
    (is_ok r = true -> exists h1,
      (exists p, sys_fs s' !! bird_path m asn = Some (FNode false (bird_text asn lla iface) p)) /\
      cmd_succeeds (check_cmd m) (sys_fs s') (sys_host s) = true /\
      h1 = host_after (check_cmd m) (sys_fs s') (sys_host s) /\
      cmd_succeeds (reload_cmd m) (sys_fs s') h1 = true /\
      sys_host s' = host_after (reload_cmd m) (sys_fs s') h1) /\
    (sys_faults s = [] -> no_dir (sys_fs s) (bird_path m asn) -> exists p,
      let new := <[bird_path m asn := FNode false (bird_text asn lla iface) p]> (sys_fs s) in
      is_ok r = cmd_succeeds (check_cmd m) new (sys_host s)
        && cmd_succeeds (reload_cmd m) new (host_after (check_cmd m) new (sys_host s))).
Proof.
  destruct (proj1 (wp_run _ _ _) (wp_bird_AddPeer m asn lla iface s)) as (r & s' & E & Ho).
  exists r, s'. split_and!; [done|by intros; eapply bird_add_frame| |].
  - intros Hr. destruct Ho as [| | |r p fl files h1 Hc Hl]; try done. cbn [sys_fs sys_host]. exists h1.
    split_and!; [exists p; apply lookup_insert_eq|done|done|by transitivity (is_ok r)|done].
  - destruct s as [files h fl]. cbn [sys_fs sys_host sys_faults]. intros -> Hd.
    destruct (bird_add_ok m asn lla iface files h Hd) as (r1 & p & E1 & H). exists p.
    rewrite E in E1. injection E1 as -> _. exact H.
Qed.

(** C31: ShowRoute never returns more than the cap of 64 KiB plus the truncation note. *)
Theorem show_route_capped m target detailed s :
  exists r s', ShowRoute m target detailed s = (Ret r, s') /\
    forall text, r = Ok text -> (slen text <= maxRouteOutput + slen truncated_note)%nat.
Proof.
  enough (wp (ShowRoute m target detailed) (fun r _ => forall text, r = Ok text ->
     (slen text <= maxRouteOutput + slen truncated_note)%nat) s) as H.
  { apply wp_run in H as (r & s' & ? & ?). eauto. }
  unfold ShowRoute. wp_step. apply wp_run_quiet. cbn beta. wp_case; wp_steps; [|done].
  intros text [= <-]. unfold cap_output. destruct (N.ltb_spec (N.of_nat maxRouteOutput) (N.of_nat (slen (TrimSpace (cmd_output (run_cmd (birdcPath m :: route_args target detailed) (sys_fs s, sys_host s)).1))))) as [Hlt|Hge].
  - rewrite slen_app, slen_stake. lia.
  - lia.
Qed.

End operations.

(** C26: Scanning the protocol file that AddPeer renders for a link-local neighbour recovers the
    protocol name, the ASN, the neighbour address and the interface. *)
Theorem bird_scan_roundtrip asn lla iface name :
  0 <= asn < 2^63 -> lla_ok lla = true -> iface_ok iface = true ->
  scan_file name (bird_text asn lla iface) =
  Some (MkScannedBGP (TrimSuffix name ".conf") ("dn42_" +:+ Itoa asn) name asn lla iface).
Proof. intros. by apply scan_file_render. Qed.

(** ** Witnesses, on the simulated host *)

Definition sim_bird : Manager := NewManager "/etc/bird/peers" "birdc".

Lemma bird_add_peer_witness :
  (Bird.AddPeer sim_bird 4242420123 "fe80::123" "dn42x" (sim_sys sim0)).1 = Ret (Ok tt) /\
  exists r s', Bird.AddPeer sim_bird 4242420123 "fe80::123" "dn42x" (sim_sys sim0) = (Ret r, s').
Proof.
  split; [vm_compute; reflexivity|].
  destruct (bird_add_peer sim_bird 4242420123 "fe80::123" "dn42x" (sim_sys sim0)) as (r & s' & E & _).
  exists r, s'. exact E.
Defined.

Lemma show_route_capped_witness : exists r s', ShowRoute sim_bird "172.20.0.53" true (sim_sys sim0) = (Ret r, s') /\
  forall text, r = Ok text -> (slen text <= maxRouteOutput + slen truncated_note)%nat.
Proof. exact (show_route_capped sim_bird "172.20.0.53" true (sim_sys sim0)). Defined.

Lemma bird_scan_roundtrip_witness :
  scan_file "dn42_4242420123.conf" (bird_text 4242420123 "fe80::123" "dn42x") =
  Some (MkScannedBGP (TrimSuffix "dn42_4242420123.conf" ".conf") ("dn42_" +:+ Itoa 4242420123) "dn42_4242420123.conf"
    4242420123 "fe80::123" "dn42x").
Proof.
  apply (bird_scan_roundtrip 4242420123 "fe80::123" "dn42x" "dn42_4242420123.conf"); [lia|reflexivity|reflexivity].
Defined.
