(* ===== verification/Primitives.v ===== *)
(** The cryptographic primitives of the Go standard library the agent uses: SHA-256 (FIPS 180-4),
    HMAC (RFC 2104), HKDF's extract and first expand step (RFC 5869) and X25519 (RFC 7748).
    Byte strings are strings. *)

From S2P Require Import Prelude GoStrings.
From Stdlib Require Import Ascii.

(** ** SHA-256 *)

Definition w32 (x : N) : N := (x mod 2^32)%N.
Definition rotr (n : N) (x : N) : N := N.lor (N.shiftr x n) (w32 (N.shiftl x (32 - n))).
Definition add32 (x y : N) : N := w32 (x + y).

Definition sha_k : list N := [
  1116352408; 1899447441; 3049323471; 3921009573; 961987163; 1508970993; 2453635748; 2870763221;
  3624381080; 310598401; 607225278; 1426881987; 1925078388; 2162078206; 2614888103; 3248222580;
  3835390401; 4022224774; 264347078; 604807628; 770255983; 1249150122; 1555081692; 1996064986;
  2554220882; 2821834349; 2952996808; 3210313671; 3336571891; 3584528711; 113926993; 338241895;
  666307205; 773529912; 1294757372; 1396182291; 1695183700; 1986661051; 2177026350; 2456956037;
  2730485921; 2820302411; 3259730800; 3345764771; 3516065817; 3600352804; 4094571909; 275423344;
  430227734; 506948616; 659060556; 883997877; 958139571; 1322822218; 1537002063; 1747873779;
  1955562222; 2024104815; 2227730452; 2361852424; 2428436474; 2756734187; 3204031479; 3329325298]%N.

Definition sha_h0 : list N := [
  1779033703; 3144134277; 1013904242; 2773480762; 1359893119; 2600822924; 528734635; 1541459225]%N.

(** The next word of the message schedule, from the words so far, the last one first. *)
Definition next_word (rev : list N) : N :=
  let w i := default 0%N (rev !! (i - 1)%nat) in
  let s0 := N.lxor (N.lxor (rotr 7 (w 15%nat)) (rotr 18 (w 15%nat))) (N.shiftr (w 15%nat) 3) in
  let s1 := N.lxor (N.lxor (rotr 17 (w 2%nat)) (rotr 19 (w 2%nat))) (N.shiftr (w 2%nat) 10) in
  add32 (add32 (w 16%nat) s0) (add32 (w 7%nat) s1).
Fixpoint schedule (n : nat) (rev : list N) : list N :=
  match n with
  | O => reverse rev
  | S n' => schedule n' (next_word rev :: rev)
  end.

Definition sha_round (st : list N) (kw : N * N) : list N :=
  match st with
  | [a; b; c; d; e; f; g; h] =>
      let s1 := N.lxor (N.lxor (rotr 6 e) (rotr 11 e)) (rotr 25 e) in
      let ch := N.lxor (N.land e f) (N.land (N.lxor e (2^32 - 1)) g) in
      let t1 := add32 (add32 h s1) (add32 ch (add32 kw.1 kw.2)) in
      let s0 := N.lxor (N.lxor (rotr 2 a) (rotr 13 a)) (rotr 22 a) in
      let maj := N.lxor (N.lxor (N.land a b) (N.land a c)) (N.land b c) in
      [add32 t1 (add32 s0 maj); a; b; c; add32 d t1; e; f; g]
  | _ => st
  end.

Definition sha_block (st : list N) (words : list N) : list N :=
  zip_with add32 st (fold_left sha_round (zip sha_k (schedule 48 (reverse words))) st).

(** Big-endian bytes. *)
Fixpoint be_bytes (n : nat) (x : N) : list N :=
  match n with
  | O => []
  | S n' => be_bytes n' (x / 256)%N ++ [(x mod 256)%N]
  end.
Definition bytes_of (s : string) : list N := code <$> String.list_ascii_of_string s.
Definition string_of (l : list N) : string := String.string_of_list_ascii (ascii_of_N <$> l).

Fixpoint words_of (l : list N) : list N :=
  match l with
  | a :: b :: c :: d :: l' => (((a * 256 + b) * 256 + c) * 256 + d)%N :: words_of l'
  | _ => []
  end.

Definition sha_pad (msg : list N) : list N :=
  let n := length msg in
  let zeros := ((119 - n mod 64) mod 64)%nat in
  msg ++ [128%N] ++ replicate zeros 0%N ++ be_bytes 8 (8 * N.of_nat n)%N.

Fixpoint sha_blocks (fuel : nat) (st : list N) (words : list N) : list N :=
  match fuel, words with
  | S f, _ :: _ => sha_blocks f (sha_block st (take 16 words)) (drop 16 words)
  | _, _ => st
  end.

Definition Sum256 (s : string) : string :=
  let words := words_of (sha_pad (bytes_of s)) in
  string_of (sha_blocks (length words) sha_h0 words ≫= be_bytes 4).

(** ** HMAC-SHA-256 and HKDF *)

Definition xor_pad (p : N) (key : string) : string :=
  string_of (N.lxor p <$> bytes_of key ++ replicate (64 - slen key) 0%N).

Definition hmac_sha256 (key msg : string) : string :=
  let key := if (64 <? slen key)%nat then Sum256 key else key in
  Sum256 (xor_pad 92 key +:+ Sum256 (xor_pad 54 key +:+ msg)).

(** The first 32 bytes of output; an absent salt is a block of zeros. *)
Definition hkdf32 (secret salt info : string) : string :=
  let salt := if decide (salt = "") then string_of (replicate 32 0%N) else salt in
  hmac_sha256 (hmac_sha256 salt secret) (info +:+ String "001" "").

(** ** X25519 *)

Definition p25519 : Z := 2^255 - 19.

(** Reduction modulo the prime: as [2^255 = 19], the bits from 255 on are folded in. *)
Definition fold255 (x : Z) : Z := Z.land x (2^255 - 1) + 19 * Z.shiftr x 255.
Definition modp (x : Z) : Z :=
  let y := fold255 (fold255 x) in
  if (0 <=? y) && (y <? p25519) then y else y mod p25519.

Lemma fold255_mod x : fold255 x mod p25519 = x mod p25519.
Proof.
  unfold fold255. change (2^255 - 1) with (Z.ones 255). rewrite Z.land_ones, Z.shiftr_div_pow2 by lia.
  replace x with (x mod 2^255 + 19 * (x / 2^255) + (x / 2^255) * p25519) at 3.
  - by rewrite Z.mod_add by done.
  - unfold p25519. rewrite (Z.div_mod x (2^255)) at 4 by done. lia.
Qed.

Lemma modp_mod x : modp x = x mod p25519.
Proof.
  unfold modp. rewrite <-(fold255_mod x), <-(fold255_mod (fold255 x)).
  destruct (Z.leb_spec 0 (fold255 (fold255 x))), (Z.ltb_spec (fold255 (fold255 x)) p25519); cbn; try done.
  by rewrite Z.mod_small.
Qed.

Fixpoint le_val (l : list N) : Z :=
  match l with
  | [] => 0
  | b :: l' => Z.of_N b + 256 * le_val l'
  end.
Fixpoint le_bytes (n : nat) (z : Z) : list N :=
  match n with
  | O => []
  | S n' => Z.to_N (z mod 256) :: le_bytes n' (z / 256)
  end.

Definition clamp (k : Z) : Z := Z.lor (Z.land k (2^254 - 8)) (2^254).

Fixpoint powmod (base : Z) (e : positive) : Z :=
  match e with
  | xH => modp base
  | xO e' => let r := powmod base e' in modp (r * r)
  | xI e' => let r := powmod base e' in modp (modp (r * r) * base)
  end.

(** The Montgomery ladder over the bits of the scalar, the highest first. *)
Fixpoint ladder (t : nat) (k x1 x2 z2 x3 z3 : Z) : Z * Z :=
  match t with
  | O => (x2, z2)
  | S t' =>
      let bit := Z.testbit k (Z.of_nat t') in
      let '(x2, z2, x3, z3) := if bit then (x3, z3, x2, z2) else (x2, z2, x3, z3) in
      let a := x2 + z2 in
      let aa := modp (a * a) in
      let b := x2 - z2 in
      let bb := modp (b * b) in
      let e := aa - bb in
      let da := modp ((x3 - z3) * a) in
      let cb := modp ((x3 + z3) * b) in
      let x3' := modp ((da + cb) * (da + cb)) in
      let z3' := modp (x1 * modp ((da - cb) * (da - cb))) in
      let x2' := modp (aa * bb) in
      let z2' := modp (e * (aa + 121665 * e)) in
      if bit then ladder t' k x1 x3' z3' x2' z2' else ladder t' k x1 x2' z2' x3' z3'
  end.

Definition X25519 (scalar point : string) : string :=
  let k := clamp (le_val (bytes_of scalar)) in
  let u := le_val (bytes_of point) mod 2^255 in
  let '(x2, z2) := ladder 255 k u 1 0 u 1 in
  string_of (le_bytes 32 (modp (x2 * powmod z2 (Z.to_pos (p25519 - 2))))).

Definition basepoint : string := string_of (9%N :: replicate 31 0%N).

Lemma slen_string_of l : slen (string_of l) = length l.
Proof. unfold string_of. induction l; cbn; [done|]. f_equal. exact IHl. Qed.

Lemma length_le_bytes n z : length (le_bytes n z) = n.
Proof. revert z. induction n; intros; cbn; [done|]. by rewrite IHn. Qed.

Lemma slen_X25519 k u : slen (X25519 k u) = 32%nat.
Proof. unfold X25519. destruct (ladder _ _ _ _ _ _ _). by rewrite slen_string_of, length_le_bytes. Qed.

Lemma sha_round_length st kw : length st = 8%nat -> length (sha_round st kw) = 8%nat.
Proof. intros H. do 8 (destruct st as [|? st]; [done|]). by destruct st. Qed.

Lemma sha_blocks_length fuel st words : length st = 8%nat -> length (sha_blocks fuel st words) = 8%nat.
Proof.
  revert st words. induction fuel as [|f IH]; intros st words H; [by destruct words|].
  destruct words as [|w ws]; [done|]. cbn [sha_blocks]. apply IH. unfold sha_block.
  rewrite length_zip_with, H.
  enough (forall l s, length s = 8%nat -> length (fold_left sha_round l s) = 8%nat) as Hf by (by rewrite Hf).
  induction l as [|kw l IHl]; intros s Hs; cbn; [done|]. by apply IHl, sha_round_length.
Qed.

Lemma length_be_bytes n x : length (be_bytes n x) = n.
Proof. revert x. induction n; intros; cbn; [done|]. rewrite length_app, IHn. cbn. lia. Qed.

Lemma slen_Sum256 s : slen (Sum256 s) = 32%nat.
Proof.
  unfold Sum256. rewrite slen_string_of. generalize (words_of (sha_pad (bytes_of s))). intros words.
  pose proof (sha_blocks_length (length words) sha_h0 words eq_refl) as H.
  destruct (sha_blocks _ _ _) as [|? l]; [done|]. do 7 (destruct l as [|? l]; [done|]). destruct l; [|done].
  cbn [mbind list_bind]. by rewrite !length_app, !length_be_bytes.
Qed.

Example sha256_abc :
  EncodeToString (Sum256 "abc") = "ba7816bf8f01cfea414140de5dae2223b00361a396177a9cb410ff61f20015ad".
Proof. vm_compute. reflexivity. Qed.
Example sha256_two_blocks :
  EncodeToString (Sum256 "abcdbcdecdefdefgefghfghighijhijkijkljklmklmnlmnomnopnopq")
  = "248d6a61d20638b8e5c026930c3e6039a33ce45964ff2167f6ecedd419db06c1".
Proof. vm_compute. reflexivity. Qed.
Example hmac_rfc4231_2 :
  EncodeToString (hmac_sha256 "Jefe" "what do ya want for nothing?")
  = "5bdcc146bf60754e6a042426089575c75a003f089d2739839dec58b964ec3843".
Proof. vm_compute. reflexivity. Qed.
Example x25519_rfc7748 :
  EncodeToString (X25519
    (default "" (DecodeString "77076d0a7318a57d3c16c17251b26645df4c2f87ebc0992ab177fba51db92c2a")) basepoint)
  = "8520f0098930a754748b7ddcb43ef75a0dbf3a0d26381af4eba4a98eaa9b4e6a".
Proof. vm_compute. reflexivity. Qed.
