(* ===== verification/Crypto.v ===== *)
(** Package [crypto]: the agent's key pair, the session key and the encryption of frames.  The
    AEAD (XChaCha20-Poly1305) and HKDF, both of golang.org/x/crypto, are parameters. *)

From S2P Require Import Prelude GoStrings Primitives.
From Stdlib Require Import Ascii.

(** [seal key nonce plaintext] and [open key nonce ciphertext]. *)
Class Aead := {
  seal : string -> string -> string -> string;
  open : string -> string -> string -> option string;
}.

Definition NonceSize : nat := 24.
Definition Overhead : nat := 16.
Definition KeySize : nat := 32.

(** Documented behaviour of an AEAD: sealing adds [Overhead] bytes, and what was sealed opens with
    the same key and nonce. *)
Class AeadLaws (A : Aead) : Prop := {
  seal_length : forall k n p, slen (seal k n p) = (slen p + Overhead)%nat;
  open_seal : forall k n p, slen k = KeySize -> slen n = NonceSize -> open k n (seal k n p) = Some p;
}.

(** The random source: the result of the [i]th read, of [n] bytes. *)
Record Rng := MkRng { rng_src : nat -> nat -> res string; rng_next : nat }.

Definition rng_step (r : Rng) : Rng := MkRng (rng_src r) (S (rng_next r)).
Definition rng_ok (r : Rng) : Prop := forall i n s, rng_src r i n = Ok s -> slen s = n.

(** [io.ReadFull(rand.Reader, b)] with [len(b) = n]. *)
Definition read_rand (n : nat) (r : Rng) : res string * Rng := (rng_src r (rng_next r) n, rng_step r).

Record KeyPair := MkKeyPair { PrivateKey : string; PublicKey : string }.

(** [priv.PublicKey()]. *)
Definition public_of (priv : string) : string := X25519 priv basepoint.

Definition GenerateKeyPair (r : Rng) : res KeyPair * Rng :=
  let '(priv, r') := read_rand 32 r in
  (match priv with
   | Ok priv => Ok (MkKeyPair priv (public_of priv))
   | Err e => Err (wrap "generate key pair" e)
   end, r').

Definition hex_error (hexStr : string) : error := errorf ("encoding/hex: invalid text").

Definition bytes32 (what hexStr bad : string) : res string :=
  match DecodeString hexStr with
  | None => Err (wrap ("decode " +:+ what +:+ " key hex") (hex_error hexStr))
  | Some data => if (slen data =? 32)%nat then Ok data else Err (errorf bad)
  end.

Definition PublicKeyFromHex (hexStr : string) : res string :=
  bytes32 "public" hexStr "crypto/ecdh: invalid public key".
Definition PrivateKeyFromHex (hexStr : string) : res string :=
  bytes32 "private" hexStr "crypto/ecdh: invalid private key size".

Definition PubKeyHex (pub : string) : string := EncodeToString pub.
Definition PrivKeyHex (priv : string) : string := EncodeToString priv.

(** [priv.ECDH(pub)]: an all-zero secret is refused. *)
Definition DeriveSharedSecret (priv pub : string) : res string :=
  let s := X25519 priv pub in
  if sforall (fun c => (code c =? 0)%N) s
  then Err (errorf "crypto/ecdh: bad X25519 remote ECDH input: low order point") else Ok s.

(** HKDF with SHA-256 (package golang.org/x/crypto/hkdf) is a parameter: the first 32 bytes read
    from [hkdf.New(sha256.New, secret, salt, info)]. *)
Class Hkdf := hkdf_key : string -> string -> string -> res string.

(** Documented behaviour: up to 255 blocks of 32 bytes can be read. *)
Class HkdfLaws (K : Hkdf) : Prop :=
  hkdf_key_ok : forall secret salt info, exists k, hkdf_key secret salt info = Ok k /\ slen k = KeySize.

Definition DeriveEncKey `{K : Hkdf} (shared nonce : string) : res string :=
  res_wrap "derive enc key" (hkdf_key shared nonce "autopeer-encryption-key").

Definition ComputeAuthProof (shared nonce : string) : string :=
  hmac_sha256 shared ("autopeer-key-auth" +:+ nonce).

Definition NewNonce (r : Rng) : res string * Rng :=
  let '(b, r') := read_rand 32 r in (res_wrap "generate nonce" b, r').

Section frames.
Context `{A : Aead}.

(** A frame is the nonce followed by the sealed text.  The key stands for the [cipher.AEAD] that
    [NewAEAD] makes of it, which fails only for a key of another size. *)
Definition Encrypt (key plaintext : string) (r : Rng) : res string * Rng :=
  let '(nonce, r') := read_rand NonceSize r in
  (match nonce with
   | Ok nonce => Ok (nonce +:+ seal key nonce plaintext)
   | Err e => Err (wrap "generate nonce" e)
   end, r').

Definition Decrypt (key data : string) : res string :=
  if (slen data <? NonceSize + Overhead)%nat then Err (errorf "ciphertext too short")
  else match open key (stake NonceSize data) (sdrop NonceSize data) with
       | Some plain => Ok plain
       | None => Err (errorf "decrypt: chacha20poly1305: message authentication failed")
       end.

Definition NewAEAD (key : string) : option string := if (slen key =? KeySize)%nat then Some key else None.

End frames.

(** ** Facts *)

Lemma PublicKeyFromHex_PubKeyHex pub : slen pub = 32%nat -> PublicKeyFromHex (PubKeyHex pub) = Ok pub.
Proof. intros H. unfold PublicKeyFromHex, bytes32, PubKeyHex. by rewrite DecodeString_Encode, H. Qed.

(** An authenticating instance, for witnesses: the text followed by a tag over the nonce and the
    text. *)
#[global] Instance TagAead : Aead := {|
  seal k n p := p +:+ stake Overhead (hmac_sha256 k (n +:+ p));
  open k n c :=
    let p := stake (slen c - Overhead) c in
    if decide (sdrop (slen c - Overhead) c = stake Overhead (hmac_sha256 k (n +:+ p))) then Some p else None;
|}.

#[global] Instance TagAead_laws : AeadLaws TagAead.
Proof.
  assert (Ht : forall k m, slen (stake Overhead (hmac_sha256 k m)) = Overhead).
  { intros k m. rewrite slen_stake. unfold hmac_sha256. by rewrite slen_Sum256. }
  split.
  - intros k n p. cbn [seal TagAead]. by rewrite slen_app, Ht.
  - intros k n p _ _. cbn [open seal TagAead]. rewrite slen_app, Ht.
    replace (slen p + Overhead - Overhead)%nat with (slen p) by lia.
    rewrite stake_app, sdrop_app. by rewrite decide_True.
Qed.

(** A random source that counts. *)
Definition test_rng : Rng := MkRng (fun i n => Ok (string_of (replicate n (N.of_nat i)))) 0.

Section properties.
Context `{A : Aead} {L : AeadLaws A}.

(** What was sealed is a nonce's length and a tag longer, and opens. *)
Lemma Decrypt_Encrypt key plaintext r data r' : slen key = KeySize -> rng_ok r ->
  Encrypt key plaintext r = (Ok data, r') ->
  Decrypt key data = Ok plaintext /\ slen data = (slen plaintext + NonceSize + Overhead)%nat.
Proof.
  intros Hk Hr. unfold Encrypt, read_rand. destruct (rng_src r _ _) as [n|e] eqn:E; [|done].
  intros [= <- _]. specialize (Hr _ _ _ E).
  assert (Hlen : slen (n +:+ seal key n plaintext) = (slen plaintext + NonceSize + Overhead)%nat).
  { rewrite slen_app, seal_length. lia. }
  split; [|done]. unfold Decrypt. rewrite Hlen.
  destruct (Nat.ltb_spec (slen plaintext + NonceSize + Overhead) (NonceSize + Overhead)) as [H|_]; [lia|].
  rewrite <-Hr, stake_app, sdrop_app. by rewrite open_seal.
Qed.

(** C20: A frame Encrypt made is what Decrypt opens with the same key: the plaintext comes back,
    whatever it is and whatever nonce was drawn; the frame is the plaintext plus 40 bytes, and no
    shorter frame than 40 bytes is accepted. *)
Theorem frame_roundtrip key plaintext r data r' :
  slen key = KeySize -> rng_ok r -> Encrypt key plaintext r = (Ok data, r') ->
  Decrypt key data = Ok plaintext /\ slen data = (slen plaintext + NonceSize + Overhead)%nat /\
  (forall d, (slen d < NonceSize + Overhead)%nat -> is_ok (Decrypt key d) = false).
Proof.
  intros Hk Hr E. destruct (Decrypt_Encrypt _ _ _ _ _ Hk Hr E). split_and!; [done|done|].
  intros d Hd. unfold Decrypt. apply Nat.ltb_lt in Hd. by rewrite Hd.
Qed.

End properties.

Lemma test_rng_ok : rng_ok test_rng.
Proof. intros i n s [= <-]. by rewrite slen_string_of, length_replicate. Qed.

Lemma frame_roundtrip_witness : exists data r', Encrypt (string_of (replicate 32 7%N)) "hello" test_rng = (Ok data, r') /\
  Decrypt (string_of (replicate 32 7%N)) data = Ok "hello".
Proof.
  eexists _, _. split; [reflexivity|].
  refine (proj1 (frame_roundtrip (string_of (replicate 32 7%N)) "hello" test_rng _ _ _ test_rng_ok _)); reflexivity.
Defined.
