(* ===== verification/Ws.v ===== *)
(** Package [ws]: the WebSocket client of the agent: messages, the bounded send queue, frame
    encryption, and the connection loop with its backoff. *)

From S2P Require Import Prelude GoStrings Json GoStruct Primitives Crypto.

(** ** Messages *)

Record Message := MkMessage {
  Type_ : string;
  ID : string;
  Payload : option jval;
  Success : option bool;
  Error_ : string;
}.

Definition Message_zero : Message := MkMessage "" "" None None "".

Definition Message_fields : sfields Message := [
  ("type", d_string (fun s m => MkMessage s (ID m) (Payload m) (Success m) (Error_ m)));
  ("id", d_string (fun s m => MkMessage (Type_ m) s (Payload m) (Success m) (Error_ m)));
  ("payload", d_raw (fun p m => MkMessage (Type_ m) (ID m) p (Success m) (Error_ m)));
  ("success", d_ptr d_bool (fun b m => MkMessage (Type_ m) (ID m) (Payload m) b (Error_ m)));
  ("error", d_string (fun s m => MkMessage (Type_ m) (ID m) (Payload m) (Success m) s))
].

Definition message_json (m : Message) : jval :=
  JObj (e_string "type" (Type_ m) ++ e_string_omit "id" (ID m)
    ++ match Payload m with Some p => [("payload", p)] | None => [] end
    ++ match Success m with Some b => [("success", JBool b)] | None => [] end
    ++ e_string_omit "error" (Error_ m)).

(** [json.Marshal(msg)] and [json.Unmarshal(data, &msg)]. *)
Definition marshal_message (m : Message) : string := json_print (message_json m).
Definition unmarshal_message (data : string) : option Message :=
  Unmarshal Message_fields Message_zero (json_parse data).

#[global] Arguments marshal_message : simpl never.
#[global] Arguments unmarshal_message : simpl never.

(** ** The client *)

Inductive frame_type := TextMessage | BinaryMessage.
#[global] Instance frame_type_eq_dec : EqDecision frame_type.
Proof. solve_decision. Defined.

Record sendItem := MkItem { msgType : frame_type; data : string }.

(** [connDone]: nil, or the channel and whether it is closed; [aead]: the session key of the
    AEAD; [wire]: the frames written to the current connection; [crng]: the random source. *)
Record Client := MkClient {
  url : string;
  token : string;
  nodeID : string;
  reconnMax : Z;
  hasKeypair : bool;
  serverPub : string;
  done : bool;
  conn : bool;
  connDone : option bool;
  sendCh : list sendItem;
  encrypted : bool;
  aead : option string;
  wire : list sendItem;
  crng : Rng;
}.

Definition Second : Z := 10^9.

(** [time.Duration(reconnMaxSec) * time.Second] wraps. *)
Definition NewClient (url token nodeID : string) (reconnMaxSec : Z) (r : Rng) : Client :=
  MkClient url token nodeID (wrap64 (reconnMaxSec * Second)) false "" false false None [] false None [] r.

Definition set_keys (kp : bool) (pub : string) (c : Client) : Client :=
  MkClient (url c) (token c) (nodeID c) (reconnMax c) kp pub (done c) (conn c) (connDone c) (sendCh c)
    (encrypted c) (aead c) (wire c) (crng c).
Definition set_done (c : Client) : Client :=
  MkClient (url c) (token c) (nodeID c) (reconnMax c) (hasKeypair c) (serverPub c) true (conn c) (connDone c)
    (sendCh c) (encrypted c) (aead c) (wire c) (crng c).
Definition set_conn (cn : bool) (cd : option bool) (q w : list sendItem) (c : Client) : Client :=
  MkClient (url c) (token c) (nodeID c) (reconnMax c) (hasKeypair c) (serverPub c) (done c) cn cd q
    (encrypted c) (aead c) w (crng c).
Definition set_crypto (enc : bool) (a : option string) (c : Client) : Client :=
  MkClient (url c) (token c) (nodeID c) (reconnMax c) (hasKeypair c) (serverPub c) (done c) (conn c) (connDone c)
    (sendCh c) enc a (wire c) (crng c).
Definition set_rng (r : Rng) (c : Client) : Client :=
  MkClient (url c) (token c) (nodeID c) (reconnMax c) (hasKeypair c) (serverPub c) (done c) (conn c) (connDone c)
    (sendCh c) (encrypted c) (aead c) (wire c) r.
Definition set_queue (q : list sendItem) (c : Client) : Client := set_conn (conn c) (connDone c) q (wire c) c.

Definition SetKeyPair (has : bool) (c : Client) : Client := set_keys has (serverPub c) c.

(** A nil key ([None]) leaves the field alone. *)
Definition SetServerPubKey (pub : option string) (c : Client) : Client :=
  match pub with
  | Some p => set_keys (hasKeypair c) p c
  | None => c
  end.

Definition HasServerPubKey (c : Client) : bool := negb (bool_decide (serverPub c = "")).
Definition HasKeyPair (c : Client) : bool := hasKeypair c.
Definition IsEncrypted (c : Client) : bool := encrypted c.
Definition NodeID (c : Client) : string := nodeID c.

(** [NewAEAD] also sets the field when it fails. *)
Definition EnableEncryption (sessionKey : string) (c : Client) : Client :=
  match NewAEAD sessionKey with
  | Some k => set_crypto true (Some k) c
  | None => set_crypto (encrypted c) None c
  end.

Definition queue_cap : nat := 256.

Section client.
Context `{A : Aead}.

(** The frame of a marshalled message: sealed once encryption is on. *)
Definition encode_frame (plain : string) (c : Client) : res sendItem * Client :=
  match encrypted c, aead c with
  | true, Some key => let '(w, r') := Encrypt key plain (crng c) in (res_map (MkItem BinaryMessage) w, set_rng r' c)
  | _, _ => (Ok (MkItem TextMessage plain), c)
  end.

(** The [select] with a default: a full queue refuses. *)
Definition enqueue (item : res sendItem) (c : Client) : res unit * Client :=
  match item with
  | Err e => (Err (wrap "encrypt" e), c)
  | Ok it => if (length (sendCh c) <? queue_cap)%nat then (Ok tt, set_queue (sendCh c ++ [it]) c)
             else (Err (errorf "send buffer full"), c)
  end.

Definition Send (msg : Message) : M Client (res unit) := fun c =>
  let plain := marshal_message msg in
  if negb (conn c) then (Ret (Err (errorf "not connected")), c)
  else
    let '(item, c1) := encode_frame plain c in
    let '(r, c2) := enqueue item c1 in
    (Ret r, c2).

(** One turn of [writeLoop]: the oldest queued frame goes out. *)
Definition write_step (c : Client) : option Client :=
  match sendCh c with
  | it :: q => Some (set_conn (conn c) (connDone c) q (wire c ++ [it]) c)
  | [] => None
  end.

(** What [readLoop] makes of a frame: the message it hands to the handler, or nothing. *)
Definition decode_frame (c : Client) (f : sendItem) : option Message :=
  match encrypted c, aead c with
  | true, Some key =>
      if decide (msgType f = BinaryMessage) then
        match Decrypt key (data f) with
        | Ok plain => unmarshal_message plain
        | Err _ => None
        end
      else None
  | _, _ => unmarshal_message (data f)
  end.

End client.

(** A read error ends [readLoop]: the connection and its [connDone] are gone. *)
Definition read_error (c : Client) : Client := set_conn false None (sendCh c) (wire c) c.

(** The headers of the upgrade request. *)
Definition connect_headers (c : Client) : list (string * string) :=
  let useToken := negb (bool_decide (token c = "")) in
  let useToken := if hasKeypair c && HasServerPubKey c
                  then (if decide (token c = "") then false else true) else useToken in
  ("X-Node-ID", nodeID c) :: (if useToken then [("X-Agent-Token", token c)] else []).

(** [connect], given the answer of the dialer; closing a closed channel panics. *)
Definition connect (dial : res unit) : M Client (res unit) := fun c =>
  match dial with
  | Err e => (Ret (Err (wrap "dial" e)), c)
  | Ok _ =>
      match connDone c with
      | Some true => (Halt (Panic "close of closed channel"), c)
      | _ => (Ret (Ok tt), set_conn true (Some false) [] [] c)
      end
  end.

Definition Close (c : Client) : Client := set_done c.

(** ** The connection loop *)

(** [float64(z)] of an integer: 53 significant bits, ties to even. *)
Definition round53 (z : Z) : Z :=
  let n := Z.log2 (Z.abs z) in
  if n <? 53 then z
  else
    let u := 2 ^ (n - 52) in
    let q := Z.abs z / u in
    let r := Z.abs z mod u in
    let q' := if (2 * r <? u) || ((2 * r =? u) && Z.even q) then q else q + 1 in
    Z.sgn z * (q' * u).

(** [time.Duration(f)] of an integral float; out of range it is the smallest integer. *)
Definition to_int64 (z : Z) : Z := if (- 2^63 <=? z) && (z <? 2^63) then z else - 2^63.

(** [time.Duration(math.Min(float64(backoff*2), float64(c.reconnMax)))]. *)
Definition next_backoff (backoff reconnMax : Z) : Z :=
  to_int64 (Z.min (round53 (wrap64 (backoff * 2))) (round53 reconnMax)).

(** Where the goroutine of [Run] is. *)
Inductive pc := PStart | PSleep (d : Z) | PKeyX | POnConnect | PRead | PStopped.

Record rstate := MkRun { r_pc : pc; r_backoff : Z; r_cli : Client }.

Definition run_init (c : Client) : rstate := MkRun PStart Second c.

(** What the goroutine meets: the close of [done], the answer of the dialer, the end of a sleep,
    the result of the key exchange (which works on the client), the end of [readLoop]; and what
    other goroutines do to the client meanwhile: a read error, [Close], frames queued and
    written.  Both callbacks are set, as in [main]. *)
Inductive run_label :=
| LDone | LDial (r : res unit) | LWake | LKeyX (r : res unit) (key : option string) | LConnected | LReadEnd
| LReadError | LClose | LSend (msg : Message) | LWrite.

Section loop.
Context `{A : Aead}.

(** The client as the key exchange leaves it: with a session key it enabled encryption. *)
Definition after_keyx (key : option string) (c : Client) : Client :=
  match key with Some k => EnableEncryption k c | None => c end.

Inductive run_step : rstate -> run_label -> rstate -> Prop :=
| step_done b c : done c = true -> run_step (MkRun PStart b c) LDone (MkRun PStopped b c)
| step_dial_err b c e : done c = false ->
    run_step (MkRun PStart b c) (LDial (Err e)) (MkRun (PSleep b) b (set_crypto false None c))
| step_dial_ok b c c' : done c = false ->
    connect (Ok tt) (set_crypto false None c) = (Ret (Ok tt), c') ->
    run_step (MkRun PStart b c) (LDial (Ok tt)) (MkRun PKeyX Second c')
| step_wake d b c : run_step (MkRun (PSleep d) b c) LWake (MkRun PStart (next_backoff b (reconnMax c)) c)
| step_sleep_done d b c : done c = true -> run_step (MkRun (PSleep d) b c) LDone (MkRun PStopped b c)
| step_keyx_ok b c key : run_step (MkRun PKeyX b c) (LKeyX (Ok tt) key) (MkRun POnConnect b (after_keyx key c))
| step_keyx_err b c key e : run_step (MkRun PKeyX b c) (LKeyX (Err e) key)
    (MkRun PStart b (read_error (after_keyx key c)))
| step_connected b c : run_step (MkRun POnConnect b c) LConnected (MkRun PRead b c)
| step_read_end b c : run_step (MkRun PRead b c) LReadEnd (MkRun PStart b (read_error c))
| step_read_error p b c : p = PKeyX \/ p = POnConnect \/ p = PRead ->
    run_step (MkRun p b c) LReadError (MkRun p b (read_error c))
| step_close p b c : run_step (MkRun p b c) LClose (MkRun p b (Close c))
| step_send p b c msg r c' : Send msg c = (Ret r, c') -> run_step (MkRun p b c) (LSend msg) (MkRun p b c')
| step_write p b c c' : write_step c = Some c' -> run_step (MkRun p b c) LWrite (MkRun p b c').

Inductive run_reach (s0 : rstate) : rstate -> Prop :=
| reach_refl : run_reach s0 s0
| reach_step s l s' : run_reach s0 s -> run_step s l s' -> run_reach s0 s'.

End loop.

Example connect_headers_example c :
  token c = "" -> connect_headers c = [("X-Node-ID", nodeID c)].
Proof. intros H. unfold connect_headers. rewrite H. by destruct (hasKeypair c && _). Qed.

Example backoff_example : (fun n => Nat.iter n (fun b => next_backoff b (60 * Second)) Second) <$> [1; 2; 5; 6; 7]%nat
  = [2 * Second; 4 * Second; 32 * Second; 60 * Second; 60 * Second].
Proof. reflexivity. Qed.
