(* ===== verification/WsFacts.v ===== *)
(** Properties of package [ws]. *)

From S2P Require Import Prelude GoStrings Json JsonFacts GoStruct Primitives Crypto Ws.

(** ** Messages survive the wire *)

(** Messages the encoder writes without loss. *)
Definition message_wf (m : Message) : bool :=
  valid_utf8 (Type_ m) && valid_utf8 (ID m) && valid_utf8 (Error_ m)
  && match Payload m with Some p => json_wf p && (jdepth p <? max_depth)%N | None => true end.

Lemma message_json_wf m : message_wf m = true -> json_wf (message_json m) = true.
Proof.
  unfold message_wf, message_json, e_string, e_string_omit. destruct m as [ty id [p|] [b|] er]; cbn [Payload Success Type_ ID Error_];
    rewrite !andb_true_iff; intros H; open_hyps; repeat case_decide; cbn [app];
    repeat (apply json_wf_obj_cons; [done|done|]); done.
Qed.

Lemma message_json_depth m : message_wf m = true -> (jdepth (message_json m) <= max_depth)%N.
Proof.
  unfold message_wf, message_json, e_string, e_string_omit. destruct m as [ty id [p|] [b|] er]; cbn [Payload Success Type_ ID Error_];
    rewrite !andb_true_iff; intros H; open_hyps;
    try match goal with H : (_ <? _)%N = true |- _ => apply N.ltb_lt in H end;
    repeat case_decide; cbn -[N.add N.max max_depth]; try (unfold max_depth in *; lia).
Qed.

Lemma unmarshal_marshal_message m : message_wf m = true -> unmarshal_message (marshal_message m) = Some m.
Proof.
  intros Hw. unfold unmarshal_message, marshal_message.
  rewrite json_parse_print by (by apply message_json_wf || by apply message_json_depth).
  unfold message_json. cbn [Unmarshal mbind option_bind decode_struct]. unfold e_string, e_string_omit.
  destruct m as [ty id p b er]. cbn [Payload Success Type_ ID Error_]. cbn [app].
  erewrite decode_members_cons; [|reflexivity|reflexivity].
  destruct (decide (id = "")) as [->|Hid]; cbn [app]; [|erewrite decode_members_cons; [|reflexivity|reflexivity]];
  (destruct p as [p|]; cbn [app]; [erewrite decode_members_cons; [|reflexivity|reflexivity]|]);
  (destruct b as [b|]; cbn [app]; [erewrite decode_members_cons; [|reflexivity|reflexivity]|]);
  (destruct (decide (er = "")) as [->|Her]; cbn [app]; [|erewrite decode_members_cons; [|reflexivity|reflexivity]]);
  reflexivity.
Qed.

(** ** Backoff *)

Lemma round53_id z : Z.abs z < 2^53 -> round53 z = z.
Proof.
  intros H. unfold round53. destruct (Z.ltb_spec (Z.log2 (Z.abs z)) 53) as [|Hge]; [done|].
  assert (0 < Z.abs z) as Hp by (destruct (Z.eq_dec (Z.abs z) 0) as [E|]; [rewrite E in Hge; by vm_compute in Hge|lia]).
  apply Z.log2_le_pow2 in Hge; lia.
Qed.

(** With a cap below 104 days the floating-point minimum is exact. *)
Lemma next_backoff_exact b mx : 0 <= b < 2^52 -> 0 <= mx < 2^53 -> next_backoff b mx = Z.min (2 * b) mx.
Proof.
  intros Hb Hm. unfold next_backoff. rewrite wrap64_id by (unfold int64; lia).
  rewrite !round53_id by lia. unfold to_int64.
  rewrite (Z.mul_comm b 2). destruct (Z.leb_spec (- 2^63) (Z.min (2 * b) mx)); [|lia].
  destruct (Z.ltb_spec (Z.min (2 * b) mx) (2^63)); [done|lia].
Qed.

(** ** The loop *)

Section loop.
Context `{A : Aead}.

Lemma set_queue_id c : set_queue (sendCh c) c = c.
Proof. by destruct c. Qed.

(** Sending only appends to the queue and draws randomness. *)
Lemma Send_link msg c r c' : Send msg c = (Ret r, c') -> exists g q, c' = set_queue q (set_rng g c) /\
  (q = sendCh c \/ (length (sendCh c) < queue_cap)%nat /\ exists it, q = sendCh c ++ [it]).
Proof.
  assert (Hid : c = set_queue (sendCh c) (set_rng (crng c) c)) by (by destruct c).
  assert (He : forall item g, exists g' q, (enqueue item (set_rng g c)).2 = set_queue q (set_rng g' c) /\
    (q = sendCh c \/ (length (sendCh c) < queue_cap)%nat /\ exists it, q = sendCh c ++ [it])).
  { intros [it|e] g; cbn [enqueue].
    - change (sendCh (set_rng g c)) with (sendCh c).
      destruct (Nat.ltb_spec (length (sendCh c)) queue_cap); cbn [snd].
      + exists g, (sendCh c ++ [it]). split; [done|]. right. eauto.
      + exists g, (sendCh c). auto.
    - exists g, (sendCh c). auto. }
  unfold Send. destruct (negb (conn c)); [intros [= _ <-]; exists (crng c), (sendCh c); auto|].
  destruct (encode_frame _ c) as [item c1] eqn:E.
  assert (exists g, c1 = set_rng g c) as [g ->].
  { unfold encode_frame in E. destruct (encrypted c), (aead c); try (injection E as _ <-; exists (crng c); by destruct c).
    destruct (Encrypt _ _ _) as [w r']. injection E as _ <-. eauto. }
  specialize (He item g). destruct (enqueue _ _) as [r0 c2]. intros [= _ <-]. exact He.
Qed.

(** What holds in every state of the loop. *)
Record run_ok (mx : Z) (s : rstate) : Prop := {
  ro_max : reconnMax (r_cli s) = mx;
  ro_backoff : Z.min Second mx <= r_backoff s <= Z.max Second mx;
  ro_sleep : forall d, r_pc s = PSleep d -> d = r_backoff s;
  ro_idle : match r_pc s with PStart | PSleep _ | PStopped => conn (r_cli s) = false /\ connDone (r_cli s) = None
            | _ => True end;
  ro_chan : connDone (r_cli s) = if conn (r_cli s) then Some false else None;
  ro_queue : (length (sendCh (r_cli s)) <= queue_cap)%nat;
}.

Lemma EnableEncryption_link k c : exists e a, EnableEncryption k c = set_crypto e a c.
Proof. unfold EnableEncryption. destruct (NewAEAD k); eauto. Qed.

Lemma run_step_ok mx s l s' : 0 <= mx < 2^52 -> run_step s l s' -> run_ok mx s -> run_ok mx s'.
Proof.
  intros Hmx Hst [Hm Hb Hs Hi Hc Hq]. destruct Hst; cbn [r_pc r_backoff r_cli] in *.
  - split; cbn; auto; done.
  - split; cbn; auto. by intros d [= ->].
  - destruct Hi as [H1 H2]. unfold connect in H0. cbn [connDone set_crypto set_conn] in H0. rewrite H2 in H0.
    injection H0 as <-. split; cbn; auto; unfold Second, queue_cap; lia || done.
  - split; cbn; auto; [|done]. rewrite Hm. unfold Second in *. rewrite next_backoff_exact by lia. lia.
  - split; cbn; auto; done.
  - destruct key as [k|]; cbn [after_keyx]; [destruct (EnableEncryption_link k c) as (e & a & ->)|];
      split; cbn; auto; done.
  - destruct key as [k|]; cbn [after_keyx]; [destruct (EnableEncryption_link k c) as (e' & a & ->)|];
      split; cbn; auto; done.
  - split; cbn; auto; done.
  - split; cbn; auto; done.
  - split; cbn; auto; destruct H as [->|[->| ->]]; done.
  - split; cbn; auto.
  - apply Send_link in H as (g & q & -> & Hqq). split; cbn; auto.
    destruct Hqq as [->|[Hlt [it ->]]]; [done|]. rewrite length_app. cbn. lia.
  - unfold write_step in H. destruct (sendCh c) as [|it q] eqn:E; [done|]. injection H as <-.
    split; cbn in *; auto; lia.
Qed.

Lemma run_init_ok url token nodeID sec r : 0 <= sec -> sec * Second < 2^52 ->
  run_ok (sec * Second) (run_init (NewClient url token nodeID sec r)).
Proof.
  intros H1 H2. split; cbn; auto; try done; try lia. apply wrap64_id. unfold int64, Second in *. lia.
Qed.

Lemma reach_ok mx s0 s : 0 <= mx < 2^52 -> run_ok mx s0 -> run_reach s0 s -> run_ok mx s.
Proof. intros Hmx H0. induction 1; [done|]. eauto using run_step_ok. Qed.

(** C11: Reconnecting.  In every state the connection loop can reach, whatever the dialer, the key
    exchange and the peers of the queue do: the time it waits before dialling again is between
    one second and the configured maximum (or the maximum, when that is below a second), the send
    queue holds at most 256 frames, and connecting never closes a closed channel: a successful
    dial always leads to a fresh unencrypted connection with an empty queue. *)
Theorem run_loop_safe url token nodeID sec r s : 0 <= sec -> sec * Second < 2^52 ->
  run_reach (run_init (NewClient url token nodeID sec r)) s ->
  (forall d, r_pc s = PSleep d -> Z.min Second (sec * Second) <= d <= Z.max Second (sec * Second)) /\
  (length (sendCh (r_cli s)) <= queue_cap)%nat /\
  (r_pc s = PStart -> done (r_cli s) = false -> exists s', run_step s (LDial (Ok tt)) s' /\
    r_backoff s' = Second /\ conn (r_cli s') = true /\ encrypted (r_cli s') = false /\ aead (r_cli s') = None
    /\ sendCh (r_cli s') = []).
Proof.
  intros H1 H2 Hr. apply (reach_ok (sec * Second)) in Hr; [|unfold Second in *; lia|by apply run_init_ok].
  destruct Hr as [Hm Hb Hs Hi Hc Hq]. split_and!; [|done|].
  - intros d Hd. specialize (Hs d Hd) as ->. done.
  - intros Hp Hd. destruct s as [p b c]. cbn in *. subst p. destruct Hi as [Hc1 Hc2].
    eexists. split; [apply step_dial_ok; [done|]|].
    + unfold connect. cbn [connDone set_crypto set_conn]. rewrite Hc2. reflexivity.
    + done.
Qed.

End loop.

Section sending.
Context `{A : Aead} {L : AeadLaws A}.

(** The client can make a frame: it is not encrypted, or a nonce can be drawn. *)
Definition can_seal (c : Client) : bool :=
  match encrypted c, aead c with
  | true, Some _ => is_ok (rng_src (crng c) (rng_next (crng c)) NonceSize)
  | _, _ => true
  end.

(** C5: Send on every branch: it succeeds exactly when there is a connection, fewer than 256
    frames are queued and, once encryption is on, a nonce can be drawn.  A Send that fails queues
    nothing, and without a connection changes nothing; one that succeeds appends exactly one
    frame, plain text before the key exchange and a binary frame after it, which a client with
    the same key decodes to exactly this message. *)
Theorem send_spec msg c : message_wf msg = true -> rng_ok (crng c) ->
  (forall k, aead c = Some k -> slen k = KeySize) ->
  exists r c', Send msg c = (Ret r, c') /\
  is_ok r = conn c && (length (sendCh c) <? 256)%nat && can_seal c /\
  (conn c = false -> c' = c) /\
  (is_ok r = false -> sendCh c' = sendCh c) /\
  (is_ok r = true -> exists it, sendCh c' = sendCh c ++ [it] /\
     msgType it = (if encrypted c && bool_decide (is_Some (aead c)) then BinaryMessage else TextMessage) /\
     decode_frame c it = Some msg).
Proof.
  intros Hw Hr Hk. unfold Send. destruct (conn c); cbn [negb andb].
  2:{ eexists _, _. split_and!; try done. }
  assert (Hit : forall item c1, encode_frame (marshal_message msg) c = (item, c1) ->
    sendCh c1 = sendCh c /\ is_ok item = can_seal c /\ forall it, item = Ok it ->
     msgType it = (if encrypted c && bool_decide (is_Some (aead c)) then BinaryMessage else TextMessage) /\
     decode_frame c it = Some msg).
  { intros item c1. unfold encode_frame, decode_frame, can_seal. destruct (encrypted c); [destruct (aead c) as [k|] eqn:Ha|].
    - destruct (Encrypt k _ _) as [w r'] eqn:E. intros [= <- <-]. split; [done|]. split.
      { unfold Encrypt, read_rand in E. destruct (rng_src _ _ _); injection E as <- _; done. }
      intros it Hw'. destruct w as [d|]; [|done]. injection Hw' as <-. cbn [msgType data]. split; [done|].
      rewrite decide_True by done.
      destruct (Decrypt_Encrypt _ _ _ _ _ (Hk k eq_refl) Hr E) as [-> _]. by apply unmarshal_marshal_message.
    - intros [= <- <-]. split_and!; [done|done|]. intros it [= <-]. split; [done|]. by apply unmarshal_marshal_message.
    - intros [= <- <-]. split_and!; [done|done|]. intros it [= <-]. split; [done|]. by apply unmarshal_marshal_message. }
  destruct (encode_frame _ c) as [item c1]. specialize (Hit _ _ eq_refl) as (Hq & <- & Hit).
  destruct item as [it|e]; cbn [enqueue is_ok].
  - rewrite Hq. change queue_cap with 256%nat. destruct (Nat.ltb_spec (length (sendCh c)) 256); eexists _, _; split_and!; try done.
    intros _. exists it. cbn. destruct (Hit it eq_refl). auto.
  - eexists _, _. split_and!; try done. by rewrite andb_false_r.
Qed.

End sending.

(** ** Witnesses *)

Definition test_client : Client :=
  set_crypto true (Some (string_of (replicate 32 7%N)))
    (set_conn true (Some false) [] [] (NewClient "wss://center" "token" "node" 60 test_rng)).

Lemma send_spec_witness : (Send (MkMessage "response" "1" None (Some true) "") test_client).1 = Ret (Ok tt) /\
  exists r c', Send (MkMessage "response" "1" None (Some true) "") test_client = (Ret r, c').
Proof.
  split; [vm_compute; reflexivity|].
  destruct (send_spec (MkMessage "response" "1" None (Some true) "") test_client) as (r & c' & E & _).
  - reflexivity.
  - exact test_rng_ok.
  - intros k [= <-]. reflexivity.
  - exists r, c'. exact E.
Defined.

Lemma run_loop_safe_witness : let s := run_init (NewClient "wss://center" "token" "node" 60 test_rng) in
  exists s', run_step s (LDial (Ok tt)) s' /\ encrypted (r_cli s') = false.
Proof.
  intros s. destruct (run_loop_safe "wss://center" "token" "node" 60 test_rng s) as (_ & _ & H); [lia|reflexivity|constructor|].
  destruct H as (s' & Hs & _ & _ & He & _); [reflexivity|reflexivity|]. eauto.
Defined.
