(* ===== verification/Handler.v ===== *)
(** Package [handler], file [handler.go]: the commands of the center.  A handler runs on the
    node's files and programs, the store, the WebSocket client and the key-exchange channel. *)

From S2P Require Import Prelude GoStrings GoPath Json GoStruct GoFloat GoNet Host Store Wg Bird Primitives Crypto Ws.

(** ** Payloads *)

Record PeerAddPayload := MkPeerAdd {
  pa_PeerID : string; pa_ASN : Z; pa_RemoteWgPubkey : string; pa_RemoteEndpoint : string;
  pa_RemoteLLA : string; pa_ListenPort : Z; pa_WgInterface : string; pa_MTU : option Z;
  pa_WgPreSharedKey : option string;
}.
Definition PeerAdd_zero : PeerAddPayload := MkPeerAdd "" 0 "" "" "" 0 "" None None.

Definition PeerAdd_fields : sfields PeerAddPayload := [
  ("peer_id", d_string (fun s p => MkPeerAdd s (pa_ASN p) (pa_RemoteWgPubkey p) (pa_RemoteEndpoint p) (pa_RemoteLLA p) (pa_ListenPort p) (pa_WgInterface p) (pa_MTU p) (pa_WgPreSharedKey p)));
  ("asn", d_int (fun z p => MkPeerAdd (pa_PeerID p) z (pa_RemoteWgPubkey p) (pa_RemoteEndpoint p) (pa_RemoteLLA p) (pa_ListenPort p) (pa_WgInterface p) (pa_MTU p) (pa_WgPreSharedKey p)));
  ("remote_wg_pubkey", d_string (fun s p => MkPeerAdd (pa_PeerID p) (pa_ASN p) s (pa_RemoteEndpoint p) (pa_RemoteLLA p) (pa_ListenPort p) (pa_WgInterface p) (pa_MTU p) (pa_WgPreSharedKey p)));
  ("remote_endpoint", d_string (fun s p => MkPeerAdd (pa_PeerID p) (pa_ASN p) (pa_RemoteWgPubkey p) s (pa_RemoteLLA p) (pa_ListenPort p) (pa_WgInterface p) (pa_MTU p) (pa_WgPreSharedKey p)));
  ("remote_lla", d_string (fun s p => MkPeerAdd (pa_PeerID p) (pa_ASN p) (pa_RemoteWgPubkey p) (pa_RemoteEndpoint p) s (pa_ListenPort p) (pa_WgInterface p) (pa_MTU p) (pa_WgPreSharedKey p)));
  ("listen_port", d_int (fun z p => MkPeerAdd (pa_PeerID p) (pa_ASN p) (pa_RemoteWgPubkey p) (pa_RemoteEndpoint p) (pa_RemoteLLA p) z (pa_WgInterface p) (pa_MTU p) (pa_WgPreSharedKey p)));
  ("wg_interface", d_string (fun s p => MkPeerAdd (pa_PeerID p) (pa_ASN p) (pa_RemoteWgPubkey p) (pa_RemoteEndpoint p) (pa_RemoteLLA p) (pa_ListenPort p) s (pa_MTU p) (pa_WgPreSharedKey p)));
  ("mtu", d_ptr d_int (fun z p => MkPeerAdd (pa_PeerID p) (pa_ASN p) (pa_RemoteWgPubkey p) (pa_RemoteEndpoint p) (pa_RemoteLLA p) (pa_ListenPort p) (pa_WgInterface p) z (pa_WgPreSharedKey p)));
  ("wg_preshared_key", d_ptr d_string (fun s p => MkPeerAdd (pa_PeerID p) (pa_ASN p) (pa_RemoteWgPubkey p) (pa_RemoteEndpoint p) (pa_RemoteLLA p) (pa_ListenPort p) (pa_WgInterface p) (pa_MTU p) s))
].

Record PeerRemovePayload := MkPeerRemove { pr_PeerID : string; pr_ASN : Z }.
Definition PeerRemove_fields : sfields PeerRemovePayload := [
  ("peer_id", d_string (fun s p => MkPeerRemove s (pr_ASN p)));
  ("asn", d_int (fun z p => MkPeerRemove (pr_PeerID p) z))
].

Record BirdControlPayload := MkBirdControl { bp_PeerID : string; bp_ProtoName : string }.
Definition BirdControl_fields : sfields BirdControlPayload := [
  ("peer_id", d_string (fun s p => MkBirdControl s (bp_ProtoName p)));
  ("proto_name", d_string (fun s p => MkBirdControl (bp_PeerID p) s))
].

(** A peer of [peers.sync]: the fields of [peer.add] and two more. *)
Record SyncPeer := MkSyncPeer {
  sp_base : PeerAddPayload;
  sp_BgpProtoName : string;
  sp_BirdConfigFilename : string;
}.
Definition SyncPeer_zero : SyncPeer := MkSyncPeer PeerAdd_zero "" "".
Definition lift_base (f : setter PeerAddPayload) : setter SyncPeer := fun j p =>
  (fun b => MkSyncPeer b (sp_BgpProtoName p) (sp_BirdConfigFilename p)) <$> f j (sp_base p).
Definition SyncPeer_fields : sfields SyncPeer :=
  ((fun kf => (kf.1, lift_base kf.2)) <$> PeerAdd_fields) ++ [
  ("bgp_proto_name", d_string (fun s p => MkSyncPeer (sp_base p) s (sp_BirdConfigFilename p)));
  ("bird_config_filename", d_string (fun s p => MkSyncPeer (sp_base p) (sp_BgpProtoName p) s))].
Definition Sync_fields : sfields (list SyncPeer) := [
  ("peers", d_slice (decode_struct SyncPeer_fields) SyncPeer_zero id (fun l _ => l))
].

Record ImportedPeer := MkImported {
  im_ASN : Z; im_RemotePubkey : string; im_RemoteEndpoint : string; im_RemoteLLA : string;
  im_WgListenPort : Z; im_WgInterface : string; im_BgpProtoName : string;
  im_BirdConfigFilename : string; im_WgManaged : bool;
}.

(** ** JSON of the answers *)

Definition stats_json (s : InterfaceStats) : jval :=
  JObj (e_string "Name" (Name s) ++ e_int "RxBytes" (RxBytes s) ++ e_int "TxBytes" (TxBytes s)
    ++ e_string "LastHandshake" (LastHandshake s) ++ e_string "ActualEndpoint" (ActualEndpoint s)).
Definition state_json (s : PeerState) : jval :=
  JObj (e_string "Name" (ps_name s) ++ e_string "State" (ps_state s)).
Definition detail_json (d : PeerDetail) : jval :=
  JObj (e_string "name" (pd_name d) ++ e_string "state" (pd_state d)
    ++ e_int "routes_imported" (RoutesImported d) ++ e_int "routes_exported" (RoutesExported d)
    ++ e_int "bgp_uptime_secs" (BGPUptimeSecs d)).
Definition imported_json (p : ImportedPeer) : jval :=
  JObj (e_int "asn" (im_ASN p) ++ e_string "remote_pubkey" (im_RemotePubkey p)
    ++ e_string "remote_endpoint" (im_RemoteEndpoint p) ++ e_string "remote_lla" (im_RemoteLLA p)
    ++ e_int "wg_listen_port" (im_WgListenPort p) ++ e_string "wg_interface_name" (im_WgInterface p)
    ++ e_string "bgp_proto_name" (im_BgpProtoName p)
    ++ e_string "bird_config_filename" (im_BirdConfigFilename p) ++ [("wg_managed", JBool (im_WgManaged p))]).

Definition proto_name (asn : Z) : string := "dn42_" +:+ Itoa asn.

(** The answer to a command. *)
Definition response (msgID : string) (success : bool) (message : string) : Message :=
  MkMessage "response" msgID
    (if decide (message = "") then None else Some (JObj (e_string "message" message)))
    (if success then Some true else None) (if success then "" else message).

(** An answer that carries data. *)
Definition data_response (msgID : string) (data : jval) : Message :=
  MkMessage "response" msgID (Some data) None "".
Definition success_response (msgID : string) (data : jval) : Message :=
  MkMessage "response" msgID (Some data) (Some true) "".

(** ** Matching scanned tunnels and sessions *)

(** The session of a tunnel: by interface, else by ASN; later files win. *)
Definition bgp_of (bgpPeers : list ScannedBGP) (wp : ScannedPeer) : option ScannedBGP :=
  match list_find (fun bp => sb_wgInterface bp = InterfaceName_ wp) (reverse bgpPeers) with
  | Some (_, bp) => Some bp
  | None => snd <$> list_find (fun bp => sb_asn bp = sc_asn wp) (reverse bgpPeers)
  end.

Definition import_wg (wp : ScannedPeer) (bp : option ScannedBGP) : ImportedPeer :=
  MkImported (match bp with Some b => sb_asn b | None => sc_asn wp end) (sc_remotePubkey wp)
    (sc_remoteEndpoint wp) (match bp with Some b => sb_remoteLLA b | None => "" end) (sc_listenPort wp)
    (InterfaceName_ wp) (match bp with Some b => sb_protoName b | None => "" end)
    (match bp with Some b => sb_filename b | None => "" end) true.
Definition import_bgp (bp : ScannedBGP) : ImportedPeer :=
  MkImported (sb_asn bp) "" "" (sb_remoteLLA bp) 0 (sb_wgInterface bp) (sb_protoName bp) (sb_filename bp) false.

(** The handler's unchanging parts. *)
Record Handler := MkHandler {
  wgMgr : Wg.Manager;
  birdMgr : Bird.Manager;
  agentToken : string;
  keypair : option KeyPair;
}.

Section handler.
Context `{env : HostEnv} `{B : Bolt} `{A : Aead}.

(** The channel [pendingKeyX]: the messages sent on it that nobody took yet, and whether the key
    exchange that made it is still to receive from it (it receives once). *)
Record keychan := MkChan { kc_buf : list Message; kc_waiting : bool }.

(** [h_keyx]: nil, or the channel of the last exchange. *)
Record HState := MkH {
  h_sys : Sys;
  h_store : Store;
  h_ws : option Client;
  h_keyx : option keychan;
}.

Definition on_sys {T} (m : M Sys T) : M HState T :=
  zoom h_sys (fun s h => MkH s (h_store h) (h_ws h) (h_keyx h)) m.
Definition on_store {T} (m : M Store T) : M HState T :=
  zoom h_store (fun s h => MkH (h_sys h) s (h_ws h) (h_keyx h)) m.
Definition set_ws (c : option Client) (h : HState) : HState := MkH (h_sys h) (h_store h) c (h_keyx h).
Definition set_keyx (k : option keychan) (h : HState) : HState := MkH (h_sys h) (h_store h) (h_ws h) k.

Definition SetWSClient (c : Client) : M HState unit := modify (set_ws (Some c)).

(** [h.wsClient.Send(msg)]: a nil client panics. *)
Definition ws_send (msg : Message) : M HState (res unit) := fun h =>
  match h_ws h with
  | None => (Halt (Panic "nil pointer dereference"), h)
  | Some c => let '(o, c') := Send msg c in (o, set_ws (Some c') h)
  end.

Definition sendResponse (msgID : string) (success : bool) (message : string) : M HState unit :=
  c ← gets h_ws;
  match c with
  | None => mret tt
  | Some _ => _ ← ws_send (response msgID success message); mret tt
  end.

Definition sendResponseChecked (msgID : string) (success : bool) (message : string) : M HState (res unit) :=
  c ← gets h_ws;
  match c with
  | None => mret (Err (errorf "wsClient is nil"))
  | Some _ => ws_send (response msgID success message)
  end.

(** [json.Unmarshal(msg.Payload, &payload)], answering a failure. *)
Definition with_payload {T} (fields : sfields T) (zero : T) (msg : Message) (k : T -> M HState unit) : M HState unit :=
  match Unmarshal fields zero (Payload msg) with
  | None => sendResponse (ID msg) false ("invalid payload: " +:+ json_errmsg (Payload msg))
  | Some p => k p
  end.

Definition iface_of (name : string) (asn : Z) : string := if decide (name = "") then InterfaceName asn else name.

Definition handlePeerAdd (h : Handler) (msg : Message) : M HState unit :=
  with_payload PeerAdd_fields PeerAdd_zero msg (fun p =>
    let iface := iface_of (pa_WgInterface p) (pa_ASN p) in
    known ← on_store (GetPeer (pa_PeerID p));
    active ← (if is_ok known then on_sys (IsPeerUp (wgMgr h) iface) else mret false);
    if active : bool then sendResponse (ID msg) true "already active"
    else
      isup ← on_sys (IsPeerUp (wgMgr h) iface);
      _ ← (if isup : bool then on_sys (RemovePeerByIface (wgMgr h) iface) else mret (Ok tt));
      wgr ← on_sys (AddPeerWithIface (wgMgr h) iface (pa_ASN p) (pa_ListenPort p) (pa_RemoteWgPubkey p)
               (pa_RemoteEndpoint p) (pa_MTU p) (pa_WgPreSharedKey p));
      match wgr with
      | Err e => sendResponse (ID msg) false ("wg add failed: " +:+ err_text e)
      | Ok _ =>
          birdr ← on_sys (Bird.AddPeer (birdMgr h) (pa_ASN p) (pa_RemoteLLA p) iface);
          match birdr with
          | Err e =>
              _ ← on_sys (RemovePeerByIface (wgMgr h) iface);
              sendResponse (ID msg) false ("bird add failed: " +:+ err_text e)
          | Ok _ =>
              put ← on_store (PutPeer (pa_PeerID p)
                       (MkPeerInfo (pa_ASN p) (pa_RemoteLLA p) iface (proto_name (pa_ASN p)) (conf_name (pa_ASN p))));
              match put with
              | Err e =>
                  _ ← on_sys (Bird.RemovePeer (birdMgr h) (pa_ASN p));
                  _ ← on_sys (RemovePeerByIface (wgMgr h) iface);
                  sendResponse (ID msg) false ("store put failed: " +:+ err_text e)
              | Ok _ => sendResponse (ID msg) true "peer added successfully"
              end
          end
      end).

Definition handlePeerRemove (h : Handler) (msg : Message) : M HState unit :=
  with_payload PeerRemove_fields (MkPeerRemove "" 0) msg (fun p =>
    asn ← (if pr_ASN p =? 0 then
             r ← on_store (GetPeer (pr_PeerID p));
             mret (match r with Ok info => ASN info | Err _ => 0 end)
           else mret (pr_ASN p));
    if asn =? 0 then sendResponse (ID msg) false "unknown peer"
    else
      stored ← on_store (GetPeer (pr_PeerID p));
      let filename := match stored with Ok info => BirdConfigFilename info | Err _ => "" end in
      let iface := match stored with Ok info => WgInterface info | Err _ => "" end in
      _ ← on_sys (if decide (filename = "") then Bird.RemovePeer (birdMgr h) asn
                  else RemovePeerByFilename (birdMgr h) filename);
      _ ← on_sys (if decide (iface = "") then Wg.RemovePeer (wgMgr h) asn
                  else RemovePeerByIface (wgMgr h) iface);
      _ ← on_store (DeletePeer (pr_PeerID p));
      sendResponse (ID msg) true "peer removed successfully").

Definition handleStatusRequest (h : Handler) (msg : Message) : M HState unit :=
  stats ← on_sys (GetStats (wgMgr h));
  match stats with
  | Err e => sendResponse (ID msg) false ("wg stats error: " +:+ err_text e)
  | Ok wgStats =>
      states ← on_sys (GetPeerStates (birdMgr h));
      match states with
      | Err e => sendResponse (ID msg) false ("bird states error: " +:+ err_text e)
      | Ok birdStates =>
          _ ← ws_send (MkMessage "status.response" (ID msg)
                 (Some (JObj [("bird_states", JArr (state_json <$> birdStates));
                              ("wg_stats", JArr (stats_json <$> wgStats))])) None "");
          mret tt
      end
  end.

(** ** [peers.sync] *)

(** The lists of the answer and the map of the peers to keep. *)
Record syncState := MkSync { sy_applied : list string; sy_failed : list string; sy_peers : gmap string PeerInfo }.

Definition or_default (s d : string) : string := if decide (s = "") then d else s.

(** What the store is to hold of a peer. *)
Definition sync_info (p : SyncPeer) : PeerInfo :=
  let b := sp_base p in
  MkPeerInfo (pa_ASN b) (pa_RemoteLLA b) (iface_of (pa_WgInterface b) (pa_ASN b))
    (or_default (sp_BgpProtoName p) (proto_name (pa_ASN b)))
    (or_default (sp_BirdConfigFilename p) (conf_name (pa_ASN b))).

(** The tunnel of one peer: [None] skips the peer, [Some failed] goes on. *)
Definition sync_wg (h : Handler) (p : PeerAddPayload) (iface : string) : M Sys (option bool) :=
  st ← Stat (Join [Wg.ConfigDir (wgMgr h); iface +:+ ".conf"]);
  let wgExists := negb (IsNotExist st) in
  if decide (pa_RemoteWgPubkey p = "") then mret (if wgExists then Some false else None)
  else
    isup ← (if wgExists then IsPeerUp (wgMgr h) iface else mret false);
    if negb wgExists || negb isup then
      r ← AddPeerWithIface (wgMgr h) iface (pa_ASN p) (pa_ListenPort p) (pa_RemoteWgPubkey p)
             (pa_RemoteEndpoint p) (pa_MTU p) (pa_WgPreSharedKey p);
      mret (Some (negb (is_ok r)))
    else mret (Some false).

(** The session of one peer: whether it failed. *)
Definition sync_bird (h : Handler) (p : SyncPeer) (iface : string) : M Sys bool :=
  let b := sp_base p in
  let birdConf := or_default (sp_BirdConfigFilename p) (conf_name (pa_ASN b)) in
  st ← Stat (Join [Bird.ConfigDir (birdMgr h); birdConf]);
  if IsNotExist st then
    r ← Bird.AddPeer (birdMgr h) (pa_ASN b) (pa_RemoteLLA b) iface;
    mret (negb (is_ok r))
  else mret false.

Definition sync_peer (h : Handler) (st : syncState) (p : SyncPeer) : M HState syncState :=
  let b := sp_base p in
  if (pa_ASN b <=? 0) || bool_decide (pa_PeerID b = "") then mret st
  else
    let iface := iface_of (pa_WgInterface b) (pa_ASN b) in
    wgr ← on_sys (sync_wg h b iface);
    match wgr with
    | None => mret st
    | Some wgFailed =>
        birdFailed ← on_sys (sync_bird h p iface);
        let peers := <[pa_PeerID b := sync_info p]> (sy_peers st) in
        if wgFailed || birdFailed
        then mret (MkSync (sy_applied st) (sy_failed st ++ [pa_PeerID b]) peers)
        else mret (MkSync (sy_applied st ++ [pa_PeerID b]) (sy_failed st) peers)
    end.

Definition teardown (h : Handler) (info : PeerInfo) : M HState unit :=
  let iface := iface_of (WgInterface info) (ASN info) in
  _ ← on_sys (if decide (BirdConfigFilename info = "") then Bird.RemovePeer (birdMgr h) (ASN info)
              else RemovePeerByFilename (birdMgr h) (BirdConfigFilename info));
  _ ← on_sys (RemovePeerByIface (wgMgr h) iface);
  mret tt.

(** The callback that collects the stored peers the center no longer lists, by their id. *)
Definition stale_step (keep : gmap string PeerInfo) (stale : list PeerInfo) (peerID : string) (info : PeerInfo)
  : list PeerInfo * option error :=
  (match keep !! peerID with Some _ => stale | None => stale ++ [info] end, None).

Definition handlePeersSync (h : Handler) (msg : Message) : M HState unit :=
  match Unmarshal Sync_fields [] (Payload msg) with
  | None => mret tt
  | Some peers =>
      st ← mfold (sync_peer h) peers (MkSync [] [] ∅);
      visited ← on_store (ForEachPeer (stale_step (sy_peers st)) []);
      _ ← on_store (ReplaceAll (sy_peers st));
      _ ← mfor (teardown h) visited.1;
      _ ← ws_send (data_response (ID msg)
             (JObj [("applied", JArr (JStr <$> sy_applied st)); ("failed", JArr (JStr <$> sy_failed st))]));
      mret tt
  end.

Definition RequestSync : M HState unit :=
  c ← gets h_ws;
  match c with
  | None => mret tt
  | Some _ => _ ← ws_send (MkMessage "peers.sync" "" None None ""); mret tt
  end.

(** ** [peers.import] *)

Definition is_tracked (asn : Z) : M HState bool :=
  r ← on_store (IsASNTracked asn); mret (match r with Ok b => b | Err _ => false end).

(** The imported peers so far and the interfaces of the sessions already matched. *)
Definition import_wg_step (bgpPeers : list ScannedBGP) (acc : list ImportedPeer * gset string) (wp : ScannedPeer)
  : M HState (list ImportedPeer * gset string) :=
  let bp := bgp_of bgpPeers wp in
  let matched := match bp with Some b => {[ sb_wgInterface b ]} ∪ acc.2 | None => acc.2 end in
  let peer := import_wg wp bp in
  tracked ← is_tracked (im_ASN peer);
  mret (if tracked : bool then acc.1 else acc.1 ++ [peer], matched).

Definition import_bgp_step (matched : gset string) (acc : list ImportedPeer) (bp : ScannedBGP)
  : M HState (list ImportedPeer) :=
  tracked ← is_tracked (sb_asn bp);
  mret (if (tracked : bool) || bool_decide (sb_wgInterface bp ∈ matched) then acc else acc ++ [import_bgp bp]).

Definition handlePeersImportCommand (h : Handler) (msg : Message) : M HState unit :=
  wgr ← on_sys (Wg.ScanPeers (wgMgr h));
  match wgr with
  | Err e => sendResponse (ID msg) false ("wg scan error: " +:+ err_text e)
  | Ok wgPeers =>
      bgpr ← on_sys (Bird.ScanPeers (birdMgr h));
      match bgpr with
      | Err e => sendResponse (ID msg) false ("bird scan error: " +:+ err_text e)
      | Ok bgpPeers =>
          acc ← mfold (import_wg_step bgpPeers) wgPeers ([], ∅);
          imported ← mfold (import_bgp_step acc.2) bgpPeers acc.1;
          _ ← ws_send (data_response (ID msg) (JObj [("peers", JArr (imported_json <$> imported))]));
          mret tt
      end
  end.

(** ** BIRD commands *)

Definition GetBirdStates (h : Handler) : M HState (list PeerState) :=
  r ← on_sys (GetPeerStates (birdMgr h)); mret (match r with Ok l => l | Err _ => [] end).

Definition GetBirdDetails (h : Handler) (now : Z) : M HState (res (list PeerDetail)) :=
  on_sys (GetPeerDetails (birdMgr h) now).

Definition handleBirdDetailsCommand (h : Handler) (now : Z) (msg : Message) : M HState unit :=
  r ← on_sys (GetPeerDetails (birdMgr h) now);
  match r with
  | Err e => sendResponse (ID msg) false ("birdc error: " +:+ err_text e)
  | Ok details =>
      _ ← ws_send (data_response (ID msg) (JObj [("details", JArr (detail_json <$> details))]));
      mret tt
  end.

(** [bird.disable] and [bird.enable] differ in the verb and the answer. *)
Definition bird_control (h : Handler) (act : string -> M Sys (res unit)) (done : string) (msg : Message) : M HState unit :=
  with_payload BirdControl_fields (MkBirdControl "" "") msg (fun p =>
    proto ← (if decide (bp_ProtoName p = "") then
               r ← on_store (GetPeer (bp_PeerID p));
               mret (match r with
                     | Ok info => Some (or_default (BgpProtoName info) (proto_name (ASN info)))
                     | Err _ => None
                     end)
             else mret (Some (bp_ProtoName p)));
    match proto with
    | None => sendResponse (ID msg) false "peer not found"
    | Some protoName =>
        r ← on_sys (act protoName);
        match r with
        | Err e => sendResponse (ID msg) false (err_text e)
        | Ok _ => sendResponse (ID msg) true done
        end
    end).
Definition handleBirdDisable (h : Handler) : Message -> M HState unit :=
  bird_control h (DisableProtocol (birdMgr h)) "protocol disabled".
Definition handleBirdEnable (h : Handler) : Message -> M HState unit :=
  bird_control h (EnableProtocol (birdMgr h)) "protocol enabled".

Definition handleAgentResume (msg : Message) : M HState unit := sendResponse (ID msg) true "resumed".

End handler.

#[global] Arguments HState {env B}.
#[global] Arguments MkH {env B} _ _ _ _.
