(* ===== verification/Network.v ===== *)
(** Package [handler], file [network.go]: the looking glass.  Targets are checked against an
    allowlist before any program runs on them; host names are resolved once (the resolver is a
    parameter) and the program gets the address. *)

From S2P Require Import Prelude GoStrings Json GoStruct Regex GoFloat GoNet Host Store Wg Bird Primitives Crypto Ws Handler.
From Stdlib Require Import Ascii.

(** ** [net.IP.String] *)

Definition hex_digits (n : Z) : string :=
  let d k := hex_char (Z.to_N (n / k mod 16)) in
  if 4096 <=? n then String (d 4096) (String (d 256) (String (d 16) (String (d 1) "")))
  else if 256 <=? n then String (d 256) (String (d 16) (String (d 1) ""))
  else if 16 <=? n then String (d 16) (String (d 1) "")
  else String (d 1) "".

Fixpoint groups_of (ip : IP) : list Z :=
  match ip with
  | a :: b :: l => 256 * a + b :: groups_of l
  | _ => []
  end.

Fixpoint zero_run (l : list Z) : nat :=
  match l with
  | 0 :: l' => S (zero_run l')
  | _ => O
  end.

(** The first longest run of zero groups, if it has at least two. *)
Fixpoint best_run (i : nat) (l : list Z) (best : nat * nat) : nat * nat :=
  match l with
  | [] => best
  | _ :: l' => let n := zero_run l in
               best_run (S i) l' (if (best.2 <? n)%nat then (i, n) else best)
  end.

Definition v6_string (ip : IP) : string :=
  let g := groups_of ip in
  let '(i, n) := best_run 0 g (0%nat, 0%nat) in
  if (2 <=? n)%nat then
    sjoin ":" (hex_digits <$> take i g) +:+ "::" +:+ sjoin ":" (hex_digits <$> drop (i + n) g)
  else sjoin ":" (hex_digits <$> g).

Definition IP_String (ip : IP) : string :=
  match To4 ip with
  | Some ip4 => sjoin "." (Itoa <$> ip4)
  | None => if (length ip =? 16)%nat then v6_string ip else "?" +:+ EncodeToString (string_of (Z.to_N <$> ip))
  end.

(** ** The allowlist *)

Definition dn42_cidrs : list string := ["172.20.0.0/14"; "172.31.0.0/16"; "10.127.0.0/16"; "fd00::/8"].
Definition dn42Ranges : list IPNet := omap ParseCIDR dn42_cidrs.

Definition isDN42 (ip : IP) : bool := existsb (fun n => IPNet_Contains n ip) dn42Ranges.

Fixpoint bytesEqual (a b : list Z) : bool :=
  match a, b with
  | [], [] => true
  | x :: a', y :: b' => (x =? y) && bytesEqual a' b'
  | _, _ => false
  end.

(** What is wrong with an address, if anything. *)
Definition check_ip (ip : IP) : option string :=
  if IsLoopback ip || IsLinkLocalUnicast ip || IsLinkLocalMulticast ip || IsMulticast ip
     || IsUnspecified ip || IsInterfaceLocalMulticast ip then Some "is a reserved address"
  else if isDN42 ip then None
  else
    match To4 ip with
    | Some ip4 =>
        if (byte ip4 0 =? 10) || ((byte ip4 0 =? 172) && (16 <=? byte ip4 1) && (byte ip4 1 <=? 31))
           || ((byte ip4 0 =? 192) && (byte ip4 1 =? 168)) || ((byte ip4 0 =? 169) && (byte ip4 1 =? 254))
        then Some "is a non-DN42 private address"
        else if (byte ip4 3 =? 255) && bytesEqual ip4 [255; 255; 255; 255] then Some "is a broadcast address"
        else None
    | None => if Z.land (byte ip 0) 254 =? 252 then Some "is a non-DN42 ULA address" else None
    end.

Definition validateNetworkTarget (target : string) : res unit :=
  match ParseIP target with
  | None => Err (errorf ("target " +:+ target +:+ " is not a valid IP address"))
  | Some ip => match check_ip ip with
               | Some why => Err (errorf ("target " +:+ target +:+ " " +:+ why))
               | None => Ok tt
               end
  end.

(** The resolver behind [net.DefaultResolver.LookupIP]. *)
Class Resolver := LookupIP : string -> res (list IP).

(** The first address that passes, or the error of the last one that did not. *)
Fixpoint first_valid (ips : list IP) (lastErr : option error) : res string + option error :=
  match ips with
  | [] => inr lastErr
  | ip :: l => let s := IP_String ip in
               match validateNetworkTarget s with
               | Ok _ => inl (Ok s)
               | Err e => first_valid l (Some e)
               end
  end.

Definition resolveAndValidate `{R : Resolver} (target : string) : res string :=
  let target := TrimSpace target in
  if decide (target = "") then Err (errorf "missing target")
  else if HasPrefix target "-" then Err (errorf "invalid target: must not start with '-'")
  else
    match ParseIP target with
    | Some _ => res_map (fun _ => target) (validateNetworkTarget target)
    | None =>
        match LookupIP target with
        | Err e => Err (errorf ("could not resolve " +:+ target +:+ ": " +:+ err_text e))
        | Ok ips =>
            match first_valid ips None with
            | inl r => r
            | inr (Some e) => Err (errorf (target +:+ " resolved only to disallowed addresses: " +:+ err_text e))
            | inr None => Err (errorf ("could not resolve " +:+ target +:+ " to a usable address"))
            end
        end
    end.

(** ** Output of [ping] *)

Record pingResult := MkPing {
  pg_Target : string; pg_ResolvedIP : string; pg_Sent : Z; pg_Received : Z;
  pg_LossPercent : float64; pg_MinRTT : float64; pg_AvgRTT : float64; pg_MaxRTT : float64;
  pg_RTTs : list float64;
}.

Definition rttLineRe : re := RCat [
  RLit "rtt min/avg/max/mdev = "; RGroup 1 (RPlus c_decimal); RLit "/"; RGroup 2 (RPlus c_decimal); RLit "/";
  RGroup 3 (RPlus c_decimal); RLit "/"; RGroup 4 (RPlus c_decimal); RLit " ms"].
Definition statsLineRe : re := RCat [
  RGroup 1 (RPlus c_digit); RLit " packets transmitted, "; RGroup 2 (RPlus c_digit); RLit " received";
  ROpt (RCat [RLit ", "; RGroup 3 (RPlus c_decimal); RLit "% packet loss"])].
Definition seqRTTRe : re := RCat [
  RLit "icmp_seq="; RGroup 1 (RPlus c_digit); RStar c_any; RLit "time="; RGroup 2 (RPlus c_decimal);
  RStar c_space; RLit "ms"].

Definition parsePingOutput (output target : string) : pingResult :=
  let '(sent, received, loss) :=
    match FindSubmatch statsLineRe output with
    | Some m => ((ParseInt (group m 1)).1, (ParseInt (group m 2)).1,
                 if decide (group m 3 = "") then fzero else (ParseFloat (group m 3)).1)
    | None => (0, 0, fzero)
    end in
  let '(mn, avg, mx) :=
    match FindSubmatch rttLineRe output with
    | Some m => ((ParseFloat (group m 1)).1, (ParseFloat (group m 2)).1, (ParseFloat (group m 3)).1)
    | None => (fzero, fzero, fzero)
    end in
  MkPing target "" sent received loss mn avg mx
    ((fun m => (ParseFloat (group m 2)).1) <$> FindAllSubmatch seqRTTRe output).

Definition float_json (f : float64) : option jval := JNum <$> json_float f.

(** [json.Marshal(result)] fails on an infinity. *)
Definition ping_json (r : pingResult) : option jval :=
  loss ← float_json (pg_LossPercent r); mn ← float_json (pg_MinRTT r);
  avg ← float_json (pg_AvgRTT r); mx ← float_json (pg_MaxRTT r);
  rtts ← mapM float_json (pg_RTTs r);
  Some (JObj (e_string "target" (pg_Target r) ++ e_string_omit "resolved_ip" (pg_ResolvedIP r)
    ++ e_int "sent" (pg_Sent r) ++ e_int "received" (pg_Received r)
    ++ [("loss_percent", loss); ("min_rtt_ms", mn); ("avg_rtt_ms", avg); ("max_rtt_ms", mx); ("rtts", JArr rtts)])).

(** ** Output of [traceroute] *)

Record traceHop := MkHop { th_TTL : Z; th_IP : string; th_RTTs : list float64 }.

Definition traceLineRe : re := RCat [
  RBegin; RStar c_space; RGroup 1 (RPlus c_digit); RPlus c_space; RGroup 2 (RStar c_any); REnd].

Definition is_paren (c : ascii) : bool := bool_decide (c = "("%char \/ c = ")"%char).
Fixpoint drop_parens (l : list ascii) : list ascii :=
  match l with
  | c :: l' => if is_paren c then drop_parens l' else l
  | [] => []
  end.
(** [strings.Trim(f, "()")]. *)
Definition trim_parens (f : string) : string :=
  String.string_of_list_ascii
    (reverse (drop_parens (reverse (drop_parens (String.list_ascii_of_string f))))).

(** One field of a hop, after the address and the times found so far. *)
Definition hop_field (st : string * list float64) (f : string) : string * list float64 :=
  let '(ip, rtts) := st in
  if decide (f = "*") then st
  else if HasPrefix f "(" && HasSuffix f ")" then (trim_parens f, rtts)
  else if negb (Contains f "(") && negb (Contains f ")") && negb (HasPrefix f "ms") && negb (Contains f "ms")
  then (if decide (ip = "") then f else ip, rtts)
  else
    let '(rtt, ok) := ParseFloat (TrimSuffix f "ms") in
    (ip, if ok then rtts ++ [rtt] else rtts).

Definition parse_hop (line : string) : option traceHop :=
  m ← FindSubmatch traceLineRe line;
  let '(ttl, ok) := ParseInt (group m 1) in
  if ok : bool then
    let '(ip, rtts) := fold_left hop_field (Fields (group m 2)) ("", []) in Some (MkHop ttl ip rtts)
  else None.

Definition parseTracerouteOutput (output : string) : list traceHop := omap parse_hop (split_on LF output).

Definition hop_json (h : traceHop) : option jval :=
  rtts ← mapM float_json (th_RTTs h);
  Some (JObj (e_int "ttl" (th_TTL h) ++ e_string "ip" (th_IP h) ++ [("rtts", JArr rtts)])).

(** ** The commands *)

(** A target and a number: [count], [max_hops] or [cycles]. *)
Record probePayload := MkProbe { pb_Target : string; pb_Number : Z }.
Definition probe_fields (number : string) : sfields probePayload := [
  ("target", d_string (fun s p => MkProbe s (pb_Number p)));
  (number, d_int (fun z p => MkProbe (pb_Target p) z))
].

Record routePayload := MkRoute { rt_Target : string; rt_Detailed : bool }.
Definition route_fields : sfields routePayload := [
  ("target", d_string (fun s p => MkRoute s (rt_Detailed p)));
  ("detailed", d_bool (fun b p => MkRoute (rt_Target p) b))
].

(** Zero or less means the default; more than the limit means the limit. *)
Definition limit (dflt mx n : Z) : Z := let n := if n <=? 0 then dflt else n in if mx <? n then mx else n.

Section network.
Context `{env : HostEnv} `{B : Bolt} `{A : Aead} `{R : Resolver}.

(** Answer with data, or with the marshalling error. *)
Definition send_json (msg : Message) (j : option jval) : M HState unit :=
  match j with
  | None => sendResponse (ID msg) false "marshal result: json: unsupported value: +Inf"
  | Some j => _ ← ws_send (success_response (ID msg) j); mret tt
  end.

Definition handleNetworkPing (msg : Message) : M HState unit :=
  with_payload (probe_fields "count") (MkProbe "" 0) msg (fun p =>
    match resolveAndValidate (pb_Target p) with
    | Err e => sendResponse (ID msg) false (err_text e)
    | Ok resolved =>
        let count := limit 4 20 (pb_Number p) in
        r ← on_sys (run ["ping"; "-c"; Itoa count; "-W"; "3"; resolved]);
        if cmd_ok r then
          let result := parsePingOutput (cmd_output r) (pb_Target p) in
          send_json msg (ping_json (MkPing (pg_Target result) resolved (pg_Sent result) (pg_Received result)
            (pg_LossPercent result) (pg_MinRTT result) (pg_AvgRTT result) (pg_MaxRTT result) (pg_RTTs result)))
        else sendResponse (ID msg) false ("ping failed: " +:+ TrimSpace (cmd_output r))
    end).

Definition handleNetworkTrace (msg : Message) : M HState unit :=
  with_payload (probe_fields "max_hops") (MkProbe "" 0) msg (fun p =>
    match resolveAndValidate (pb_Target p) with
    | Err e => sendResponse (ID msg) false (err_text e)
    | Ok resolved =>
        let maxHops := limit 30 64 (pb_Number p) in
        r ← on_sys (run ["traceroute"; "-m"; Itoa maxHops; "-w"; "3"; "-q"; "3"; resolved]);
        if cmd_ok r then
          send_json msg (hops ← mapM hop_json (parseTracerouteOutput (cmd_output r));
                         Some (JObj [("hops", JArr hops); ("resolved_ip", JStr resolved)]))
        else sendResponse (ID msg) false ("traceroute failed: " +:+ TrimSpace (cmd_output r))
    end).

(** The JSON report of [mtr], or its plain report when the first run fails or prints no JSON. *)
Definition mtr_report (target resolved output : string) (asJSON : bool) : jval :=
  match (if asJSON then json_parse output else None) with
  | Some report => JObj [("report", report); ("resolved_ip", JStr resolved); ("target", JStr target)]
  | None => JObj [("raw", JStr (TrimSpace output)); ("resolved_ip", JStr resolved); ("target", JStr target)]
  end.

Definition handleNetworkMTR (msg : Message) : M HState unit :=
  with_payload (probe_fields "cycles") (MkProbe "" 0) msg (fun p =>
    match resolveAndValidate (pb_Target p) with
    | Err e => sendResponse (ID msg) false (err_text e)
    | Ok resolved =>
        let cycles := limit 5 10 (pb_Number p) in
        r ← on_sys (run ["mtr"; "-r"; "-c"; Itoa cycles; "-j"; resolved]);
        if cmd_ok r then send_json msg (Some (mtr_report (pb_Target p) resolved (cmd_output r) true))
        else
          r2 ← on_sys (run ["mtr"; "-r"; "-c"; Itoa cycles; resolved]);
          if cmd_ok r2 then send_json msg (Some (mtr_report (pb_Target p) resolved (cmd_output r2) false))
          else sendResponse (ID msg) false ("mtr failed: " +:+ TrimSpace (cmd_output r2))
    end).

(** Route lookups take a literal address or prefix. *)
Definition route_target (target : string) : res string :=
  let target := TrimSpace target in
  if decide (target = "") then Err (errorf "missing target")
  else if HasPrefix target "-" then Err (errorf "invalid target: must not start with '-'")
  else if Contains target "/" then
    match ParseCIDR target with
    | None => Err (errorf ("invalid prefix: " +:+ target))
    | Some _ => Ok target
    end
  else match ParseIP target with
       | None => Err (errorf ("invalid IP/prefix: " +:+ target +:+ " (hostnames are not allowed for route lookups)"))
       | Some _ => Ok target
       end.

Definition handleBirdRoute (h : Handler) (msg : Message) : M HState unit :=
  with_payload route_fields (MkRoute "" false) msg (fun p =>
    match route_target (rt_Target p) with
    | Err e => sendResponse (ID msg) false (err_text e)
    | Ok target =>
        r ← on_sys (ShowRoute (birdMgr h) target (rt_Detailed p));
        match r with
        | Err e => sendResponse (ID msg) false (err_text e)
        | Ok output => send_json msg (Some (JObj [("output", JStr output); ("target", JStr target)]))
        end
    end).

End network.

Example IP_String_examples :
  (fun s => IP_String <$> ParseIP s) <$> ["fe80:0:0:0:0:0:ade0:1"; "2001:db8::1:0:0:1"; "::ffff:1.2.3.4"; "::"; "1:0:2:3:4:5:6:7"]
  = Some <$> ["fe80::ade0:1"; "2001:db8::1:0:0:1"; "1.2.3.4"; "::"; "1:0:2:3:4:5:6:7"].
Proof. vm_compute. reflexivity. Qed.

Example allowlist_examples :
  (fun s => is_ok (validateNetworkTarget s)) <$> ["172.20.0.53"; "8.8.8.8"; "fd42::1"; "10.127.1.1"; "2001:db8::1"; "172.31.0.1";
    "10.0.0.1"; "127.0.0.1"; "fe80::1"; "fc00::1"; "192.168.1.1"; "172.16.0.1"; "224.0.0.1"; "255.255.255.255"; "::1"; "x"]
  = [true; true; true; true; true; true; false; false; false; false; false; false; false; false; false; false].
Proof. vm_compute. reflexivity. Qed.

Example ping_example :
  ping_json (parsePingOutput (unlines ["PING 1.1.1.1 (1.1.1.1) 56(84) bytes of data.";
    "64 bytes from 1.1.1.1: icmp_seq=1 ttl=57 time=1.23 ms"; "64 bytes from 1.1.1.1: icmp_seq=2 ttl=57 time=2.5 ms";
    "2 packets transmitted, 2 received, 0% packet loss, time 1001ms"; "rtt min/avg/max/mdev = 1.230/1.865/2.500/0.635 ms"]) "one")
  = Some (JObj [("target", JStr "one"); ("sent", JNum "2"); ("received", JNum "2"); ("loss_percent", JNum "0");
     ("min_rtt_ms", JNum "1.23"); ("avg_rtt_ms", JNum "1.865"); ("max_rtt_ms", JNum "2.5"); ("rtts", JArr [JNum "1.23"; JNum "2.5"])]).
Proof. vm_compute. reflexivity. Qed.
