(* ===== verification/Update.v ===== *)
(** Package [handler], file [update_helpers.go], and the update commands of [handler.go]: download,
    verification, backup, replacement and rollback of the agent's own binary. *)

From S2P Require Import Prelude GoStrings GoPath Json GoStruct Host Store Primitives Crypto Ws Handler.
From Stdlib Require Import Ascii.

(** What the update relies on: where the running binary is, the names [os.CreateTemp] picks, the
    web server (the error of [http.NewRequest], then the answer: a status, a body, and the error
    that cuts the body short, if any), and whether [syscall.Exec] works. *)
Record http_response := MkHttp { StatusCode : Z; Body : string; BodyErr : option error }.

Class UpdateEnv := {
  Executable : res string;
  temp_name : gmap string fnode -> string -> string;
  NewRequest : string -> option error;
  Do : string -> string -> res http_response;
  Exec : string -> res unit;
}.

Definition backupDir : string := "/var/lib/autopeer-agent/backup".
Definition downloadPart : string := "/var/lib/autopeer-agent/autopeer-agent.part".
Definition downloadFinal : string := "/var/lib/autopeer-agent/autopeer-agent.new".
Definition privateDirPerm : Z := 448.
Definition privateFilePerm : Z := 384.
Definition privateExecPerm : Z := 448.
Definition maxDownloadSize : N := 50 * 1024 * 1024.

Definition BackupPath (version : string) : string := Join [backupDir; "autopeer-agent." +:+ version].

(** The first [n] bytes: [io.LimitReader]. *)
Fixpoint take_bytes (n : N) (s : string) : string :=
  match s with
  | "" => ""
  | String c s' => if (n =? 0)%N then "" else String c (take_bytes (n - 1) s')
  end.

Definition sha256_hex (data : string) : string := EncodeToString (Sum256 data).

Section update.
Context `{env : HostEnv} `{U : UpdateEnv}.

Definition removeIfExists (path : string) : M Sys (res unit) :=
  r ← Remove path;
  mret (match r with
        | Ok _ => Ok tt
        | Err e => if err_notexist e then Ok tt else Err e
        end).

Definition syncDir (path : string) : M Sys (res unit) :=
  o ← touch "open" path;
  match o with
  | Err e => mret (Err e)
  | Ok _ => touch "sync" path
  end.

(** The paths below [acc] that lead to the last element. *)
Fixpoint prefixes (acc : string) (l : list string) : list string :=
  match l with
  | [] => []
  | e :: l' => let p := acc +:+ "/" +:+ e in p :: prefixes p l'
  end.

(** A path and all its parents, the root and the current directory aside. *)
Definition parents (path : string) : list string :=
  if rooted path then prefixes "" (elems path)
  else match elems path with [] => [] | e :: l => e :: prefixes e l end.

(** [os.MkdirAll]. *)
Definition MkdirAll (path : string) (perm : Z) : M Sys (res unit) :=
  syscall "mkdir" path (fun files =>
    let ps := parents path in
    if existsb (fun p => match files !! p with Some n => negb (f_isdir n) | None => false end) ps
    then (Err (path_error false "mkdir" path "not a directory"), files)
    else (Ok tt, fold_left (fun fs p => match fs !! p with
                                        | Some _ => fs
                                        | None => <[p := FNode true "" perm]> fs
                                        end) ps files)).

Definition ensurePrivateDir (path : string) : M Sys (res unit) :=
  r ← MkdirAll path privateDirPerm;
  match r with
  | Err e => mret (Err e)
  | Ok _ => Chmod path privateDirPerm
  end.

Definition sha256File (path : string) : M Sys (res string) :=
  data ← ReadFile path;
  mret (res_map sha256_hex data).

(** The steps on the temporary file, until it has replaced [dst]. *)
Definition copy_steps (tmpPath dst content : string) (perm : Z) : M Sys (res unit) :=
  c ← Chmod tmpPath perm;
  match c with Err e => mret (Err e) | Ok _ =>
  w ← WriteOpened tmpPath content;
  match w with Err e => mret (Err e) | Ok _ =>
  y ← touch "sync" tmpPath;
  match y with Err e => mret (Err e) | Ok _ =>
  z ← touch "close" tmpPath;
  match z with Err e => mret (Err e) | Ok _ =>
  n ← Rename tmpPath dst;
  match n with Err e => mret (Err e) | Ok _ =>
  p ← Chmod dst perm;
  match p with Err e => mret (Err e) | Ok _ => syncDir (Dir dst)
  end end end end end end.

Definition copyFileAtomic (src dst : string) (perm : Z) : M Sys (res unit) :=
  content ← ReadFile src;
  match content with
  | Err e => mret (Err e)
  | Ok content =>
      files ← gets sys_fs;
      let tmpPath := temp_name files (Join [Dir dst; "." +:+ Base dst +:+ "."]) in
      t ← OpenTrunc tmpPath 384;
      match t with
      | Err e => mret (Err e)
      | Ok _ =>
          r ← copy_steps tmpPath dst content perm;
          _ ← Remove tmpPath;
          mret r
      end
  end.

Definition replaceFile (src dst : string) (perm : Z) : M Sys (res unit) :=
  c ← Chmod src perm;
  match c with
  | Err e => mret (Err (wrap "set source permissions" e))
  | Ok _ =>
      n ← Rename src dst;
      match n with
      | Ok _ =>
          p ← Chmod dst perm;
          match p with
          | Err e => mret (Err (wrap "set target permissions" e))
          | Ok _ => syncDir (Dir dst)
          end
      | Err _ =>
          r ← copyFileAtomic src dst perm;
          match r with
          | Err e => mret (Err e)
          | Ok _ => removeIfExists src
          end
      end
  end.

(** Give up on the partial download. *)
Definition drop_part (e : error) : M Sys (res unit) := _ ← Remove downloadPart; mret (Err e).

(** From the answer of the server to the verified file in place. *)
Definition store_body (resp : http_response) (expectedSHA256 : string) : M Sys (res unit) :=
  let body := take_bytes (maxDownloadSize + 1) (Body resp) in
  let cut := match BodyErr resp with
             | Some e => if (N.of_nat (slen (Body resp)) <=? maxDownloadSize)%N then Some e else None
             | None => None
             end in
  w ← WriteOpened downloadPart body;
  match w, cut with
  | Err e, _ => drop_part (wrap "write" e)
  | Ok _, Some e => drop_part (wrap "write" e)
  | Ok _, None =>
      info ← touch "stat" downloadPart;
      if is_ok info && (maxDownloadSize <? N.of_nat (slen body))%N then
        drop_part (errorf ("download exceeded maximum allowed size of " +:+ utoa maxDownloadSize +:+ " bytes"))
      else
        let actual := sha256_hex body in
        if decide (actual = expectedSHA256) then
          y ← touch "sync" downloadPart;
          match y with
          | Err e => drop_part (wrap "sync temp file" e)
          | Ok _ =>
              z ← touch "close" downloadPart;
              match z with
              | Err e => drop_part (wrap "close temp file" e)
              | Ok _ =>
                  n ← Rename downloadPart downloadFinal;
                  match n with
                  | Err e => mret (Err e)
                  | Ok _ => syncDir (Dir downloadFinal)
                  end
              end
          end
        else drop_part (errorf ("sha256 mismatch: expected " +:+ expectedSHA256 +:+ ", got " +:+ actual))
  end.

Definition downloadFile (url expectedSHA256 agentToken : string) : M Sys (res unit) :=
  if negb (HasPrefix url "https://") then mret (Err (errorf ("refusing to download from non-HTTPS URL: " +:+ url)))
  else
    r ← removeIfExists downloadPart;
    match r with
    | Err e => mret (Err (wrap "remove stale temp file" e))
    | Ok _ =>
        match NewRequest url with
        | Some e => mret (Err e)
        | None =>
            match Do url agentToken with
            | Err e => mret (Err (wrap "HTTP GET" e))
            | Ok resp =>
                if negb (StatusCode resp =? 200) then mret (Err (errorf ("unexpected status: " +:+ Itoa (StatusCode resp))))
                else
                  f ← OpenTrunc downloadPart privateFilePerm;
                  match f with
                  | Err e => mret (Err (wrap "create temp file" e))
                  | Ok _ => store_body resp expectedSHA256
                  end
            end
        end
    end.

(** Once the download is in place: back up the running binary, then replace it. *)
Definition apply_download (currentVersion : string) : M Sys (res unit) :=
  match Executable with
  | Err e => mret (Err (wrap "get executable path" e))
  | Ok execPath =>
      b ← copyFileAtomic execPath (BackupPath currentVersion) privateFilePerm;
      match b with
      | Err e => mret (Err (wrap "backup" e))
      | Ok _ =>
          r ← replaceFile downloadFinal execPath privateExecPerm;
          match r with
          | Err e => mret (Err (wrap "replace binary" e))
          | Ok _ => mret (Ok tt)
          end
      end
  end.

Definition DownloadAndApply (url expectedSHA256 newVersion currentVersion agentToken : string) : M Sys (res unit) :=
  d1 ← ensurePrivateDir (Dir backupDir);
  match d1 with
  | Err e => mret (Err (wrap "create update directory" e))
  | Ok _ =>
      d2 ← ensurePrivateDir backupDir;
      match d2 with
      | Err e => mret (Err (wrap "create backup directory" e))
      | Ok _ =>
          d ← downloadFile url expectedSHA256 agentToken;
          match d with
          | Err e => mret (Err (wrap "download" e))
          | Ok _ => apply_download currentVersion
          end
      end
  end.

Definition RollbackFrom (backupPath : string) : M Sys (res unit) :=
  st ← Stat backupPath;
  if IsNotExist st then mret (Err (errorf ("backup not found at " +:+ backupPath)))
  else
    match Executable with
    | Err e => mret (Err (wrap "get executable path" e))
    | Ok execPath =>
        r ← replaceFile backupPath execPath privateExecPerm;
        mret (res_wrap "restore backup" r)
    end.

(** The process is replaced, or ends. *)
Definition RestartSelf {S T} : M S T :=
  match Executable with
  | Err _ => mhalt (Exit 1)
  | Ok execPath => if is_ok (Exec execPath) then mhalt (ExecSelf execPath) else mhalt (Exit 1)
  end.

(** ** The commands *)

Record updatePayload := MkUpdate { up_UpdateID : string; up_Version : string; up_URL : string; up_SHA256 : string }.
Definition update_fields : sfields updatePayload := [
  ("update_id", d_string (fun s p => MkUpdate s (up_Version p) (up_URL p) (up_SHA256 p)));
  ("version", d_string (fun s p => MkUpdate (up_UpdateID p) s (up_URL p) (up_SHA256 p)));
  ("url", d_string (fun s p => MkUpdate (up_UpdateID p) (up_Version p) s (up_SHA256 p)));
  ("sha256", d_string (fun s p => MkUpdate (up_UpdateID p) (up_Version p) (up_URL p) s))
].

Context `{B : Bolt} `{A : Aead}.

(** A value read while its error is ignored. *)
Definition or_empty (r : res string) : string := match r with Ok s => s | Err _ => "" end.

Definition handleAgentUpdate (h : Handler) (msg : Message) : M HState unit :=
  with_payload update_fields (MkUpdate "" "" "" "") msg (fun p =>
    applied ← on_store GetUpdateID;
    if decide (or_empty applied = up_UpdateID p) then sendResponse (ID msg) true "already applied"
    else
      match Executable with
      | Err e => sendResponse (ID msg) false ("get executable path: " +:+ err_text e)
      | Ok execPath =>
          hash ← on_sys (sha256File execPath);
          match hash with
          | Err e => sendResponse (ID msg) false ("hash current binary: " +:+ err_text e)
          | Ok currentHash =>
              if decide (currentHash = up_SHA256 p) then
                sendResponse (ID msg) true "already applied (hash match)" ≫= fun _ =>
                _ ← on_store (PutUpdateID (up_UpdateID p)); mret tt
              else
                ver ← on_store GetVersion;
                let currentVer := or_empty ver in
                if decide (currentVer = "")
                then sendResponse (ID msg) false "cannot update: current version unknown (store may be cleared)"
                else
                  r ← on_sys (DownloadAndApply (up_URL p) (up_SHA256 p) (up_Version p) currentVer (agentToken h));
                  match r with
                  | Err e => sendResponse (ID msg) false ("update failed: " +:+ err_text e)
                  | Ok _ =>
                      _ ← ws_send (MkMessage "agent.updating" "" (Some (JObj (e_string "update_id" (up_UpdateID p)))) None "");
                      _ ← on_store (PutVersion (up_Version p));
                      _ ← on_store (PutUpdateID (up_UpdateID p));
                      _ ← sendResponseChecked (ID msg) true "update applied, restarting";
                      _ ← on_store Store.Close;
                      _ ← modify (fun s => set_ws (Ws.Close <$> h_ws s) s);
                      RestartSelf
                  end
          end
      end).

Definition handleAgentRollback (msg : Message) : M HState unit :=
  ver ← on_store GetVersion;
  let oldVer := or_empty ver in
  if decide (oldVer = "") then sendResponse (ID msg) false "no previous version to roll back to"
  else
    r ← on_sys (RollbackFrom (BackupPath oldVer));
    match r with
    | Err e => sendResponse (ID msg) false ("rollback failed: " +:+ err_text e)
    | Ok _ => sendResponse (ID msg) true "rollback applied, restarting" ≫= fun _ => RestartSelf
    end.

End update.
