(* ===== verification/KeyExchange.v ===== *)
(** The key exchange of [handler.go] and the dispatch of messages.  The exchange runs beside the
    read loop: it sends its message and waits on a channel of capacity one that the handlers of
    the acknowledgements fill, so it has two steps here, before and after the wait; the channel
    knows whether the second one is still to come. *)

From S2P Require Import Prelude GoStrings Json GoStruct Host Store Primitives Crypto Ws Handler Network Update.
From Stdlib Require Import Ascii.

(** ** Byte slices in JSON: base64 *)

Definition b64_char (n : N) : ascii :=
  if (n <? 26)%N then ascii_of_N (65 + n) else if (n <? 52)%N then ascii_of_N (71 + n)
  else if (n <? 62)%N then ascii_of_N (n - 4) else if (n =? 62)%N then "+"%char else "/"%char.
Definition b64_val (c : ascii) : option N :=
  if byte_in 65 90 c then Some (code c - 65)%N else if byte_in 97 122 c then Some (code c - 71)%N
  else if is_digit c then Some (code c + 4)%N else if bool_decide (c = "+"%char) then Some 62%N
  else if bool_decide (c = "/"%char) then Some 63%N else None.

Fixpoint b64_encode (s : string) : string :=
  match s with
  | String a (String b (String c s')) =>
      String (b64_char (code a / 4)) (String (b64_char (code a mod 4 * 16 + code b / 16))
        (String (b64_char (code b mod 16 * 4 + code c / 64)) (String (b64_char (code c mod 64)) (b64_encode s'))))
  | String a (String b "") =>
      String (b64_char (code a / 4)) (String (b64_char (code a mod 4 * 16 + code b / 16))
        (String (b64_char (code b mod 16 * 4)) "="))
  | String a "" => String (b64_char (code a / 4)) (String (b64_char (code a mod 4 * 16)) "==")
  | "" => ""
  end.

(** Groups of four characters; the last one may be padded. *)
Fixpoint b64_groups (s : string) : option string :=
  match s with
  | "" => Some ""
  | String a (String b (String c (String d s'))) =>
      x ← b64_val a; y ← b64_val b;
      if bool_decide (d = "="%char) && bool_decide (s' = "") then
        if bool_decide (c = "="%char) then Some (String (ascii_of_N (x * 4 + y / 16)) "")
        else z ← b64_val c; Some (String (ascii_of_N (x * 4 + y / 16)) (String (ascii_of_N (y mod 16 * 16 + z / 4)) ""))
      else
        z ← b64_val c; w ← b64_val d; r ← b64_groups s';
        Some (String (ascii_of_N (x * 4 + y / 16)) (String (ascii_of_N (y mod 16 * 16 + z / 4))
          (String (ascii_of_N (z mod 4 * 64 + w)) r)))
  | _ => None
  end.
(** Line breaks are ignored. *)
Fixpoint drop_breaks (s : string) : string :=
  match s with
  | "" => ""
  | String c s' => if bool_decide (c = LF) || bool_decide (c = CR) then drop_breaks s' else String c (drop_breaks s')
  end.
Definition b64_decode (s : string) : option string := b64_groups (drop_breaks s).

(** A [[]byte] field: base64 text, an array of numbers, or null for nil. *)
Definition byte_elem (j : jval) : option ascii :=
  match j with
  | JNull => Some "000"%char
  | JNum lit => let '(z, ok) := ParseInt lit in
                if ok && (0 <=? z) && (z <? 256) && negb (HasPrefix lit "-") then Some (ascii_of_N (Z.to_N z)) else None
  | _ => None
  end.
Definition d_bytes {T} (set : string -> T -> T) : setter T := fun j t =>
  match j with
  | JStr s => (fun b => set b t) <$> b64_decode s
  | JArr l => (fun b => set (String.string_of_list_ascii b) t) <$> mapM byte_elem l
  | JNull => Some (set "" t)
  | _ => None
  end.
Definition e_bytes (k b : string) : list (string * jval) := [(k, JStr (b64_encode b))].

Record initAck := MkInitAck { ia_Pubkey : string; ia_Nonce : string }.
Definition initAck_fields : sfields initAck := [
  ("pubkey", d_string (fun s p => MkInitAck s (ia_Nonce p)));
  ("nonce", d_bytes (fun b p => MkInitAck (ia_Pubkey p) b))
].

Record authAck := MkAuthAck { aa_Pubkey : string; aa_AuthNonce : string; aa_CenterNonce : string }.
Definition authAck_fields : sfields authAck := [
  ("pubkey", d_string (fun s p => MkAuthAck s (aa_AuthNonce p) (aa_CenterNonce p)));
  ("auth_nonce", d_bytes (fun b p => MkAuthAck (aa_Pubkey p) b (aa_CenterNonce p)));
  ("center_nonce", d_bytes (fun b p => MkAuthAck (aa_Pubkey p) (aa_AuthNonce p) b))
].

(** What the exchange waits for. *)
Inductive waiting := WaitInit | WaitAuth (nonce : string).

Section keyx.
Context `{env : HostEnv} `{B : Bolt} `{A : Aead}.

(** The client the exchange was started on is the handler's. *)
Definition with_client (f : Client -> Client) : M HState unit := modify (fun s => set_ws (f <$> h_ws s) s).
Definition get_client {T} (k : Client -> M HState T) : M HState T :=
  c ← gets h_ws;
  match c with
  | None => mhalt (Panic "nil pointer dereference")
  | Some c => k c
  end.

Definition GetServerPubKeyCached : M HState string :=
  r ← on_store GetServerPubKey; mret (match r with Ok pub => pub | Err _ => "" end).

Definition doKeyInit (kp : KeyPair) : M HState (res waiting) :=
  r ← ws_send (MkMessage "key.init" "" (Some (JObj (e_string "pubkey" (PubKeyHex (PublicKey kp))))) None "");
  mret (match r with
        | Err e => Err (wrap "send key.init" e)
        | Ok _ => Ok WaitInit
        end).

Definition doKeyAuth (kp : KeyPair) : M HState (res waiting) :=
  get_client (fun c =>
    let '(n, r') := NewNonce (crng c) in
    _ ← with_client (set_rng r');
    match n with
    | Err e => mret (Err (wrap "generate nonce" e))
    | Ok nonce =>
        cached ← GetServerPubKeyCached;
        match PublicKeyFromHex cached with
        | Err e => mret (Err (wrap "parse server pubkey" e))
        | Ok serverPub =>
            match DeriveSharedSecret (PrivateKey kp) serverPub with
            | Err e => mret (Err (wrap "ECDH" e))
            | Ok shared =>
                let proof := ComputeAuthProof shared nonce in
                r ← ws_send (MkMessage "key.auth" "" (Some (JObj (e_string "node_id" (NodeID c) ++ e_bytes "nonce" nonce
                       ++ e_bytes "proof" proof ++ e_string "pubkey" (PubKeyHex (PublicKey kp))))) None "");
                mret (match r with
                      | Err e => Err (wrap "send key.auth" e)
                      | Ok _ => Ok (WaitAuth nonce)
                      end)
            end
        end
    end).

(** The exchange is done receiving. *)
Definition stop_waiting : M HState unit :=
  modify (fun s => set_keyx ((fun k => MkChan (kc_buf k) false) <$> h_keyx s) s).

(** The exchange up to the wait: [None] when there is no key pair and nothing to do.  An exchange
    that cannot send its message returns and never receives. *)
Definition keyx_begin (h : Handler) : M HState (res (option waiting)) :=
  match keypair h with
  | None => mret (Ok None)
  | Some kp =>
      _ ← modify (set_keyx (Some (MkChan [] true)));
      get_client (fun c =>
        r ← (if HasServerPubKey c then doKeyAuth kp else doKeyInit kp);
        _ ← (if is_ok r then mret tt else stop_waiting);
        mret (res_map Some r))
  end.

Definition handleKeyInitAckPayload `{K : Hkdf} (kp : KeyPair) (msg : Message) : M HState (res unit) :=
  if decide (Error_ msg <> "") then mret (Err (errorf ("key.init rejected by center: " +:+ Error_ msg)))
  else
    match Unmarshal initAck_fields (MkInitAck "" "") (Payload msg) with
    | None => mret (Err (errorf ("parse key.init_ack: " +:+ json_errmsg (Payload msg))))
    | Some p =>
        if decide (ia_Pubkey p = "") then mret (Err (errorf "key.init_ack missing pubkey"))
        else
          match PublicKeyFromHex (ia_Pubkey p) with
          | Err e => mret (Err (wrap "invalid server pubkey" e))
          | Ok serverPub =>
              match DeriveSharedSecret (PrivateKey kp) serverPub with
              | Err e => mret (Err (wrap "ECDH" e))
              | Ok shared =>
                  match DeriveEncKey shared (ia_Nonce p) with
                  | Err e => mret (Err (wrap "derive enc key" e))
                  | Ok encKey =>
                      _ ← on_store (PutServerPubKey (ia_Pubkey p));
                      _ ← with_client (SetServerPubKey (Some (ia_Pubkey p)));
                      _ ← with_client (EnableEncryption encKey);
                      mret (Ok tt)
                  end
              end
          end
    end.

Definition handleKeyAuthAckPayload `{K : Hkdf} (kp : KeyPair) (msg : Message) (authNonce : string) : M HState (res unit) :=
  match Unmarshal authAck_fields (MkAuthAck "" "" "") (Payload msg) with
  | None => mret (Err (errorf ("parse key.auth_ack: " +:+ json_errmsg (Payload msg))))
  | Some p =>
      if decide (aa_Pubkey p = "") then mret (Err (errorf "key.auth_ack missing pubkey"))
      else
        match PublicKeyFromHex (aa_Pubkey p) with
        | Err e => mret (Err (wrap "invalid ephemeral pubkey" e))
        | Ok ephemeralPub =>
            match DeriveSharedSecret (PrivateKey kp) ephemeralPub with
            | Err e => mret (Err (wrap "session ECDH" e))
            | Ok sessionShared =>
                match DeriveEncKey sessionShared (authNonce +:+ aa_CenterNonce p) with
                | Err e => mret (Err (wrap "derive session key" e))
                | Ok sessionKey =>
                    _ ← with_client (EnableEncryption sessionKey);
                    mret (Ok tt)
                end
            end
        end
  end.

(** After the wait: the message in the channel, or the timeout. *)
Definition keyx_end `{K : Hkdf} (kp : KeyPair) (w : waiting) : M HState (res unit) :=
  ch ← gets h_keyx;
  _ ← modify (set_keyx ((fun k => MkChan (tail (kc_buf k)) false) <$> ch));
  match kc_buf <$> ch with
  | Some (msg :: _) =>
      match w with
      | WaitInit => handleKeyInitAckPayload kp msg
      | WaitAuth nonce => handleKeyAuthAckPayload kp msg nonce
      end
  | _ => mret (Err (errorf (match w with
                            | WaitInit => "timeout waiting for key.init_ack"
                            | WaitAuth _ => "timeout waiting for key.auth_ack"
                            end)))
  end.

(** [ch <- msg]: the channel holds one message, and an exchange that is still to receive takes one
    more out of it; a send beyond that is never received, and blocks for ever. *)
Definition chan_room (k : keychan) : nat := 1 + (if kc_waiting k then 1 else 0) - length (kc_buf k).
Definition chan_send (msg : Message) : M HState unit :=
  ch ← gets h_keyx;
  match ch with
  | None => mret tt
  | Some k => if (0 <? chan_room k)%nat then modify (set_keyx (Some (MkChan (kc_buf k ++ [msg]) (kc_waiting k))))
              else mhalt (Blocked "pendingKeyX")
  end.
Definition handleKeyInitAck (msg : Message) : M HState unit := chan_send msg.
Definition handleKeyAuthAck (msg : Message) : M HState unit := chan_send msg.

(** ** Dispatch *)

Context `{R : Resolver} `{U : UpdateEnv}.

Definition HandleMessage (h : Handler) (now : Z) (msg : Message) : M HState unit :=
  let ty t := bool_decide (Type_ msg = t) in
  if ty "peer.add" then handlePeerAdd h msg
  else if ty "peer.remove" then handlePeerRemove h msg
  else if ty "status.request" then handleStatusRequest h msg
  else if ty "peers.sync" then handlePeersSync h msg
  else if ty "peers.import" then handlePeersImportCommand h msg
  else if ty "bird.details" then handleBirdDetailsCommand h now msg
  else if ty "agent.update" then handleAgentUpdate h msg
  else if ty "agent.resume" then handleAgentResume msg
  else if ty "agent.rollback" then handleAgentRollback msg
  else if ty "network.ping" then handleNetworkPing msg
  else if ty "network.trace" then handleNetworkTrace msg
  else if ty "network.mtr" then handleNetworkMTR msg
  else if ty "network.bgp_route" then handleBirdRoute h msg
  else if ty "key.init_ack" then handleKeyInitAck msg
  else if ty "key.auth_ack" then handleKeyAuthAck msg
  else if ty "bird.disable" then handleBirdDisable h msg
  else if ty "bird.enable" then handleBirdEnable h msg
  else mret tt.

(** One turn of [readLoop]: a frame is decoded with the client's state and dispatched. *)
Definition read_frame (h : Handler) (now : Z) (f : sendItem) : M HState unit :=
  get_client (fun c =>
    match decode_frame c f with
    | None => mret tt
    | Some msg => HandleMessage h now msg
    end).

End keyx.

Example b64_examples : b64_encode "hello" = "aGVsbG8=" /\ b64_decode "aGVsbG8=" = Some "hello"
  /\ b64_encode "ab" = "YWI=" /\ b64_encode "a" = "YQ==" /\ b64_decode "YWJj" = Some "abc".
Proof. vm_compute. auto. Qed.
