(* ===== verification/Metrics.v ===== *)
(** Package [metrics]: the heartbeat.  The pings of one heartbeat run beside each other; each only
    adds the time of its own interface, so they are taken one after the other here.  The figures
    of the Go runtime are a parameter. *)

From S2P Require Import Prelude GoStrings Json GoStruct GoFloat GoNet Host Store Wg Bird Primitives Crypto Ws Handler Network.
From Stdlib Require Import SpecFloat.

Record NodeMetrics := MkNode { MemAllocMB : Z; MemSysMB : Z; NumGoroutine : Z; UptimeSecs : Z }.

Record PeerMetric := MkMetric {
  pm_PeerID : string; pm_ASN : Z; pm_WgInterface : string; pm_RxBytes : Z; pm_TxBytes : Z;
  pm_LastHandshake : string; pm_BGPState : string; pm_RttMs : option float64;
  pm_RoutesImported : option Z; pm_RoutesExported : option Z; pm_RoutesPreferred : option Z;
  pm_BGPUptimeSecs : option Z; pm_WgActualEndpoint : string;
}.

(** [runtime.ReadMemStats], [runtime.NumGoroutine] and the seconds since the start. *)
Record runtime_stats := MkRuntime { HeapAlloc : Z; SysBytes : Z; Goroutines : Z; Uptime : Z }.

Record Collector := MkCollector {
  interval : Z;
  birdDetailEvery : Z;
  version : string;
  tickCount : Z;
}.

Definition NewCollector (intervalSec birdDetailEvery : Z) : Collector :=
  MkCollector (wrap64 (intervalSec * Ws.Second)) (if birdDetailEvery <? 1 then 2 else birdDetailEvery) "" 0.

Definition SetVersion (v : string) (c : Collector) : Collector :=
  MkCollector (interval c) (birdDetailEvery c) v (tickCount c).

(** [time.NewTicker] panics on an interval that is not positive. *)
Definition Run_ticker (c : Collector) : option halt :=
  if interval c <=? 0 then Some (Panic "non-positive interval for NewTicker") else None.

(** The maps from interfaces to peers, filled in the order of the store. *)
Definition peer_iface (info : PeerInfo) : string := iface_of (WgInterface info) (ASN info).
Definition ifToPeer_step (m : gmap string (string * PeerInfo)) (peerID : string) (info : PeerInfo)
  : gmap string (string * PeerInfo) * option error :=
  (<[peer_iface info := (peerID, info)]> m, None).
Definition ifToPeer (peers : list (string * PeerInfo)) : gmap string (string * PeerInfo) :=
  fold_left (fun m p => (ifToPeer_step m p.1 p.2).1) peers ∅.

Definition birdByProto (l : list PeerState) : gmap string PeerState :=
  fold_left (fun m s => <[ps_name s := s]> m) l ∅.
Definition detailByProto (l : list PeerDetail) : gmap string PeerDetail :=
  fold_left (fun m d => <[pd_name d := d]> m) l ∅.

(** [rttMs >= 0]. *)
Definition nonneg (f : float64) : bool :=
  match f with
  | S754_zero _ => true
  | S754_finite neg _ _ => negb neg
  | S754_infinity neg => negb neg
  | S754_nan => false
  end.

Definition metric_of (peers : gmap string (string * PeerInfo)) (states : gmap string PeerState)
    (details : gmap string PeerDetail) (rtts : gmap string float64) (s : InterfaceStats) : option PeerMetric :=
  '(peerID, info) ← peers !! Name s;
  let protoName := or_default (BgpProtoName info) (proto_name (ASN info)) in
  let d := details !! protoName in
  Some (MkMetric peerID (ASN info) (Name s) (RxBytes s) (TxBytes s) (LastHandshake s)
    (match states !! protoName with Some b => ps_state b | None => "" end) (rtts !! Name s)
    (RoutesImported <$> d) (RoutesExported <$> d) (RoutesPreferred <$> d) (BGPUptimeSecs <$> d) (ActualEndpoint s)).

Definition node_metrics (r : runtime_stats) : NodeMetrics :=
  MkNode (HeapAlloc r / 1024 / 1024) (SysBytes r / 1024 / 1024) (Goroutines r) (Uptime r).

(** ** JSON *)

Definition e_int_omit (k : string) (z : Z) : list (string * jval) := if decide (z = 0) then [] else e_int k z.
Definition e_int_ptr (k : string) (z : option Z) : list (string * jval) :=
  match z with Some z => e_int k z | None => [] end.

Definition metric_json (m : PeerMetric) : option jval :=
  rtt ← match pm_RttMs m with Some f => float_json f | None => Some JNull end;
  Some (JObj (e_string "peer_id" (pm_PeerID m) ++ e_int "asn" (pm_ASN m) ++ e_string "wg_interface" (pm_WgInterface m)
    ++ e_int "wg_rx_bytes" (pm_RxBytes m) ++ e_int "wg_tx_bytes" (pm_TxBytes m)
    ++ e_string "wg_last_handshake" (pm_LastHandshake m) ++ e_string "bgp_state" (pm_BGPState m) ++ [("rtt_ms", rtt)]
    ++ e_int_ptr "routes_imported" (pm_RoutesImported m) ++ e_int_ptr "routes_exported" (pm_RoutesExported m)
    ++ e_int_ptr "routes_preferred" (pm_RoutesPreferred m) ++ e_int_ptr "bgp_uptime_secs" (pm_BGPUptimeSecs m)
    ++ e_string_omit "wg_actual_endpoint" (pm_WgActualEndpoint m))).

Definition node_json (n : NodeMetrics) : jval :=
  JObj (e_int_omit "mem_alloc_mb" (MemAllocMB n) ++ e_int_omit "mem_sys_mb" (MemSysMB n)
    ++ e_int_omit "num_goroutine" (NumGoroutine n) ++ e_int_omit "uptime_secs" (UptimeSecs n)).

Definition heartbeat_json (metrics : list PeerMetric) (ver : string) (n : NodeMetrics) : option jval :=
  peers ← mapM metric_json metrics;
  Some (JObj [("node_metrics", node_json n); ("peers", JArr peers); ("version", JStr ver)]).

Section metrics.
Context `{env : HostEnv} `{B : Bolt} `{A : Aead}.

(** Ping the peers of the rows whose interface is tracked and whose address is known. *)
Definition ping_row (peers : gmap string (string * PeerInfo)) (rtts : gmap string float64) (s : InterfaceStats)
  : M HState (gmap string float64) :=
  match peers !! Name s with
  | None => mret rtts
  | Some (_, info) =>
      if decide (RemoteLLA info = "") then mret rtts
      else
        rtt ← on_sys (PingPeer (RemoteLLA info) (Name s));
        mret (if nonneg rtt then <[Name s := rtt]> rtts else rtts)
  end.

Definition collect (h : Handler) (now : Z) (rt : runtime_stats) (c : Collector) : M HState Collector :=
  r ← on_sys (GetStats (wgMgr h));
  match r with
  | Err _ => mret c
  | Ok stats =>
      visited ← on_store (ForEachPeer ifToPeer_step ∅);
      let peers := visited.1 in
      states ← GetBirdStates h;
      let c := MkCollector (interval c) (birdDetailEvery c) (version c) (wrapu64 (tickCount c + 1)) in
      details ← (if tickCount c mod birdDetailEvery c =? 0 then
                   d ← GetBirdDetails h now; mret (match d with Ok l => l | Err _ => [] end)
                 else mret []);
      rtts ← mfold (ping_row peers) stats ∅;
      let metrics := omap (metric_of peers (birdByProto states) (detailByProto details) rtts) stats in
      match heartbeat_json metrics (version c) (node_metrics rt) with
      | None => mret c
      | Some payload =>
          _ ← ws_send (MkMessage "heartbeat" "" (Some payload) None "");
          mret c
      end
  end.

End metrics.
