(* ===== verification/Main.v ===== *)
(** Package [config] and [main]: the configuration, the state directory, the key pair, and how the
    parts are put together.  The YAML decoder is a parameter. *)

From S2P Require Import Prelude GoStrings GoPath Json Host Store Wg Bird Primitives Crypto Ws Handler Update Metrics.

(** ** Configuration *)

Record Config := MkConfig {
  CenterURL : string; AgentToken : string; cfg_NodeID : string; BirdPeerDir : string; WgDir : string;
  BirdcPath : string; OurASN : Z; OurLLA : string; OurWgPrivateKey : string; HeartbeatInterval : Z;
  BirdDetailInterval : Z; ReconnectMaxInterval : Z; StorePath : string;
}.

(** [yaml.Unmarshal(data, cfg)] into a configuration that holds the defaults. *)
Class Yaml := yaml_unmarshal : string -> Config -> res Config.

Definition config_defaults : Config :=
  MkConfig "" "" "" "/etc/bird/dn42/peer/" "/etc/wireguard/" "/usr/sbin/birdc" 4242420000 "" "" 60 2 60 "".

Definition maskToken (t : string) : string := if (8 <? slen t)%nat then stake 8 t +:+ "..." else "***".

(** The required settings, in the order they are checked. *)
Definition check_config (cfg : Config) : res Config :=
  if decide (CenterURL cfg = "") then Err (errorf "center_url is required")
  else if decide (cfg_NodeID cfg = "") then Err (errorf "node_id is required")
  else if decide (OurLLA cfg = "") then Err (errorf "our_lla is required")
  else if decide (OurWgPrivateKey cfg = "") then Err (errorf "our_wg_private_key is required")
  else Ok cfg.

(** ** State directories *)

Definition defaultStateDir : string := "/var/lib/autopeer-agent".
Definition stateDirPerm : Z := 448.

Definition isWithinDefaultStateDirectory (path : string) : bool :=
  let root := Clean defaultStateDir in
  let cleanPath := Clean path in
  if decide (cleanPath = root) then true
  else match Rel root cleanPath with
       | None => false
       | Some rel => negb (bool_decide (rel = "..")) && negb (HasPrefix rel "../")
       end.

Section main.
Context `{env : HostEnv}.

Definition Load `{Y : Yaml} (path : string) : M Sys (res Config) :=
  data ← ReadFile path;
  mret (res_bind (res_wrap "read config file" data) (fun data =>
        res_bind (res_wrap "parse config" (yaml_unmarshal data config_defaults)) check_config)).

Definition ensurePrivateStateDirectory (path : string) : M Sys (res unit) :=
  r ← MkdirAll path stateDirPerm;
  match r with
  | Err e => mret (Err e)
  | Ok _ => Chmod path stateDirPerm
  end.

Definition ensureStoreDirectory (storePath : string) : M Sys (res unit) :=
  let storeDir := Dir storePath in
  if decide (storeDir = ".") then mret (Ok tt)
  else if isWithinDefaultStateDirectory storeDir then ensurePrivateStateDirectory storeDir
  else
    info ← Stat storeDir;
    match info with
    | Ok n => if f_isdir n then mret (Ok tt)
              else mret (Err (errorf ("store parent is not a directory: " +:+ storeDir)))
    | Err e => if err_notexist e then MkdirAll storeDir stateDirPerm else mret (Err e)
    end.

Context `{B : Bolt}.

(** The key pair of the store, when there is one that parses. *)
Definition load_keypair : M Store (option KeyPair) :=
  has ← Store.HasKeyPair;
  if has : bool then
    r ← GetKeyPair;
    mret (match r with
          | Err _ => None
          | Ok (privBytes, _) =>
              match PrivateKeyFromHex privBytes with
              | Err _ => None
              | Ok priv => Some (MkKeyPair priv (public_of priv))
              end
          end)
  else mret None.

(** The key pair the agent runs with: the stored one, or a new one it stores; [Fatal] ends the
    process. *)
Definition agent_keypair (r : Rng) : M Store (KeyPair * Rng) :=
  kp ← load_keypair;
  match kp with
  | Some kp => mret (kp, r)
  | None =>
      let '(g, r') := GenerateKeyPair r in
      match g with
      | Err _ => mhalt (Exit 1)
      | Ok kp =>
          p ← PutKeyPair (PrivKeyHex (PrivateKey kp)) (PubKeyHex (PublicKey kp));
          match p with
          | Err _ => mhalt (Exit 1)
          | Ok _ => mret (kp, r')
          end
      end
  end.

(** The agent at work: its handler, client and collector. *)
Record Agent := MkAgent { ag_handler : Handler; ag_state : HState; ag_collector : Collector }.

(** The parts, wired together from the configuration and the opened store. *)
Definition build (cfg : Config) (ver : string) (kp : KeyPair) (r : Rng) (sys : Sys) (st : Store) : Agent :=
  let wgMgr := Wg.NewManager (WgDir cfg) (BirdPeerDir cfg) (OurWgPrivateKey cfg) (OurLLA cfg) in
  let birdMgr := Bird.NewManager (BirdPeerDir cfg) (BirdcPath cfg) in
  let h := MkHandler wgMgr birdMgr (AgentToken cfg) (Some kp) in
  let wsURL := CenterURL cfg +:+ "/api/v1/agent/ws?node_id=" +:+ cfg_NodeID cfg in
  let c := NewClient wsURL (AgentToken cfg) (cfg_NodeID cfg) (ReconnectMaxInterval cfg) r in
  let c := SetKeyPair true c in
  let c := match (GetServerPubKey st).1 with
           | Ret (Ok pub) => if decide (pub = "") then c else SetServerPubKey (Some pub) c
           | _ => c
           end in
  MkAgent h (MkH sys st (Some c) None)
    (SetVersion ver (NewCollector (HeartbeatInterval cfg) (BirdDetailInterval cfg))).

(** [main] up to the loops: [opened] is what [bolt.Open] answers for a path and [commits] the
    script of its commits; every [Fatal] exits with status 1. *)
Definition main_start `{Y : Yaml} (configPath ver : string) (opened : string -> res db)
    (commits : list (option string)) (r : Rng) : M Sys Agent :=
  c ← Load configPath;
  match c with
  | Err _ => mhalt (Exit 1)
  | Ok cfg =>
      let storePath := or_default (StorePath cfg) (Join [defaultStateDir; "peers.db"]) in
      d1 ← ensureStoreDirectory storePath;
      match d1 with
      | Err _ => mhalt (Exit 1)
      | Ok _ =>
          d2 ← ensurePrivateStateDirectory defaultStateDir;
          match d2 with
          | Err _ => mhalt (Exit 1)
          | Ok _ =>
              match Open (opened storePath) commits with
              | Err _ => mhalt (Exit 1)
              | Ok st =>
                  let '(_, st1) := PutVersion ver st in
                  let '(k, st2) := agent_keypair r st1 in
                  match k with
                  | Halt e => mhalt e
                  | Ret (kp, r') => sys ← mget; mret (build cfg ver kp r' sys st2)
                  end
              end
          end
      end
  end.

End main.

Example within_examples : isWithinDefaultStateDirectory <$> ["/var/lib/autopeer-agent"; "/var/lib/autopeer-agent/db"; "/var/lib"; "/var/lib/autopeer-agent2"; "/var/lib/autopeer-agent/../x"; "rel"]
  = [true; true; false; false; false; false].
Proof. vm_compute. reflexivity. Qed.
