(* ===== verification/World.v ===== *)
(** A concrete world for examples and witnesses: the simulated host, the in-memory database, the
    tagging AEAD, a resolver, a web server, and a handler on them. *)

From S2P Require Import Prelude GoStrings GoPath Json GoStruct GoNet Host SimHost Store StoreFacts Wg WgFacts Bird BirdFacts.
From S2P Require Import Primitives Crypto Ws WsFacts Handler Network Update KeyExchange.
From Stdlib Require Import Ascii.

#[global] Instance sim_resolver : Resolver := fun name =>
  if decide (name = "dns.example") then Ok [v4_mapped [10; 0; 0; 1]; v4_mapped [172; 20; 0; 53]]
  else Err (errorf "no such host").

(** A temporary name longer than any name in use. *)
Fixpoint xs (n : nat) : string := match n with O => "x" | S n' => String "x"%char (xs n') end.
Definition longest (files : gmap string fnode) : nat := max_list ((fun kv => slen kv.1) <$> map_to_list files).

#[global] Instance sim_update : UpdateEnv := {|
  Executable := Ok "/usr/bin/autopeer-agent";
  temp_name files p := p +:+ xs (longest files);
  NewRequest _ := None;
  Do _ _ := Ok (MkHttp 200 "new binary" None);
  Exec _ := Ok tt;
|}.

(** HKDF by RFC 5869. *)
#[global] Instance rfc_hkdf : Hkdf := fun secret salt info => Ok (hkdf32 secret salt info).

#[global] Instance rfc_hkdf_ok : HkdfLaws rfc_hkdf.
Proof. intros secret salt info. eexists. split; [reflexivity|]. unfold hkdf32, hmac_sha256. apply slen_Sum256. Qed.

Definition sim_priv : string := string_of (replicate 32 1%N).
Definition sim_pub : string := Eval vm_compute in public_of sim_priv.
Definition sim_keypair : KeyPair := MkKeyPair sim_priv sim_pub.

Definition sim_handler : Handler := MkHandler sim_wg sim_bird "token" (Some sim_keypair).

(** A connected client that has not exchanged keys yet. *)
Definition sim_client : Client :=
  set_conn true (Some false) [] [] (NewClient "wss://center" "token" "node" 60 test_rng).

Definition world_of (h : sim) : HState := MkH (sim_sys h) mem_store (Some sim_client) None.
Definition world : HState := world_of sim0.

(** The frames a run queued, as messages. *)
Definition sent (s : HState (env := SimEnv) (B := MemBolt)) : list Message :=
  match h_ws s with
  | Some c => omap (decode_frame sim_client) (sendCh c)
  | None => []
  end.

Definition add_payload (peerID : string) (asn : Z) (iface : string) : jval :=
  JObj [("peer_id", JStr peerID); ("asn", JNum (Itoa asn)); ("remote_wg_pubkey", JStr "PUB=");
        ("remote_endpoint", JStr "host:1"); ("remote_lla", JStr "fe80::123"); ("listen_port", JNum "20123");
        ("wg_interface", JStr iface)].

Definition add_msg : Message := MkMessage "peer.add" "42" (Some (add_payload "p1" 4242420123 "dn42x")) None "".

Example add_answer : sent (handlePeerAdd sim_handler add_msg world).2 = [response "42" true "peer added successfully"].
Proof. vm_compute. reflexivity. Qed.
