(* ===== verification/Answers.v ===== *)
(** Every command is answered exactly once.

    [Returns m]: [m] never halts.  [Keeps m]: [m] returns and does not touch the WebSocket client.
    [one_answer id m]: [m] returns after sending exactly one message, an answer to [id].
    [ends id n may m]: [m] sends messages with [n] answers to [id] among them, and returns or, where
    it may, restarts the agent. *)

From S2P Require Import Prelude GoStrings GoPath Json GoStruct GoFloat GoNet Host Store Wg Bird Primitives Crypto Ws.
From S2P Require Import Handler Network Update KeyExchange World.

(** ** Computations that return *)

Class Returns {S A} (m : M S A) : Prop := returns : forall s, exists a s', m s = (Ret a, s').

Lemma returns_wp {S A} (m : M S A) : (forall s, wp m (fun _ _ => True) s) -> Returns m.
Proof. intros H s. destruct (proj1 (wp_run _ _ _) (H s)) as (a & s' & E & _). eauto. Qed.

#[global] Instance returns_ret {S A} (a : A) : Returns (S := S) (mret a).
Proof. intros s. eauto. Qed.
#[global] Instance returns_bind {S A C} (m : M S A) (f : A -> M S C) :
  Returns m -> (forall a, Returns (f a)) -> Returns (m ≫= f).
Proof. intros Hm Hf s. destruct (Hm s) as (a & s' & E). unfold mbind, M_bind. rewrite E. apply Hf. Qed.
#[global] Instance returns_gets {S A} (f : S -> A) : Returns (gets f).
Proof. intros s. unfold gets. eauto. Qed.
#[global] Instance returns_mfold {S A C} (body : C -> A -> M S C) l acc :
  (forall b x, Returns (body b x)) -> Returns (mfold body l acc).
Proof. intros Hb. revert acc. induction l; intros acc; cbn; apply _. Qed.

(** Case analysis, then the instances. *)
Ltac returns_tac :=
  repeat (intros; lazymatch goal with
          | |- Returns (if ?b then _ else _) => destruct b
          | |- Returns (match ?x with _ => _ end) => destruct x
          | |- Returns (_ ≫= _) => apply returns_bind
          | |- Returns (mfold _ _ _) => apply returns_mfold
          | |- Returns _ => apply _
          end).

Section sys.
Context `{env : HostEnv}.

#[global] Instance returns_syscall {T} op path (f : fs -> res T * fs) : Returns (syscall op path f).
Proof. apply returns_wp. intros s. by apply wp_syscall. Qed.
#[global] Instance returns_run argv : Returns (run argv).
Proof. apply returns_wp. intros s. by apply wp_run_cmd. Qed.
#[global] Instance returns_OpenTrunc p m : Returns (OpenTrunc p m).
Proof. apply returns_syscall. Qed.
#[global] Instance returns_Remove p : Returns (Remove p).
Proof. apply returns_syscall. Qed.
#[global] Instance returns_Stat p : Returns (Stat p).
Proof. apply returns_syscall. Qed.
#[global] Instance returns_ReadFile p : Returns (ReadFile p).
Proof. apply returns_syscall. Qed.
#[global] Instance returns_ReadDir p : Returns (ReadDir p).
Proof. apply returns_syscall. Qed.
#[global] Instance returns_WriteOpened p d : Returns (WriteOpened p d).
Proof. intros [files h [|[e|] fl]]; unfold WriteOpened, mbind, M_bind, next_fault; cbn; eauto. Qed.

#[global] Instance returns_AddPeerWithIface m i a p k e mtu psk : Returns (AddPeerWithIface m i a p k e mtu psk).
Proof. unfold AddPeerWithIface. returns_tac. Qed.
#[global] Instance returns_RemovePeerByIface m i : Returns (RemovePeerByIface m i).
Proof. unfold RemovePeerByIface. returns_tac. Qed.
#[global] Instance returns_wg_RemovePeer m a : Returns (Wg.RemovePeer m a).
Proof. unfold Wg.RemovePeer. returns_tac. Qed.
#[global] Instance returns_IsPeerUp m i : Returns (IsPeerUp m i).
Proof. unfold IsPeerUp. returns_tac. Qed.
#[global] Instance returns_GetStats m : Returns (GetStats m).
Proof. unfold GetStats. returns_tac. Qed.
#[global] Instance returns_wg_scan_entry m l e : Returns (Wg.scan_entry m l e).
Proof. unfold Wg.scan_entry, readASNFromWGConfig. returns_tac. Qed.
#[global] Instance returns_wg_ScanPeers m : Returns (Wg.ScanPeers m).
Proof. unfold Wg.ScanPeers. returns_tac. Qed.

#[global] Instance returns_reload m : Returns (reloadLocked m).
Proof. unfold reloadLocked. returns_tac. Qed.
#[global] Instance returns_bird_AddPeer m a l i : Returns (Bird.AddPeer m a l i).
Proof. unfold Bird.AddPeer. returns_tac. Qed.
#[global] Instance returns_bird_RemovePeer m a : Returns (Bird.RemovePeer m a).
Proof. unfold Bird.RemovePeer. returns_tac. Qed.
#[global] Instance returns_RemovePeerByFilename m f : Returns (RemovePeerByFilename m f).
Proof. unfold RemovePeerByFilename. returns_tac. Qed.
#[global] Instance returns_Disable m p : Returns (DisableProtocol m p).
Proof. unfold DisableProtocol, birdc_protocol. returns_tac. Qed.
#[global] Instance returns_Enable m p : Returns (EnableProtocol m p).
Proof. unfold EnableProtocol, birdc_protocol. returns_tac. Qed.
#[global] Instance returns_GetPeerStates m : Returns (GetPeerStates m).
Proof. unfold GetPeerStates. returns_tac. Qed.
#[global] Instance returns_GetPeerDetails m now : Returns (GetPeerDetails m now).
Proof. unfold GetPeerDetails. returns_tac. Qed.
#[global] Instance returns_ShowRoute m t d : Returns (ShowRoute m t d).
Proof. unfold ShowRoute. returns_tac. Qed.
#[global] Instance returns_bird_scan_entry m l e : Returns (Bird.scan_entry m l e).
Proof. unfold Bird.scan_entry. returns_tac. Qed.
#[global] Instance returns_bird_ScanPeers m : Returns (Bird.ScanPeers m).
Proof. unfold Bird.ScanPeers. returns_tac. Qed.
#[global] Instance returns_sync_wg h p i : Returns (sync_wg h p i).
Proof. unfold sync_wg. returns_tac. Qed.
#[global] Instance returns_sync_bird h p i : Returns (sync_bird h p i).
Proof. unfold sync_bird. returns_tac. Qed.

End sys.

Section store.
Context `{B : Bolt}.

#[global] Instance returns_Update f : Returns (Store.Update f).
Proof. intros s. unfold Store.Update. repeat case_match; eauto. Qed.
#[global] Instance returns_View {T} (f : db -> res T) : Returns (View f).
Proof. intros s. unfold View. eauto. Qed.
#[global] Instance returns_GetPeer i : Returns (GetPeer i).
Proof. apply returns_View. Qed.
#[global] Instance returns_PutPeer i p : Returns (PutPeer i p).
Proof. apply returns_Update. Qed.
#[global] Instance returns_DeletePeer i : Returns (DeletePeer i).
Proof. apply returns_Update. Qed.
#[global] Instance returns_ForEachPeer {T} (fn : T -> string -> PeerInfo -> T * option error) acc : Returns (ForEachPeer fn acc).
Proof. intros s. unfold ForEachPeer. eauto. Qed.
#[global] Instance returns_ReplaceAll m : Returns (ReplaceAll m).
Proof. apply returns_Update. Qed.
#[global] Instance returns_IsASNTracked a : Returns (IsASNTracked a).
Proof. apply returns_View. Qed.

End store.

(** ** Computations that do not touch the client *)

Section answers.
Context `{env : HostEnv} `{B : Bolt} `{A : Aead}.

(** Parts whose result is known. *)
Lemma on_store_run {T} (m : M Store T) (s : HState) r st : m (h_store s) = (Ret r, st) ->
  on_store m s = (Ret r, MkH (h_sys s) st (h_ws s) (h_keyx s)).
Proof. intros E. unfold on_store, zoom. by rewrite E. Qed.

Lemma on_sys_run {T} (m : M Sys T) (s : HState) r sys : m (h_sys s) = (Ret r, sys) ->
  on_sys m s = (Ret r, MkH sys (h_store s) (h_ws s) (h_keyx s)).
Proof. intros E. unfold on_sys, zoom. by rewrite E. Qed.

Definition Keeps {T} (m : M HState T) : Prop := forall s, exists a s', m s = (Ret a, s') /\ h_ws s' = h_ws s.

Lemma keeps_ret {T} (a : T) : Keeps (mret a).
Proof. intros s. unfold mret, M_ret. eauto. Qed.
Lemma keeps_bind {T C} (m : M HState T) (f : T -> M HState C) : Keeps m -> (forall a, Keeps (f a)) -> Keeps (m ≫= f).
Proof.
  intros Hm Hf s. destruct (Hm s) as (a & s' & E & Hw). unfold mbind, M_bind. rewrite E.
  destruct (Hf a s') as (c & s2 & -> & Hw2). exists c, s2. split; [done|congruence].
Qed.
Lemma keeps_sys {T} (m : M Sys T) : Returns m -> Keeps (on_sys m).
Proof. intros Hm s. destruct (Hm (h_sys s)) as (a & s' & E). unfold on_sys, zoom. rewrite E. eauto. Qed.
Lemma keeps_store {T} (m : M Store T) : Returns m -> Keeps (on_store m).
Proof. intros Hm s. destruct (Hm (h_store s)) as (a & s' & E). unfold on_store, zoom. rewrite E. eauto. Qed.
Lemma keeps_mfold {T C} (body : C -> T -> M HState C) l acc :
  (forall b x, Keeps (body b x)) -> Keeps (mfold body l acc).
Proof. intros Hb. revert acc. induction l; intros acc; cbn; [apply keeps_ret|]. by apply keeps_bind. Qed.

(** ** One answer *)

Definition is_answer (id : string) (m : Message) : Prop := ID m = id /\ Type_ m ∈ ["response"; "status.response"].

Definition one_answer (id : string) (m : M HState unit) : Prop := forall s c, h_ws s = Some c ->
  exists s' msg r c', m s = (Ret tt, s') /\ is_answer id msg /\ Send msg c = (Ret r, c') /\ h_ws s' = Some c'.

Lemma answer_send id msg : ID msg = id -> Type_ msg ∈ ["response"; "status.response"] ->
  one_answer id (_ ← ws_send msg; mret tt).
Proof.
  intros Hid Ht s c Hc. unfold ws_send, mbind, M_bind. rewrite Hc.
  assert (exists r c', Send msg c = (Ret r, c')) as (r & c' & E).
  { unfold Send. destruct (negb (conn c)); [eauto|]. destruct (encode_frame _ c) as [it c1].
    destruct (enqueue it c1) as [r c2]. eauto. }
  rewrite E. exists (set_ws (Some c') s), msg, r, c'. done.
Qed.

Lemma answer_response id b t : one_answer id (sendResponse id b t).
Proof.
  intros s c Hc. destruct (answer_send id (response id b t) eq_refl ltac:(left) s c Hc) as (s' & msg & r & c' & E & H).
  exists s', msg, r, c'. split; [|exact H]. unfold sendResponse, gets, mbind, M_bind in *. by rewrite Hc.
Qed.

Lemma answer_bind {T} id (m : M HState T) (f : T -> M HState unit) :
  Keeps m -> (forall a, one_answer id (f a)) -> one_answer id (m ≫= f).
Proof.
  intros Hm Hf s c Hc. destruct (Hm s) as (a & s' & E & Hw). unfold mbind, M_bind. rewrite E.
  apply Hf. congruence.
Qed.

Lemma answer_payload {T} (fields : sfields T) zero msg (k : T -> M HState unit) :
  (forall p, one_answer (ID msg) (k p)) -> one_answer (ID msg) (with_payload fields zero msg k).
Proof. intros Hk. unfold with_payload. destruct (Unmarshal _ _ _); [apply Hk|apply answer_response]. Qed.

End answers.

(** Follow a handler to its answer. *)
Ltac keeps_tac :=
  repeat (intros; lazymatch goal with
          | |- Keeps (if ?b then _ else _) => destruct b
          | |- Keeps (match ?x with _ => _ end) => destruct x
          | |- Keeps (on_sys (if ?b then _ else _)) => destruct b
          | |- Keeps (on_sys _) => apply keeps_sys; apply _
          | |- Keeps (on_store _) => apply keeps_store; apply _
          | |- Keeps (mret _) => apply keeps_ret
          | |- Keeps (mfold _ _ _) => apply keeps_mfold
          | |- Keeps (_ ≫= _) => apply keeps_bind
          end).
Ltac answer_tac :=
  repeat (intros; lazymatch goal with
          | |- one_answer _ (with_payload _ _ _ _) => apply answer_payload
          | |- one_answer _ (if ?b then _ else _) => destruct b
          | |- one_answer _ (match ?x with _ => _ end) => destruct x
          | |- one_answer _ (sendResponse _ _ _) => apply answer_response
          | |- one_answer _ (ws_send _ ≫= _) => apply answer_send; [done|cbn; set_solver]
          | |- one_answer _ (_ ≫= _) => apply answer_bind; [keeps_tac|]
          end).

Section commands.
Context `{env : HostEnv} `{B : Bolt} `{A : Aead} `{R : Resolver} `{U : UpdateEnv}.

Lemma keeps_sync_peer h st p : Keeps (sync_peer h st p).
Proof. unfold sync_peer. keeps_tac. Qed.
Lemma keeps_teardown h i : Keeps (teardown h i).
Proof. unfold teardown. keeps_tac. Qed.
Lemma keeps_import_wg l acc w : Keeps (import_wg_step l acc w).
Proof. unfold import_wg_step, is_tracked. keeps_tac. Qed.
Lemma keeps_import_bgp s acc w : Keeps (import_bgp_step s acc w).
Proof. unfold import_bgp_step, is_tracked. keeps_tac. Qed.

Lemma answer_peer_add h msg : one_answer (ID msg) (handlePeerAdd h msg).
Proof. unfold handlePeerAdd. answer_tac. Qed.
Lemma answer_peer_remove h msg : one_answer (ID msg) (handlePeerRemove h msg).
Proof. unfold handlePeerRemove. answer_tac. Qed.
Lemma answer_status h msg : one_answer (ID msg) (handleStatusRequest h msg).
Proof. unfold handleStatusRequest. answer_tac. Qed.
Lemma answer_sync h msg : is_Some (Unmarshal Sync_fields [] (Payload msg)) -> one_answer (ID msg) (handlePeersSync h msg).
Proof.
  intros [l E]. unfold handlePeersSync. rewrite E. unfold mfor. answer_tac.
  - apply keeps_sync_peer.
  - intros _ i. apply keeps_teardown.
Qed.
Lemma answer_import h msg : one_answer (ID msg) (handlePeersImportCommand h msg).
Proof. unfold handlePeersImportCommand. answer_tac; [apply keeps_import_wg|apply keeps_import_bgp]. Qed.
Lemma answer_details h now msg : one_answer (ID msg) (handleBirdDetailsCommand h now msg).
Proof. unfold handleBirdDetailsCommand. answer_tac. Qed.
Lemma answer_control h act t msg : (forall p, Returns (act p)) -> one_answer (ID msg) (bird_control h act t msg).
Proof. intros Ha. unfold bird_control. answer_tac. Qed.
Lemma answer_json msg j : one_answer (ID msg) (send_json msg j).
Proof. unfold send_json. answer_tac. Qed.
Lemma answer_ping msg : one_answer (ID msg) (handleNetworkPing msg).
Proof. unfold handleNetworkPing. answer_tac; apply answer_json. Qed.
Lemma answer_trace msg : one_answer (ID msg) (handleNetworkTrace msg).
Proof. unfold handleNetworkTrace. answer_tac; apply answer_json. Qed.
Lemma answer_mtr msg : one_answer (ID msg) (handleNetworkMTR msg).
Proof. unfold handleNetworkMTR. answer_tac; apply answer_json. Qed.
Lemma answer_route h msg : one_answer (ID msg) (handleBirdRoute h msg).
Proof. unfold handleBirdRoute. answer_tac; apply answer_json. Qed.

(** ** The commands that restart the agent *)

#[local] Instance returns_MkdirAll p m : Returns (MkdirAll p m).
Proof. apply returns_syscall. Qed.
#[local] Instance returns_Chmod p m : Returns (Chmod p m).
Proof. apply returns_syscall. Qed.
#[local] Instance returns_Rename p q : Returns (Rename p q).
Proof. apply returns_syscall. Qed.
#[local] Instance returns_touch o p : Returns (touch o p).
Proof. apply returns_syscall. Qed.
#[local] Instance returns_syncDir p : Returns (syncDir p).
Proof. unfold syncDir. returns_tac. Qed.
#[local] Instance returns_removeIfExists p : Returns (removeIfExists p).
Proof. unfold removeIfExists. returns_tac. Qed.
#[local] Instance returns_ensurePrivateDir p : Returns (ensurePrivateDir p).
Proof. unfold ensurePrivateDir. returns_tac. Qed.
#[local] Instance returns_sha256File p : Returns (sha256File p).
Proof. unfold sha256File. returns_tac. Qed.
#[local] Instance returns_copy p q m : Returns (copyFileAtomic p q m).
Proof. unfold copyFileAtomic, copy_steps. returns_tac. Qed.
#[local] Instance returns_replace p q m : Returns (replaceFile p q m).
Proof. unfold replaceFile. returns_tac. Qed.
#[local] Instance returns_drop_part e : Returns (drop_part e).
Proof. unfold drop_part. returns_tac. Qed.
#[local] Instance returns_store_body r e : Returns (store_body r e).
Proof. unfold store_body. returns_tac. Qed.
#[local] Instance returns_downloadFile u e t : Returns (downloadFile u e t).
Proof. unfold downloadFile. returns_tac. Qed.
#[local] Instance returns_apply v : Returns (apply_download v).
Proof. unfold apply_download. returns_tac. Qed.
#[local] Instance returns_DownloadAndApply u e n v t : Returns (DownloadAndApply u e n v t).
Proof. unfold DownloadAndApply. returns_tac. Qed.
#[local] Instance returns_RollbackFrom p : Returns (RollbackFrom p).
Proof. unfold RollbackFrom. returns_tac. Qed.
#[local] Instance returns_GetVersion : Returns GetVersion.
Proof. apply returns_View. Qed.
#[local] Instance returns_GetUpdateID : Returns GetUpdateID.
Proof. apply returns_View. Qed.
#[local] Instance returns_PutVersion v : Returns (PutVersion v).
Proof. apply returns_Update. Qed.
#[local] Instance returns_PutUpdateID v : Returns (PutUpdateID v).
Proof. apply returns_Update. Qed.
#[local] Instance returns_Close : Returns Store.Close.
Proof. intros s. unfold Store.Close, modify. eauto. Qed.

(** A run of Sends on a client. *)
Inductive sends : list Message -> Client -> Client -> Prop :=
| sends_nil c : sends [] c c
| sends_cons m l c r c1 c2 : Send m c = (Ret r, c1) -> sends l c1 c2 -> sends (m :: l) c c2.

#[global] Instance is_answer_dec id m : Decision (is_answer id m).
Proof. unfold is_answer. apply _. Defined.

(** The answers to [id] among messages. *)
Definition answers (id : string) (msgs : list Message) : nat := length (filter (is_answer id) msgs).

(** The process is replaced by the binary, or ends. *)
Definition restarts (o : out unit) : Prop := o = Halt (Exit 1) \/ exists path, o = Halt (ExecSelf path).

(** A computation ends with [n] answers sent: it returns or, where it may, restarts the agent. *)
Definition ends (id : string) (n : nat) (may : bool) (m : M HState unit) : Prop := forall s c, h_ws s = Some c ->
  exists o s' msgs c', m s = (o, s') /\ sends msgs c c' /\ (h_ws s' = Some c' \/ h_ws s' = Some (Ws.Close c')) /\
    answers id msgs = n /\ (o = Ret tt \/ may = true /\ restarts o).

Lemma ends_one id may m : one_answer id m -> ends id 1 may m.
Proof.
  intros H s c Hc. destruct (H s c Hc) as (s' & msg & r & c' & E & Ha & Es & Hw).
  exists (Ret tt), s', [msg], c'. split_and!; auto.
  - by apply (sends_cons _ _ _ r c'); [|constructor].
  - unfold answers. by rewrite filter_cons_True.
Qed.

Lemma ends_bind {T} id n may (m : M HState T) (f : T -> M HState unit) :
  Keeps m -> (forall a, ends id n may (f a)) -> ends id n may (m ≫= f).
Proof.
  intros Hm Hf s c Hc. destruct (Hm s) as (a & s' & E & Hw). unfold mbind, M_bind. rewrite E. apply Hf. congruence.
Qed.

(** A message goes out, then the rest. *)
Lemma ends_send {T} id n may msg (f : res unit -> M HState T) (k : T -> M HState unit) :
  (forall r, Keeps (f r)) -> (forall r, ends id n may (k r)) ->
  ends id (answers id [msg] + n) may (r ← ws_send msg; x ← f r; k x).
Proof.
  intros Hf Hk s c Hc. destruct (Send msg c) as [[r|h] c1] eqn:Es.
  2:{ unfold Send in Es. destruct (negb (conn c)); [done|]. destruct (encode_frame _ c), (enqueue _ _). done. }
  unfold mbind, M_bind, ws_send. rewrite Hc, Es.
  destruct (Hf r (set_ws (Some c1) s)) as (x & s1 & -> & Hw).
  destruct (Hk x s1 c1 Hw) as (o & s' & msgs & c' & E & Hs & Hw' & Ha & Ho).
  exists o, s', (msg :: msgs), c'. split_and!; [done|by econstructor|done| |done].
  unfold answers in *. rewrite !filter_cons, filter_nil. case_decide; cbn; lia.
Qed.

Lemma ends_restart id : ends id 0 true RestartSelf.
Proof.
  intros s c Hc. exists (RestartSelf s).1, s, [], c. unfold RestartSelf, mhalt, restarts.
  destruct Executable as [p|]; [destruct (is_ok (Exec p))|]; cbn; (split_and!; [done|constructor|by left|done|right; eauto]).
Qed.

Lemma ends_ret id may : ends id 0 may (mret tt).
Proof. intros s c Hc. exists (Ret tt), s, [], c. split_and!; auto. constructor. Qed.

(** A client that [Close] was called on. *)
Lemma ends_close id : ends id 0 true (_ ← modify (fun s => set_ws (Ws.Close <$> h_ws s) s); RestartSelf).
Proof.
  intros s c Hc. destruct (ends_restart id (set_ws (Some (Ws.Close c)) s) (Ws.Close c) eq_refl)
    as (o & s' & msgs & c' & E & _ & _ & _ & Ho).
  exists o, s', [], c. unfold mbind, M_bind, modify. rewrite Hc. split_and!; [exact E|constructor| |done|done].
  right. unfold RestartSelf, mhalt in E. destruct Executable as [p|]; [destruct (is_ok (Exec p))|]; injection E as _ <-; done.
Qed.

Lemma answers_response id b t : answers id [response id b t] = 1%nat.
Proof. unfold answers. rewrite filter_cons_True by (split; [done|left]). done. Qed.

Lemma ends_respond {T} id n may b t (f : M HState T) (k : T -> M HState unit) : Keeps f -> (forall x, ends id n may (k x)) ->
  ends id (S n) may (sendResponse id b t ≫= fun _ => f ≫= k).
Proof.
  intros Hf Hk s c Hc.
  destruct (ends_send id n may (response id b t) (fun _ => f) k (fun _ => Hf) Hk s c Hc) as (o & s' & msgs & c' & E & H).
  rewrite answers_response in H. exists o, s', msgs, c'. split; [|exact H]. rewrite <-E. unfold sendResponse, mbind, M_bind, gets, ws_send.
  rewrite !Hc. cbn. rewrite ?Hc. by destruct (Send _ c) as [[r|h] c1].
Qed.

Lemma ends_checked id n may b t (k : res unit -> M HState unit) : (forall r, ends id n may (k r)) ->
  ends id (S n) may (sendResponseChecked id b t ≫= k).
Proof.
  intros Hk s c Hc.
  destruct (ends_send id n may (response id b t) mret k (fun r => keeps_ret r) Hk s c Hc) as (o & s' & msgs & c' & E & H).
  rewrite answers_response in H. exists o, s', msgs, c'. split; [|exact H]. rewrite <-E. unfold sendResponseChecked, mbind, M_bind, gets, ws_send.
  rewrite !Hc. cbn. rewrite ?Hc. by destruct (Send _ c) as [[r|h] c1].
Qed.

Lemma ends_update h msg : ends (ID msg) 1 true (handleAgentUpdate h msg).
Proof.
  unfold handleAgentUpdate, with_payload. destruct (Unmarshal _ _ _) as [p|]; [|apply ends_one, answer_response].
  apply ends_bind; [keeps_tac|]. intros applied. case_decide; [apply ends_one, answer_response|].
  destruct Executable as [execPath|]; [|apply ends_one, answer_response].
  apply ends_bind; [keeps_tac|]. intros [hash|]; [|apply ends_one, answer_response]. case_decide.
  { apply ends_respond; [keeps_tac|]. intros. apply ends_ret. }
  apply ends_bind; [keeps_tac|]. intros ver. case_decide; [apply ends_one, answer_response|].
  apply ends_bind; [keeps_tac|]. intros [[]|]; [|apply ends_one, answer_response].
  set (upd := MkMessage "agent.updating" _ _ _ _).
  replace 1%nat with (answers (ID msg) [upd] + 1)%nat.
  2:{ unfold answers. rewrite filter_cons_False; [done|]. intros [_ Ht]. cbn in Ht. set_solver. }
  apply (ends_send _ 1 true upd); [intros; keeps_tac|].
  intros _. apply ends_bind; [keeps_tac|]. intros _. apply ends_checked. intros _.
  apply ends_bind; [keeps_tac|]. intros _. apply ends_close.
Qed.

Lemma ends_rollback msg : ends (ID msg) 1 true (handleAgentRollback msg).
Proof.
  unfold handleAgentRollback. apply ends_bind; [keeps_tac|]. intros ver. case_decide; [apply ends_one, answer_response|].
  apply ends_bind; [keeps_tac|]. intros [[]|]; [|apply ends_one, answer_response].
  intros s c Hc. destruct (ends_respond (ID msg) 0 true true "rollback applied, restarting" (mret tt) (fun _ => RestartSelf)
    (keeps_ret tt) (fun _ => ends_restart (ID msg)) s c Hc) as (o & s' & msgs & c' & E & Hx).
  exists o, s', msgs, c'. split; [|exact Hx]. exact E.
Qed.

(** The commands: all messages of the center that are not part of the key exchange. *)
Definition commands : list string := [
  "peer.add"; "peer.remove"; "status.request"; "peers.sync"; "peers.import"; "bird.details"; "agent.update";
  "agent.resume"; "agent.rollback"; "network.ping"; "network.trace"; "network.mtr"; "network.bgp_route";
  "bird.disable"; "bird.enable"].

(** The one command that is not answered: a peers.sync whose payload does not decode. *)
Definition unanswered (msg : Message) : bool :=
  bool_decide (Type_ msg = "peers.sync") && match Unmarshal Sync_fields [] (Payload msg) with None => true | Some _ => false end.

Definition restarting (msg : Message) : bool := bool_decide (Type_ msg ∈ ["agent.update"; "agent.rollback"]).

(** C7: Every command is answered exactly once, whatever the payload, the files, the programs, the
    web server and the database do, but for a peers.sync whose payload does not decode, which is
    not answered: HandleMessage sends messages of which exactly one is an answer with the
    command's id, and returns.  Only agent.update and agent.rollback may end in a restart of the
    agent instead, after their answer. *)
Theorem commands_answered h now msg s c : Type_ msg ∈ commands -> h_ws s = Some c ->
  exists o s' msgs c', HandleMessage h now msg s = (o, s') /\ sends msgs c c' /\
    (h_ws s' = Some c' \/ h_ws s' = Some (Ws.Close c')) /\
    answers (ID msg) msgs = (if unanswered msg then 0 else 1)%nat /\
    (o = Ret tt \/ restarting msg = true /\ restarts o).
Proof.
  intros Ht. revert s c. change (ends (ID msg) (if unanswered msg then 0 else 1)%nat (restarting msg) (HandleMessage h now msg)).
  unfold HandleMessage, unanswered, restarting, commands in *. cbv zeta.
  repeat (apply elem_of_cons in Ht as [Ht|Ht];
    [rewrite Ht; repeat rewrite (bool_decide_false (_ = _)) by done; rewrite (bool_decide_true (_ = _)) by done; cbn [andb]|]).
  - apply ends_one, answer_peer_add.
  - apply ends_one, answer_peer_remove.
  - apply ends_one, answer_status.
  - destruct (Unmarshal Sync_fields [] (Payload msg)) as [l|] eqn:El.
    + apply ends_one, answer_sync. by rewrite El.
    + unfold handlePeersSync. rewrite El. apply ends_ret.
  - apply ends_one, answer_import.
  - apply ends_one, answer_details.
  - apply ends_update.
  - apply ends_one, answer_response.
  - apply ends_rollback.
  - apply ends_one, answer_ping.
  - apply ends_one, answer_trace.
  - apply ends_one, answer_mtr.
  - apply ends_one, answer_route.
  - apply ends_one. unfold handleBirdDisable. apply answer_control. apply _.
  - apply ends_one. unfold handleBirdEnable. apply answer_control. apply _.
  - by apply elem_of_nil in Ht.
Qed.

End commands.

Lemma commands_answered_witness : exists o s' msgs c',
  HandleMessage sim_handler 0 add_msg world = (o, s') /\ sends msgs sim_client c' /\
  (h_ws s' = Some c' \/ h_ws s' = Some (Ws.Close c')) /\ answers "42" msgs = 1%nat /\
  (o = Ret tt \/ restarting add_msg = true /\ restarts o).
Proof. refine (commands_answered sim_handler 0 add_msg world sim_client _ eq_refl). left. Defined.
