(* ===== verification/HandlerFacts.v ===== *)
(** Properties of the peer commands. *)

From S2P Require Import Prelude GoStrings GoPath Json GoStruct GoNet Host SimHost Store StoreFacts Wg WgFacts Bird BirdFacts.
From S2P Require Import Primitives Crypto Ws WsFacts Handler Network Update KeyExchange World Answers.

(** ** Effects on the set of tunnels *)

Section tunnels.
Context `{env : HostEnv} {Q : QuietCommands env} {W : WgLaws env}.

Definition tunnels (s : Sys) : gset string := up (sys_host s).

(** [wg-quick] looks for the file of [i] where the manager writes it. *)
Definition wg_dir_ok (m : Wg.Manager) (i : string) : Prop := Join [wg_conf_dir; i +:+ ".conf"] = confPath m i.
Definition has_conf (m : Wg.Manager) (i : string) (s : Sys) : Prop := is_Some (sys_fs s !! confPath m i).

Lemma wp_IsPeerUp m i s : i ∉ ["all"; "interfaces"] ->
  wp (IsPeerUp m i) (fun b s' => b = bool_decide (i ∈ tunnels s) /\ tunnels s' = tunnels s /\ sys_fs s' = sys_fs s) s.
Proof.
  intros Hi. unfold IsPeerUp. wp_step. apply wp_run_quiet. wp_steps. split_and!.
  - apply (wg_show_law i (sys_fs s) (sys_host s) Hi).
  - by apply other_cmds.
  - done.
Qed.

Lemma wp_Remove_tunnel m i s : wg_dir_ok m i -> (i ∈ tunnels s -> has_conf m i s) ->
  wp (RemovePeerByIface m i) (fun _ s' => tunnels s' = tunnels s ∖ {[i]} /\
    forall path, path <> confPath m i -> sys_fs s' !! path = sys_fs s !! path) s.
Proof.
  intros Hd Hc.
  assert (Hu : up (host_after ["wg-quick"; "down"; i] (sys_fs s) (sys_host s)) = tunnels s ∖ {[i]}).
  { rewrite wg_down_law. destruct (decide (i ∈ up (sys_host s))) as [Hi|Hi].
    - rewrite wg_down_works; [done|done|]. rewrite Hd. by apply Hc.
    - destruct (cmd_succeeds _ _ _); unfold tunnels; set_solver. }
  apply wp_RemovePeerByIface. split; intros fl; (split; [exact Hu|]); [done|].
  intros path Hp. cbn. by rewrite lookup_delete_ne.
Qed.

Lemma add_outcome_tunnels m i text s r s' : add_outcome m i text s r s' ->
  tunnels s' = (if is_ok r then {[i]} ∪ tunnels s else tunnels s) /\ (is_ok r = true -> has_conf m i s').
Proof.
  intros [e fl|e d p fl|r' p fl files Hc]; cbn [is_ok]; [done|done|].
  unfold tunnels, has_conf. cbn [sys_host sys_fs]. rewrite wg_up_law. split.
  - by rewrite Hc.
  - intros _. unfold files. rewrite lookup_insert_eq. eauto.
Qed.

Lemma bird_add_tunnels m asn text s r s' : birdcPath m <> "wg-quick" -> bird_add_outcome m asn text s r s' ->
  tunnels s' = tunnels s.
Proof.
  intros Hb []; unfold tunnels; cbn [sys_host]; try done; unfold check_cmd, reload_cmd; rewrite ?other_cmds by done; try done.
  unfold h1, check_cmd. by rewrite other_cmds.
Qed.

Lemma wp_bird_remove m asn s : birdcPath m <> "wg-quick" ->
  wp (Bird.RemovePeer m asn) (fun _ s' => tunnels s' = tunnels s /\
    forall path, path <> bird_path m asn -> sys_fs s' !! path = sys_fs s !! path) s.
Proof.
  intros Hb. unfold Bird.RemovePeer. wp_step. apply wp_Remove; intros; apply wp_reload; intros; unfold tunnels, reload_cmd; cbn [sys_host sys_fs];
    (split; [by rewrite other_cmds|]); [done|]. intros path Hp. by rewrite lookup_delete_ne.
Qed.

End tunnels.

(** ** [peer.add] *)

Section peer_add.
Context `{env : HostEnv} {Q : QuietCommands env} {W : WgLaws env} `{B : Bolt} {L : BoltLaws B} `{A : Aead}.

Definition add_iface (p : PeerAddPayload) : string := iface_of (pa_WgInterface p) (pa_ASN p).
Definition add_info (p : PeerAddPayload) : PeerInfo :=
  MkPeerInfo (pa_ASN p) (pa_RemoteLLA p) (add_iface p) (proto_name (pa_ASN p)) (conf_name (pa_ASN p)).

(** What a [peer.add] starts from: tunnels that are up have their file, names and directories are
    as the programs expect them. *)
Record add_ready (h : Handler) (p : PeerAddPayload) (s : HState) : Prop := {
  ar_dir : wg_dir_ok (wgMgr h) (add_iface p);
  ar_name : add_iface p ∉ ["all"; "interfaces"];
  ar_paths : bird_path (birdMgr h) (pa_ASN p) <> confPath (wgMgr h) (add_iface p);
  ar_birdc : birdcPath (birdMgr h) <> "wg-quick";
  ar_conf : add_iface p ∈ tunnels (h_sys s) -> has_conf (wgMgr h) (add_iface p) (h_sys s);
  ar_store : store_ok (h_store s);
  ar_info : peer_wf (add_info p);
}.

(** The answer and what the command left behind. *)
Definition add_result (p : PeerAddPayload) (s s' : HState) (ok : bool) : Prop :=
  if ok then add_iface p ∈ tunnels (h_sys s') /\ is_Some (a_peers (abs (st_db (h_store s'))) !! pa_PeerID p)
  else add_iface p ∉ tunnels (h_sys s') /\ abs (st_db (h_store s')) = abs (st_db (h_store s)).

(** The last step of a handler: the answer, which changes nothing but the client. *)
Lemma wp_respond id ok text c (P : unit -> HState -> Prop) s : h_ws s = Some c ->
  (forall r c', Send (response id ok text) c = (Ret r, c') -> P tt (set_ws (Some c') s)) ->
  wp (sendResponse id ok text) P s.
Proof.
  intros Hc HP. unfold sendResponse. wp_step. wp_step. rewrite Hc. unfold wp, ws_send, mbind, M_bind. rewrite Hc.
  destruct (Send (response id ok text) c) as [[r|e] c'] eqn:E; [by eapply HP|].
  unfold Send in E. destruct (negb (conn c)); [done|]. destruct (encode_frame _ c), (enqueue _ _). done.
Qed.

(** What the caller sees: one answer, and the result it announces. *)
Definition add_post (msg : Message) (p : PeerAddPayload) (c : Client) (s s' : HState) : Prop :=
  exists ok text r c', Send (response (ID msg) ok text) c = (Ret r, c') /\ h_ws s' = Some c' /\
    add_result p s s' ok /\
    forall i, i <> add_iface p -> (i ∈ tunnels (h_sys s') <-> i ∈ tunnels (h_sys s)).

Lemma wp_add_answer msg p c s0 s ok text : h_ws s = Some c -> add_result p s0 s ok ->
  (forall i, i <> add_iface p -> (i ∈ tunnels (h_sys s) <-> i ∈ tunnels (h_sys s0))) ->
  wp (sendResponse (ID msg) ok text) (fun _ => add_post msg p c s0) s.
Proof. intros Hc Hr Hi. apply (wp_respond _ _ _ c); [done|]. intros r c' E. exists ok, text, r, c'. done. Qed.

Ltac zoom_sys := wp_step; apply wp_zoom; eapply wp_mono; [|cbn beta].

(** From a state where the interface is down: the tunnel, the session, the record; or the answer
    that says which failed. *)
Definition add_from (h : Handler) (msg : Message) (p : PeerAddPayload) : M HState unit :=
  wgr ← on_sys (AddPeerWithIface (wgMgr h) (add_iface p) (pa_ASN p) (pa_ListenPort p) (pa_RemoteWgPubkey p)
           (pa_RemoteEndpoint p) (pa_MTU p) (pa_WgPreSharedKey p));
  match wgr with
  | Err e => sendResponse (ID msg) false ("wg add failed: " +:+ err_text e)
  | Ok _ =>
      birdr ← on_sys (Bird.AddPeer (birdMgr h) (pa_ASN p) (pa_RemoteLLA p) (add_iface p));
      match birdr with
      | Err e =>
          _ ← on_sys (RemovePeerByIface (wgMgr h) (add_iface p));
          sendResponse (ID msg) false ("bird add failed: " +:+ err_text e)
      | Ok _ =>
          put ← on_store (PutPeer (pa_PeerID p) (add_info p));
          match put with
          | Err e =>
              _ ← on_sys (Bird.RemovePeer (birdMgr h) (pa_ASN p));
              _ ← on_sys (RemovePeerByIface (wgMgr h) (add_iface p));
              sendResponse (ID msg) false ("store put failed: " +:+ err_text e)
          | Ok _ => sendResponse (ID msg) true "peer added successfully"
          end
      end
  end.

Lemma wp_add_from h msg p c s0 s : h_ws s = Some c -> add_ready h p s0 -> h_store s = h_store s0 ->
  tunnels (h_sys s) = tunnels (h_sys s0) ∖ {[add_iface p]} ->
  wp (add_from h msg p) (fun _ => add_post msg p c s0) s.
Proof.
  intros Hc [Hdir Hname Hpaths Hbirdc Hconf Hst Hinfo] Hs0 Ht. unfold add_from.
  destruct s as [sys st ws kx]. cbn [h_sys h_store h_ws h_keyx] in *. subst st.
  zoom_sys; [apply wp_AddPeerWithIface|]. intros wgr sys1 [Ho _]. apply add_outcome_tunnels in Ho as [Ht1 Hc1].
  destruct wgr as [u|e]; cbn [is_ok] in *.
  2:{ apply wp_add_answer; cbn [h_ws h_sys h_store]; [done|split; [set_solver|done]|set_solver]. }
  specialize (Hc1 eq_refl). zoom_sys; [apply wp_bird_AddPeer|]. intros birdr sys2 Hb. cbn [h_sys h_store] in *.
  assert (Hc2 : has_conf (wgMgr h) (add_iface p) sys2).
  { unfold has_conf. by erewrite bird_add_frame. }
  apply bird_add_tunnels in Hb; [|done]. destruct birdr as [u'|e].
  2:{ zoom_sys; [by apply wp_Remove_tunnel|]. intros _ sys3 [Ht3 _].
      apply wp_add_answer; cbn [h_ws h_sys h_store] in *; [done|split; [set_solver|done]|set_solver]. }
  zoom_sys; [by apply (wp_sexec (OpPutPeer (pa_PeerID p) (add_info p)))|]. intros put st' [Hst' Ha].
  destruct put as [u2|e]; cbn [is_ok] in *.
  - apply wp_add_answer; cbn [h_ws h_sys h_store] in *; [done| |set_solver]. split; [set_solver|].
    cbn [h_store]. rewrite Ha. destruct (abs _) as [ps ver0 upd0 kp0 sp0]. eexists. apply lookup_insert_eq.
  - zoom_sys; [by apply wp_bird_remove|]. intros _ sys3 [Ht3 Hf3].
    assert (Hc3 : has_conf (wgMgr h) (add_iface p) sys3) by (unfold has_conf; by rewrite Hf3).
    zoom_sys; [by apply wp_Remove_tunnel|]. intros _ sys4 [Ht4 _].
    apply wp_add_answer; cbn [h_ws h_sys h_store] in *; [done|split; [set_solver|done]|set_solver].
Qed.

Lemma wp_peer_add h msg p c s : Unmarshal PeerAdd_fields PeerAdd_zero (Payload msg) = Some p ->
  h_ws s = Some c -> add_ready h p s -> wp (handlePeerAdd h msg) (fun _ => add_post msg p c s) s.
Proof.
  intros Hp Hc Hready. pose proof Hready as [Hdir Hname Hpaths Hbirdc Hconf Hst Hinfo].
  unfold handlePeerAdd, with_payload. rewrite Hp. fold (add_iface p).
  zoom_sys; [by apply wp_GetPeer|]. intros known st' [-> Hknown].
  set (s1 := MkH (h_sys s) (h_store s) (h_ws s) (h_keyx s)). assert (s1 = s) as -> by (by destruct s).
  wp_step. apply wp_mono with (Q := fun active s' => h_store s' = h_store s /\ h_ws s' = h_ws s /\
    tunnels (h_sys s') = tunnels (h_sys s) /\ sys_fs (h_sys s') = sys_fs (h_sys s) /\
    (active = true -> is_ok known = true /\ add_iface p ∈ tunnels (h_sys s))).
  { destruct (is_ok known); [|by wp_steps]. apply wp_zoom. eapply wp_mono; [by apply wp_IsPeerUp|].
    intros b sys' (-> & Ht & Hf). cbn. split_and!; [done|done|done|done|]. intros H%bool_decide_eq_true. done. }
  intros active s2 (Hst2 & Hws2 & Ht2 & Hf2 & Hact). destruct active.
  { destruct Hact as [Hk Hup]; [done|]. apply wp_add_answer; [congruence| |by rewrite Ht2].
    split; [by rewrite Ht2|]. rewrite Hst2. destruct known; [eauto|done]. }
  zoom_sys; [by apply wp_IsPeerUp|]. intros isup sys3 (-> & Ht3 & Hf3).
  wp_step. apply wp_mono with (Q := fun _ s' => h_store s' = h_store s /\ h_ws s' = h_ws s /\
    tunnels (h_sys s') = tunnels (h_sys s) ∖ {[add_iface p]}).
  - case_bool_decide as Hup.
    + apply wp_zoom. eapply wp_mono; [apply wp_Remove_tunnel; [done|]|].
      * intros _. unfold has_conf. cbn [h_sys]. rewrite Hf3, Hf2. apply Hconf. by rewrite <-Ht2.
      * intros _ sys4 [Ht4 _]. cbn [h_store h_ws h_sys] in *. split_and!; [done|done|]. by rewrite Ht4, Ht3, Ht2.
    + wp_steps. cbn [h_store h_ws h_sys]. split_and!; [done|done|]. rewrite Ht3. set_solver.
  - intros _ s4 (Hst4 & Hws4 & Ht4). apply (wp_add_from h msg p c s s4); congruence.
Qed.

(** C1: peer.add on every branch.  From a state where tunnels that are up have their file, the
    handler returns after one answer.  If the answer reports success, the tunnel of the peer is up
    and the store has a record of it; if it reports a failure, at whichever step, the tunnel is
    down (an earlier one included) and the stored data are as before.  Other tunnels are not
    touched. *)
Theorem peer_add_spec h msg p c s : Unmarshal PeerAdd_fields PeerAdd_zero (Payload msg) = Some p ->
  h_ws s = Some c -> add_ready h p s ->
  exists s', handlePeerAdd h msg s = (Ret tt, s') /\ add_post msg p c s s'.
Proof.
  intros Hp Hc Hr. destruct (proj1 (wp_run _ _ _) (wp_peer_add h msg p c s Hp Hc Hr)) as ([] & s' & E & H). eauto.
Qed.

End peer_add.

(** The peer of the simulated command, on a node with no interface up. *)
Definition sim_peer : PeerAddPayload := MkPeerAdd "p1" 4242420123 "PUB=" "host:1" "fe80::123" 20123 "dn42x" None None.

Lemma sim_add_ready check reload : add_ready sim_handler sim_peer (world_of (MkSim ∅ check reload "")).
Proof.
  split; try (vm_compute; reflexivity).
  - vm_compute. intros H. repeat (apply elem_of_cons in H as [H|H]; [discriminate|]). by apply elem_of_nil in H.
  - vm_compute. discriminate.
  - vm_compute. discriminate.
  - intros H. exfalso. revert H. apply not_elem_of_empty.
  - split; reflexivity.
  - split_and!; try reflexivity. vm_compute. split; discriminate || reflexivity.
Qed.

Lemma peer_add_spec_witness : exists p s', Unmarshal PeerAdd_fields PeerAdd_zero (Payload add_msg) = Some p /\
  handlePeerAdd sim_handler add_msg world = (Ret tt, s') /\ add_post add_msg p sim_client world s'.
Proof.
  eexists. destruct (peer_add_spec sim_handler add_msg sim_peer
    sim_client world) as (s' & E & H).
  - vm_compute. reflexivity.
  - reflexivity.
  - apply sim_add_ready.
  - exists s'. split; [vm_compute; reflexivity|]. split; [exact E|exact H].
Defined.

(** ** A reload that fails *)


Section leftover.
Context `{env : HostEnv} {Q : QuietCommands env} {W : WgLaws env} `{B : Bolt} {L : BoltLaws B} `{A : Aead}.






End leftover.



