(* ===== verification/SyncFacts.v ===== *)
(** Properties of [peers.sync], [peer.remove] and [peers.import]. *)

From S2P Require Import Prelude GoStrings GoPath Json GoStruct GoNet Host SimHost Store StoreFacts Wg WgFacts Bird BirdFacts.
From S2P Require Import Primitives Crypto Ws WsFacts Handler Network Update KeyExchange World Answers HandlerFacts.

Section frames.
Context `{env : HostEnv} `{B : Bolt} `{A : Aead}.

(** A step on the node leaves the store and the client alone. *)
Lemma wp_on_sys_any {T} (m : M Sys T) (P : T -> HState -> Prop) s : Returns m ->
  (forall a sys', P a (MkH sys' (h_store s) (h_ws s) (h_keyx s))) -> wp (on_sys m) P s.
Proof. intros Hm HP. apply wp_zoom. destruct (Hm (h_sys s)) as (a & s' & E). apply wp_run. eauto. Qed.

Definition same_data (s s' : HState) : Prop := h_store s' = h_store s /\ h_ws s' = h_ws s /\ h_keyx s' = h_keyx s.

Lemma wp_teardown h info s : wp (teardown h info) (fun _ s' => same_data s s') s.
Proof.
  unfold teardown. wp_step. apply wp_on_sys_any; [returns_tac|]. intros _ sys1. wp_step.
  apply wp_on_sys_any; [apply _|]. intros _ sys2. by wp_steps.
Qed.

Lemma wp_mfor_same {T} (f : T -> M HState unit) l s :
  (forall x s0, wp (f x) (fun _ s' => same_data s0 s') s0) -> wp (mfor f l) (fun _ s' => same_data s s') s.
Proof.
  intros Hf. unfold mfor. eapply (wp_mfold (fun _ _ s' => same_data s s') _ l tt []); [done| |done].
  intros d x b s0 _ (H1 & H2 & H3). eapply wp_mono; [apply Hf|]. intros _ s1 (H4 & H5 & H6). split_and!; congruence.
Qed.

(** The last step of a handler that answers with data. *)
Lemma wp_send_last msg c (P : unit -> HState -> Prop) s : h_ws s = Some c ->
  (forall r c', Send msg c = (Ret r, c') -> P tt (set_ws (Some c') s)) -> wp (_ ← ws_send msg; mret tt) P s.
Proof.
  intros Hc HP. unfold wp, ws_send, mbind, M_bind. rewrite Hc.
  destruct (Send msg c) as [[r|e] c'] eqn:E; [by eapply HP|].
  unfold Send in E. destruct (negb (conn c)); [done|]. destruct (encode_frame _ c), (enqueue _ _). done.
Qed.
End frames.

Section sync.
Context `{env : HostEnv} {Q : QuietCommands env} {W : WgLaws env} `{B : Bolt} {L : BoltLaws B} `{A : Aead}.

(** ** One peer of [peers.sync] *)

(** Does [os.Stat] find that there is no such file?  A call that fails otherwise does not. *)
Definition stat_missing (path : string) (s : Sys) : bool :=
  match (Stat path s).1 with Ret st => IsNotExist st | Halt _ => false end.

Lemma wp_Stat_missing path (P : res fnode -> Sys -> Prop) s :
  (forall st fl, IsNotExist st = stat_missing path s -> (sys_faults s = [] -> fl = []) ->
     P st (MkSys (sys_fs s) (sys_host s) fl)) -> wp (Stat path) P s.
Proof.
  intros H. apply wp_run. destruct s as [files hh [|[e|] fl]];
    unfold stat_missing, Stat, syscall, mbind, M_bind, next_fault in *; cbn [sys_faults sys_fs sys_host] in *.
  - destruct (files !! path) as [n|]; eexists _, _; (split; [done|]); by apply H.
  - eexists _, _. split; [done|]. by apply H.
  - destruct (files !! path) as [n|]; eexists _, _; (split; [done|]); by apply H.
Qed.

Lemma stat_present path s : is_Some (sys_fs s !! path) -> stat_missing path s = false.
Proof.
  intros [n Hn]. destruct s as [files hh [|[e|] fl]]; unfold stat_missing, Stat, syscall, mbind, M_bind, next_fault;
    cbn [sys_faults sys_fs sys_host] in *; rewrite ?Hn; done.
Qed.

Lemma stat_absent path s : sys_faults s = [] -> sys_fs s !! path = None -> stat_missing path s = true.
Proof.
  destruct s as [files hh fl]. cbn [sys_faults sys_fs]. intros -> Hn. unfold stat_missing, Stat. rewrite syscall_ok. by rewrite Hn.
Qed.

Definition sync_iface (p : SyncPeer) : string := iface_of (pa_WgInterface (sp_base p)) (pa_ASN (sp_base p)).
Definition sync_file (h : Handler) (p : SyncPeer) : string :=
  Join [peerDir (birdMgr h); or_default (sp_BirdConfigFilename p) (conf_name (pa_ASN (sp_base p)))].

(** A peer the center may list: it has an ASN and an id. *)
Definition listed_ok (p : SyncPeer) : bool :=
  (0 <? pa_ASN (sp_base p)) && negb (bool_decide (pa_PeerID (sp_base p) = "")).

(** The node with the same files and tunnels; no system call starts to fail. *)
Definition same_node (s s' : Sys) : Prop :=
  sys_fs s' = sys_fs s /\ tunnels s' = tunnels s /\ (sys_faults s = [] -> sys_faults s' = []).

(** What becomes of the tunnel of a peer.  Without a key it is left as it is if its file is there,
    and the peer is skipped if not.  With a key it is left alone if its file is there and it is
    up, and set up afresh otherwise. *)
Inductive tunnel_part (h : Handler) (p : SyncPeer) (s : Sys) : option bool -> Sys -> Prop :=
| tp_skip s1 : pa_RemoteWgPubkey (sp_base p) = "" -> stat_missing (confPath (wgMgr h) (sync_iface p)) s = true ->
    same_node s s1 -> tunnel_part h p s None s1
| tp_kept s1 : pa_RemoteWgPubkey (sp_base p) = "" \/ sync_iface p ∈ tunnels s ->
    stat_missing (confPath (wgMgr h) (sync_iface p)) s = false -> same_node s s1 -> tunnel_part h p s (Some true) s1
| tp_made s1 r s2 : pa_RemoteWgPubkey (sp_base p) <> "" ->
    stat_missing (confPath (wgMgr h) (sync_iface p)) s = true \/ sync_iface p ∉ tunnels s -> same_node s s1 ->
    add_outcome (wgMgr h) (sync_iface p)
      (peer_text (wgMgr h) (pa_ASN (sp_base p)) (pa_ListenPort (sp_base p)) (pa_RemoteWgPubkey (sp_base p))
         (pa_RemoteEndpoint (sp_base p)) (pa_MTU (sp_base p)) (pa_WgPreSharedKey (sp_base p))) s1 r s2 ->
    tunnel_part h p s (Some (is_ok r)) s2.

(** The session is left alone if its file is there and added if not. *)
Inductive session_part (h : Handler) (p : SyncPeer) (s : Sys) : bool -> Sys -> Prop :=
| sp_kept s1 : stat_missing (sync_file h p) s = false -> same_node s s1 -> session_part h p s true s1
| sp_made s1 r s2 : stat_missing (sync_file h p) s = true -> same_node s s1 ->
    bird_add_outcome (birdMgr h) (pa_ASN (sp_base p))
      (bird_text (pa_ASN (sp_base p)) (pa_RemoteLLA (sp_base p)) (sync_iface p)) s1 r s2 ->
    session_part h p s (is_ok r) s2.

Inductive outcome := Skipped | Applied | Failed.
#[global] Instance outcome_eq_dec : EqDecision outcome.
Proof. solve_decision. Defined.

(** One listed peer: skipped when it is invalid or has neither a key nor a tunnel, applied when both
    parts are in order, failed when one is not. *)
Inductive peer_step (h : Handler) (p : SyncPeer) (s : Sys) : outcome -> Sys -> Prop :=
| ps_invalid : listed_ok p = false -> peer_step h p s Skipped s
| ps_nokey s1 : listed_ok p = true -> tunnel_part h p s None s1 -> peer_step h p s Skipped s1
| ps_done ok1 s1 ok2 s2 : listed_ok p = true -> tunnel_part h p s (Some ok1) s1 -> session_part h p s1 ok2 s2 ->
    peer_step h p s (if ok1 && ok2 then Applied else Failed) s2.

Lemma wp_sync_wg h p s : sync_iface p ∉ ["all"; "interfaces"] ->
  wp (sync_wg h (sp_base p) (sync_iface p)) (fun r s' => tunnel_part h p s (negb <$> r) s') s.
Proof.
  intros Hn. unfold sync_wg. wp_step. apply wp_Stat_missing. intros st fl Hst Hfl. rewrite Hst.
  fold (confPath (wgMgr h) (sync_iface p)). change (Join _) with (confPath (wgMgr h) (sync_iface p)).
  set (miss := stat_missing _ s) in *. case_decide as Hk.
  { wp_steps. destruct miss eqn:Em; cbn; [by apply tp_skip|]. apply tp_kept; auto. done. }
  assert (Hadd : forall s1, same_node s s1 -> miss = true \/ sync_iface p ∉ tunnels s ->
    wp (r ← AddPeerWithIface (wgMgr h) (sync_iface p) (pa_ASN (sp_base p)) (pa_ListenPort (sp_base p))
          (pa_RemoteWgPubkey (sp_base p)) (pa_RemoteEndpoint (sp_base p)) (pa_MTU (sp_base p)) (pa_WgPreSharedKey (sp_base p));
        mret (Some (negb (is_ok r)))) (fun r s' => tunnel_part h p s (negb <$> r) s') s1).
  { intros s1 Hs1 Hc. wp_step. eapply wp_mono; [apply wp_AddPeerWithIface|]. intros r s2 [Ho _]. wp_steps.
    cbn. rewrite negb_involutive. by eapply tp_made. }
  wp_step. destruct miss eqn:Em; cbn [negb orb].
  - wp_step. apply Hadd; [done|by left].
  - eapply wp_eq; [apply peer_up_eq|]. cbn [sys_fs sys_host sys_faults]. rewrite wg_show_law by done.
    assert (Hs1 : same_node s (MkSys (sys_fs s) (host_after ["wg"; "show"; sync_iface p] (sys_fs s) (sys_host s)) fl)).
    { split_and!; [done| |done]. unfold tunnels. cbn [sys_host]. by rewrite other_cmds. }
    case_bool_decide as Hup; cbn [negb]; [|by apply Hadd; [done|right]]. wp_steps. cbn. apply tp_kept; [by right|done|done].
Qed.

Lemma wp_sync_bird h p s : wp (sync_bird h p (sync_iface p)) (fun r s' => session_part h p s (negb r) s') s.
Proof.
  unfold sync_bird. wp_step. apply wp_Stat_missing. intros st fl Hst Hfl.
  change (Join _) with (sync_file h p) in *. rewrite Hst. destruct (stat_missing _ s) eqn:Em.
  - wp_step. eapply wp_mono; [apply wp_bird_AddPeer|]. intros r s2 Ho. wp_steps. rewrite negb_involutive.
    by eapply sp_made; [done| |exact Ho].
  - wp_steps. by apply sp_kept.
Qed.

(** The lists and the map a run of outcomes gives. *)
Definition ids (o : outcome) (run : list (SyncPeer * outcome)) : list string :=
  (fun po => pa_PeerID (sp_base po.1)) <$> filter (fun po => po.2 = o) run.
Definition kept (run : list (SyncPeer * outcome)) : gmap string PeerInfo :=
  fold_left (fun m po => if decide (po.2 = Skipped) then m else <[pa_PeerID (sp_base po.1) := sync_info po.1]> m) run ∅.
Definition sync_result (run : list (SyncPeer * outcome)) : syncState := MkSync (ids Applied run) (ids Failed run) (kept run).

Lemma wp_sync_peer h run p s : sync_iface p ∉ ["all"; "interfaces"] ->
  wp (sync_peer h (sync_result run) p) (fun st' s' => exists o sys', s' = MkH sys' (h_store s) (h_ws s) (h_keyx s) /\
    peer_step h p (h_sys s) o sys' /\ st' = sync_result (run ++ [(p, o)])) s.
Proof.
  intros Hn. unfold sync_peer.
  assert (Hids : forall o o', ids o (run ++ [(p, o')]) = ids o run ++ (if decide (o' = o) then [pa_PeerID (sp_base p)] else [])).
  { intros o o'. unfold ids. rewrite filter_app, fmap_app, filter_cons, filter_nil. cbn [snd]. by case_decide. }
  assert (Hkept : forall o', kept (run ++ [(p, o')]) =
    if decide (o' = Skipped) then kept run else <[pa_PeerID (sp_base p) := sync_info p]> (kept run)).
  { intros o'. unfold kept. by rewrite fold_left_app. }
  assert (Hok : listed_ok p = negb ((pa_ASN (sp_base p) <=? 0) || bool_decide (pa_PeerID (sp_base p) = ""))).
  { unfold listed_ok. by rewrite negb_orb, Z.ltb_antisym. }
  assert (Hskip : sync_result (run ++ [(p, Skipped)]) = sync_result run).
  { unfold sync_result. by rewrite !Hids, Hkept, !app_nil_r. }
  destruct (_ || _).
  { wp_steps. exists Skipped, (h_sys s). split_and!; [by destruct s|by apply ps_invalid|done]. }
  fold (sync_iface p). wp_step. apply wp_zoom. eapply wp_mono; [by apply wp_sync_wg|]. intros r sys1 Ht.
  destruct r as [wf|]; cbn [fmap option_fmap option_map] in Ht.
  2:{ wp_steps. exists Skipped, sys1. split_and!; [done|by apply ps_nokey|done]. }
  wp_step. apply wp_zoom. eapply wp_mono; [apply wp_sync_bird|]. cbn [h_sys h_store h_ws h_keyx]. intros bf sys2 Hb.
  pose proof (ps_done h p (h_sys s) _ _ _ _ Hok Ht Hb) as Hs. rewrite <-negb_orb in Hs.
  destruct (wf || bf); cbn [negb] in Hs; wp_steps; eexists _, sys2; (split_and!; [done|exact Hs|]);
    unfold sync_result; rewrite !Hids, Hkept; cbn; by rewrite app_nil_r.
Qed.

(** The peers of the list in order. *)
Inductive sync_steps (h : Handler) : list (SyncPeer * outcome) -> Sys -> Sys -> Prop :=
| ss_nil s : sync_steps h [] s s
| ss_snoc run s s1 p o s2 : sync_steps h run s s1 -> peer_step h p s1 o s2 -> sync_steps h (run ++ [(p, o)]) s s2.

Lemma wp_sync_loop h peers s : (forall p, p ∈ peers -> sync_iface p ∉ ["all"; "interfaces"]) ->
  wp (mfold (sync_peer h) peers (MkSync [] [] ∅)) (fun st s' => exists run sys', run.*1 = peers /\ st = sync_result run /\
    sync_steps h run (h_sys s) sys' /\ s' = MkH sys' (h_store s) (h_ws s) (h_keyx s)) s.
Proof.
  intros Hn. apply (wp_mfold (fun seen st s' => exists run sys', run.*1 = seen /\ st = sync_result run /\
    sync_steps h run (h_sys s) sys' /\ s' = MkH sys' (h_store s) (h_ws s) (h_keyx s)) _ peers _ []).
  - exists [], (h_sys s). split_and!; [done|done|constructor|by destruct s].
  - intros seen p st s0 Hp (run & sys' & <- & -> & Hs & ->). eapply wp_mono; [by apply wp_sync_peer, Hn|].
    cbn [h_sys h_store h_ws h_keyx]. intros st' s1 (o & sys1 & -> & Ho & ->). exists (run ++ [(p, o)]), sys1.
    split_and!; [by rewrite fmap_app|done|by econstructor|done].
  - auto.
Qed.

(** ** The whole command *)

Definition sync_answer (msg : Message) (applied failed : list string) : Message :=
  data_response (ID msg) (JObj [("applied", JArr (JStr <$> applied)); ("failed", JArr (JStr <$> failed))]).

(** The stored peers that are not to be kept. *)
Definition stale (keep : gmap string PeerInfo) (stored : list (string * PeerInfo)) : list PeerInfo :=
  snd <$> filter (fun kv => keep !! kv.1 = None) stored.

Lemma stale_visit keep stored : visit (stale_step keep) stored [] = (stale keep stored, None).
Proof.
  rewrite visit_pure by done. unfold stale. f_equal.
  enough (forall acc, fold_left (fun a p => (stale_step keep a p.1 p.2).1) stored acc
    = acc ++ (snd <$> filter (fun kv => keep !! kv.1 = None) stored)) as H by apply H.
  induction stored as [|[k i] stored IH]; intros acc; cbn [fold_left]; [by rewrite filter_nil, app_nil_r|].
  rewrite IH, filter_cons. cbn [stale_step fst snd]. case_decide as Hk; destruct (keep !! k); try done.
  by rewrite <-app_assoc.
Qed.

Lemma kept_from run id i : kept run !! id = Some i -> exists p, p ∈ run.*1 /\ i = sync_info p.
Proof.
  unfold kept. induction run as [|[p o] run IH] using rev_ind; [done|]. rewrite fold_left_app, fmap_app. cbn [fold_left fst snd].
  case_decide; [intros H1; destruct (IH H1) as (q & Hq & ->); exists q; set_solver|].
  intros [[_ <-]|[_ H1]]%lookup_insert_Some; [exists p; set_solver|]. destruct (IH H1) as (q & Hq & ->). exists q. set_solver.
Qed.

(** What the command did: a run of outcomes, the replacement of the store, the teardown of the
    stale peers and the answer. *)
Definition sync_post (h : Handler) (msg : Message) (peers : list SyncPeer) (c : Client) (s s' : HState) : Prop :=
  exists run sys1 r rs c', run.*1 = peers /\ sync_steps h run (h_sys s) sys1 /\
    ReplaceAll (kept run) (h_store s) = (Ret r, h_store s') /\
    a_peers (abs (st_db (h_store s'))) = (if is_ok r then kept run else a_peers (abs (st_db (h_store s)))) /\
    mfor (teardown h) (stale (kept run) (peers_of (st_db (h_store s)))) (MkH sys1 (h_store s') (Some c) (h_keyx s))
      = (Ret tt, MkH (h_sys s') (h_store s') (Some c) (h_keyx s)) /\
    Send (sync_answer msg (ids Applied run) (ids Failed run)) c = (Ret rs, c') /\ h_ws s' = Some c'.

Lemma wp_sync h msg peers c s : Unmarshal Sync_fields [] (Payload msg) = Some peers ->
  h_ws s = Some c -> store_ok (h_store s) ->
  (forall p, p ∈ peers -> peer_wf (sync_info p) /\ sync_iface p ∉ ["all"; "interfaces"]) ->
  wp (handlePeersSync h msg) (fun _ s' => sync_post h msg peers c s s') s.
Proof.
  intros Hp Hc Hst Hw. unfold handlePeersSync. rewrite Hp. wp_step. eapply wp_mono; [apply wp_sync_loop; by apply Hw|].
  intros st s1 (run & sys1 & Hrun & -> & Hs & ->). wp_step. apply wp_zoom. cbn [h_store].
  eapply wp_eq; [apply ForEachPeer_visit, Hst|]. cbn beta. rewrite stale_visit. cbn [fst sync_result sy_peers sy_applied sy_failed].
  wp_step. apply wp_zoom. cbn [h_store h_sys h_ws h_keyx].
  assert (Hop : op_wf (OpReplaceAll (kept run))).
  { intros id i Hi. destruct (kept_from run id i Hi) as (p & Hin & ->). apply Hw. by rewrite <-Hrun. }
  pose proof (wp_sexec (OpReplaceAll (kept run)) (h_store s) Hst Hop) as Hr.
  apply wp_run in Hr as (r & st2 & Er & Hst2 & Ha). eapply wp_eq; [exact Er|]. rewrite Hc.
  wp_step. pose proof (wp_mfor_same (teardown h) (stale (kept run) (peers_of (st_db (h_store s))))
    (MkH sys1 st2 (Some c) (h_keyx s)) (wp_teardown h)) as Ht. apply wp_run in Ht as ([] & s3 & E3 & Hs3 & Hw3 & Hk3).
  cbn [h_store h_ws h_keyx] in *. eapply wp_eq; [exact E3|]. apply (wp_send_last _ c); [done|]. intros rs c' Es.
  exists run, sys1, r, rs, c'. cbn [h_ws h_store h_sys set_ws]. rewrite Hs3. split_and!; [done|done|exact Er| | |exact Es|done].
  - rewrite Ha. destruct (is_ok r); [|done]. by destruct (abs (st_db (h_store s))).
  - rewrite E3. f_equal. destruct s3. cbn in *. by subst.
Qed.


End sync.

(** ** [peer.remove] *)

Section remove.
Context `{env : HostEnv} {Q : QuietCommands env} {W : WgLaws env} `{B : Bolt} {L : BoltLaws B} `{A : Aead}.

Lemma wp_remove_filename m name s : birdcPath m <> "wg-quick" ->
  wp (RemovePeerByFilename m name) (fun _ s' => tunnels s' = tunnels s /\
    (forall path, path <> Join [peerDir m; name] -> sys_fs s' !! path = sys_fs s !! path) /\
    (sys_faults s = [] -> no_dir (sys_fs s) (Join [peerDir m; name]) ->
       sys_faults s' = [] /\ sys_fs s' !! Join [peerDir m; name] = None)) s.
Proof.
  intros Hb. eapply wp_mono; [apply (wp_conj _ (fun _ s' => tunnels s' = tunnels s /\
    forall path, path <> Join [peerDir m; name] -> sys_fs s' !! path = sys_fs s !! path)
    (fun _ s' => sys_faults s = [] -> no_dir (sys_fs s) (Join [peerDir m; name]) ->
       sys_faults s' = [] /\ sys_fs s' !! Join [peerDir m; name] = None))|by intros ? ? [[? ?] ?]].
  - unfold RemovePeerByFilename. wp_step. apply wp_Remove; intros; apply wp_reload; intros;
      unfold tunnels, reload_cmd; cbn [sys_host sys_fs]; (split; [by rewrite other_cmds|]); [done|].
    intros path Hp. by rewrite lookup_delete_ne.
  - destruct (returns_RemovePeerByFilename m name s) as (r & s' & E). eapply wp_eq; [exact E|]. intros Hfl Hd.
    destruct s as [files hh fl]. cbn [sys_faults sys_fs] in *. subst fl. destruct (bird_remove_ok m name files hh Hd) as [r' E'].
    rewrite E' in E. injection E as <- <-. split; [done|]. apply lookup_delete_eq.
Qed.

(** Taking down a tunnel that has its file. *)
Lemma wp_remove_tunnel m i s : wg_dir_ok m i -> (i ∈ tunnels s -> has_conf m i s) ->
  wp (RemovePeerByIface m i) (fun _ s' => tunnels s' = tunnels s ∖ {[i]} /\
    (forall path, path <> confPath m i -> sys_fs s' !! path = sys_fs s !! path) /\
    (sys_faults s = [] -> no_dir (sys_fs s) (confPath m i) -> sys_fs s' !! confPath m i = None)) s.
Proof.
  intros Hd Hc. pose proof (wp_Remove_tunnel m i s Hd Hc) as H. apply wp_run in H as (r & s' & E & Ht & Hf).
  eapply wp_eq; [exact E|]. split_and!; [done|done|]. intros Hfl Hn. destruct s as [files hh fl].
  cbn [sys_faults sys_fs] in *. subst fl. rewrite wg_remove_ok in E by done. injection E as <- <-. apply lookup_delete_eq.
Qed.

(** Both parts of a peer, in the order of the commands. *)
Definition parts_gone (h : Handler) (i name : string) (s s' : Sys) : Prop :=
  let file := Join [peerDir (birdMgr h); name] in let conf := confPath (wgMgr h) i in
  tunnels s' = tunnels s ∖ {[i]} /\
  (forall path, path <> file -> path <> conf -> sys_fs s' !! path = sys_fs s !! path) /\
  (sys_faults s = [] -> no_dir (sys_fs s) file -> no_dir (sys_fs s) conf -> sys_fs s' !! file = None /\ sys_fs s' !! conf = None).

(** What the peer's parts have to be like. *)
Record removable (h : Handler) (i name : string) (s : Sys) : Prop := {
  rm_birdc : birdcPath (birdMgr h) <> "wg-quick";
  rm_dir : wg_dir_ok (wgMgr h) i;
  rm_paths : Join [peerDir (birdMgr h); name] <> confPath (wgMgr h) i;
  rm_conf : i ∈ tunnels s -> has_conf (wgMgr h) i s;
}.

Lemma wp_remove_parts {T} h i name (k : M HState T) (P : T -> HState -> Prop) s : removable h i name (h_sys s) ->
  (forall sys', parts_gone h i name (h_sys s) sys' -> wp k P (MkH sys' (h_store s) (h_ws s) (h_keyx s))) ->
  wp (_ ← on_sys (RemovePeerByFilename (birdMgr h) name); _ ← on_sys (RemovePeerByIface (wgMgr h) i); k) P s.
Proof.
  intros [Hb Hdir Hne Hconf] HP. wp_step. apply wp_zoom. eapply wp_mono; [by apply wp_remove_filename|].
  intros _ sys1 (Ht1 & Hf1 & Hg1). wp_step. apply wp_zoom. cbn [h_sys h_store h_ws h_keyx].
  eapply wp_mono; [apply wp_remove_tunnel; [done|]|].
  { intros Hi. unfold has_conf. rewrite Hf1 by done. apply Hconf. by rewrite <-Ht1. }
  intros _ sys2 (Ht2 & Hf2 & Hg2). cbn [h_sys h_store h_ws h_keyx]. apply HP. split_and!.
  - by rewrite Ht2, Ht1.
  - intros path H1 H2. by rewrite Hf2, Hf1.
  - intros Hfl Hd1 Hd2. destruct (Hg1 Hfl Hd1) as [Hfl1 Hgone]. split; [by rewrite Hf2|]. apply Hg2; [done|].
    intros n. rewrite Hf1 by done. apply Hd2.
Qed.

Definition remove_post (h : Handler) (msg : Message) (id : string) (info : PeerInfo) (c : Client) (s s' : HState) : Prop :=
  exists r rs c', Send (response (ID msg) true "peer removed successfully") c = (Ret rs, c') /\ h_ws s' = Some c' /\
    parts_gone h (WgInterface info) (BirdConfigFilename info) (h_sys s) (h_sys s') /\
    DeletePeer id (h_store s) = (Ret r, h_store s') /\
    a_peers (abs (st_db (h_store s'))) =
      if is_ok r then delete id (a_peers (abs (st_db (h_store s)))) else a_peers (abs (st_db (h_store s))).

Lemma wp_peer_remove h msg p info c s :
  Unmarshal PeerRemove_fields (MkPeerRemove "" 0) (Payload msg) = Some p -> h_ws s = Some c ->
  store_ok (h_store s) -> a_peers (abs (st_db (h_store s))) !! pr_PeerID p = Some info ->
  pr_ASN p <> 0 \/ ASN info <> 0 -> WgInterface info <> "" -> BirdConfigFilename info <> "" ->
  removable h (WgInterface info) (BirdConfigFilename info) (h_sys s) ->
  wp (handlePeerRemove h msg) (fun _ => remove_post h msg (pr_PeerID p) info c s) s.
Proof.
  intros Hp Hc Hst Hinfo Hasn Hif Hfile Hrm. unfold handlePeerRemove, with_payload. rewrite Hp. wp_step.
  apply wp_mono with (Q := fun asn s' => s' = s /\ asn <> 0).
  { destruct (Z.eqb_spec (pr_ASN p) 0) as [E|E]; [|by wp_steps].
    wp_step. apply wp_zoom. eapply wp_mono; [by apply wp_GetPeer|]. intros r st' [-> Hr]. wp_steps.
    split; [by destruct s|]. destruct r; [|congruence]. rewrite Hinfo in Hr. injection Hr as ->. naive_solver. }
  intros asn s1 [-> Ha]. destruct (Z.eqb_spec asn 0); [done|].
  wp_step. apply wp_zoom. eapply wp_mono; [by apply wp_GetPeer|]. intros stored st' [-> Hr].
  destruct stored as [i|]; [|congruence]. assert (i = info) as -> by congruence.
  rewrite !decide_False by done. apply wp_remove_parts; [done|]. cbn [h_sys h_store h_ws h_keyx]. intros sys' Hgone.
  wp_step. apply wp_zoom. cbn [h_store].
  pose proof (wp_sexec (OpDeletePeer (pr_PeerID p)) (h_store s) Hst I) as Hd.
  apply wp_run in Hd as (r & st2 & Er & Hst2 & Ha2). eapply wp_eq; [exact Er|].
  apply (wp_respond _ _ _ c); [done|]. intros rs c' Es. exists r, rs, c'. cbn [h_ws h_store h_sys set_ws].
  split_and!; [done|done|done|exact Er|]. rewrite Ha2. destruct (is_ok r); [|done]. by destruct (abs (st_db (h_store s))).
Qed.

(** C8: peer.remove of a peer the store knows, with the interface and file name peer.add and
    peers.sync record: it answers success, the peer's tunnel is down, every other tunnel and every
    file but the peer's two are as they were, those two are gone unless a system call fails or a
    directory has their name, and the record is deleted if the database lets it be. *)
Theorem peer_remove_spec h msg p info c s :
  Unmarshal PeerRemove_fields (MkPeerRemove "" 0) (Payload msg) = Some p -> h_ws s = Some c ->
  store_ok (h_store s) -> a_peers (abs (st_db (h_store s))) !! pr_PeerID p = Some info ->
  pr_ASN p <> 0 \/ ASN info <> 0 -> WgInterface info <> "" -> BirdConfigFilename info <> "" ->
  removable h (WgInterface info) (BirdConfigFilename info) (h_sys s) ->
  exists s', handlePeerRemove h msg s = (Ret tt, s') /\ remove_post h msg (pr_PeerID p) info c s s'.
Proof.
  intros. pose proof (wp_peer_remove h msg p info c s ltac:(done) ltac:(done) ltac:(done) ltac:(done) ltac:(done)
    ltac:(done) ltac:(done) ltac:(done)) as Hw. apply wp_run in Hw as ([] & s' & E & Hw). eauto.
Qed.

End remove.

(** ** [peers.import] *)

Section import.
Context `{env : HostEnv} `{B : Bolt} `{A : Aead}.

(** Does a stored peer have this ASN? *)
Definition tracked (st : Store) (asn : Z) : bool := existsb (fun p => ASN p.2 =? asn) (peers_of (st_db st)).

(** The sessions a scanned tunnel belongs to, and the list the center is to get: first the tunnels,
    each with its session, then the sessions no tunnel has; nothing whose ASN is tracked. *)
Definition matched_ifaces (wgs : list ScannedPeer) (bgps : list ScannedBGP) : gset string :=
  list_to_set (omap (fun wp => sb_wgInterface <$> bgp_of bgps wp) wgs).
Definition import_spec (st : Store) (wgs : list ScannedPeer) (bgps : list ScannedBGP) : list ImportedPeer :=
  filter (fun p => tracked st (im_ASN p) = false) ((fun wp => import_wg wp (bgp_of bgps wp)) <$> wgs)
  ++ (import_bgp <$> filter (fun bp => tracked st (sb_asn bp) = false /\ sb_wgInterface bp ∉ matched_ifaces wgs bgps) bgps).

Lemma wp_is_tracked asn s : st_open (h_store s) = true ->
  wp (is_tracked asn) (fun b s' => s' = s /\ b = tracked (h_store s) asn) s.
Proof.
  intros Ho. unfold is_tracked. wp_step. apply wp_zoom. eapply wp_eq; [by apply IsASNTracked_eq|]. wp_steps. split; [by destruct s|done].
Qed.

Lemma wp_import_wg bgps wgs s : st_open (h_store s) = true ->
  wp (mfold (import_wg_step bgps) wgs ([], ∅)) (fun acc s' => s' = s /\
    acc.1 = filter (fun p => tracked (h_store s) (im_ASN p) = false) ((fun wp => import_wg wp (bgp_of bgps wp)) <$> wgs) /\
    acc.2 = matched_ifaces wgs bgps) s.
Proof.
  intros Ho. apply (wp_mfold (fun seen acc s' => s' = s /\
    acc.1 = filter (fun p => tracked (h_store s) (im_ASN p) = false) ((fun wp => import_wg wp (bgp_of bgps wp)) <$> seen) /\
    acc.2 = matched_ifaces seen bgps) _ wgs _ []); [done| |done].
  intros seen wp [l m] s0 _ (-> & Hl & Hm). cbn [fst snd] in Hl, Hm. subst l. unfold import_wg_step. wp_step.
  eapply wp_mono; [by apply wp_is_tracked|]. intros b s1 [-> ->]. wp_steps. cbn [fst snd].
  rewrite fmap_app, filter_app. unfold matched_ifaces in *. rewrite omap_app, list_to_set_app_L, <-Hm. cbn [fmap list_fmap omap list_omap].
  split_and!; [done| |].
  - destruct (tracked _ _) eqn:Et.
    + rewrite filter_cons_False by congruence. by rewrite filter_nil, app_nil_r.
    + by rewrite filter_cons_True.
  - destruct (bgp_of bgps wp); cbn; set_solver.
Qed.

Lemma wp_import_bgp m bgps l0 s : st_open (h_store s) = true ->
  wp (mfold (import_bgp_step m) bgps l0) (fun acc s' => s' = s /\
    acc = l0 ++ (import_bgp <$> filter (fun bp => tracked (h_store s) (sb_asn bp) = false /\ sb_wgInterface bp ∉ m) bgps)) s.
Proof.
  intros Ho. apply (wp_mfold (fun seen acc s' => s' = s /\
    acc = l0 ++ (import_bgp <$> filter (fun bp => tracked (h_store s) (sb_asn bp) = false /\ sb_wgInterface bp ∉ m) seen)) _ bgps _ []).
  - split; [done|]. by rewrite filter_nil, app_nil_r.
  - intros seen bp acc s0 _ (-> & ->). unfold import_bgp_step. wp_step.
    eapply wp_mono; [by apply wp_is_tracked|]. intros b s1 [-> ->]. wp_steps. split; [done|].
    rewrite filter_app, fmap_app, app_assoc. destruct (tracked _ _) eqn:Et; cbn [orb].
    + rewrite filter_cons_False by (rewrite Et; by intros []). by rewrite filter_nil, app_nil_r.
    + case_bool_decide as Hin.
      * rewrite filter_cons_False by (by intros []). by rewrite filter_nil, app_nil_r.
      * by rewrite filter_cons_True.
  - done.
Qed.

(** C16: peers.import reports exactly the scanned tunnels and sessions of ASNs that are not
    tracked yet: its loops compute the comprehension import_spec from what the two scans found,
    without changing the store. *)
Theorem peers_import_spec h msg c s wgs bgps sys1 sys2 : h_ws s = Some c -> st_open (h_store s) = true ->
  Wg.ScanPeers (wgMgr h) (h_sys s) = (Ret (Ok wgs), sys1) ->
  Bird.ScanPeers (birdMgr h) sys1 = (Ret (Ok bgps), sys2) ->
  exists rs c', Send (data_response (ID msg) (JObj [("peers", JArr (imported_json <$> import_spec (h_store s) wgs bgps))])) c = (Ret rs, c') /\
    handlePeersImportCommand h msg s = (Ret tt, MkH sys2 (h_store s) (Some c') (h_keyx s)).
Proof.
  intros Hc Ho Ew Eb. enough (wp (handlePeersImportCommand h msg) (fun _ s' => exists rs c',
    Send (data_response (ID msg) (JObj [("peers", JArr (imported_json <$> import_spec (h_store s) wgs bgps))])) c = (Ret rs, c') /\
    s' = MkH sys2 (h_store s) (Some c') (h_keyx s)) s) as H.
  { apply wp_run in H as ([] & s' & E & rs & c' & Es & ->). eauto. }
  unfold handlePeersImportCommand. wp_step. apply wp_zoom. apply wp_run. exists (Ok wgs), sys1. split; [done|].
  wp_step. apply wp_zoom. apply wp_run. exists (Ok bgps), sys2. split; [done|]. wp_step.
  eapply wp_mono; [by apply wp_import_wg|]. intros [l m] s1 (-> & Hl & Hm). cbn [fst snd] in Hl, Hm |- *. wp_step.
  eapply wp_mono; [by apply wp_import_bgp|]. intros l' s2 [-> ->]. cbn [h_store] in *.
  apply (wp_send_last _ c); [done|]. intros rs c' Es. exists rs, c'. split; [|done]. rewrite <-Es.
  unfold import_spec. by rewrite <-Hl, <-Hm.
Qed.

End import.

(** ** Witnesses and findings *)

Definition sync_peer_json (peerID : string) (iface file : string) : jval :=
  JObj [("peer_id", JStr peerID); ("asn", JNum "4242420123"); ("remote_wg_pubkey", JStr "PUB=");
        ("remote_endpoint", JStr "host:1"); ("remote_lla", JStr "fe80::123"); ("listen_port", JNum "20123");
        ("wg_interface", JStr iface); ("bird_config_filename", JStr file)].
Definition sync_msg (peers : list jval) : Message := MkMessage "peers.sync" "7" (Some (JObj [("peers", JArr peers)])) None "".
Definition remove_msg : Message := MkMessage "peer.remove" "8" (Some (JObj [("peer_id", JStr "p1")])) None "".

(** The world after [peer.add] of peer p1. *)
Definition added_world : HState (env := SimEnv) (B := MemBolt) := (handlePeerAdd sim_handler add_msg world).2.

Definition sim_sync_peer (id file : string) : SyncPeer :=
  MkSyncPeer (MkPeerAdd id 4242420123 "PUB=" "host:1" "fe80::123" 20123 "dn42x" None None) "" file.


Definition sim_info : PeerInfo := MkPeerInfo 4242420123 "fe80::123" "dn42x" "dn42_4242420123" "dn42_4242420123.conf".

Lemma peer_remove_spec_witness : exists s', handlePeerRemove sim_handler remove_msg added_world = (Ret tt, s') /\
  remove_post sim_handler remove_msg "p1" sim_info (default sim_client (h_ws added_world)) added_world s'.
Proof.
  apply (peer_remove_spec sim_handler remove_msg (MkPeerRemove "p1" 0) sim_info).
  - vm_compute. reflexivity.
  - vm_compute. reflexivity.
  - split; vm_compute; reflexivity.
  - vm_compute. reflexivity.
  - right. discriminate.
  - discriminate.
  - discriminate.
  - split.
    + vm_compute. discriminate.
    + vm_compute. reflexivity.
    + vm_compute. discriminate.
    + intros _. vm_compute. eexists. reflexivity.
Defined.

Lemma peers_import_spec_witness :
  let s := added_world in
  let x := Wg.ScanPeers sim_wg (h_sys s) in
  let y := Bird.ScanPeers sim_bird x.2 in
  x.1 = Ret (Ok []) /\ y.1 = Ret (Ok [MkScannedBGP "dn42_4242420123" "dn42_4242420123" "dn42_4242420123.conf" 4242420123 "fe80::123" "dn42x"]) /\
  exists c', (handlePeersImportCommand sim_handler (MkMessage "peers.import" "9" None None "") s).2 = MkH y.2 (h_store s) (Some c') (h_keyx s).
Proof.
  intros s x y. assert (Hx : x.1 = Ret (Ok [])) by (vm_compute; reflexivity).
  assert (Hy : y.1 = Ret (Ok [MkScannedBGP "dn42_4242420123" "dn42_4242420123" "dn42_4242420123.conf" 4242420123 "fe80::123" "dn42x"]))
    by (vm_compute; reflexivity).
  split; [exact Hx|]. split; [exact Hy|].
  destruct (peers_import_spec sim_handler (MkMessage "peers.import" "9" None None "") (default sim_client (h_ws s)) s []
    [MkScannedBGP "dn42_4242420123" "dn42_4242420123" "dn42_4242420123.conf" 4242420123 "fe80::123" "dn42x"] x.2 y.2)
    as (rs & c' & _ & E).
  - vm_compute. reflexivity.
  - vm_compute. reflexivity.
  - apply injective_projections; [exact Hx|reflexivity].
  - apply injective_projections; [exact Hy|reflexivity].
  - exists c'. exact (f_equal snd E).
Defined.

(** ** Two ways to lose track of a peer *)

Section findings.
Context `{env : HostEnv} {Q : QuietCommands env} {W : WgLaws env} `{B : Bolt} {L : BoltLaws B} `{A : Aead}.

Lemma parts_gone_same h i name s s1 s' : same_node s s1 -> parts_gone h i name s1 s' -> parts_gone h i name s s'.
Proof. intros (Hf & Ht & Hfl) (H1 & H2 & H3). unfold parts_gone. rewrite <-Ht, <-Hf. auto. Qed.

Lemma removable_same h i name s s1 : same_node s s1 -> removable h i name s -> removable h i name s1.
Proof. intros (Hf & Ht & _) [H1 H2 H3 H4]. split; [done|done|done|]. unfold has_conf. by rewrite Hf, Ht. Qed.

(** The tunnel and the file a record stands for. *)
Definition info_iface (info : PeerInfo) : string := iface_of (WgInterface info) (ASN info).
Definition info_file (info : PeerInfo) : string := or_default (BirdConfigFilename info) (conf_name (ASN info)).

Lemma wp_teardown_parts h info s : removable h (info_iface info) (info_file info) (h_sys s) ->
  wp (teardown h info) (fun _ s' => parts_gone h (info_iface info) (info_file info) (h_sys s) (h_sys s')) s.
Proof.
  intros Hr. unfold teardown. replace (if decide (BirdConfigFilename info = "") then _ else _)
    with (RemovePeerByFilename (birdMgr h) (info_file info)) by (unfold info_file, or_default; by case_decide).
  apply wp_remove_parts; [done|]. intros sys' H'. by wp_step.
Qed.

(** A listed peer whose tunnel is up and whose files are there is left alone. *)
Lemma peer_step_kept h p s o s' : listed_ok p = true -> sync_iface p ∈ tunnels s ->
  has_conf (wgMgr h) (sync_iface p) s -> is_Some (sys_fs s !! sync_file h p) -> peer_step h p s o s' ->
  o = Applied /\ same_node s s'.
Proof.
  intros Hok Hup Hconf Hfile. inversion 1 as [|s1 _ Ht|ok1 s1 ok2 s2 _ Ht Hs]; subst; [congruence| |].
  - inversion Ht as [? _ Hm| |]; subst. by rewrite stat_present in Hm.
  - inversion Ht as [|? _ Hm Hs1|? r ? _ Hm]; subst.
    2:{ rewrite stat_present in Hm by done. by destruct Hm. }
    assert (Hfile1 : is_Some (sys_fs s1 !! sync_file h p)) by (destruct Hs1 as [-> _]; done).
    inversion Hs as [? Hm2 Hs2|? r ? Hm2]; subst; [|by rewrite stat_present in Hm2].
    split; [done|]. destruct Hs1 as (?&?&?), Hs2 as (?&?&?). split_and!; [congruence|congruence|auto].
Qed.

Lemma peers_of_single d id i : a_peers (abs d) = {[id := i]} -> peers_of d = [(id, i)].
Proof.
  cbn [abs a_peers]. intros H. pose proof (map_to_list_to_map (M := gmap string) (peers_of d) (peers_of_nodup d)) as Hp.
  fold (peers_map d) in Hp. rewrite H, map_to_list_singleton in Hp. by apply Permutation_singleton_l in Hp.
Qed.

(** C33: A peers.sync that lists the node's one tunnel under a new peer id takes it down.  If the
    tunnel of the listed peer is up and its files are there, and the store holds the same tunnel
    under another id, then, whatever system calls or commits fail, the peer is reported as applied
    and the store is replaced by its record, but its tunnel is down afterwards and, unless a system
    call fails, the files are removed, because the teardown of stale peers goes by the id alone. *)
Theorem sync_rename_tears_down h msg p old info c s : Unmarshal Sync_fields [] (Payload msg) = Some [p] ->
  h_ws s = Some c -> store_ok (h_store s) -> peer_wf (sync_info p) -> sync_iface p ∉ ["all"; "interfaces"] ->
  listed_ok p = true -> a_peers (abs (st_db (h_store s))) = {[old := info]} -> pa_PeerID (sp_base p) <> old ->
  info_iface info = sync_iface p -> sync_iface p ∈ tunnels (h_sys s) -> is_Some (sys_fs (h_sys s) !! sync_file h p) ->
  removable h (sync_iface p) (info_file info) (h_sys s) ->
  exists s' r rs c', handlePeersSync h msg s = (Ret tt, s') /\
    Send (sync_answer msg [pa_PeerID (sp_base p)] []) c = (Ret rs, c') /\ h_ws s' = Some c' /\
    ReplaceAll {[pa_PeerID (sp_base p) := sync_info p]} (h_store s) = (Ret r, h_store s') /\
    parts_gone h (sync_iface p) (info_file info) (h_sys s) (h_sys s').
Proof.
  intros Hp Hc Hst Hw Hn Hok Hpeers Hid Hi Hup Hfile Hrm.
  destruct (proj1 (wp_run _ _ _) (wp_sync h msg [p] c s Hp Hc Hst ltac:(by intros q ->%list_elem_of_singleton)))
    as ([] & s' & E & run & sys1 & r & rs & c' & Hrun & Hs & Er & _ & Et & Es & Hc').
  destruct run as [|[q o] [|]]; try done. injection Hrun as ->.
  inversion Hs as [|run0 ? sys0 q o0 ? Hs0 Ho Hr0 Hsys]; subst. apply (app_inj_tail run0 []) in Hr0 as [-> [= -> ->]].
  inversion Hs0 as [? E0|run1 ? ? ? ? ? _ _ Hr1]; [|by destruct run1]. subst sys0.
  apply peer_step_kept in Ho as [-> Hsame]; [|done|done|by apply Hrm|done].
  change (kept _) with ({[pa_PeerID (sp_base p) := sync_info p]} : gmap string PeerInfo) in *.
  rewrite (peers_of_single _ _ _ Hpeers) in Et. unfold stale in Et. rewrite filter_cons_True in Et by by apply lookup_singleton_ne.
  exists s', r, rs, c'. split_and!; [done|done|done|done|]. apply (parts_gone_same _ _ _ _ sys1); [done|].
  pose proof (wp_teardown_parts h info (MkH sys1 (h_store s') (Some c) (h_keyx s))) as Hd. rewrite Hi in Hd.
  specialize (Hd (removable_same _ _ _ _ _ Hsame Hrm)). unfold wp in Hd. unfold mfor, mfold, mbind, M_bind in Et.
  cbn [fmap list_fmap snd filter] in Et. cbn [h_sys] in Hd.
  destruct (teardown h info _) as [[[]|] s2]; [|done]. cbn in Et. injection Et as ->. exact Hd.
Qed.









End findings.

Lemma sync_rename_tears_down_witness : exists s' r rs c',
  handlePeersSync sim_handler (sync_msg [sync_peer_json "p2" "dn42x" ""]) added_world = (Ret tt, s') /\
  Send (sync_answer (sync_msg [sync_peer_json "p2" "dn42x" ""]) ["p2"] []) (default sim_client (h_ws added_world)) = (Ret rs, c') /\
  h_ws s' = Some c' /\ ReplaceAll {["p2" := sync_info (sim_sync_peer "p2" "")]} (h_store added_world) = (Ret r, h_store s') /\
  parts_gone sim_handler "dn42x" (info_file sim_info) (h_sys added_world) (h_sys s').
Proof.
  refine (sync_rename_tears_down sim_handler (sync_msg [sync_peer_json "p2" "dn42x" ""]) (sim_sync_peer "p2" "") "p1" sim_info _ added_world
    _ _ _ _ _ _ _ _ _ _ _ _).
  - vm_compute. reflexivity.
  - vm_compute. reflexivity.
  - split; vm_compute; reflexivity.
  - split_and!; try reflexivity. vm_compute. split; discriminate || reflexivity.
  - vm_compute. intros H. repeat (apply elem_of_cons in H as [H|H]; [discriminate|]). by apply elem_of_nil in H.
  - reflexivity.
  - vm_compute. reflexivity.
  - discriminate.
  - reflexivity.
  - unfold tunnels. cbn [up sim_wg_laws]. vm_compute. reflexivity.
  - vm_compute. eexists. reflexivity.
  - split.
    + vm_compute. discriminate.
    + vm_compute. reflexivity.
    + vm_compute. discriminate.
    + intros _. vm_compute. eexists. reflexivity.
Defined.

