(* ===== verification/NetworkFacts.v ===== *)
(** Properties of the looking glass. *)

From S2P Require Import Prelude GoStrings Json GoStruct Regex GoFloat GoNet Host SimHost Store StoreFacts Wg WgFacts Bird BirdFacts.
From S2P Require Import Primitives Crypto Ws WsFacts Handler Network Update KeyExchange World Answers HandlerFacts.
From Stdlib Require Import Ascii.

(** ** Parsed addresses are sixteen bytes *)

Definition is_byte (b : Z) : Prop := 0 <= b < 256.

Lemma parse_octet_byte s b : parse_octet s = Some b -> is_byte b.
Proof.
  unfold parse_octet. case_match; [done|]. case_match; [done|].
  destruct (Z.leb_spec (Z.of_N (dec_val s)) 255); [|done]. intros [= <-]. unfold is_byte. lia.
Qed.

Lemma parseIPv4_bytes s ip : parseIPv4 s = Some ip -> length ip = 4%nat /\ Forall is_byte ip.
Proof.
  unfold parseIPv4. destruct (split_on "." s) as [|a [|b [|c [|d [|]]]]]; try done. intros H.
  apply mapM_Some in H. split; [by apply Forall2_length in H|].
  repeat (apply Forall2_cons_inv_l in H as (? & ? & ?%parse_octet_byte & H & ->); constructor; [done|]).
  apply Forall2_nil_inv_l in H as ->. constructor.
Qed.

Lemma hex_val_bound c d : hex_val c = Some d -> (d < 16)%N.
Proof.
  unfold hex_val, is_digit, byte_in. repeat case_match; intros [= <-];
    repeat match goal with H : _ && _ = true |- _ => apply andb_true_iff in H as [?%N.leb_le ?%N.leb_le] end; lia.
Qed.

Lemma hex_run_bound s : forall acc n m v rest, hex_run s acc n = (m, v, rest) ->
  (acc < 16 ^ N.of_nat n)%N -> (v < 16 ^ N.of_nat m)%N.
Proof.
  induction s as [|c s IH]; intros acc n m v rest; cbn [hex_run]; [by intros [= <- <- _]|].
  destruct (hex_val c) as [d|] eqn:E; [|by intros [= <- <- _]]. intros H Ha. eapply IH; [exact H|].
  apply hex_val_bound in E. rewrite Nat2N.inj_succ, N.pow_succ_r'. lia.
Qed.

Lemma group_bytes s n v rest : hex_run s 0 0 = (n, v, rest) -> (n <= 4)%nat ->
  is_byte (Z.of_N (v / 256)) /\ is_byte (Z.of_N (v mod 256)).
Proof.
  intros H Hn. apply hex_run_bound in H; [|by cbn].
  assert (v < 65536)%N as Hv.
  { eapply N.lt_le_trans; [exact H|]. change 65536%N with (16 ^ 4)%N. apply N.pow_le_mono_r; lia. }
  assert (v / 256 < 256)%N as H1 by (apply N.Div0.div_lt_upper_bound; done).
  assert (v mod 256 < 256)%N as H2 by (by apply N.mod_lt).
  unfold is_byte. revert H1 H2. generalize (v / 256)%N (v mod 256)%N. lia.
Qed.

Lemma v6_groups_bytes rounds : forall s ip e ip' e' s', v6_groups rounds s ip e = Some (ip', e', s') ->
  Forall is_byte ip -> Forall is_byte ip'.
Proof.
  induction rounds as [|r IH]; intros s ip e ip' e' s'; cbn [v6_groups]; [by intros [= <- _ _]|].
  destruct (hex_run s 0 0) as [[n v] rest] eqn:Eh. destruct ((n =? 0)%nat || (4 <? n)%nat) eqn:En; [done|].
  intros H Hip. assert (Hn : (n <= 4)%nat).
  { apply orb_false_iff in En as [_ En]. apply Nat.ltb_ge in En. lia. }
  destruct (group_bytes _ _ _ _ Eh Hn) as [Hb1 Hb2].
  assert (Hip' : Forall is_byte (ip ++ [Z.of_N (v / 256); Z.of_N (v mod 256)])).
  { apply Forall_app. split; [done|]. constructor; [done|]. constructor; [done|constructor]. }
  repeat (case_match; simplify_option_eq; try done); eauto.
  apply Forall_app. split; [done|]. by eapply parseIPv4_bytes.
Qed.

Lemma ParseIP_bytes s ip : ParseIP s = Some ip -> length ip = 16%nat /\ Forall is_byte ip.
Proof.
  unfold ParseIP, ParseAddr. destruct (addr_kind s) as [[]|]; [| |done].
  - destruct (parseIPv4 s) as [ip4|] eqn:E; [|done]. intros [= <-]. apply parseIPv4_bytes in E as [Hl Hb].
    unfold v4_mapped. rewrite !length_app, Hl, !Forall_app. split; [done|]. split_and!; [|by repeat constructor|done].
    apply Forall_replicate. done.
  - destruct (Contains s "%"); [done|]. destruct (parseIPv6 s) as [ip6|] eqn:E; [|done]. intros [= <-]. cbn.
    assert (Hx : forall r, v6_expand r = Some ip6 -> Forall is_byte r.1.1 -> length ip6 = 16%nat /\ Forall is_byte ip6).
    { intros [[ip e] rest]. unfold v6_expand. case_match; [done|]. destruct e as [e|].
      - destruct (Nat.ltb_spec (length ip) 16); [|done]. intros [= <-] Hb. cbn in Hb.
        rewrite !length_app, length_take, length_replicate, length_drop. split; [lia|].
        rewrite !Forall_app. split_and!; [by apply Forall_take|by apply Forall_replicate|by apply Forall_drop].
      - destruct (Nat.eqb_spec (length ip) 16); [|done]. by intros [= <-]. }
    revert E. unfold parseIPv6. case_match; [case_match|].
    + intros [= <-]. split; [done|]. by apply (Forall_replicate is_byte 16 0).
    + destruct (v6_groups _ _ _ _) as [[[ip e] r]|] eqn:Eg; [|done]. intros He. eapply Hx; [exact He|].
      eapply v6_groups_bytes; [exact Eg|constructor].
    + destruct (v6_groups _ _ _ _) as [[[ip e] r]|] eqn:Eg; [|done]. intros He. eapply Hx; [exact He|].
      eapply v6_groups_bytes; [exact Eg|constructor].
Qed.

(** ** Bit masks on bytes, by enumeration *)

Lemma all_bytes (P : Z -> bool) : forallb P (Z.of_nat <$> seq 0 256) = true -> forall b, is_byte b -> P b = true.
Proof.
  intros H b Hb. rewrite forallb_forall in H. apply H. apply list_elem_of_In, list_elem_of_fmap.
  exists (Z.to_nat b). unfold is_byte in Hb. split; [lia|]. apply elem_of_seq. lia.
Qed.

Lemma land_255 b : is_byte b -> Z.land b 255 = b.
Proof. intros Hb. apply Z.eqb_eq. by apply (all_bytes (fun b => Z.land b 255 =? b)). Qed.
Lemma land_252 b : is_byte b -> Z.land b 252 = 20 <-> 20 <= b <= 23.
Proof.
  intros Hb. apply (all_bytes (fun b => Bool.eqb (Z.land b 252 =? 20) ((20 <=? b) && (b <=? 23)))) in Hb; [|done].
  apply Bool.eqb_prop in Hb. rewrite <-Z.eqb_eq, Hb, andb_true_iff, !Z.leb_le. done.
Qed.
Lemma land_240 b : is_byte b -> Z.land b 240 = 224 <-> 224 <= b <= 239.
Proof.
  intros Hb. apply (all_bytes (fun b => Bool.eqb (Z.land b 240 =? 224) ((224 <=? b) && (b <=? 239)))) in Hb; [|done].
  apply Bool.eqb_prop in Hb. rewrite <-Z.eqb_eq, Hb, andb_true_iff, !Z.leb_le. done.
Qed.
Lemma land_192 b : is_byte b -> Z.land b 192 = 128 <-> 128 <= b <= 191.
Proof.
  intros Hb. apply (all_bytes (fun b => Bool.eqb (Z.land b 192 =? 128) ((128 <=? b) && (b <=? 191)))) in Hb; [|done].
  apply Bool.eqb_prop in Hb. rewrite <-Z.eqb_eq, Hb, andb_true_iff, !Z.leb_le. done.
Qed.
Lemma land_254 b : is_byte b -> Z.land b 254 = 252 <-> b = 252 \/ b = 253.
Proof.
  intros Hb. apply (all_bytes (fun b => Bool.eqb (Z.land b 254 =? 252) ((b =? 252) || (b =? 253)))) in Hb; [|done].
  apply Bool.eqb_prop in Hb. rewrite <-Z.eqb_eq, Hb, orb_true_iff, !Z.eqb_eq. done.
Qed.

(** ** The allowlist, as ranges *)

Definition dn42_4 (a b : Z) : Prop := (a = 172 /\ 20 <= b <= 23) \/ (a = 172 /\ b = 31) \/ (a = 10 /\ b = 127).
Definition blocked4 (a b c d : Z) : Prop :=
  a = 127 \/ (a = 169 /\ b = 254) \/ 224 <= a <= 239 \/ [a; b; c; d] = [0; 0; 0; 0] \/
  a = 10 \/ (a = 172 /\ 16 <= b <= 31) \/ (a = 192 /\ b = 168) \/ [a; b; c; d] = [255; 255; 255; 255].
Definition blocked6 (ip : IP) : Prop :=
  ip = IPv6loopback \/ ip = replicate 16 0 \/ (byte ip 0 = 254 /\ 128 <= byte ip 1 <= 191) \/
  byte ip 0 = 255 \/ byte ip 0 = 252.

Definition allowed (ip : IP) : Prop :=
  match To4 ip with
  | Some ip4 => let b i := byte ip4 i in dn42_4 (b 0%nat) (b 1%nat) \/ ~ blocked4 (b 0%nat) (b 1%nat) (b 2%nat) (b 3%nat)
  | None => ~ blocked6 ip
  end.

Lemma dn42Ranges_eq : dn42Ranges =
  [MkIPNet [172; 20; 0; 0] [255; 252; 0; 0]; MkIPNet [172; 31; 0; 0] [255; 255; 0; 0];
   MkIPNet [10; 127; 0; 0] [255; 255; 0; 0]; MkIPNet (253 :: replicate 15 0) (255 :: replicate 15 0)].
Proof. vm_compute. reflexivity. Qed.

Section v4.
Variables a b c d : Z.
Hypotheses (Ha : is_byte a) (Hb : is_byte b) (Hc : is_byte c) (Hd : is_byte d).
Let ip : IP := v4_mapped [a; b; c; d].

Lemma To4_mapped : To4 ip = Some [a; b; c; d].
Proof. unfold To4. rewrite decide_False by done. by rewrite decide_True. Qed.

Lemma contains_4 n1 n2 m1 m2 : IPNet_Contains (MkIPNet [n1; n2; 0; 0] [m1; m2; 0; 0]) ip = true <->
  Z.land n1 m1 = Z.land a m1 /\ Z.land n2 m2 = Z.land b m2.
Proof.
  unfold IPNet_Contains. rewrite To4_mapped, bool_decide_eq_true. unfold mask_bytes.
  change (default ip (Some [a; b; c; d])) with [a; b; c; d]. cbn [net_ip net_mask zip_with length].
  rewrite !Z.land_0_r. split; [by intros [_ [= H1 H2]]|]. intros [-> ->]. done.
Qed.

Lemma isDN42_4 : isDN42 ip = true <-> dn42_4 a b.
Proof.
  unfold isDN42. rewrite dn42Ranges_eq. cbn [existsb]. rewrite !orb_true_iff, !contains_4, !land_255 by done.
  assert (IPNet_Contains (MkIPNet (253 :: replicate 15 0) (255 :: replicate 15 0)) ip = false) as ->.
  { unfold IPNet_Contains. rewrite To4_mapped. apply bool_decide_eq_false. intros [E _]. vm_compute in E. done. }
  change (Z.land 172 255) with 172. change (Z.land 20 252) with 20. change (Z.land 31 255) with 31.
  change (Z.land 10 255) with 10. change (Z.land 127 255) with 127.
  pose proof (land_252 b Hb) as H. unfold dn42_4. rewrite <-H. naive_solver.
Qed.

Lemma reserved_4 : IsLoopback ip || IsLinkLocalUnicast ip || IsLinkLocalMulticast ip || IsMulticast ip
   || IsUnspecified ip || IsInterfaceLocalMulticast ip = true <->
  a = 127 \/ (a = 169 /\ b = 254) \/ 224 <= a <= 239 \/ [a; b; c; d] = [0; 0; 0; 0].
Proof.
  unfold IsLoopback, IsLinkLocalUnicast, IsLinkLocalMulticast, IsMulticast, IsUnspecified, IsInterfaceLocalMulticast.
  rewrite To4_mapped. pose proof (land_240 a Ha) as H.
  change (byte [a; b; c; d] 0) with a. change (byte [a; b; c; d] 1) with b. change (byte [a; b; c; d] 2) with c.
  change (byte ip 0) with 0. rewrite !orb_true_iff, !andb_true_iff, bool_decide_eq_true, !Z.eqb_eq, H. lia || naive_solver lia.
Qed.

Lemma check_ip_4 : check_ip ip = None <-> dn42_4 a b \/ ~ blocked4 a b c d.
Proof.
  unfold check_ip. pose proof reserved_4 as Hr. pose proof isDN42_4 as Hd4. rewrite To4_mapped.
  change (byte [a; b; c; d] 0) with a. change (byte [a; b; c; d] 1) with b. change (byte [a; b; c; d] 3) with d.
  assert (Hbc : bytesEqual [a; b; c; d] [255; 255; 255; 255] = true <-> [a; b; c; d] = [255; 255; 255; 255]).
  { cbn [bytesEqual]. rewrite !andb_true_iff, !Z.eqb_eq. naive_solver. }
  unfold blocked4. destruct (IsLoopback ip || _ || _ || _ || _ || _).
  { split; [done|]. destruct Hr as [Hr _]. specialize (Hr eq_refl). unfold dn42_4 in *.
    intros [H|H]; [exfalso|]; [|exfalso; apply H; tauto]. destruct Hr as [?|[?|[?|[= ? ? ? ?]]]]; lia. }
  destruct (isDN42 ip); [split; [intros _; left; by apply Hd4|done]|].
  assert (Hnd : ~ dn42_4 a b) by (by intros H%Hd4).
  assert (Hnr : ~ (a = 127 \/ (a = 169 /\ b = 254) \/ 224 <= a <= 239 \/ [a; b; c; d] = [0; 0; 0; 0])) by (by intros H%Hr).
  destruct ((a =? 10) || _ || _ || _) eqn:Ep.
  { split; [done|]. rewrite !orb_true_iff, !andb_true_iff, !Z.eqb_eq, !Z.leb_le in Ep.
    intros [H|H]; [done|]. exfalso. apply H. tauto. }
  rewrite !orb_false_iff, !andb_false_iff, !Z.eqb_neq, !Z.leb_gt in Ep.
  destruct ((d =? 255) && _) eqn:Eb.
  - split; [done|]. apply andb_true_iff in Eb as [_ Eb]. apply Hbc in Eb. intros [H|H]; [done|]. exfalso. apply H. tauto.
  - split; [intros _; right|done]. intros H. apply andb_false_iff in Eb.
    assert ([a; b; c; d] <> [255; 255; 255; 255]).
    { intros E. destruct Eb as [Eb|Eb]; [|by apply Hbc in E; congruence]. injection E as -> -> -> ->. done. }
    destruct H as [H|[H|[H|[H|[H|[H|[H|H]]]]]]]; try tauto; lia.
Qed.
End v4.

Section v6.
Variable ip : IP.
Hypotheses (Hlen : length ip = 16%nat) (Hbytes : Forall is_byte ip) (H4 : To4 ip = None).

Lemma byte_is_byte i : is_byte (byte ip i).
Proof.
  unfold byte. destruct (ip !! i) as [x|] eqn:E; [|done]. cbn. rewrite Forall_lookup in Hbytes. eauto.
Qed.

Lemma land_zero_tail (l : list Z) n : length l = n -> zip_with Z.land l (replicate n 0) = replicate n 0.
Proof. intros <-. induction l; cbn; [done|]. by rewrite Z.land_0_r, IHl. Qed.

Lemma contains_short n : length (net_ip n) = 4%nat -> IPNet_Contains n ip = false.
Proof.
  intros Hn. unfold IPNet_Contains. rewrite H4. change (default ip None) with ip.
  apply bool_decide_eq_false. rewrite Hlen, Hn. by intros [].
Qed.

Lemma contains_6 : IPNet_Contains (MkIPNet (253 :: replicate 15 0) (255 :: replicate 15 0)) ip = true <-> byte ip 0 = 253.
Proof.
  unfold IPNet_Contains. rewrite H4. change (default ip None) with ip. rewrite bool_decide_eq_true, Hlen.
  pose proof (byte_is_byte 0) as Hb. destruct ip as [|x l]; [done|]. change (byte (x :: l) 0) with x in *.
  unfold mask_bytes. cbn [net_ip net_mask zip_with]. rewrite (land_255 x) by done.
  assert (length l = 15%nat) as Hl by (cbn in Hlen; lia). rewrite (land_zero_tail l 15 Hl). rewrite (land_zero_tail (replicate 15 0) 15) by done.
  change (Z.land 253 255) with 253. split; [by intros [_ [= ->]]|by intros ->].
Qed.

Lemma isDN42_6 : isDN42 ip = true <-> byte ip 0 = 253.
Proof.
  unfold isDN42. rewrite dn42Ranges_eq. cbn [existsb]. rewrite !contains_short by done.
  rewrite <-contains_6. cbn [orb]. by rewrite orb_false_r.
Qed.

Lemma check_ip_6 : check_ip ip = None <-> ~ blocked6 ip.
Proof.
  unfold check_ip, IsLoopback, IsLinkLocalUnicast, IsLinkLocalMulticast, IsMulticast, IsUnspecified, IsInterfaceLocalMulticast, blocked6.
  pose proof isDN42_6 as Hd. pose proof (land_192 _ (byte_is_byte 1)) as H192. pose proof (land_254 _ (byte_is_byte 0)) as H254.
  rewrite !H4, Hlen. change (16 =? 16)%nat with true. cbn [andb].
  destruct (bool_decide (ip = IPv6loopback) || _ || _ || _ || _ || _) eqn:Er.
  - split; [done|]. rewrite !orb_true_iff, !andb_true_iff, !bool_decide_eq_true, !Z.eqb_eq, H192 in Er.
    intros H. exfalso. apply H. tauto.
  - rewrite !orb_false_iff, !bool_decide_eq_false in Er. destruct Er as [[[[[E1 E2] E3] E4] E5] E6].
    apply Z.eqb_neq in E4. apply andb_false_iff in E2. rewrite !Z.eqb_neq, H192 in E2.
    destruct (isDN42 ip).
    + split; [intros _|done]. destruct Hd as [Hd _]. specialize (Hd eq_refl). intuition lia.
    + destruct (Z.eqb_spec (Z.land (byte ip 0) 254) 252) as [E|E].
      * split; [done|]. intros H. exfalso. apply H. apply H254 in E as [E|E]; [tauto|]. by apply Hd in E.
      * split; [intros _|done]. intuition.
Qed.
End v6.

Lemma check_ip_allowed ip : length ip = 16%nat -> Forall is_byte ip -> check_ip ip = None <-> allowed ip.
Proof.
  intros Hl Hb. unfold allowed. destruct (To4 ip) as [ip4|] eqn:E; [|by apply check_ip_6].
  unfold To4 in E. rewrite decide_False in E by lia. case_decide as H; [|done]. injection E as <-.
  destruct H as [H _]. rewrite <-(take_drop 12 ip) in Hb |- * at 1. rewrite H in Hb |- *.
  assert (Hl4 : length (drop 12 ip) = 4%nat) by (rewrite length_drop; lia).
  apply Forall_app in Hb as [_ Hb]. destruct (drop 12 ip) as [|a [|b [|c [|d [|]]]]]; try done.
  rewrite !Forall_cons in Hb. destruct Hb as (Ha & Hb & Hc & Hd & _). by apply check_ip_4.
Qed.

(** ** What gets probed *)

(** No address starts with a dash. *)
Lemma ParseIP_dash s : ParseIP (String "-" s) = None.
Proof.
  unfold ParseIP, ParseAddr. destruct (addr_kind _) as [[]|]; [| |done].
  - unfold parseIPv4. cbn [split_on]. rewrite decide_False by done. destruct (split_on "." s) as [|h t]; [done|].
    destruct t as [|b [|c [|d [|]]]]; done.
  - destruct (Contains _ _); [done|]. done.
Qed.

Lemma first_valid_ok ips e s : first_valid ips e = inl (Ok s) -> validateNetworkTarget s = Ok tt.
Proof.
  revert e. induction ips as [|ip ips IH]; intros e; cbn [first_valid]; [done|].
  destruct (validateNetworkTarget (IP_String ip)) as [[]|] eqn:E; [by intros [= <-]|eauto].
Qed.

Lemma resolve_valid `{R : Resolver} target s : resolveAndValidate target = Ok s -> validateNetworkTarget s = Ok tt.
Proof.
  unfold resolveAndValidate. case_decide; [done|]. case_match; [done|]. destruct (ParseIP _).
  - destruct (validateNetworkTarget (TrimSpace target)) as [[]|] eqn:E; [|done]. by intros [= <-].
  - destruct (LookupIP _) as [ips|]; [|done]. destruct (first_valid ips None) as [r|[e|]] eqn:E; [|done|done].
    intros ->. by eapply first_valid_ok.
Qed.

Lemma validate_allowed target : validateNetworkTarget target = Ok tt <->
  exists ip, ParseIP target = Some ip /\ allowed ip.
Proof.
  unfold validateNetworkTarget. destruct (ParseIP target) as [ip|] eqn:E; [|naive_solver].
  apply ParseIP_bytes in E as [Hl Hb]. pose proof (check_ip_allowed ip Hl Hb) as H.
  destruct (check_ip ip); naive_solver.
Qed.

(** ** Properties *)

(** C4: The looking glass accepts a target exactly when it is the text of an address in DN42
    space (172.20.0.0/14, 172.31.0.0/16, 10.127.0.0/16, fd00::/8) or of one outside the blocked
    ranges: loopback, link-local, multicast, unspecified, private and broadcast IPv4; loopback,
    unspecified, link-local, multicast and fc00::/8 IPv6. *)
Theorem allowlist_spec target : validateNetworkTarget target = Ok tt <->
  exists ip, ParseIP target = Some ip /\ allowed ip.
Proof. apply validate_allowed. Qed.

Section probes.
Context `{env : HostEnv} `{B : Bolt} `{A : Aead} `{R : Resolver}.

Definition target_ok (t : string) : Prop := HasPrefix t "-" = false /\ exists ip, ParseIP t = Some ip /\ allowed ip.

(** The commands the looking glass may run. *)
Inductive safe_probe : list string -> Prop :=
| safe_ping n t : 1 <= n <= 20 -> target_ok t -> safe_probe ["ping"; "-c"; Itoa n; "-W"; "3"; t]
| safe_trace n t : 1 <= n <= 64 -> target_ok t ->
    safe_probe ["traceroute"; "-m"; Itoa n; "-w"; "3"; "-q"; "3"; t]
| safe_mtr n t (j : bool) : 1 <= n <= 10 -> target_ok t ->
    safe_probe (["mtr"; "-r"; "-c"; Itoa n] ++ (if j then ["-j"] else []) ++ [t]).

Inductive probed : Sys -> Sys -> Prop :=
| probed_none s : probed s s
| probed_run s argv r s1 s2 : safe_probe argv -> run argv s = (Ret r, s1) -> probed s1 s2 -> probed s s2.

(** Only probes ran, and the store is as it was. *)
Definition only_probes (s s' : HState) : Prop := probed (h_sys s) (h_sys s') /\ h_store s' = h_store s.

Lemma target_ok_valid target t : resolveAndValidate target = Ok t -> target_ok t.
Proof.
  intros H%resolve_valid%validate_allowed. split; [|done]. destruct H as (ip & Hp & _).
  destruct (HasPrefix t "-") eqn:E; [|done]. apply HasPrefix_spec in E as [r ->].
  change ("-" +:+ r) with (String "-" r) in Hp. by rewrite ParseIP_dash in Hp.
Qed.

Lemma limit_range d mx n : 1 <= d <= mx -> 1 <= limit d mx n <= mx.
Proof.
  intros H. unfold limit. destruct (Z.leb_spec n 0); cbv zeta;
    [destruct (Z.ltb_spec mx d)|destruct (Z.ltb_spec mx n)]; lia.
Qed.

Lemma probed_answer id ok text s0 s : only_probes s0 s ->
  wp (sendResponse id ok text) (fun _ s' => only_probes s0 s') s.
Proof.
  intros H. destruct (h_ws s) as [c|] eqn:Ec; [by apply (wp_respond _ _ _ c)|].
  unfold sendResponse. wp_step. wp_step. rewrite Ec. by wp_step.
Qed.

Lemma probed_json msg j s0 s : is_Some (h_ws s) -> only_probes s0 s ->
  wp (send_json msg j) (fun _ s' => only_probes s0 s') s.
Proof.
  intros [c Hc] H. unfold send_json. destruct j; [|by apply probed_answer].
  unfold wp, ws_send, mbind, M_bind. rewrite Hc. destruct (Send _ c) as [[r|e] c'] eqn:E; [done|].
  unfold Send in E. destruct (negb (conn c)); [done|]. destruct (encode_frame _ c), (enqueue _ _). done.
Qed.

Lemma wp_probe argv (P : cmdres -> HState -> Prop) s0 s : safe_probe argv -> only_probes s0 s ->
  (forall r s', only_probes s0 s' -> h_ws s' = h_ws s -> P r s') -> wp (on_sys (run argv)) P s.
Proof.
  intros Hs [Hp Hst] HP. apply wp_zoom. destruct (returns_run argv (h_sys s)) as (r & s1 & E).
  apply wp_run. exists r, s1. split; [done|]. apply HP; [|done]. split; [|done]. cbn.
  clear -Hp Hs E. induction Hp; [|by eapply probed_run; eauto]. eapply probed_run; [done|done|constructor].
Qed.

(** C14: A looking-glass command returns having run nothing but ping, traceroute or mtr, on the
    text of an allowed address that is no option, with at most 20 packets, 64 hops or 10 cycles;
    it does not touch the store. *)
Theorem probes_safe msg s : is_Some (h_ws s) ->
  Forall (fun f : Message -> M HState unit => exists s', f msg s = (Ret tt, s') /\ only_probes s s')
    [handleNetworkPing; handleNetworkTrace; handleNetworkMTR].
Proof.
  intros Hc. assert (H0 : only_probes s s) by (split; [constructor|done]).
  assert (Hrun : forall m : M HState unit, wp m (fun _ s' => only_probes s s') s ->
    exists s', m s = (Ret tt, s') /\ only_probes s s').
  { intros m H. apply wp_run in H as ([] & s' & E & H). eauto. }
  repeat constructor; apply Hrun;
    unfold handleNetworkPing, handleNetworkTrace, handleNetworkMTR, with_payload;
    (destruct (Unmarshal _ _ _) as [p|]; [|by apply probed_answer]);
    (destruct (resolveAndValidate (pb_Target p)) as [t|e] eqn:Et; [|by apply probed_answer]);
    apply target_ok_valid in Et; wp_step.
  - apply (wp_probe _ _ s); [by apply safe_ping; [apply limit_range|]|done|]. intros r s1 H1 Hw.
    wp_case; [apply probed_json; [by rewrite Hw|done]|by apply probed_answer].
  - apply (wp_probe _ _ s); [by apply safe_trace; [apply limit_range|]|done|]. intros r s1 H1 Hw.
    wp_case; [apply probed_json; [by rewrite Hw|done]|by apply probed_answer].
  - apply (wp_probe _ _ s); [by apply (safe_mtr _ _ true); [apply limit_range|]|done|]. intros r s1 H1 Hw.
    wp_case; [apply probed_json; [by rewrite Hw|done]|]. wp_step.
    apply (wp_probe _ _ s); [by apply (safe_mtr _ _ false); [apply limit_range|]|done|]. intros r2 s2 H2 Hw2.
    wp_case; [apply probed_json; [by rewrite Hw2, Hw|done]|by apply probed_answer].
Qed.

End probes.

Definition ping_msg : Message := MkMessage "network.ping" "5" (Some (JObj [("target", JStr "dns.example"); ("count", JNum "99")])) None "".

Lemma probes_safe_witness :
  Forall (fun f : Message -> M HState unit => exists s', f ping_msg world = (Ret tt, s') /\ only_probes world s')
    [handleNetworkPing; handleNetworkTrace; handleNetworkMTR].
Proof. apply (probes_safe ping_msg world). exists sim_client. reflexivity. Defined.

(** ** Times of a traceroute *)

Lemma Contains_absent s a t : free_of a s = true -> Contains s (String a t) = false.
Proof.
  induction s as [|c s IH]; cbn; [done|]. rewrite andb_true_iff. intros [Hc Hs].
  rewrite bool_decide_false; [by rewrite IH|]. intros <-. rewrite bool_decide_true in Hc; done.
Qed.

Definition is_time (t : string) : bool := negb (bool_decide (t = "")) && sforall c_decimal t.

(** A time and its unit, as two fields, add no time to the hop. *)
Lemma hop_time t ip rtts : is_time t = true -> ip <> "" ->
  hop_field (hop_field (ip, rtts) t) "ms" = (ip, rtts).
Proof.
  unfold is_time. rewrite andb_true_iff, negb_true_iff, bool_decide_eq_false. intros [Hne Ht] Hip.
  assert (Hf : forall c, c_decimal c = false -> free_of c t = true).
  { intros c Hc. eapply sforall_impl; [|exact Ht]. intros x Hx. apply negb_true_iff, bool_decide_eq_false. congruence. }
  unfold hop_field at 2. rewrite decide_False.
  2:{ intros ->. done. }
  assert (HasPrefix t "(" = false) as ->.
  { destruct t as [|c t]; [done|]. cbn. rewrite bool_decide_false; [done|]. intros <-. by cbn in Ht. }
  assert (HasPrefix t "ms" = false) as ->.
  { destruct t as [|c t]; [done|]. cbn. rewrite bool_decide_false; [done|]. intros <-. by cbn in Ht. }
  rewrite !Contains_absent by (by apply Hf). cbn [negb andb]. rewrite decide_False by done.
  reflexivity.
Qed.

(** C39: The times of a traceroute are lost.  On a hop as traceroute prints it, an address in
    parentheses followed by times each with a separate unit ms, no time is collected, whatever
    the times are. *)
Theorem trace_rtts_lost addr times : Forall (fun t => is_time t = true) times -> trim_parens addr <> "" ->
  HasPrefix addr "(" && HasSuffix addr ")" = true ->
  fold_left hop_field (addr :: (times ≫= fun t => [t; "ms"])) ("", []) = (trim_parens addr, []).
Proof.
  intros Ht Ha Hp. cbn [fold_left].
  assert (hop_field ("", []) addr = (trim_parens addr, [])) as ->.
  { unfold hop_field. rewrite decide_False by (by intros ->). by rewrite Hp. }
  induction Ht as [|t ts Ht _ IH]; [done|]. cbn [mbind list_bind app fold_left]. by rewrite hop_time.
Qed.

Lemma trace_rtts_lost_witness :
  parseTracerouteOutput " 1  gw (192.0.2.1)  0.123 ms  0.456 ms" = [MkHop 1 "192.0.2.1" []] /\
  fold_left hop_field ("(192.0.2.1)" :: (["0.123"; "0.456"] ≫= fun t => [t; "ms"])) ("", []) = (trim_parens "(192.0.2.1)", []).
Proof.
  split; [vm_compute; reflexivity|].
  apply (trace_rtts_lost "(192.0.2.1)" ["0.123"; "0.456"]); [repeat constructor|vm_compute; discriminate|reflexivity].
Defined.
