(* ===== verification/UpdateFacts.v ===== *)
(** Properties of the agent's update of its own binary: an update never leaves anything but the
    old binary or a verified new one in place, and the backup restores the old one. *)

From S2P Require Import Prelude GoStrings GoPath Json GoStruct Host SimHost Store StoreFacts Wg WgFacts Bird BirdFacts.
From S2P Require Import Primitives Crypto Ws WsFacts Handler Network Update KeyExchange World Answers HandlerFacts.
From Stdlib Require Import Ascii.

(** ** Paths *)

Definition no_sep (s : string) : bool := sforall (fun c => negb (bool_decide (c = SEP))) s.

Lemma split_last_name d b : no_sep b = true -> split_last (d +:+ String SEP b) = (d +:+ "/", b).
Proof.
  intros Hb. assert (split_last b = ("", b)) as Hn.
  { induction b as [|c b IH]; [done|]. cbn in *. apply andb_true_iff in Hb as [Hc Hb]. rewrite IH by done.
    rewrite decide_True by done. rewrite decide_False; [done|].
    by apply negb_true_iff, bool_decide_eq_false in Hc. }
  induction d as [|c d IH].
  - cbn. rewrite Hn. by rewrite !decide_True.
  - change (String c d +:+ String SEP b) with (String c (d +:+ String SEP b)). cbn [split_last]. rewrite IH.
    rewrite decide_False; [done|]. by destruct d.
Qed.

Lemma strip_seps_rev_none c l : c <> SEP -> strip_seps_rev (c :: l) = c :: l.
Proof. intros. cbn. by rewrite decide_False. Qed.

Lemma strip_trailing_name d b : no_sep b = true -> b <> "" -> strip_trailing_seps (d +:+ b) = d +:+ b.
Proof.
  intros Hb Hne. unfold strip_trailing_seps.
  rewrite <-(String.string_of_list_ascii_of_string (d +:+ b)) at 2. f_equal.
  assert (exists l c, String.list_ascii_of_string (d +:+ b) = l ++ [c] /\ c <> SEP) as (l & c & -> & Hc).
  { induction d as [|a d (l & c & E & Hc)]; [|exists (a :: l), c; cbn; by rewrite E].
    cbn. clear -Hb Hne. induction b as [|a b IH]; [done|]. cbn in Hb. apply andb_true_iff in Hb as [Ha Hb].
    apply negb_true_iff, bool_decide_eq_false in Ha.
    destruct b as [|a' b]; [by exists [], a|]. destruct IH as (l & c & E & Hc); [done|done|].
    exists (a :: l), c. change (String.list_ascii_of_string (String a (String a' b)))
      with (a :: String.list_ascii_of_string (String a' b)). by rewrite E. }
  rewrite reverse_snoc, strip_seps_rev_none by done. by rewrite reverse_cons, reverse_involutive.
Qed.

(** The backup of a version is a file of the backup directory. *)
Lemma BackupPath_plain v : no_sep v = true -> BackupPath v = "/var/lib/autopeer-agent/backup/autopeer-agent." +:+ v.
Proof.
  intros Hv. unfold BackupPath. rewrite Join_plain; [|done|]; [done|].
  unfold plain_name. cbn. by fold (no_sep v); rewrite Hv.
Qed.

Lemma BackupPath_temp v : no_sep v = true ->
  Join [Dir (BackupPath v); "." +:+ Base (BackupPath v) +:+ "."]
  = "/var/lib/autopeer-agent/backup/.autopeer-agent." +:+ v +:+ ".".
Proof.
  intros Hv. set (b := "autopeer-agent." +:+ v). assert (Hb : no_sep b = true) by exact Hv.
  assert (E : BackupPath v = "/var/lib/autopeer-agent/backup" +:+ String SEP b) by (by rewrite BackupPath_plain).
  assert (Dir (BackupPath v) = "/var/lib/autopeer-agent/backup") as ->.
  { unfold Dir. by rewrite E, split_last_name. }
  assert (Base (BackupPath v) = b) as ->.
  { unfold Base. rewrite E, decide_False by done.
    change (String SEP b) with ("/" +:+ b). rewrite <-sapp_assoc, strip_trailing_name, sapp_assoc by done.
    change ("/" +:+ b) with (String SEP b). rewrite split_last_name by done. cbn [snd]. by rewrite decide_False. }
  rewrite Join_plain; [|done|]; [done|]. unfold plain_name, b. cbn. rewrite sforall_app.
  by fold (no_sep v); rewrite Hv.
Qed.

(** What the update relies on in [os.CreateTemp]: the name extends the prefix by some random
    characters and is not in use. *)
Class TempLaws (U : UpdateEnv) : Prop := {
  temp_fresh : forall files p, files !! temp_name files p = None;
  temp_prefix : forall files p, exists r, r <> "" /\ temp_name files p = p +:+ r;
}.

(** ** Rules for the system calls *)

Section rules.
Context `{env : HostEnv}.

Lemma wp_touch op path (Q : res unit -> Sys -> Prop) s :
  (forall r fl, Q r (MkSys (sys_fs s) (sys_host s) fl)) -> wp (touch op path) Q s.
Proof. intros H. apply wp_syscall; intros; apply H. Qed.

Lemma wp_Chmod path perm (Q : res unit -> Sys -> Prop) s :
  (forall e fl, Q (Err e) (MkSys (sys_fs s) (sys_host s) fl)) ->
  (forall n fl, sys_fs s !! path = Some n ->
     Q (Ok tt) (MkSys (<[path := FNode (f_isdir n) (f_data n) perm]> (sys_fs s)) (sys_host s) fl)) ->
  wp (Chmod path perm) Q s.
Proof.
  intros He Hok. apply wp_syscall; [auto|]. intros fl.
  destruct (sys_fs s !! path) as [n|] eqn:E; [by apply Hok|apply He].
Qed.

Lemma wp_Rename src dst (Q : res unit -> Sys -> Prop) s :
  (forall e fl, Q (Err e) (MkSys (sys_fs s) (sys_host s) fl)) ->
  (forall n fl, sys_fs s !! src = Some n ->
     Q (Ok tt) (MkSys (<[dst := n]> (delete src (sys_fs s))) (sys_host s) fl)) ->
  wp (Rename src dst) Q s.
Proof.
  intros He Hok. apply wp_syscall; [auto|]. intros fl.
  destruct (sys_fs s !! src) as [n|] eqn:E; [|apply He].
  destruct (sys_fs s !! dst) as [m|]; [|by apply Hok]. destruct (f_isdir m); [apply He|by apply Hok].
Qed.

Lemma wp_ReadFile path (Q : res string -> Sys -> Prop) s :
  (forall e fl, Q (Err e) (MkSys (sys_fs s) (sys_host s) fl)) ->
  (forall n fl, sys_fs s !! path = Some n -> f_isdir n = false ->
     Q (Ok (f_data n)) (MkSys (sys_fs s) (sys_host s) fl)) ->
  wp (ReadFile path) Q s.
Proof.
  intros He Hok. apply wp_syscall; [auto|]. intros fl.
  destruct (sys_fs s !! path) as [n|] eqn:E; [|apply He]. destruct (f_isdir n) eqn:D; [apply He|by apply Hok].
Qed.

Lemma wp_syncDir path (Q : res unit -> Sys -> Prop) s :
  (forall r fl, Q r (MkSys (sys_fs s) (sys_host s) fl)) -> wp (syncDir path) Q s.
Proof.
  intros H. unfold syncDir. wp_step. apply wp_touch. intros [[]|e] fl; [|by wp_step].
  by apply wp_touch.
Qed.

Lemma wp_removeIfExists path (Q : res unit -> Sys -> Prop) s :
  (forall r fl, Q r (MkSys (sys_fs s) (sys_host s) fl)) ->
  (forall r fl, Q r (MkSys (delete path (sys_fs s)) (sys_host s) fl)) ->
  wp (removeIfExists path) Q s.
Proof. intros H1 H2. unfold removeIfExists. wp_step. apply wp_Remove; intros; by wp_step. Qed.

End rules.

(** ** Copying and replacing *)

(** The files agree except perhaps at some paths. *)
Definition same_but (paths : list string) (a b : gmap string fnode) : Prop :=
  forall p, p ∉ paths -> b !! p = a !! p.

Lemma same_but_trans ps a b c : same_but ps a b -> same_but ps b c -> same_but ps a c.
Proof. intros H1 H2 p Hp. by rewrite H2, H1. Qed.

Lemma same_but_weaken ps ps' a b : same_but ps a b -> (forall p, p ∈ ps -> p ∈ ps') -> same_but ps' a b.
Proof. intros H Hs p Hp. apply H. intros Hin. by apply Hp, Hs. Qed.

Ltac at_path :=
  repeat first [ rewrite lookup_insert_eq | rewrite lookup_delete_eq
               | rewrite lookup_insert_ne by (done || congruence || set_solver)
               | rewrite lookup_delete_ne by (done || congruence || set_solver) ].

Ltac same_files :=
  first [ done | let p := fresh "p" in let Hp := fresh "Hp" in intros p Hp; cbn; by at_path ].

Section copy.
Context `{env : HostEnv} `{U : UpdateEnv}.

(** The outcome of putting [c] at [dst]: whatever failed, [dst] is as before or holds all of
    [c]; after success it holds [c] with the permissions asked for. *)
Definition put_whole (dst c : string) (perm : Z) (a : gmap string fnode) (r : res unit) (b : gmap string fnode) : Prop :=
  (b !! dst = a !! dst \/ exists pm, b !! dst = Some (FNode false c pm)) /\
  (r = Ok tt -> b !! dst = Some (FNode false c perm)).

Lemma put_whole_err dst c perm a b e : b !! dst = a !! dst -> put_whole dst c perm a (Err e) b.
Proof. intros H. split; [by left|done]. Qed.

Lemma put_whole_ok dst c perm a b r : b !! dst = Some (FNode false c perm) -> put_whole dst c perm a r b.
Proof. intros H. split; [right; eauto|done]. Qed.

Lemma wp_copy_steps tmp dst c perm p0 files h fl : tmp <> dst ->
  wp (copy_steps tmp dst c perm)
     (fun r s' => sys_host s' = h /\ same_but [tmp; dst] files (sys_fs s') /\ put_whole dst c perm files r (sys_fs s'))
     (MkSys (<[tmp := FNode false "" p0]> files) h fl).
Proof.
  intros Hne. unfold copy_steps. wp_step.
  assert (Hstop : forall n e fl0, wp (mret (Err e)) (fun r s' => sys_host s' = h /\ same_but [tmp; dst] files (sys_fs s')
      /\ put_whole dst c perm files r (sys_fs s')) (MkSys (<[tmp := n]> files) h fl0)).
  { intros n e fl0. wp_step. split_and!; [done|same_files|]. apply put_whole_err. cbn. by at_path. }
  apply wp_Chmod; cbn [sys_fs sys_host]; [intros; apply Hstop|]. intros n fl1. rewrite lookup_insert_eq. intros [= <-].
  cbn [f_isdir f_data]. rewrite insert_insert_eq. wp_step. apply wp_WriteOpened; [intros; apply Hstop|]. intros fl2.
  wp_step. apply wp_touch. intros [[]|e] fl3; [|apply Hstop]. wp_step. apply wp_touch. intros [[]|e] fl4; [|apply Hstop].
  wp_step. apply wp_Rename; cbn [sys_fs sys_host]; [intros; apply Hstop|]. intros n fl5. rewrite lookup_insert_eq.
  intros [= <-]. rewrite delete_insert_eq. wp_step. apply wp_Chmod; cbn [sys_fs sys_host].
  - intros e fl6. wp_step. split_and!; [done|same_files|]. split; [|done]. right. cbn. at_path. eauto.
  - intros n fl6. rewrite lookup_insert_eq. intros [= <-]. apply wp_syncDir. intros r fl7. cbn [sys_fs sys_host].
    split_and!; [done|same_files|]. apply put_whole_ok. cbn. by at_path.
Qed.

Context {T : TempLaws U}.

(** The temporary file of a copy to [dst] is another file. *)
Definition copy_apart (files : gmap string fnode) (dst : string) : Prop :=
  temp_name files (Join [Dir dst; "." +:+ Base dst +:+ "."]) <> dst.

Lemma copy_apart_exists files dst : is_Some (files !! dst) -> copy_apart files dst.
Proof. intros [n Hn] E. pose proof (temp_fresh files (Join [Dir dst; "." +:+ Base dst +:+ "."])). congruence. Qed.

Lemma copy_apart_backup files v : no_sep v = true -> copy_apart files (BackupPath v).
Proof.
  intros Hv. unfold copy_apart. rewrite BackupPath_temp by done.
  destruct (temp_prefix files ("/var/lib/autopeer-agent/backup/.autopeer-agent." +:+ v +:+ ".")) as (r & _ & ->).
  rewrite BackupPath_plain by done. cbn. intros E. by simplify_eq.
Qed.

(** Every file that was there, [dst] apart, is left alone. *)
Lemma wp_copyFileAtomic src dst perm c s : copy_apart (sys_fs s) dst ->
  (forall n, sys_fs s !! src = Some n -> f_data n = c) ->
  wp (copyFileAtomic src dst perm)
     (fun r s' => sys_host s' = sys_host s /\
        (forall p, p <> dst -> is_Some (sys_fs s !! p) -> sys_fs s' !! p = sys_fs s !! p) /\
        put_whole dst c perm (sys_fs s) r (sys_fs s')) s.
Proof.
  intros Hap Hc. unfold copyFileAtomic. wp_step.
  apply wp_ReadFile; [intros; wp_step; split_and!; [done|done|by apply put_whole_err]|].
  intros n fl Hn _. rewrite (Hc n Hn). wp_step. wp_step. cbn [sys_fs sys_host]. unfold copy_apart in Hap.
  set (tmp := temp_name _ _) in *. assert (Hf : sys_fs s !! tmp = None) by apply temp_fresh.
  wp_step. apply wp_OpenTrunc; cbn [sys_fs sys_host];
    [intros; wp_step; split_and!; [done|done|by apply put_whole_err]|].
  intros p0 fl1. wp_step. eapply wp_mono; [by apply wp_copy_steps|]. intros r [files h fl2] (Hh & Hs & Hp).
  cbn [sys_fs sys_host] in *. subst h. wp_step.
  assert (Hold : forall p, p <> dst -> is_Some (sys_fs s !! p) -> p <> tmp /\ files !! p = sys_fs s !! p).
  { intros p Hpd Hsm. assert (p <> tmp) by (intros ->; destruct Hsm; congruence). split; [done|]. apply Hs. set_solver. }
  apply wp_Remove; intros; wp_step; cbn [sys_fs sys_host]; (split_and!; [done| |]).
  - intros p Hpd Hsm. by apply Hold.
  - done.
  - intros p Hpd Hsm. destruct (Hold p) as [? <-]; [done|done|]. by rewrite lookup_delete_ne by congruence.
  - unfold put_whole. rewrite lookup_delete_ne by congruence. done.
Qed.

(** Replacing [dst] by [src]. *)
Lemma wp_replaceFile src dst perm c s : src <> dst ->
  (forall n, sys_fs s !! src = Some n -> f_isdir n = false /\ f_data n = c) -> is_Some (sys_fs s !! dst) ->
  wp (replaceFile src dst perm)
     (fun r s' => sys_host s' = sys_host s /\
        (forall p, p <> dst -> p <> src -> is_Some (sys_fs s !! p) -> sys_fs s' !! p = sys_fs s !! p) /\
        put_whole dst c perm (sys_fs s) r (sys_fs s')) s.
Proof.
  intros Hne Hc Hd. unfold replaceFile. wp_step.
  apply wp_Chmod; [intros; wp_step; split_and!; [done|done|by apply put_whole_err]|].
  intros n fl Hn. destruct (Hc n Hn) as [Hdir Hdata]. rewrite Hdir, Hdata. wp_step.
  apply wp_Rename; cbn [sys_fs sys_host].
  - intros _ fl1. wp_step. eapply wp_mono; [apply (wp_copyFileAtomic _ _ _ c); cbn [sys_fs]|].
    + apply copy_apart_exists. by rewrite lookup_insert_ne.
    + intros m. rewrite lookup_insert_eq. by intros [= <-].
    + cbn [sys_fs sys_host]. intros r [files h fl2] (Hh & Hs & Hp). cbn [sys_fs sys_host] in *. subst h.
      unfold put_whole in Hp. rewrite lookup_insert_ne in Hp by done.
      assert (Hall : forall p, p <> dst -> p <> src -> is_Some (sys_fs s !! p) -> files !! p = sys_fs s !! p).
      { intros p Hpd Hps Hsm. rewrite Hs; rewrite ?lookup_insert_ne by done; done. }
      destruct r as [[]|e]; [|by wp_step]. destruct Hp as [_ Hp]. specialize (Hp eq_refl).
      apply wp_removeIfExists; intros r fl3; cbn [sys_fs sys_host]; (split_and!; [done| |]).
      * done.
      * by apply put_whole_ok.
      * intros p Hpd Hps Hsm. rewrite lookup_delete_ne by done. by apply Hall.
      * apply put_whole_ok. by rewrite lookup_delete_ne.
  - intros m fl1. rewrite lookup_insert_eq. intros [= <-]. wp_step. apply wp_Chmod; cbn [sys_fs sys_host].
    + intros e fl2. wp_step. cbn [sys_fs sys_host]. split_and!; [done|intros; by at_path|].
      split; [|done]. right. at_path. eauto.
    + intros m fl2. rewrite lookup_insert_eq. intros [= <-]. apply wp_syncDir. intros r fl3. cbn [sys_fs sys_host f_isdir f_data].
      split_and!; [done|intros; by at_path|]. apply put_whole_ok. by at_path.
Qed.

End copy.

(** ** The download *)

Lemma slen_take_bytes n s : (N.of_nat (slen (take_bytes n s)) <= n)%N.
Proof.
  revert n. induction s as [|c s IH]; intros n; cbn [take_bytes]; [cbn; lia|].
  destruct (N.eqb_spec n 0) as [->|]; [cbn; lia|]. specialize (IH (n - 1)%N).
  unfold slen in *. cbn [String.length]. lia.
Qed.

(** A file that may be installed: it has the expected digest and is not too large. *)
Definition verified (sha data : string) : Prop :=
  sha256_hex data = sha /\ (N.of_nat (slen data) <= maxDownloadSize + 1)%N.

Section download.
Context `{env : HostEnv} `{U : UpdateEnv}.

(** A download touches its two files only, and succeeds only with a verified file in place. *)
Definition downloaded (url sha : string) (a : gmap string fnode) (h : host) (r : res unit) (s' : Sys) : Prop :=
  sys_host s' = h /\ same_but [downloadPart; downloadFinal] a (sys_fs s') /\
  (r = Ok tt -> HasPrefix url "https://" = true /\
     exists d pm, sys_fs s' !! downloadFinal = Some (FNode false d pm) /\ verified sha d).

Lemma downloaded_err url sha a h e s' : sys_host s' = h -> same_but [downloadPart] a (sys_fs s') ->
  downloaded url sha a h (Err e) s'.
Proof. intros Hh Hs. split_and!; [done| |done]. eapply same_but_weaken; [done|]. set_solver. Qed.

Lemma wp_drop_part url sha a h e s : sys_host s = h -> same_but [downloadPart] a (sys_fs s) ->
  wp (drop_part e) (downloaded url sha a h) s.
Proof.
  intros Hh Hs. unfold drop_part. wp_step. apply wp_Remove; intros; wp_step; apply downloaded_err; [done|done|done|].
  eapply same_but_trans; [done|]. same_files.
Qed.

Lemma wp_store_body url sha resp a h p fl : HasPrefix url "https://" = true ->
  wp (store_body resp sha) (downloaded url sha a h) (MkSys (<[downloadPart := FNode false "" p]> a) h fl).
Proof.
  intros Hurl. unfold store_body. pose proof (slen_take_bytes (maxDownloadSize + 1) (Body resp)) as Hlen.
  cbv zeta. set (body := take_bytes _ _) in *. set (cut := match BodyErr resp with Some _ => _ | None => None end).
  wp_step.
  assert (Hs : forall n, same_but [downloadPart] a (<[downloadPart := n]> a)) by (intros n; same_files).
  apply wp_WriteOpened; [intros; apply wp_drop_part; [done|apply Hs]|]. intros fl1. destruct cut; [apply wp_drop_part; [done|apply Hs]|].
  wp_step. apply wp_touch. intros info fl2. wp_case; [apply wp_drop_part; [done|apply Hs]|].
  case_decide as Hsha; [|apply wp_drop_part; [done|apply Hs]]. wp_step. apply wp_touch. intros [[]|e] fl3; [|apply wp_drop_part; [done|apply Hs]].
  wp_step. apply wp_touch. intros [[]|e] fl4; [|apply wp_drop_part; [done|apply Hs]]. wp_step.
  apply wp_Rename; cbn [sys_fs sys_host]; [intros; wp_step; apply downloaded_err; [done|apply Hs]|].
  intros n fl5. rewrite lookup_insert_eq. intros [= <-]. apply wp_syncDir. intros r fl6. cbn [sys_fs sys_host].
  split_and!; [done|same_files|]. intros _. split; [done|]. exists body, p. cbn [sys_fs]. by at_path.
Qed.

Lemma wp_downloadFile url sha token s :
  wp (downloadFile url sha token) (downloaded url sha (sys_fs s) (sys_host s)) s.
Proof.
  unfold downloadFile. destruct (HasPrefix url "https://") eqn:Hurl; cbn [negb]; [|wp_step; by apply downloaded_err].
  wp_step.
  assert (Hk : forall files fl (r : res unit), same_but [downloadPart] (sys_fs s) files ->
    wp (match r with Err e => mret (Err (wrap "remove stale temp file" e)) | Ok _ =>
        match NewRequest url with Some e => mret (Err e) | None =>
        match Do url token with Err e => mret (Err (wrap "HTTP GET" e)) | Ok resp =>
        if negb (StatusCode resp =? 200) then mret (Err (errorf ("unexpected status: " +:+ Itoa (StatusCode resp))))
        else f ← OpenTrunc downloadPart privateFilePerm;
             match f with Err e => mret (Err (wrap "create temp file" e)) | Ok _ => store_body resp sha end
        end end end) (downloaded url sha (sys_fs s) (sys_host s)) (MkSys files (sys_host s) fl)).
  { intros files fl [u|e] Hs; [|wp_step; by apply downloaded_err].
    destruct (NewRequest url); [wp_step; by apply downloaded_err|].
    destruct (Do url token) as [resp|e]; [|wp_step; by apply downloaded_err].
    destruct (negb _); [wp_step; by apply downloaded_err|]. wp_step.
    apply wp_OpenTrunc; cbn [sys_fs sys_host]; [intros; wp_step; by apply downloaded_err|]. intros p fl1.
    eapply wp_mono; [by apply (wp_store_body url)|]. intros r s' (Hh & Hs' & Hr). split_and!; [done| |done].
    eapply same_but_trans; [|done]. eapply same_but_weaken; [done|set_solver]. }
  apply wp_removeIfExists; intros r fl; apply Hk; same_files.
Qed.

(** [MkdirAll] only adds. *)
Lemma wp_MkdirAll path perm (P : res unit -> Sys -> Prop) s :
  (forall r files fl, (forall p n, sys_fs s !! p = Some n -> files !! p = Some n) -> P r (MkSys files (sys_host s) fl)) ->
  wp (MkdirAll path perm) P s.
Proof.
  intros HP. unfold MkdirAll. apply wp_syscall; [intros; by apply HP|]. intros fl. cbv zeta.
  destruct (existsb _ _); cbn [fst snd]; [by apply HP|]. apply HP.
  generalize (parents path) as l. generalize (sys_fs s) as files. clear.
  intros files l. revert files. induction l as [|q l IH]; intros files p n Hp; cbn; [done|]. apply IH.
  destruct (files !! q) eqn:E; [done|]. rewrite lookup_insert_ne; [done|congruence].
Qed.

Lemma wp_ensurePrivateDir path s :
  wp (ensurePrivateDir path) (fun _ s' => sys_host s' = sys_host s /\
     forall p n, sys_fs s !! p = Some n -> exists pm, sys_fs s' !! p = Some (FNode (f_isdir n) (f_data n) pm)) s.
Proof.
  unfold ensurePrivateDir. wp_step.
  assert (H0 : forall n : fnode, exists pm, Some n = Some (FNode (f_isdir n) (f_data n) pm)) by (intros []; cbn; eauto).
  apply wp_MkdirAll. intros [[]|e] fs' fl Hk; cbn iota.
  2:{ wp_step. split; [done|]. intros p n Hp%Hk. cbn. rewrite Hp. apply H0. }
  apply wp_Chmod; cbn [sys_fs sys_host].
  - intros e fl1. split; [done|]. intros p n Hp%Hk. rewrite Hp. apply H0.
  - intros m fl1 Hm. split; [done|]. intros p n Hp%Hk. destruct (decide (p = path)) as [->|].
    + rewrite lookup_insert_eq. rewrite Hp in Hm. injection Hm as <-. eauto.
    + rewrite lookup_insert_ne by done. rewrite Hp. apply H0.
Qed.

End download.

(** ** The update *)

Section installation.
Context `{env : HostEnv} `{U : UpdateEnv} {T : TempLaws U}.

(** The running binary is a plain file, and none of the files an update works with. *)
Definition runs_from (exe data cur : string) (files : gmap string fnode) : Prop :=
  Executable = Ok exe /\ exe ∉ [downloadPart; downloadFinal; BackupPath cur] /\ no_sep cur = true /\
  exists pm, files !! exe = Some (FNode false data pm).

(** What is installed: the old binary, or the verified new one. *)
Definition installed (exe old sha : string) (files : gmap string fnode) : Prop :=
  exists d pm, files !! exe = Some (FNode false d pm) /\ (d = old \/ verified sha d).

(** After a successful update: the new binary is in place, the old one in the backup. *)
Definition updated (exe old sha cur : string) (files : gmap string fnode) : Prop :=
  (exists d, files !! exe = Some (FNode false d privateExecPerm) /\ verified sha d) /\
  files !! BackupPath cur = Some (FNode false old privateFilePerm).

Lemma installed_old exe old sha pm files : files !! exe = Some (FNode false old pm) -> installed exe old sha files.
Proof. intros H. exists old, pm. split; [done|by left]. Qed.

Lemma wp_apply_download exe old cur sha d pm s : runs_from exe old cur (sys_fs s) ->
  sys_fs s !! downloadFinal = Some (FNode false d pm) -> verified sha d ->
  wp (apply_download cur) (fun r s' => sys_host s' = sys_host s /\ installed exe old sha (sys_fs s') /\
        (r = Ok tt -> updated exe old sha cur (sys_fs s'))) s.
Proof.
  intros (He & Hne & Hv & pe & Hexe) Hnew Hver. unfold apply_download. rewrite He. wp_step.
  assert (Hb : BackupPath cur <> downloadFinal) by (rewrite BackupPath_plain by done; done).
  eapply wp_mono; [apply (wp_copyFileAtomic _ _ _ old); [by apply copy_apart_backup|]|].
  { intros n. rewrite Hexe. by intros [= <-]. }
  intros r [f1 h1 fl1] (Hh & Hs & Hp & Hok). cbn [sys_fs sys_host] in *. subst h1.
  assert (H1 : f1 !! exe = Some (FNode false old pe)) by (rewrite Hs; [done|set_solver|by rewrite Hexe]).
  destruct r as [[]|e]; [|wp_step; split_and!; [done|by eapply installed_old|done]]. specialize (Hok eq_refl).
  assert (H2 : f1 !! downloadFinal = Some (FNode false d pm)) by (rewrite Hs; [done|done|by rewrite Hnew]).
  wp_step. eapply wp_mono; [apply (wp_replaceFile _ _ _ d); cbn [sys_fs]|].
  { set_solver. } { intros n. rewrite H2. by intros [= <-]. } { by rewrite H1. }
  cbn [sys_fs sys_host]. intros r [f2 h2 fl2] (Hh & Hs2 & Hp2 & Hok2). cbn [sys_fs sys_host] in *. subst h2.
  assert (Hi : installed exe old sha f2).
  { destruct Hp2 as [Hp2|[pm' Hp2]]; [rewrite H1 in Hp2; by eapply installed_old|]. exists d, pm'. auto. }
  destruct r as [[]|e]; wp_step; (split_and!; [done|done|]); [|done]. intros _. split; [exists d; auto|].
  rewrite Hs2; [done|set_solver|done|by rewrite Hok].
Qed.

Lemma wp_DownloadAndApply url sha new cur token exe old s : runs_from exe old cur (sys_fs s) ->
  wp (DownloadAndApply url sha new cur token) (fun r s' => sys_host s' = sys_host s /\ installed exe old sha (sys_fs s') /\
        (r = Ok tt -> HasPrefix url "https://" = true /\ updated exe old sha cur (sys_fs s'))) s.
Proof.
  intros (He & Hne & Hv & pe & Hexe). unfold DownloadAndApply. wp_step.
  eapply wp_mono; [apply wp_ensurePrivateDir|]. intros r1 [f1 h1 fl1] [Hh H1]. cbn [sys_fs sys_host] in *. subst h1.
  apply H1 in Hexe as [p1 Hexe]. cbn [f_isdir f_data] in Hexe. clear H1.
  assert (Hstop : forall e files pm fl, files !! exe = Some (FNode false old pm) ->
    wp (mret (Err e)) (fun r s' => sys_host s' = sys_host s /\ installed exe old sha (sys_fs s') /\
        (r = Ok tt -> HasPrefix url "https://" = true /\ updated exe old sha cur (sys_fs s')))
      (MkSys files (sys_host s) fl)).
  { intros. wp_step. split_and!; [done|by eapply installed_old|done]. }
  destruct r1; [|by eapply Hstop]. wp_step.
  eapply wp_mono; [apply wp_ensurePrivateDir|]. intros r2 [f2 h2 fl2] [Hh H2]. cbn [sys_fs sys_host] in *. subst h2.
  apply H2 in Hexe as [p2 Hexe]. cbn [f_isdir f_data] in Hexe. clear H2. destruct r2; [|by eapply Hstop]. wp_step.
  eapply wp_mono; [apply wp_downloadFile|]. intros r3 [f3 h3 fl3] (Hh & Hs & Hok). cbn [sys_fs sys_host] in *. subst h3.
  assert (H3 : f3 !! exe = Some (FNode false old p2)) by (rewrite Hs; [done|set_solver]).
  destruct r3 as [[]|]; [|by eapply Hstop]. destruct (Hok eq_refl) as (Hurl & d & pm & Hd & Hver).
  eapply wp_mono; [apply (wp_apply_download exe old cur sha d pm); cbn [sys_fs]; [|done|done]|].
  - split_and!; eauto.
  - cbn [sys_fs sys_host]. intros r s' (Hh & Hi & Hu). split_and!; auto.
Qed.

(** C6: Whatever fails on the way, an update returns with the running binary whole: it is the old
    file or one whose SHA-256 is the announced one, of at most 50 MiB and a byte.  A successful
    update came over https, left the verified file executable in place, and the old binary in the
    backup of its version. *)
Theorem update_installs_verified url sha new cur token exe old s : runs_from exe old cur (sys_fs s) ->
  exists r s', DownloadAndApply url sha new cur token s = (Ret r, s') /\ installed exe old sha (sys_fs s') /\
    (r = Ok tt -> HasPrefix url "https://" = true /\ updated exe old sha cur (sys_fs s')).
Proof.
  intros H. apply (wp_DownloadAndApply url sha new cur token) in H. apply wp_run in H as (r & s' & E & _ & H).
  eauto.
Qed.

(** ** Rolling back *)

Lemma touch_ok op path files h : touch op path (MkSys files h []) = (Ret (Ok tt), MkSys files h []).
Proof. apply syscall_ok. Qed.

Lemma syncDir_ok path files h : syncDir path (MkSys files h []) = (Ret (Ok tt), MkSys files h []).
Proof. unfold syncDir, mbind, M_bind. by rewrite touch_ok, touch_ok. Qed.

(** With no failing call, a plain file takes the place of another in one rename. *)
Lemma replaceFile_ok src dst perm c p n files h : src <> dst -> files !! src = Some (FNode false c p) ->
  files !! dst = Some n -> f_isdir n = false ->
  replaceFile src dst perm (MkSys files h []) =
  (Ret (Ok tt), MkSys (<[dst := FNode false c perm]> (delete src files)) h []).
Proof.
  intros Hne Hs Hd Hn. unfold replaceFile, mbind, M_bind, Chmod, Rename.
  rewrite syscall_ok. cbn [fst snd]. rewrite Hs. cbn [fst snd f_isdir f_data].
  rewrite syscall_ok. rewrite lookup_insert_eq, lookup_insert_ne, Hd, Hn by done. cbn [fst snd].
  rewrite syscall_ok, lookup_insert_eq. cbn [fst snd f_isdir f_data]. rewrite insert_insert_eq, delete_insert_eq.
  apply syncDir_ok.
Qed.

(** C15: Rolling back to the backup a successful update made restores the old binary: when no
    system call fails it succeeds with exactly the old contents, executable, in place, and in any
    case what is in place is one of the two binaries. *)
Theorem rollback_restores url sha new cur token exe old s s1 : runs_from exe old cur (sys_fs s) ->
  DownloadAndApply url sha new cur token s = (Ret (Ok tt), s1) ->
  exists r s2, RollbackFrom (BackupPath cur) s1 = (Ret r, s2) /\ installed exe old sha (sys_fs s2) /\
    (r = Ok tt -> sys_fs s2 !! exe = Some (FNode false old privateExecPerm)) /\
    (sys_faults s1 = [] -> r = Ok tt).
Proof.
  intros H E. pose proof (wp_DownloadAndApply url sha new cur token exe old s H) as W. unfold wp in W. rewrite E in W.
  destruct W as (_ & _ & W). destruct (W eq_refl) as (_ & (d & Hexe & Hver) & Hb). clear W E.
  destruct H as (He & Hne & _). assert (BackupPath cur <> exe) as Hbe by set_solver.
  assert (Hold : installed exe old sha (sys_fs s1)) by (exists d, privateExecPerm; auto).
  destruct (sys_faults s1) as [|f fl] eqn:Ef.
  - destruct s1 as [files h fl1]. cbn in *. subst fl1. unfold RollbackFrom, Stat, mbind, M_bind.
    rewrite syscall_ok, Hb. cbn [fst snd IsNotExist]. rewrite He, (replaceFile_ok _ _ _ old privateFilePerm _ _ _ Hbe Hb Hexe eq_refl).
    eexists _, _. split; [done|]. cbn [sys_fs]. split_and!; [|by rewrite lookup_insert_eq|done].
    exists old, privateExecPerm. rewrite lookup_insert_eq. auto.
  - enough (W : wp (RollbackFrom (BackupPath cur)) (fun r s2 => installed exe old sha (sys_fs s2) /\
      (r = Ok tt -> sys_fs s2 !! exe = Some (FNode false old privateExecPerm))) s1).
    { apply wp_run in W as (r & s2 & E & W1 & W2). exists r, s2. by split_and!. }
    unfold RollbackFrom. wp_step. apply wp_Stat. intros r fl1 Hr. rewrite Hr by (rewrite Hb; done). rewrite He. wp_step.
    eapply wp_mono; [apply (wp_replaceFile _ _ _ old); cbn [sys_fs]; [done| |by rewrite Hexe]|].
    { intros n. rewrite Hb. by intros [= <-]. }
    cbn [sys_fs]. intros r2 s2 (_ & _ & Hp & Hok). wp_step. split.
    + destruct Hp as [Hp|[pm Hp]]; [exists d, privateExecPerm; rewrite Hp; auto|exists old, pm; auto].
    + destruct r2; [|done]. intros _. by apply Hok; destruct a.
Qed.

End installation.

(** ** Witnesses *)

Lemma slen_xs n : slen (xs n) = S n.
Proof. induction n as [|n IH]; [done|]. unfold slen in *. cbn. by rewrite IH. Qed.

Lemma slen_longest files p n : files !! p = Some n -> (slen p <= longest files)%nat.
Proof.
  intros H. unfold longest. apply max_list_elem_of_le, list_elem_of_fmap. exists (p, n). split; [done|].
  by apply elem_of_map_to_list.
Qed.

#[global] Instance sim_temp : TempLaws sim_update.
Proof.
  split.
  - intros files p. cbn. destruct (files !! _) as [n|] eqn:E; [|done]. apply slen_longest in E.
    rewrite slen_app, slen_xs in E. lia.
  - intros files p. exists (xs (longest files)). split; [by destruct (longest files)|done].
Qed.

Definition sim_exe : string := "/usr/bin/autopeer-agent".
Definition exe_sys : Sys := MkSys (env := SimEnv) {[ sim_exe := FNode false "old binary" 493 ]} sim0 [].
Definition new_sha : string := sha256_hex "new binary".

(** The download, with a write that is cut short on the way. *)
Definition faulty_sys : Sys :=
  MkSys (env := SimEnv) {[ sim_exe := FNode false "old binary" 493 ]} sim0 (replicate 11 None ++ [Some (Fault "no space left" 3)]).

Lemma update_installs_verified_witness :
  (DownloadAndApply "https://center/agent" new_sha "2.0" "1.0" "token" exe_sys).1 = Ret (Ok tt) /\
  (exists e, (DownloadAndApply "https://center/agent" new_sha "2.0" "1.0" "token" faulty_sys).1 = Ret (Err e)) /\
  exists r s', DownloadAndApply "https://center/agent" new_sha "2.0" "1.0" "token" exe_sys = (Ret r, s') /\
    installed sim_exe "old binary" new_sha (sys_fs s') /\
    (r = Ok tt -> HasPrefix "https://center/agent" "https://" = true /\
       updated sim_exe "old binary" new_sha "1.0" (sys_fs s')).
Proof.
  split; [vm_compute; reflexivity|]. split; [eexists; vm_compute; reflexivity|].
  apply (update_installs_verified "https://center/agent" new_sha "2.0" "1.0" "token" sim_exe "old binary" exe_sys).
  split_and!; [reflexivity|vm_compute; set_solver|reflexivity|]. exists 493. reflexivity.
Defined.

Definition updated_sys : Sys := (DownloadAndApply "https://center/agent" new_sha "2.0" "1.0" "token" exe_sys).2.

Lemma rollback_restores_witness :
  exists r s2, RollbackFrom (BackupPath "1.0") updated_sys = (Ret r, s2) /\
    installed sim_exe "old binary" new_sha (sys_fs s2) /\
    (r = Ok tt -> sys_fs s2 !! sim_exe = Some (FNode false "old binary" privateExecPerm)) /\
    (sys_faults updated_sys = [] -> r = Ok tt).
Proof.
  apply (rollback_restores "https://center/agent" new_sha "2.0" "1.0" "token" sim_exe "old binary" exe_sys updated_sys).
  - split_and!; [reflexivity|vm_compute; set_solver|reflexivity|]. exists 493. reflexivity.
  - apply injective_projections; [vm_compute; reflexivity|reflexivity].
Defined.

(** ** Files an update leaves alone *)

Section leaves.
Context `{env : HostEnv} `{U : UpdateEnv} {T : TempLaws U} (q : string).

(** A computation returns and does not touch [q], whether it is there or not. *)
Definition Leaves {T0} (m : M Sys T0) : Prop := forall s, wp m (fun _ s' => sys_fs s' !! q = sys_fs s !! q) s.

Lemma leaves_ret {T0} (a : T0) : Leaves (mret a).
Proof. by intros s. Qed.
Lemma leaves_bind {T0 T1} (m : M Sys T0) (f : T0 -> M Sys T1) : Leaves m -> (forall a, Leaves (f a)) -> Leaves (m ≫= f).
Proof.
  intros Hm Hf s. wp_step. eapply wp_mono; [apply Hm|]. intros a s1 H1. eapply wp_mono; [apply Hf|].
  intros b s2 H2. by rewrite H2.
Qed.
Lemma leaves_gets {T0} (f : Sys -> T0) : Leaves (gets f).
Proof. by intros s. Qed.
Lemma leaves_syscall {T0} op path (f : fs -> res T0 * fs) : (forall files, (f files).2 !! q = files !! q) -> Leaves (syscall op path f).
Proof. intros Hf s. apply wp_syscall; intros; [done|apply Hf]. Qed.

Lemma leaves_touch op path : Leaves (touch op path).
Proof. by apply leaves_syscall. Qed.
Lemma leaves_ReadFile path : Leaves (ReadFile path).
Proof. apply leaves_syscall. intros files. by repeat case_match. Qed.
Lemma leaves_OpenTrunc path perm : q <> path -> Leaves (OpenTrunc path perm).
Proof. intros Hq. apply leaves_syscall. intros files. repeat case_match; cbn; rewrite ?lookup_insert_ne; done. Qed.
Lemma leaves_Remove path : q <> path -> Leaves (Remove path).
Proof. intros Hq. apply leaves_syscall. intros files. repeat case_match; cbn; rewrite ?lookup_delete_ne; done. Qed.
Lemma leaves_Chmod path perm : q <> path -> Leaves (Chmod path perm).
Proof. intros Hq. apply leaves_syscall. intros files. repeat case_match; cbn; rewrite ?lookup_insert_ne; done. Qed.
Lemma leaves_Rename src dst : q <> src -> q <> dst -> Leaves (Rename src dst).
Proof.
  intros H1 H2. apply leaves_syscall. intros files. repeat case_match; cbn; rewrite ?lookup_insert_ne, ?lookup_delete_ne; done.
Qed.
Lemma leaves_WriteOpened path d : q <> path -> Leaves (WriteOpened path d).
Proof.
  intros Hq s. unfold WriteOpened. wp_step. unfold wp at 1, next_fault.
  destruct (sys_faults s) as [|[e|] l]; wp_steps; cbn -[alter]; by rewrite lookup_alter_ne.
Qed.
Lemma leaves_MkdirAll path perm : q ∉ parents path -> Leaves (MkdirAll path perm).
Proof.
  intros Hq. apply leaves_syscall. intros files. cbv zeta. destruct (existsb _ _); [done|]. cbn [snd].
  revert files Hq. induction (parents path) as [|p l IH]; intros files Hq; cbn; [done|].
  apply not_elem_of_cons in Hq as [Hp Hq]. rewrite IH by done. destruct (files !! p); [done|]. by rewrite lookup_insert_ne.
Qed.

(** Case analysis, then the rules; the side conditions that names differ are left. *)
Ltac leaves_tac :=
  repeat (intros; lazymatch goal with
          | |- Leaves (if ?b then _ else _) => destruct b
          | |- Leaves (match ?x with _ => _ end) => destruct x
          | |- Leaves (_ ≫= _) => apply leaves_bind
          | |- Leaves (mret _) => apply leaves_ret
          | |- Leaves (gets _) => apply leaves_gets
          | |- Leaves (touch _ _) => apply leaves_touch
          | |- Leaves (ReadFile _) => apply leaves_ReadFile
          | |- Leaves (OpenTrunc _ _) => apply leaves_OpenTrunc
          | |- Leaves (Remove _) => apply leaves_Remove
          | |- Leaves (Chmod _ _) => apply leaves_Chmod
          | |- Leaves (Rename _ _) => apply leaves_Rename
          | |- Leaves (WriteOpened _ _) => apply leaves_WriteOpened
          | |- Leaves _ => progress unfold syncDir, removeIfExists, drop_part, copy_steps, ensurePrivateDir
          end).

(** [q] is not a temporary name for [dst]. *)
Definition not_temp (dst : string) : Prop := HasPrefix q (Join [Dir dst; "." +:+ Base dst +:+ "."]) = false.

Lemma not_temp_name dst files : not_temp dst -> q <> temp_name files (Join [Dir dst; "." +:+ Base dst +:+ "."]).
Proof.
  intros H E. destruct (temp_prefix files (Join [Dir dst; "." +:+ Base dst +:+ "."])) as (r & _ & Er).
  unfold not_temp in H. by rewrite E, Er, HasPrefix_app in H.
Qed.

Lemma leaves_copy src dst perm : q <> dst -> not_temp dst -> Leaves (copyFileAtomic src dst perm).
Proof. intros Hd Ht. unfold copyFileAtomic. leaves_tac; try done; by apply not_temp_name. Qed.
Lemma leaves_replace src dst perm : q <> src -> q <> dst -> not_temp dst -> Leaves (replaceFile src dst perm).
Proof.
  intros Hs Hd Ht. unfold replaceFile. apply leaves_bind; [by apply leaves_Chmod|]. intros [|]; [|leaves_tac].
  apply leaves_bind; [by apply leaves_Rename|]. intros [|]; [by leaves_tac|].
  apply leaves_bind; [by apply leaves_copy|]. intros. by leaves_tac.
Qed.
Lemma leaves_download url sha token : q <> downloadPart -> q <> downloadFinal -> Leaves (downloadFile url sha token).
Proof. intros H1 H2. unfold downloadFile, store_body. by leaves_tac. Qed.

Lemma leaves_update url sha new cur token exe : Executable = Ok exe ->
  q ∉ [downloadPart; downloadFinal; BackupPath cur; exe] -> q ∉ parents backupDir -> not_temp (BackupPath cur) -> not_temp exe ->
  Leaves (DownloadAndApply url sha new cur token).
Proof.
  intros He Hq Hp H1 H2. unfold DownloadAndApply, apply_download. rewrite He.
  assert (Hd : forall dir, dir ∈ [Dir backupDir; backupDir] -> Leaves (ensurePrivateDir dir)).
  { intros dir Hdir. unfold ensurePrivateDir.
    assert (Hdir2 : q ∉ parents dir /\ q <> dir).
    { change (parents backupDir) with ["/var"; "/var/lib"; "/var/lib/autopeer-agent"; "/var/lib/autopeer-agent/backup"] in Hp.
      apply elem_of_cons in Hdir as [->|Hdir%list_elem_of_singleton]; [|subst dir].
      - change (parents (Dir backupDir)) with ["/var"; "/var/lib"; "/var/lib/autopeer-agent"].
        change (Dir backupDir) with "/var/lib/autopeer-agent". set_solver.
      - split; [done|]. unfold backupDir. set_solver. }
    destruct Hdir2 as [Hn1 Hn2]. apply leaves_bind; [by apply leaves_MkdirAll|]. intros. by leaves_tac. }
  apply leaves_bind; [apply Hd; set_solver|]. intros [|]; [|leaves_tac].
  apply leaves_bind; [apply Hd; set_solver|]. intros [|]; [|leaves_tac].
  apply leaves_bind; [apply leaves_download; set_solver|]. intros [|]; [|leaves_tac].
  apply leaves_bind; [apply leaves_copy; [set_solver|done]|]. intros [|]; [|leaves_tac].
  apply leaves_bind; [apply leaves_replace; [set_solver|set_solver|done]|]. intros. leaves_tac.
Qed.

End leaves.

(** ** The commands *)

Section commands.
Context `{env : HostEnv} `{U : UpdateEnv} {T : TempLaws U} `{B : Bolt} {L : BoltLaws B} `{A : Aead}.

Lemma respond_run id ok text c s : h_ws s = Some c -> exists rs c',
  Send (response id ok text) c = (Ret rs, c') /\ sendResponse id ok text s = (Ret tt, set_ws (Some c') s).
Proof.
  intros Hc. enough (H : wp (sendResponse id ok text) (fun _ s' => exists rs c',
    Send (response id ok text) c = (Ret rs, c') /\ s' = set_ws (Some c') s) s).
  { apply wp_run in H as ([] & s' & E & rs & c' & Es & ->). eauto. }
  eapply wp_respond; [done|]. eauto.
Qed.

Lemma ws_send_run msg c s : h_ws s = Some c -> exists r c', ws_send msg s = (Ret r, set_ws (Some c') s).
Proof.
  intros Hc. unfold ws_send. rewrite Hc. destruct (Send msg c) as [[r|e] c'] eqn:E; [eauto|].
  unfold Send in E. destruct (negb (conn c)); [done|]. destruct (encode_frame _ c), (enqueue _ _). done.
Qed.

Lemma sha256File_run path s : exists r s', sha256File path s = (Ret r, s') /\ sys_fs s' = sys_fs s.
Proof.
  enough (H : wp (sha256File path) (fun _ s' => sys_fs s' = sys_fs s) s).
  { apply wp_run in H as (r & s' & E & H). eauto. }
  unfold sha256File. wp_step. apply wp_ReadFile; intros; by wp_step.
Qed.

(** The last steps: the version is stored, the answer sent, and the process replaced. *)
Lemma restart_run id ver uid upd c exe (s s1 : HState) : h_ws s = Some c ->
  (_ ← ws_send upd; _ ← on_store (PutVersion ver); _ ← on_store (PutUpdateID uid);
   _ ← sendResponseChecked id true "update applied, restarting"; _ ← on_store Store.Close;
   _ ← modify (fun s0 : HState => set_ws (Ws.Close <$> h_ws s0) s0); (RestartSelf : M HState unit)) s = (Halt (ExecSelf exe), s1) ->
  h_sys s1 = h_sys s /\ exists r1 st1 r2 st2, PutVersion ver (h_store s) = (Ret r1, st1) /\
    PutUpdateID uid st1 = (Ret r2, st2) /\ st_db (h_store s1) = st_db st2.
Proof.
  intros Hc. destruct (ws_send_run upd c s Hc) as (r0 & c0 & E0). rewrite (bind_run _ _ _ _ _ E0).
  destruct (returns_PutVersion ver (h_store s)) as (r1 & st1 & E1).
  erewrite bind_run; [|by apply on_store_run].
  destruct (returns_PutUpdateID uid st1) as (r2 & st2 & E2).
  erewrite bind_run; [|by apply on_store_run]. cbn [set_ws h_sys h_store h_ws h_keyx].
  set (s2 := MkH (h_sys s) st2 (Some c0) (h_keyx s)).
  destruct (ws_send_run (response id true "update applied, restarting") c0 s2 eq_refl) as (r3 & c3 & E3).
  erewrite bind_run. 2:{ unfold sendResponseChecked. erewrite bind_run; [|done]. exact E3. }
  erewrite bind_run; [|by apply on_store_run]. erewrite bind_run; [|done]. unfold RestartSelf, mhalt.
  intros E. assert (s1 = set_ws (Ws.Close <$> Some c3) (MkH (h_sys s) (MkStore (st_db st2) false (st_faults st2)) (Some c3) (h_keyx s))) as ->.
  { destruct Executable as [x|]; [destruct (is_ok (Exec x))|]; by injection E. }
  split; [done|]. exists r1, st1, r2, st2. done.
Qed.

(** An update that restarts the agent downloaded and applied the new binary, and then stored its
    version. *)
Lemma update_restarts h msg p c s exe s1 cur : Unmarshal update_fields (MkUpdate "" "" "" "") (Payload msg) = Some p ->
  h_ws s = Some c -> st_open (h_store s) = true -> a_version (abs (st_db (h_store s))) = Some cur ->
  handleAgentUpdate h msg s = (Halt (ExecSelf exe), s1) ->
  exists sys0, sys_fs sys0 = sys_fs (h_sys s) /\
    DownloadAndApply (up_URL p) (up_SHA256 p) (up_Version p) cur (agentToken h) sys0 = (Ret (Ok tt), h_sys s1) /\
    exists r1 st1 r2 st2, PutVersion (up_Version p) (h_store s) = (Ret r1, st1) /\
      PutUpdateID (up_UpdateID p) st1 = (Ret r2, st2) /\ st_db (h_store s1) = st_db st2.
Proof.
  intros Hp Hc Ho Hv. cbn [abs a_version] in Hv. unfold handleAgentUpdate, with_payload. rewrite Hp.
  assert (Hno : forall ok text (s0 : HState), h_ws s0 = Some c -> sendResponse (ID msg) ok text s0 = (Halt (ExecSelf exe), s1) -> False).
  { intros ok text s0 Hs0 E. destruct (respond_run (ID msg) ok text c s0 Hs0) as (? & ? & _ & E'). congruence. }
  erewrite bind_run; [|by apply on_store_run]. case_decide; [by intros ?%Hno|].
  destruct Executable as [exe0|]; [|by intros ?%Hno].
  destruct (sha256File_run exe0 (h_sys s)) as (hash & sys0 & E0 & Hfs).
  erewrite bind_run; [|by apply on_sys_run]. cbn [h_sys h_store h_ws h_keyx].
  destruct hash as [hash|]; [|by intros ?%Hno]. case_decide.
  { set (s0 := MkH sys0 (h_store s) (h_ws s) (h_keyx s)).
    destruct (respond_run (ID msg) true "already applied (hash match)" c s0 Hc) as (rs & c' & _ & E'). rewrite (bind_run _ _ _ _ _ E').
    destruct (returns_PutUpdateID (up_UpdateID p) (h_store s)) as (r & st & Er). erewrite bind_run; [done|by apply on_store_run]. }
  erewrite bind_run; [|apply on_store_run; unfold GetVersion, View; cbn [h_store]; rewrite Ho, Hv; done].
  cbn [or_empty default from_option id]. case_decide; [by intros ?%Hno|].
  destruct (returns_DownloadAndApply (up_URL p) (up_SHA256 p) (up_Version p) cur (agentToken h) sys0) as (r & sys1 & E1).
  erewrite bind_run; [|by apply on_sys_run]. cbn [h_sys h_store h_ws h_keyx].
  destruct r as [[]|]; [|by intros ?%Hno]. intros E. apply (restart_run _ _ _ _ c) in E as [Hs1 Hst]; [|done].
  exists sys0. cbn [h_sys h_store] in *. rewrite Hs1. auto.
Qed.

(** The version a restarted node runs: what the update stored. *)
Lemma version_stored ver uid st r1 st1 r2 st2 : store_ok st -> st_faults st = [] -> key_ok keyVersion ver = true ->
  PutVersion ver st = (Ret r1, st1) -> PutUpdateID uid st1 = (Ret r2, st2) -> a_version (abs (st_db st2)) = Some ver.
Proof.
  intros Hst Hf Hk E1 E2. pose proof Hst as [Ho Hb]. unfold has_buckets in Hb. rewrite !andb_true_iff in Hb.
  destruct (b_put_ok bucketMeta keyVersion ver (st_db st)) as [d' Hd]; [tauto|done|].
  assert (Hr1 : r1 = Ok tt) by (unfold PutVersion, Store.Update in E1; rewrite Ho, Hd, Hf in E1; by injection E1).
  pose proof (wp_sexec (OpPutVersion ver) st Hst I) as H1. unfold wp in H1. cbn [sexec] in H1. rewrite E1, Hr1 in H1.
  destruct H1 as [Hst1 H1]. pose proof (wp_sexec (OpPutUpdateID uid) st1 Hst1 I) as H2. unfold wp in H2. cbn [sexec] in H2.
  rewrite E2 in H2. destruct H2 as [_ ->]. rewrite H1. cbn [is_ok]. destruct (abs (st_db st)), (is_ok r2); done.
Qed.

(** C32: The update command stores the new version, and the rollback command looks for a backup of
    the stored version; the backup was made under the old one.  So after any successful update
    from a version to another one of which there is no backup, and the restart, a rollback the
    center asks for is refused and changes no file, although the old binary is there, in the
    backup of the old version. *)
Theorem rollback_after_update_fails h msg p c s exe old cur s1 msg2 c2 s2 :
  Unmarshal update_fields (MkUpdate "" "" "" "") (Payload msg) = Some p -> h_ws s = Some c ->
  store_ok (h_store s) -> st_faults (h_store s) = [] -> a_version (abs (st_db (h_store s))) = Some cur ->
  runs_from exe old cur (sys_fs (h_sys s)) -> handleAgentUpdate h msg s = (Halt (ExecSelf exe), s1) ->
  let new := up_Version p in
  no_sep new = true -> new <> "" -> new <> cur -> key_ok keyVersion new = true ->
  sys_fs (h_sys s) !! BackupPath new = None -> BackupPath new <> exe -> not_temp (BackupPath new) exe ->
  sys_fs (h_sys s2) = sys_fs (h_sys s1) -> sys_faults (h_sys s2) = [] -> st_open (h_store s2) = true ->
  a_version (abs (st_db (h_store s2))) = a_version (abs (st_db (h_store s1))) -> h_ws s2 = Some c2 ->
  a_version (abs (st_db (h_store s1))) = Some new /\
  sys_fs (h_sys s1) !! BackupPath cur = Some (FNode false old privateFilePerm) /\
  exists rs c3 s3, handleAgentRollback msg2 s2 = (Ret tt, s3) /\
    Send (response (ID msg2) false ("rollback failed: backup not found at " +:+ BackupPath new)) c2 = (Ret rs, c3) /\
    h_ws s3 = Some c3 /\ sys_fs (h_sys s3) = sys_fs (h_sys s1).
Proof.
  intros Hp Hc Hst Hf Hv Hruns E new Hsep Hne Hnew Hk Habs Hexe Htmp Hfs2 Hfl2 Ho2 Hv2 Hc2. pose proof Hruns as (He & Hex & Hcur & _).
  destruct (update_restarts h msg p c s exe s1 cur Hp Hc ltac:(by apply Hst) Hv E)
    as (sys0 & Hfs0 & Ed & r1 & st1 & r2 & st2 & E1 & E2 & Hdb).
  rewrite <-Hfs0 in Hruns. pose proof (wp_DownloadAndApply (up_URL p) (up_SHA256 p) new cur (agentToken h) exe old sys0 Hruns) as W.
  fold new in Ed. unfold wp in W. rewrite Ed in W. destruct W as (_ & _ & W). destruct (W eq_refl) as (_ & _ & Hb). clear W.
  assert (Hgone : sys_fs (h_sys s1) !! BackupPath new = None).
  { pose proof (leaves_update (BackupPath new) (up_URL p) (up_SHA256 p) new cur (agentToken h) exe He) as Hl.
    assert (Hbn : forall x, x ∈ [downloadPart; downloadFinal] ++ parents backupDir -> BackupPath new <> x).
    { intros x Hx Heq. rewrite <-Heq, BackupPath_plain in Hx by done. vm_compute in Hx.
      repeat (apply elem_of_cons in Hx as [Hx|Hx]; [discriminate|]). by apply elem_of_nil in Hx. }
    assert (Hnb : BackupPath new <> BackupPath cur).
    { rewrite !BackupPath_plain by done. cbn. intros Heq. by simplify_eq. }
    assert (Hl' : Leaves (BackupPath new) (DownloadAndApply (up_URL p) (up_SHA256 p) new cur (agentToken h))).
    { apply Hl; [set_solver|set_solver| |done]. unfold not_temp. rewrite BackupPath_temp, BackupPath_plain by done. done. }
    specialize (Hl' sys0). unfold wp in Hl'. rewrite Ed in Hl'. by rewrite Hl', Hfs0. }
  assert (Hver : a_version (abs (st_db (h_store s1))) = Some new) by (rewrite Hdb; by eapply version_stored).
  split_and!; [done|done|]. rewrite Hver in Hv2. cbn [abs a_version] in Hv2. unfold handleAgentRollback.
  erewrite bind_run; [|apply on_store_run; unfold GetVersion, View; rewrite Ho2, Hv2; done].
  cbn [or_empty default from_option id]. rewrite decide_False by done.
  destruct (h_sys s2) as [files hh fl] eqn:Es2. cbn [sys_fs sys_faults] in Hfs2, Hfl2. subst files fl.
  assert (Er : RollbackFrom (BackupPath new) (MkSys (sys_fs (h_sys s1)) hh [])
    = (Ret (Err (errorf ("backup not found at " +:+ BackupPath new))), MkSys (sys_fs (h_sys s1)) hh [])).
  { unfold RollbackFrom, Stat, mbind, M_bind. rewrite syscall_ok, Hgone. done. }
  erewrite bind_run; [|apply on_sys_run; cbn [h_sys]; exact Er].
  cbn [h_store h_ws h_keyx fst snd].
  edestruct (respond_run (ID msg2) false ("rollback failed: backup not found at " +:+ BackupPath new) c2) as (rs & c3 & Es & E3);
    [|eexists rs, c3, _; split_and!; [exact E3|exact Es|done|done]]. done.
Qed.

End commands.

Definition update_msg (uid ver : string) : Message := MkMessage "agent.update" "7"
  (Some (JObj [("update_id", JStr uid); ("version", JStr ver); ("url", JStr "https://center/agent"); ("sha256", JStr new_sha)])) None "".
Definition rollback_msg : Message := MkMessage "agent.rollback" "8" None None "".

(** A node that runs version 1.0. *)
Definition node10 : HState := (on_store (PutVersion "1.0") (MkH exe_sys mem_store (Some sim_client) None)).2.

(** The node after the update and the restart: the files and the database survive, the store is
    opened and the new binary stores its version as [main] does, and the connection is made anew. *)
Definition after_restart (v : string) (s : HState (env := SimEnv) (B := MemBolt)) : HState :=
  (on_store (PutVersion v) (MkH (h_sys s) (MkStore (st_db (h_store s)) true []) (Some sim_client) None)).2.

Definition updated10 : HState := (handleAgentUpdate sim_handler (update_msg "u1" "2.0") node10).2.

Lemma update_run10 : handleAgentUpdate sim_handler (update_msg "u1" "2.0") node10 = (Halt (ExecSelf sim_exe), updated10).
Proof.
  unfold updated10. rewrite (surjective_pairing (handleAgentUpdate _ _ _)) at 1. by f_equal.
Qed.

Lemma rollback_after_update_fails_witness :
  a_version (abs (st_db (h_store updated10))) = Some "2.0" /\
  sys_fs (h_sys updated10) !! BackupPath "1.0" = Some (FNode false "old binary" privateFilePerm) /\
  exists rs c3 s3, handleAgentRollback rollback_msg (after_restart "2.0" updated10) = (Ret tt, s3) /\
    Send (response "8" false ("rollback failed: backup not found at " +:+ BackupPath "2.0")) sim_client = (Ret rs, c3) /\
    h_ws s3 = Some c3 /\ sys_fs (h_sys s3) = sys_fs (h_sys updated10).
Proof.
  refine (rollback_after_update_fails sim_handler (update_msg "u1" "2.0") (MkUpdate "u1" "2.0" "https://center/agent" new_sha)
    sim_client node10 sim_exe "old binary" "1.0" updated10 rollback_msg sim_client (after_restart "2.0" updated10) _ _ _ _ _ _ _ _ _ _ _ _ _ _ _ _ _ _ _).
  - vm_compute. reflexivity.
  - reflexivity.
  - split; vm_compute; reflexivity.
  - vm_compute. reflexivity.
  - vm_compute. reflexivity.
  - split_and!; [reflexivity|vm_compute; set_solver|reflexivity|]. exists 493. reflexivity.
  - exact update_run10.
  - reflexivity.
  - discriminate.
  - discriminate.
  - vm_compute. reflexivity.
  - vm_compute. reflexivity.
  - vm_compute. discriminate.
  - vm_compute. reflexivity.
  - reflexivity.
  - vm_compute. reflexivity.
  - vm_compute. reflexivity.
  - vm_compute. reflexivity.
  - reflexivity.
Defined.

(** A node that was never updated answers an update without an identifier as already applied,
    whatever binary it names. *)
Example empty_update_id_applied : sent (handleAgentUpdate sim_handler (update_msg "" "2.0") node10).2 =
  [response "7" true "already applied"].
Proof. vm_compute. reflexivity. Qed.
