(* ===== verification/KeyFacts.v ===== *)
(** Properties of the key exchange and of the dispatch of frames: both ends derive one session
    key, an encrypted client serves only frames sealed with it, and the limits of the protocol. *)

From S2P Require Import Prelude GoStrings GoPath Json JsonFacts GoStruct Host SimHost Store StoreFacts Wg WgFacts Bird BirdFacts.
From S2P Require Import Primitives Crypto Ws WsFacts Handler Network Update KeyExchange World.
From Stdlib Require Import Ascii ZifyN.

(** ** Base64 *)

Lemma b64_val_char n : (n < 64)%N -> b64_val (b64_char n) = Some n /\ b64_char n <> "="%char /\
  b64_char n <> LF /\ b64_char n <> CR.
Proof.
  intros Hn.
  assert (Hall : forallb (fun n => bool_decide (b64_val (b64_char (N.of_nat n)) = Some (N.of_nat n))
    && negb (bool_decide (b64_char (N.of_nat n) = "="%char)) && negb (bool_decide (b64_char (N.of_nat n) = LF))
    && negb (bool_decide (b64_char (N.of_nat n) = CR))) (seq 0 64) = true) by (vm_compute; reflexivity).
  rewrite forallb_forall in Hall. specialize (Hall (N.to_nat n)). rewrite N2Nat.id in Hall.
  rewrite !andb_true_iff, !negb_true_iff, bool_decide_eq_true, !bool_decide_eq_false in Hall.
  destruct Hall as [[[? ?] ?] ?]; [|done]. apply in_seq. lia.
Qed.

Ltac Zify.zify_post_hook ::= Z.to_euclidean_division_equations.

(** The three bytes of a group come back. *)
Lemma b64_group_arith a b c : (a < 256)%N -> (b < 256)%N -> (c < 256)%N ->
  let x := (a / 4)%N in let y := (a mod 4 * 16 + b / 16)%N in let z := (b mod 16 * 4 + c / 64)%N in
  let w := (c mod 64)%N in
  (x < 64 /\ y < 64 /\ z < 64 /\ w < 64 /\ x * 4 + y / 16 = a /\ y mod 16 * 16 + z / 4 = b /\ z mod 4 * 64 + w = c)%N.
Proof. intros. cbv zeta. split_and!; lia. Qed.

Ltac Zify.zify_post_hook ::= idtac.

Lemma code_lt c : (code c < 256)%N.
Proof. apply N_ascii_bounded. Qed.

Lemma ascii_code c : ascii_of_N (code c) = c.
Proof. apply ascii_N_embedding. Qed.

Lemma drop_breaks_cons n s : (n < 64)%N -> drop_breaks (String (b64_char n) s) = String (b64_char n) (drop_breaks s).
Proof. intros (_ & _ & H1 & H2)%b64_val_char. cbn. by rewrite !bool_decide_false. Qed.

Lemma b64_full a b c r : b64_decode (b64_encode (String a (String b (String c r)))) =
  (fun t => String a (String b (String c t))) <$> b64_decode (b64_encode r).
Proof.
  destruct (b64_group_arith (code a) (code b) (code c)) as (H1 & H2 & H3 & H4 & E1 & E2 & E3); [apply code_lt..|].
  unfold b64_decode. cbn [b64_encode]. rewrite !drop_breaks_cons by done. cbn [b64_groups].
  apply b64_val_char in H1 as (-> & _ & _), H2 as (-> & _ & _), H3 as (-> & _ & _), H4 as (-> & Hd & _).
  cbn [mbind option_bind]. rewrite (bool_decide_false (_ = "="%char)) by done. cbn [andb].
  rewrite E1, E2, E3, !ascii_code. by destruct (b64_groups _).
Qed.

Lemma b64_two a b : b64_decode (b64_encode (String a (String b ""))) = Some (String a (String b "")).
Proof.
  destruct (b64_group_arith (code a) (code b) 0) as (H1 & H2 & H3 & _ & E1 & E2 & _); [apply code_lt..|done|].
  change (0 / 64)%N with 0%N in *. rewrite N.add_0_r in *.
  unfold b64_decode. cbn [b64_encode]. rewrite !drop_breaks_cons by done. cbn [b64_groups drop_breaks orb].
  apply b64_val_char in H1 as (-> & _ & _), H2 as (-> & _ & _), H3 as (E3 & Hc & _).
  rewrite (bool_decide_false (_ = "="%char)) by done. cbn [mbind option_bind].
  rewrite E3. cbn [mbind option_bind]. cbn. by rewrite E1, E2, !ascii_code.
Qed.

Lemma b64_one a : b64_decode (b64_encode (String a "")) = Some (String a "").
Proof.
  destruct (b64_group_arith (code a) 0 0) as (H1 & H2 & _ & _ & E1 & _); [apply code_lt|done..|].
  change (0 / 16)%N with 0%N in *. rewrite N.add_0_r in *.
  unfold b64_decode. cbn [b64_encode]. rewrite !drop_breaks_cons by done. cbn [b64_groups drop_breaks].
  apply b64_val_char in H1 as (-> & _ & _), H2 as (-> & _ & _). cbn. by rewrite E1, ascii_code.
Qed.

(** Byte strings survive the base64 of JSON. *)
Lemma b64_roundtrip s : b64_decode (b64_encode s) = Some s.
Proof.
  induction s as [s IH] using (induction_ltof1 _ slen). unfold ltof in IH.
  destruct s as [|a [|b [|c r]]]; [done|apply b64_one|apply b64_two|].
  rewrite b64_full, IH; [done|]. unfold slen. cbn. lia.
Qed.

#[global] Arguments b64_decode : simpl never.
#[global] Arguments b64_encode : simpl never.

(** ** The session key *)

Lemma EnableEncryption_ok k c : slen k = KeySize -> EnableEncryption k c = set_crypto true (Some k) c.
Proof. intros H. unfold EnableEncryption, NewAEAD. by rewrite H. Qed.

#[global] Arguments X25519 : simpl never.
#[local] Opaque X25519.
#[global] Arguments DeriveEncKey : simpl never.
#[global] Arguments PubKeyHex : simpl never.

(** The acknowledgements a peer with private key [priv] sends. *)
Definition init_ack (priv nonce : string) : Message := MkMessage "key.init_ack" ""
  (Some (JObj [("pubkey", JStr (PubKeyHex (public_of priv))); ("nonce", JStr (b64_encode nonce))])) None "".
Definition auth_ack (priv authNonce centerNonce err : string) : Message := MkMessage "key.auth_ack" ""
  (Some (JObj [("pubkey", JStr (PubKeyHex (public_of priv))); ("auth_nonce", JStr (b64_encode authNonce));
               ("center_nonce", JStr (b64_encode centerNonce))])) None err.

(** X25519 agrees on a secret between two keys, which is not the secret of a low-order point. *)
Definition dh_agree (kp : KeyPair) (priv : string) : Prop :=
  X25519 (PrivateKey kp) (public_of priv) = X25519 priv (PublicKey kp) /\
  is_ok (DeriveSharedSecret (PrivateKey kp) (public_of priv)) = true.

Section exchange.
Context `{env : HostEnv} `{B : Bolt} {L : BoltLaws B} `{A : Aead} {AL : AeadLaws A} `{K : Hkdf} {KL : HkdfLaws K}.

(** The client is encrypted with [k]: it reads the messages sealed with [k]. *)
Definition speaks (k : string) (c : Client) : Prop :=
  encrypted c = true /\ aead c = Some k /\
  forall m r f r', message_wf m = true -> rng_ok r -> Encrypt k (marshal_message m) r = (Ok f, r') ->
    decode_frame c (MkItem BinaryMessage f) = Some m.

Lemma DeriveEncKey_ok shared nonce : exists k, DeriveEncKey shared nonce = Ok k /\ slen k = KeySize.
Proof. unfold DeriveEncKey. destruct (hkdf_key_ok shared nonce "autopeer-encryption-key") as (k & -> & H). by exists k. Qed.

Lemma speaks_enabled k c : slen k = KeySize -> speaks k (EnableEncryption k c).
Proof.
  intros Hk. rewrite EnableEncryption_ok by done. split_and!; [done|done|]. intros m r f r' Hm Hr E.
  unfold decode_frame. cbn [encrypted aead set_crypto msgType data]. rewrite decide_True by done.
  destruct (Decrypt_Encrypt _ _ _ _ _ Hk Hr E) as [-> _]. by apply unmarshal_marshal_message.
Qed.

Lemma PublicKeyFromHex_of priv : PublicKeyFromHex (PubKeyHex (public_of priv)) = Ok (public_of priv).
Proof. apply PublicKeyFromHex_PubKeyHex, slen_X25519. Qed.

Lemma PubKeyHex_nonempty priv : PubKeyHex (public_of priv) <> "".
Proof.
  intros E. pose proof (PublicKeyFromHex_of priv) as H. rewrite E in H. revert H.
  generalize (public_of priv). intros pub H. vm_compute in H. discriminate H.
Qed.

Lemma shared_ok priv pub : is_ok (DeriveSharedSecret priv pub) = true -> DeriveSharedSecret priv pub = Ok (X25519 priv pub).
Proof. unfold DeriveSharedSecret. cbv zeta. case (sforall _ (X25519 priv pub)); [discriminate|reflexivity]. Qed.

Lemma dh_secret kp priv : dh_agree kp priv ->
  DeriveSharedSecret (PrivateKey kp) (public_of priv) = Ok (X25519 priv (PublicKey kp)).
Proof. intros [E H]. rewrite (shared_ok _ _ H), E. reflexivity. Qed.

Lemma parse_init_ack priv nonce :
  Unmarshal initAck_fields (MkInitAck "" "") (Payload (init_ack priv nonce))
  = Some (MkInitAck (PubKeyHex (public_of priv)) nonce).
Proof.
  cbn [init_ack Payload Unmarshal mbind option_bind decode_struct].
  erewrite decode_members_cons; [|reflexivity|reflexivity].
  erewrite decode_members_cons; [|reflexivity|cbn; by rewrite b64_roundtrip]. done.
Qed.

Lemma parse_auth_ack priv an cn err :
  Unmarshal authAck_fields (MkAuthAck "" "" "") (Payload (auth_ack priv an cn err))
  = Some (MkAuthAck (PubKeyHex (public_of priv)) an cn).
Proof.
  cbn [auth_ack Payload Unmarshal mbind option_bind decode_struct].
  erewrite decode_members_cons; [|reflexivity|reflexivity].
  erewrite decode_members_cons; [|reflexivity|cbn; by rewrite b64_roundtrip].
  erewrite decode_members_cons; [|reflexivity|cbn; by rewrite b64_roundtrip]. done.
Qed.

(** C9: First connection: when the center acknowledges with its public key and a nonce, the
    exchange ends well on the key the center derives from its own private key and the agent's
    public key; the client then reads what the center seals with it.  The center's key is
    remembered by the client, and by the store unless the write failed. *)
Theorem key_init_agrees kp priv nonce ch rest c s : dh_agree kp priv -> store_ok (h_store s) ->
  h_ws s = Some c -> h_keyx s = Some ch -> kc_buf ch = init_ack priv nonce :: rest ->
  exists k c' s', keyx_end kp WaitInit s = (Ret (Ok tt), s') /\ h_ws s' = Some c' /\
    DeriveEncKey (X25519 priv (PublicKey kp)) nonce = Ok k /\ speaks k c' /\
    serverPub c' = PubKeyHex (public_of priv) /\ sendCh c' = sendCh c /\
    (abs (st_db (h_store s')) = aexec (OpPutServerPubKey (PubKeyHex (public_of priv))) (abs (st_db (h_store s)))
     \/ abs (st_db (h_store s')) = abs (st_db (h_store s))).
Proof.
  intros Hdh Hst Hws Hch Hk. destruct (DeriveEncKey_ok (X25519 priv (PublicKey kp)) nonce) as (k & Ek & Hlen).
  enough (W : wp (keyx_end kp WaitInit) (fun r s' => r = Ok tt /\ exists c', h_ws s' = Some c' /\ speaks k c' /\
    serverPub c' = PubKeyHex (public_of priv) /\ sendCh c' = sendCh c /\
    (abs (st_db (h_store s')) = aexec (OpPutServerPubKey (PubKeyHex (public_of priv))) (abs (st_db (h_store s)))
     \/ abs (st_db (h_store s')) = abs (st_db (h_store s)))) s).
  { apply wp_run in W as (r & s' & E & -> & c' & Hw & H). exists k, c', s'. auto. }
  unfold keyx_end. wp_steps. rewrite Hch. cbn [fmap option_fmap option_map]. rewrite Hk. wp_steps. unfold handleKeyInitAckPayload.
  rewrite decide_False by (intros H; by apply H). rewrite parse_init_ack. cbn [ia_Pubkey ia_Nonce].
  rewrite decide_False by apply PubKeyHex_nonempty. rewrite PublicKeyFromHex_of, (dh_secret _ _ Hdh), Ek.
  wp_steps. apply wp_zoom. eapply wp_mono; [by apply (wp_sexec (OpPutServerPubKey (PubKeyHex (public_of priv))))|].
  intros r st [_ Habs]. unfold with_client. wp_steps. cbn [h_ws set_ws set_keyx]. split; [done|]. rewrite Hws. cbn [fmap option_fmap option_map].
  eexists. split_and!; [done|by apply speaks_enabled| | |].
  - by rewrite EnableEncryption_ok.
  - by rewrite EnableEncryption_ok.
  - cbn [h_store set_ws set_keyx]. destruct (is_ok r); auto.
Qed.

(** C37: Reconnection: the acknowledgement of key.auth is taken from any sender.  Whoever knows
    some private key and saw the nonce of key.auth, which goes out in the clear, makes the
    exchange succeed and shares the session key with the agent; the pinned key of the center, the
    auth_nonce of the acknowledgement and its error text play no part. *)
Theorem key_auth_unauthenticated kp priv nonce authNonce centerNonce err ch rest c s : dh_agree kp priv ->
  h_ws s = Some c -> h_keyx s = Some ch -> kc_buf ch = auth_ack priv authNonce centerNonce err :: rest ->
  exists k c' s', keyx_end kp (WaitAuth nonce) s = (Ret (Ok tt), s') /\ h_ws s' = Some c' /\
    DeriveEncKey (X25519 priv (PublicKey kp)) (nonce +:+ centerNonce) = Ok k /\ speaks k c' /\ h_store s' = h_store s.
Proof.
  intros Hdh Hws Hch Hk. destruct (DeriveEncKey_ok (X25519 priv (PublicKey kp)) (nonce +:+ centerNonce)) as (k & Ek & Hlen).
  enough (W : wp (keyx_end kp (WaitAuth nonce)) (fun r s' => r = Ok tt /\ exists c', h_ws s' = Some c' /\
    speaks k c' /\ h_store s' = h_store s) s).
  { apply wp_run in W as (r & s' & E & -> & c' & Hw & H). exists k, c', s'. auto. }
  unfold keyx_end. wp_steps. rewrite Hch. cbn [fmap option_fmap option_map]. rewrite Hk. wp_steps. unfold handleKeyAuthAckPayload. rewrite parse_auth_ack.
  cbn [aa_Pubkey aa_CenterNonce]. rewrite decide_False by apply PubKeyHex_nonempty.
  rewrite PublicKeyFromHex_of, (dh_secret _ _ Hdh), Ek. unfold with_client. wp_steps. cbn [h_ws set_ws set_keyx].
  split; [done|]. rewrite Hws. cbn [fmap option_fmap option_map]. eexists. split_and!; [done|by apply speaks_enabled|done].
Qed.

(** The key.auth message of an agent. *)
Definition key_auth_msg (kp : KeyPair) (node nonce proof : string) : Message := MkMessage "key.auth" ""
  (Some (JObj [("node_id", JStr node); ("nonce", JStr (b64_encode nonce)); ("proof", JStr (b64_encode proof));
               ("pubkey", JStr (PubKeyHex (PublicKey kp)))])) None "".

Lemma wp_cached_pub pub (P : string -> HState -> Prop) s : store_ok (h_store s) ->
  a_server_pub (abs (st_db (h_store s))) = Some pub -> P pub s -> wp GetServerPubKeyCached P s.
Proof.
  intros [Ho Hb] Hp H. unfold GetServerPubKeyCached. wp_step. apply wp_zoom. unfold wp, GetServerPubKey, View.
  rewrite Ho. unfold has_buckets in Hb. rewrite !andb_true_iff in Hb. destruct Hb as [_ ->].
  cbn in Hp. rewrite Hp. destruct s. exact H.
Qed.

Lemma wp_send_plain m (P : res unit -> HState -> Prop) c s : h_ws s = Some c -> conn c = true -> encrypted c = false ->
  (length (sendCh c) < queue_cap)%nat ->
  P (Ok tt) (set_ws (Some (set_queue (sendCh c ++ [MkItem TextMessage (marshal_message m)]) c)) s) ->
  wp (ws_send m) P s.
Proof.
  intros Hws Hc He Hq H. unfold wp, ws_send, Send, encode_frame, enqueue. rewrite Hws, Hc, He. cbn [negb].
  apply Nat.ltb_lt in Hq. rewrite Hq. exact H.
Qed.

(** C19: Reconnection: with the center's key cached and a fresh nonce drawn, the agent queues
    exactly one plain frame, a key.auth with its node id, its public key, the nonce, and a proof that is the
    one the center computes for this nonce from its own private key and the agent's public key. *)
Theorem key_auth_proof kp priv n c s : dh_agree kp priv -> store_ok (h_store s) ->
  a_server_pub (abs (st_db (h_store s))) = Some (PubKeyHex (public_of priv)) ->
  h_ws s = Some c -> conn c = true -> encrypted c = false -> (length (sendCh c) < queue_cap)%nat ->
  (NewNonce (crng c)).1 = Ok n ->
  exists c' s', doKeyAuth kp s = (Ret (Ok (WaitAuth n)), s') /\ h_ws s' = Some c' /\ h_store s' = h_store s /\
    h_sys s' = h_sys s /\ sendCh c' = sendCh c ++ [MkItem TextMessage (marshal_message
      (key_auth_msg kp (NodeID c) n (ComputeAuthProof (X25519 priv (PublicKey kp)) n)))].
Proof.
  intros Hdh Hst Hpub Hws Hc He Hq Hn.
  enough (W : wp (doKeyAuth kp) (fun r s' => r = Ok (WaitAuth n) /\ exists c', h_ws s' = Some c' /\ h_store s' = h_store s /\
    h_sys s' = h_sys s /\ sendCh c' = sendCh c ++ [MkItem TextMessage (marshal_message
      (key_auth_msg kp (NodeID c) n (ComputeAuthProof (X25519 priv (PublicKey kp)) n)))]) s).
  { apply wp_run in W as (r & s' & E & -> & c' & H). eauto. }
  unfold doKeyAuth, get_client. wp_steps. rewrite Hws. destruct (NewNonce (crng c)) as [r g]. cbn in Hn. subst r.
  unfold with_client. wp_steps. rewrite Hws. cbn [fmap option_fmap option_map].
  eapply wp_cached_pub; [done|done|]. rewrite PublicKeyFromHex_of, (dh_secret _ _ Hdh). wp_step.
  eapply wp_send_plain; [done|done|done|done|]. wp_step. split; [done|]. eexists. split_and!; done.
Qed.

(** ** Frames *)

Context `{R : Resolver} `{U : UpdateEnv}.

(** C10: Once encryption is on, a frame is served only if it is a binary frame that opens under the
    session key, and then as the message it seals; any other frame changes nothing. *)
Theorem encrypted_frames_only h now f c k s : h_ws s = Some c -> encrypted c = true -> aead c = Some k ->
  read_frame h now f s = (Ret tt, s) \/
  exists plain msg, msgType f = BinaryMessage /\ Decrypt k (data f) = Ok plain /\
    unmarshal_message plain = Some msg /\ read_frame h now f s = HandleMessage h now msg s.
Proof.
  intros Hws He Ha. unfold read_frame, get_client, mbind, M_bind, gets. rewrite Hws.
  unfold decode_frame. rewrite He, Ha. case_decide as Ht; [|by left].
  destruct (Decrypt k (data f)) as [plain|] eqn:Ed; [|by left].
  destruct (unmarshal_message plain) as [msg|] eqn:Em; [|by left]. right. exists plain, msg. auto.
Qed.

(** C38: Before encryption is on every message is served, not only those of the key exchange: a
    plain frame with any message is dispatched as that message. *)
Theorem plaintext_served h now ty msg c s : h_ws s = Some c -> encrypted c = false -> message_wf msg = true ->
  read_frame h now (MkItem ty (marshal_message msg)) s = HandleMessage h now msg s.
Proof.
  intros Hws He Hm. unfold read_frame, get_client, mbind, M_bind, gets. rewrite Hws.
  unfold decode_frame. rewrite He. cbn [data]. by rewrite unmarshal_marshal_message.
Qed.

(** Handling the acknowledgement of an exchange does not touch its channel. *)
Lemma init_payload_keyx kp msg s o s' : handleKeyInitAckPayload kp msg s = (o, s') -> h_keyx s' = h_keyx s.
Proof.
  unfold handleKeyInitAckPayload, with_client, on_store, zoom, modify, mbind, M_bind, mret, M_ret.
  intros E. repeat case_match; simplify_eq; done.
Qed.
Lemma auth_payload_keyx kp msg n s o s' : handleKeyAuthAckPayload kp msg n s = (o, s') -> h_keyx s' = h_keyx s.
Proof.
  unfold handleKeyAuthAckPayload, with_client, modify, mbind, M_bind, mret, M_ret.
  intros E. repeat case_match; simplify_eq; done.
Qed.

(** An exchange that came to its end, by a message or by the timeout, took at most one message and
    receives no more. *)
Lemma keyx_end_chan kp w k s o s' : h_keyx s = Some k -> keyx_end kp w s = (o, s') ->
  h_keyx s' = Some (MkChan (tail (kc_buf k)) false).
Proof.
  intros Hk. unfold keyx_end, gets, modify. unfold mbind, M_bind. rewrite Hk. cbn [fmap option_fmap option_map].
  set (s1 := set_keyx _ s). assert (H1 : h_keyx s1 = Some (MkChan (tail (kc_buf k)) false)) by done. rewrite <-H1.
  destruct (kc_buf k) as [|m l]; [by intros [= _ <-]|].
  destruct w; [apply init_payload_keyx|apply auth_payload_keyx].
Qed.

Definition is_ack (m : Message) : Prop := Type_ m = "key.init_ack" \/ Type_ m = "key.auth_ack".

(** A run of acknowledgements: they fit the channel, or one of them blocks. *)
Lemma acks_run h now l k s : Forall is_ack l -> h_keyx s = Some k ->
  (mfor (HandleMessage h now) l s).1 = if (length l <=? chan_room k)%nat then Ret tt else Halt (Blocked "pendingKeyX").
Proof.
  intros Hl. revert k s. induction Hl as [|m l Hm Hl IH]; intros k s Hk; [done|].
  assert (HandleMessage h now m = chan_send m) as Hack.
  { destruct Hm as [E|E]; unfold HandleMessage; rewrite E; reflexivity. }
  unfold mfor in *. cbn [mfold length]. rewrite Hack. unfold chan_send, mbind, M_bind, gets. rewrite Hk.
  destruct (chan_room k) as [|n] eqn:Er; [done|]. cbn [Nat.ltb Nat.leb]. unfold modify.
  rewrite (IH (MkChan (kc_buf k ++ [m]) (kc_waiting k))) by done.
  assert (chan_room (MkChan (kc_buf k ++ [m]) (kc_waiting k)) = n) as ->; [|done].
  unfold chan_room in *. cbn [kc_buf kc_waiting]. rewrite length_app. cbn [length]. lia.
Qed.

(** C36: Once an exchange has come to its end, whether it received its acknowledgement or timed
    out, its channel takes one more message at most, as nobody receives from it any more: of
    further acknowledgements exactly as many as there is room for are taken, and two of them stop
    the agent's read loop for good. *)
Theorem extra_acks_block h now kp w k r s s' : h_keyx s = Some k -> keyx_end kp w s = (Ret r, s') ->
  exists room, (room <= 1)%nat /\ room = (1 - length (tail (kc_buf k)))%nat /\ forall l, Forall is_ack l ->
    (mfor (HandleMessage h now) l s').1 = (if (length l <=? room)%nat then Ret tt else Halt (Blocked "pendingKeyX")) /\
    ((2 <= length l)%nat -> (mfor (HandleMessage h now) l s').1 = Halt (Blocked "pendingKeyX")).
Proof.
  intros Hk E. apply (keyx_end_chan _ _ k) in E; [|done]. exists (1 - length (tail (kc_buf k)))%nat. split_and!; [lia|done|].
  intros l Hl. rewrite (acks_run h now l _ s' Hl E). unfold chan_room. cbn [kc_buf kc_waiting]. rewrite Nat.add_0_r.
  split; [done|]. intros H2. destruct (Nat.leb_spec (length l) (1 - length (tail (kc_buf k)))%nat); [lia|done].
Qed.

End exchange.

(** ** Witnesses *)

#[local] Transparent X25519.

Definition center_priv : string := string_of (replicate 32 9%N).
Definition nonce8 : string := string_of (replicate 8 5%N).

(** A state in which the exchange waits and [msg] arrived. *)
Definition keyx_world (msgs : list Message) : HState := set_keyx (Some (MkChan msgs true)) world.

Definition center_pub : string := Eval vm_compute in public_of center_priv.
Definition sim_secret : string := Eval vm_compute in X25519 center_priv sim_pub.

Lemma center_pub_ok : public_of center_priv = center_pub.
Proof. vm_compute. reflexivity. Qed.

Lemma sim_dh : dh_agree sim_keypair center_priv.
Proof.
  assert (H : X25519 sim_priv center_pub = sim_secret) by (vm_compute; reflexivity).
  split; rewrite center_pub_ok; cbn [PrivateKey PublicKey sim_keypair].
  - rewrite H. vm_compute. reflexivity.
  - unfold DeriveSharedSecret. rewrite H. vm_compute. reflexivity.
Qed.

Lemma key_init_agrees_witness : exists k c' s',
  keyx_end sim_keypair WaitInit (keyx_world [init_ack center_priv nonce8]) = (Ret (Ok tt), s') /\ h_ws s' = Some c' /\
  DeriveEncKey (X25519 center_priv (PublicKey sim_keypair)) nonce8 = Ok k /\ speaks k c'.
Proof.
  destruct (key_init_agrees sim_keypair center_priv nonce8 (MkChan [init_ack center_priv nonce8] true) [] sim_client (keyx_world [init_ack center_priv nonce8]))
    as (k & c' & s' & E & Hw & Ek & Hs & _).
  - exact sim_dh.
  - split; vm_compute; reflexivity.
  - reflexivity.
  - reflexivity.
  - reflexivity.
  - exists k, c', s'. exact (conj E (conj Hw (conj Ek Hs))).
Defined.

Lemma key_auth_unauthenticated_witness : exists k c' s',
  keyx_end sim_keypair (WaitAuth nonce8) (keyx_world [auth_ack center_priv "wrong" "n" "denied"]) = (Ret (Ok tt), s') /\
  h_ws s' = Some c' /\
  DeriveEncKey (X25519 center_priv (PublicKey sim_keypair)) (nonce8 +:+ "n") = Ok k /\ speaks k c'.
Proof.
  destruct (key_auth_unauthenticated sim_keypair center_priv nonce8 "wrong" "n" "denied" (MkChan [auth_ack center_priv "wrong" "n" "denied"] true) [] sim_client
    (keyx_world [auth_ack center_priv "wrong" "n" "denied"])) as (k & c' & s' & E & Hw & Ek & Hs & _).
  - exact sim_dh.
  - reflexivity.
  - reflexivity.
  - reflexivity.
  - exists k, c', s'. exact (conj E (conj Hw (conj Ek Hs))).
Defined.

(** The world with the center's key in the store. *)
Definition cached_world : HState :=
  (on_store (PutServerPubKey (PubKeyHex center_pub)) world).2.

Lemma key_auth_proof_witness : exists c' s', doKeyAuth sim_keypair cached_world
    = (Ret (Ok (WaitAuth (string_of (replicate 32 0%N)))), s') /\ h_ws s' = Some c' /\ length (sendCh c') = 1%nat.
Proof.
  destruct (key_auth_proof sim_keypair center_priv (string_of (replicate 32 0%N)) sim_client cached_world)
    as (c' & s' & E & Hw & _ & _ & Hq).
  - exact sim_dh.
  - split; vm_compute; reflexivity.
  - rewrite center_pub_ok. vm_compute. reflexivity.
  - vm_compute. reflexivity.
  - reflexivity.
  - reflexivity.
  - apply Nat.ltb_lt. reflexivity.
  - reflexivity.
  - exists c', s'. split; [exact E|]. split; [exact Hw|]. rewrite Hq. reflexivity.
Defined.

Lemma encrypted_frames_only_witness :
  let c := set_crypto true (Some center_priv) sim_client in
  let s := set_ws (Some c) world in
  let f := MkItem TextMessage (marshal_message add_msg) in
  read_frame sim_handler 0 f s = (Ret tt, s).
Proof.
  intros c s f. destruct (encrypted_frames_only sim_handler 0 f c center_priv s) as [H|(plain & msg & Ht & _)].
  - reflexivity.
  - reflexivity.
  - reflexivity.
  - exact H.
  - discriminate Ht.
Defined.

(** The peering of [add_msg] is set up over a connection with no key exchange. *)
Lemma plaintext_served_witness :
  read_frame sim_handler 0 (MkItem TextMessage (marshal_message add_msg)) world = HandleMessage sim_handler 0 add_msg world
  /\ sent (HandleMessage sim_handler 0 add_msg world).2 = [response "42" true "peer added successfully"].
Proof.
  split; [|vm_compute; reflexivity]. apply (plaintext_served sim_handler 0 TextMessage add_msg sim_client world); reflexivity.
Defined.

(** The exchange timed out; the center's late answer and a second one follow. *)
Lemma extra_acks_block_witness : let m := init_ack center_priv nonce8 in
  let s' := (keyx_end sim_keypair WaitInit (keyx_world [])).2 in
  (mfor (HandleMessage sim_handler 0) [m] s').1 = Ret tt /\
  (mfor (HandleMessage sim_handler 0) [m; m] s').1 = Halt (Blocked "pendingKeyX").
Proof.
  intros m s'. destruct (extra_acks_block sim_handler 0 sim_keypair WaitInit (MkChan [] true)
    (Err (errorf "timeout waiting for key.init_ack")) (keyx_world []) s') as (room & _ & -> & H); [reflexivity|reflexivity|].
  assert (Hm : is_ack m) by (left; reflexivity). split.
  - exact (proj1 (H [m] (Forall_cons_2 _ _ _ Hm (Forall_nil_2 _)))).
  - exact (proj1 (H [m; m] (Forall_cons_2 _ _ _ Hm (Forall_cons_2 _ _ _ Hm (Forall_nil_2 _))))).
Defined.
