(* ===== verification/MetricsFacts.v ===== *)
(** Properties of the heartbeat. *)

From S2P Require Import Prelude GoStrings Json GoStruct GoFloat GoNet Host SimHost Store StoreFacts Wg WgFacts Bird BirdFacts.
From S2P Require Import Primitives Crypto Ws WsFacts Handler Network Update KeyExchange Metrics World Answers.

(** ** The peers of a heartbeat *)

Lemma ifToPeer_app l p : ifToPeer (l ++ [p]) = <[peer_iface p.2 := p]> (ifToPeer l).
Proof. unfold ifToPeer. rewrite fold_left_app. by destruct p. Qed.

(** An interface is looked up to the last stored peer on it. *)
Lemma ifToPeer_sound l i p : ifToPeer l !! i = Some p -> p ∈ l /\ peer_iface p.2 = i.
Proof.
  induction l as [|q l IH] using rev_ind; [done|]. rewrite ifToPeer_app, lookup_insert. case_decide as E.
  - intros [= <-]. split; [set_solver|done].
  - intros [? ?]%IH. split; [set_solver|done].
Qed.

Lemma ifToPeer_complete l p : p ∈ l -> (forall q, q ∈ l -> peer_iface q.2 = peer_iface p.2 -> q = p) ->
  ifToPeer l !! peer_iface p.2 = Some p.
Proof.
  induction l as [|q l IH] using rev_ind; [by intros ?%elem_of_nil|]. intros Hp Hu. rewrite ifToPeer_app.
  destruct (decide (peer_iface q.2 = peer_iface p.2)) as [E|E].
  - rewrite E, lookup_insert_eq. f_equal. apply Hu; [set_solver|done].
  - rewrite lookup_insert_ne by done. apply IH; [|intros r Hr; apply Hu; set_solver].
    apply elem_of_app in Hp as [?|?%list_elem_of_singleton]; [done|congruence].
Qed.

(** A metric that reports the row [s] of the peer [p]. *)
Definition reports (m : PeerMetric) (p : string * PeerInfo) (s : InterfaceStats) : Prop :=
  pm_PeerID m = p.1 /\ pm_ASN m = ASN p.2 /\ pm_WgInterface m = peer_iface p.2 /\ Name s = peer_iface p.2 /\
  pm_RxBytes m = RxBytes s /\ pm_TxBytes m = TxBytes s /\ pm_LastHandshake m = LastHandshake s /\
  pm_WgActualEndpoint m = ActualEndpoint s.

Lemma metric_of_sound l states details rtts s m : metric_of (ifToPeer l) states details rtts s = Some m ->
  exists p, p ∈ l /\ reports m p s.
Proof.
  unfold metric_of. destruct (ifToPeer l !! Name s) as [[id info]|] eqn:E; [|done]. cbn. intros [= <-].
  apply ifToPeer_sound in E as [Hp Hi]. exists (id, info). split; [done|]. unfold reports. cbn in *. by rewrite Hi.
Qed.

(** C27: A heartbeat reports nothing but stored peers: each of its entries belongs to one stored
    peer and one row of wg on its interface, with the counters of that row.  A stored peer with
    its interface to itself is reported for every such row; one without a row is not reported. *)
Theorem heartbeat_reports stored states details rtts stats :
  let metrics := omap (metric_of (ifToPeer stored) states details rtts) stats in
  (forall m, m ∈ metrics -> exists p s, p ∈ stored /\ s ∈ stats /\ reports m p s) /\
  (forall p s, p ∈ stored -> s ∈ stats -> Name s = peer_iface p.2 ->
     (forall q, q ∈ stored -> peer_iface q.2 = peer_iface p.2 -> q = p) ->
     exists m, m ∈ metrics /\ reports m p s) /\
  (forall p : string * PeerInfo, (forall s, s ∈ stats -> Name s <> peer_iface p.2) -> forall m, m ∈ metrics ->
     pm_WgInterface m <> peer_iface p.2) /\
  (length metrics <= length stats)%nat.
Proof.
  intros metrics. split_and!.
  - intros m (s & Hs & Hm)%list_elem_of_omap. apply metric_of_sound in Hm as (p & Hp & Hr). eauto.
  - intros p s Hp Hs Hn Hu. pose proof (ifToPeer_complete stored p Hp Hu) as Hl. rewrite <-Hn in Hl.
    destruct (metric_of (ifToPeer stored) states details rtts s) as [m|] eqn:E.
    + exists m. split; [apply list_elem_of_omap; eauto|]. unfold metric_of in E. rewrite Hl in E. destruct p as [id info].
      cbn in E. injection E as <-. unfold reports. cbn in *. by rewrite Hn.
    + unfold metric_of in E. rewrite Hl in E. by destruct p.
  - intros p Hno m (s & Hs & Hm)%list_elem_of_omap Hi. apply metric_of_sound in Hm as (q & _ & Hr).
    destruct Hr as (_ & _ & H1 & H2 & _). apply (Hno s Hs). congruence.
  - unfold metrics. clear. induction stats as [|s l IH]; cbn; [lia|]. case_match; cbn; lia.
Qed.

(** ** One heartbeat *)

Section collecting.
Context `{env : HostEnv} `{B : Bolt} `{A : Aead}.

(** The members of a heartbeat's payload. *)
Definition heartbeat_msg (n : NodeMetrics) (peers : list jval) (ver : string) : Message :=
  MkMessage "heartbeat" "" (Some (JObj [("node_metrics", node_json n); ("peers", JArr peers); ("version", JStr ver)])) None "".










End collecting.

(** ** The interval *)

(** The collector takes its interval as configured: one that is not positive makes its
    goroutine panic, and the agent with it, when it starts; every interval from one second to
    2^33 seconds (272 years) works. *)
Lemma heartbeat_interval_panics sec every : - 2^33 <= sec <= 2^33 ->
  Run_ticker (NewCollector sec every) = (if sec <=? 0 then Some (Panic "non-positive interval for NewTicker") else None).
Proof.
  intros H. unfold Run_ticker, NewCollector. cbn [interval]. unfold Ws.Second. rewrite wrap64_id by (unfold int64; lia).
  destruct (Z.leb_spec sec 0), (Z.leb_spec (sec * 10^9) 0); try done; lia.
Qed.

(** ** Witnesses *)

Lemma heartbeat_interval_panics_witness :
  Run_ticker (NewCollector 0 2) = Some (Panic "non-positive interval for NewTicker") /\
  Run_ticker (NewCollector 60 2) = None.
Proof. split; [apply (heartbeat_interval_panics 0 2); lia|apply (heartbeat_interval_panics 60 2); lia]. Defined.

Definition rt0 : runtime_stats := MkRuntime 0 0 8 60.




Example heartbeat_sent : sent (collect sim_handler 0 rt0 (SetVersion "1.0" (NewCollector 60 2)) world).2 =
  [heartbeat_msg (MkNode 0 0 8 60) [] "1.0"].
Proof. vm_compute. reflexivity. Qed.
