(* ===== verification/MainFacts.v ===== *)
(** Properties of [main]: the key pair survives restarts, directories outside the agent's own are
    left alone, and a started agent is configured. *)

From S2P Require Import Prelude GoStrings GoPath Json Host SimHost Store StoreFacts Wg Bird Primitives Crypto Ws Handler.
From S2P Require Import Network Update KeyExchange Metrics Main World Answers UpdateFacts.
From Stdlib Require Import Ascii.

(** ** The key pair *)

Section keypair.
Context `{B : Bolt} {L : BoltLaws B}.

Lemma PrivateKeyFromHex_PrivKeyHex priv : slen priv = 32%nat -> PrivateKeyFromHex (PrivKeyHex priv) = Ok priv.
Proof. intros H. unfold PrivateKeyFromHex, bytes32, PrivKeyHex. by rewrite DecodeString_Encode, H. Qed.

(** What [load_keypair] makes of the stored hexadecimal keys. *)
Definition stored_pair (a : AStore) : option KeyPair :=
  match a_key_pair a with
  | (Some priv, Some _) =>
      match PrivateKeyFromHex priv with
      | Ok priv => Some (MkKeyPair priv (public_of priv))
      | Err _ => None
      end
  | _ => None
  end.

#[local] Opaque X25519.

Lemma load_keypair_spec s : store_ok s -> load_keypair s = (Ret (stored_pair (abs (st_db s))), s).
Proof.
  intros [Ho Hb]. unfold has_buckets in Hb. rewrite !andb_true_iff in Hb. destruct Hb as [_ Hk].
  unfold load_keypair, Store.HasKeyPair, GetKeyPair, View, mbind, M_bind, mret, M_ret. rewrite Ho, Hk.
  unfold stored_pair. cbn [abs a_key_pair andb].
  destruct (b_get bucketKeys keyLocalPriv (st_db s)) as [priv|] eqn:Ep;
    [rewrite (bool_decide_true (is_Some (Some priv))) by eauto|by rewrite bool_decide_false by (by intros [? ?])].
  destruct (b_get bucketKeys keyLocalPub (st_db s)) as [pub|] eqn:Eq;
    [rewrite (bool_decide_true (is_Some (Some pub))) by eauto|by rewrite bool_decide_false by (by intros [? ?])].
  cbn [andb]. rewrite Ho, Hk, Ep, Eq. by destruct (PrivateKeyFromHex priv).
Qed.

(** Whatever pair a start ends up with is the stored one; the peers are not touched. *)
Lemma agent_keypair_stored r s kp r' s' : store_ok s -> rng_ok r -> agent_keypair r s = (Ret (kp, r'), s') ->
  store_ok s' /\ stored_pair (abs (st_db s')) = Some kp /\ a_peers (abs (st_db s')) = a_peers (abs (st_db s)).
Proof.
  intros Hs Hr. unfold agent_keypair at 1, mbind, M_bind. rewrite (load_keypair_spec s Hs).
  destruct (stored_pair (abs (st_db s))) as [kp0|] eqn:E.
  - intros [= <- _ <-]. done.
  - destruct (GenerateKeyPair r) as [[g|e] rg] eqn:Eg; [|done].
    pose proof (wp_sexec (OpPutKeyPair (PrivKeyHex (PrivateKey g)) (PubKeyHex (PublicKey g))) s Hs I) as W.
    unfold wp in W. cbn [sexec] in W. destruct (PutKeyPair _ _ s) as [[p|h] s1]; [|done]. destruct W as [Hs1 Ha].
    destruct p as [[]|e]; [|done]. intros [= <- _ <-]. cbn [is_ok] in Ha. rewrite Ha. clear Ha.
    unfold GenerateKeyPair, read_rand in Eg. destruct (rng_src r _ _) as [priv|] eqn:Er; [|done].
    injection Eg as <- _. apply Hr in Er. unfold stored_pair, aexec. destruct (abs (st_db s)) as [ps ver uid keys srv].
    cbn [a_key_pair PrivateKey PublicKey]. by rewrite PrivateKeyFromHex_PrivKeyHex.
Qed.

(** C21: The key pair survives restarts: whatever pair a start ends up with, loaded or newly made
    and stored, every later start on the same database gets the same pair and changes nothing. *)
Theorem keypair_persists r s kp r' s' : store_ok s -> rng_ok r -> agent_keypair r s = (Ret (kp, r'), s') ->
  store_ok s' /\ forall r2, agent_keypair r2 s' = (Ret (kp, r2), s').
Proof.
  intros Hs Hr E. destruct (agent_keypair_stored _ _ _ _ _ Hs Hr E) as (Hs' & Hp & _). split; [done|].
  intros r2. unfold agent_keypair, mbind, M_bind. by rewrite (load_keypair_spec s' Hs'), Hp.
Qed.

(** Opening a database makes the buckets and keeps what is stored. *)
Lemma Open_ok d fl st : Open (Ok d) fl = Ok st -> store_ok st /\ abs (st_db st) = abs d.
Proof.
  unfold Open. destruct (b_create bucketPeers d) as [d1|] eqn:E1; [|done].
  cbn [res_wrap res_bind]. destruct (b_create bucketMeta d1) as [d2|] eqn:E2; [|done].
  cbn [res_wrap res_bind]. destruct (b_create bucketKeys d2) as [d3|] eqn:E3; [|done]. cbn [res_wrap res_bind].
  assert (Hk : has_buckets d3 = true).
  { unfold has_buckets. rewrite (b_create_has _ _ _ E3).
    rewrite (b_create_keep _ bucketMeta _ _ E3) by apply (b_create_has _ _ _ E2).
    rewrite (b_create_keep _ bucketPeers _ _ E3); [done|]. apply (b_create_keep _ bucketPeers _ _ E2), (b_create_has _ _ _ E1). }
  assert (Hg : forall b k, b_get b k d3 = b_get b k d).
  { intros b k. by rewrite (b_create_get _ _ _ _ _ E3), (b_create_get _ _ _ _ _ E2), (b_create_get _ _ _ _ _ E1). }
  assert (Ha : abs d3 = abs d) by (unfold abs; rewrite (peers_map_ext d d3) by done; by rewrite !Hg).
  destruct fl as [|[e|] fl]; [|done|]; intros [= <-]; by split.
Qed.

End keypair.

(** ** Directories *)

Lemma split_on_free p : Forall (fun e => no_sep e = true) (split_on SEP p).
Proof.
  induction p as [|c p IH]; cbn; [by repeat constructor|]. case_decide as E; [by constructor|].
  destruct (split_on SEP p) as [|h t]; [by repeat constructor; cbn; rewrite bool_decide_false|].
  apply Forall_cons in IH as [Hh Ht]. constructor; [|done]. unfold no_sep in *. cbn. by rewrite bool_decide_false.
Qed.

Lemma clean_rev_plain p : rooted p = true -> Forall (fun e => plain_name e = true) (clean_rev p).
Proof.
  intros Hr. unfold clean_rev. rewrite Hr.
  assert (Hs : Forall (fun e => no_sep e = true) (split_on SEP p)) by apply split_on_free.
  enough (forall l acc, Forall (fun e => no_sep e = true) l -> Forall (fun e => plain_name e = true) acc ->
    Forall (fun e => plain_name e = true) (fold_left (clean_step true) l acc)) by auto.
  clear. induction l as [|e l IH]; intros acc Hl Ha; [done|]. apply Forall_cons in Hl as [He Hl]. cbn. apply IH; [done|].
  unfold clean_step. destruct (bool_decide (e = "")) eqn:E1; [done|]. destruct (bool_decide (e = ".")) eqn:E2; [done|].
  cbn [orb]. destruct (bool_decide (e = "..")) eqn:E3.
  - destruct acc as [|x acc]; [done|]. apply Forall_cons in Ha as [Hx Ha].
    destruct (bool_decide (x = "..")) eqn:Ed; [|done]. apply bool_decide_eq_true in Ed as ->. done.
  - constructor; [|done]. unfold plain_name. rewrite E1, E2, E3. exact He.
Qed.

Lemma elems_plain p : rooted p = true -> Forall (fun e => plain_name e = true) (elems p).
Proof. intros H. apply Forall_reverse, clean_rev_plain, H. Qed.

Lemma fold_clean_plain isroot l acc : Forall (fun e => plain_name e = true) l ->
  fold_left (clean_step isroot) l acc = reverse l ++ acc.
Proof.
  intros H. revert acc. induction H as [|e l He _ IH]; intros acc; [done|]. cbn [fold_left].
  rewrite clean_step_plain, IH by done. by rewrite reverse_cons, <-app_assoc.
Qed.

Lemma plain_no_sep e : plain_name e = true -> no_sep e = true.
Proof. unfold plain_name. rewrite !andb_true_iff. tauto. Qed.

(** Cleaning keeps the elements of a rooted path. *)
Lemma elems_of_rooted l : Forall (fun e => plain_name e = true) l -> elems (of_elems true l) = l.
Proof.
  intros H. unfold elems, clean_rev, of_elems.
  assert (rooted ("/" +:+ sjoin "/" l) = true) as -> by reflexivity.
  assert (split_on SEP ("/" +:+ sjoin "/" l) = "" :: split_on SEP (sjoin "/" l)) as ->.
  { change ("/" +:+ sjoin "/" l) with (String SEP (sjoin "/" l)). cbn [split_on]. by rewrite decide_True. }
  destruct l as [|e l]; [reflexivity|]. change "/" with (String SEP "").
  rewrite split_sjoin; [|done|].
  - change (fold_left (clean_step true) ("" :: e :: l) []) with (fold_left (clean_step true) (e :: l) []).
    rewrite fold_clean_plain by done. by rewrite app_nil_r, reverse_involutive.
  - eapply Forall_impl; [done|]. intros x. apply plain_no_sep.
Qed.

Lemma elems_Clean p : rooted p = true -> elems (Clean p) = elems p.
Proof. intros H. unfold Clean. rewrite H. apply elems_of_rooted, elems_plain, H. Qed.

(** A relative path stays one. *)
Lemma rooted_Clean p : rooted (Clean p) = rooted p.
Proof.
  unfold Clean, of_elems. destruct (rooted p) eqn:Hr; [done|].
  assert (Hall : Forall (fun e => rooted e = false /\ e <> "") (elems p)).
  { apply Forall_reverse. unfold clean_rev. rewrite Hr.
    assert (Hs : Forall (fun e => no_sep e = true) (split_on SEP p)) by apply split_on_free.
    enough (forall l acc, Forall (fun e => no_sep e = true) l -> Forall (fun e => rooted e = false /\ e <> "") acc ->
      Forall (fun e => rooted e = false /\ e <> "") (fold_left (clean_step false) l acc)) by auto.
    clear. induction l as [|e l IH]; intros acc Hl Ha; [done|]. apply Forall_cons in Hl as [He Hl]. cbn. apply IH; [done|].
    unfold clean_step. case_bool_decide; [done|]. case_bool_decide; [done|]. cbn [orb].
    assert (Hdd : rooted ".." = false /\ ".." <> "") by done.
    case_bool_decide; [destruct acc; [by repeat constructor|case_bool_decide; [by constructor|by inversion Ha]]|].
    constructor; [|done]. split; [|done]. destruct e as [|c e]; [done|]. unfold rooted. cbn in *.
    apply andb_true_iff in He as [Hc _]. apply negb_true_iff, bool_decide_eq_false in Hc.
    rewrite bool_decide_false; [done|]. intros <-. by apply Hc. }
  destruct (elems p) as [|e l]; [done|]. apply Forall_cons in Hall as [[He Hne] _].
  destruct e as [|c e]; [done|]. destruct l; exact He.
Qed.

Lemma strip_common_spec a b : exists c, a = c ++ (strip_common a b).1 /\ b = c ++ (strip_common a b).2 /\
  ((strip_common a b).1 = [] \/ (strip_common a b).2 = [] \/ head (strip_common a b).1 <> head (strip_common a b).2).
Proof.
  revert b. induction a as [|x a IH]; intros b; [exists []; auto|]. destruct b as [|y b]; [exists []; auto|].
  cbn. case_decide as E; [|exists []; cbn; split_and!; [done|done|right; right; congruence]].
  subst y. destruct (IH b) as (c & Ha & Hb & Hd). exists (x :: c). cbn. split_and!; [by f_equal|by f_equal|done].
Qed.

(** A relative path of plain names does not climb. *)
Lemma plain_rel e l : plain_name e = true ->
  bool_decide (sjoin "/" (e :: l) = "..") = false /\ HasPrefix (sjoin "/" (e :: l)) "../" = false.
Proof.
  intros He. assert (Hn : e <> ".." /\ no_sep e = true).
  { split; [by intros ->|by apply plain_no_sep]. }
  destruct Hn as [Hn Hs]. assert (Hj : exists t, sjoin "/" (e :: l) = e +:+ t /\ (t = "" \/ exists t', t = String SEP t')).
  { destruct l as [|x l]; [exists ""; rewrite sapp_nil_r; auto|].
    exists (String SEP (sjoin "/" (x :: l))). split; [done|right; eauto]. }
  destruct Hj as (t & -> & Ht). clear He l.
  destruct e as [|a [|b [|c e]]]; cbn in Hs |- *; repeat setoid_rewrite andb_true_iff in Hs.
  - destruct Ht as [->|[t' ->]]; [done|]. split; [by apply bool_decide_eq_false|]. reflexivity.
  - destruct Ht as [->|[t' ->]]; split; try apply bool_decide_eq_false; try congruence; cbn; by rewrite ?andb_false_r.
  - assert (a <> "."%char \/ b <> "."%char) as Hd by (destruct (decide (a = "."%char)), (decide (b = "."%char)); subst; auto; done).
    split; [apply bool_decide_eq_false; intros [= -> -> _]; by destruct Hd|].
    destruct Hd; [rewrite bool_decide_false by congruence; done|].
    rewrite (bool_decide_false ("."%char = b)) by congruence. by rewrite andb_false_r.
  - destruct Hs as (_ & _ & Hc & _). apply negb_true_iff, bool_decide_eq_false in Hc.
    split; [by apply bool_decide_eq_false|]. rewrite (bool_decide_false ("/"%char = c)) by (intros <-; by apply Hc).
    by rewrite !andb_false_r.
Qed.

Lemma climbing_rel l : bool_decide (sjoin "/" (".." :: l) = "..") = true \/ HasPrefix (sjoin "/" (".." :: l)) "../" = true.
Proof.
  destruct l as [|x l]; [left; by apply bool_decide_eq_true|right].
  change (sjoin "/" (".." :: x :: l)) with ("../" +:+ sjoin "/" (x :: l)). apply HasPrefix_app.
Qed.

Lemma within_default path : isWithinDefaultStateDirectory path = true <->
  rooted path = true /\ exists l, elems path = elems defaultStateDir ++ l.
Proof.
  unfold isWithinDefaultStateDirectory, Rel. change (Clean defaultStateDir) with defaultStateDir.
  change (Clean defaultStateDir) with defaultStateDir. change (rooted defaultStateDir) with true.
  rewrite !rooted_Clean. destruct (decide (Clean path = defaultStateDir)) as [E|E].
  { split; [|done]. intros _. assert (Hr : rooted path = true) by (by rewrite <-rooted_Clean, E).
    split; [done|]. exists []. by rewrite app_nil_r, <-E, elems_Clean. }
  destruct (rooted path) eqn:Hr; cbn [Bool.eqb negb].
  2:{ rewrite decide_False; [by split; [|intros [? _]]|]. intros E2. apply (f_equal rooted) in E2.
      by rewrite !rooted_Clean, Hr in E2. }
  assert (Hcc : Clean (Clean path) = Clean path).
  { unfold Clean at 1. rewrite rooted_Clean, Hr, elems_Clean by done. unfold Clean. by rewrite Hr. }
  rewrite Hcc, decide_False, elems_Clean by done. pose proof (elems_plain path Hr) as Hpl.
  destruct (strip_common_spec (elems defaultStateDir) (elems path)) as (c & Ha & Hb & Hd).
  destruct (strip_common (elems defaultStateDir) (elems path)) as [b t]. cbn [fst snd] in *.
  rewrite decide_False.
  2:{ intros Hh. destruct b as [|x b]; [done|]. injection Hh as ->.
      pose proof (elems_plain defaultStateDir eq_refl) as Hp. rewrite Ha in Hp.
      apply Forall_app in Hp as [_ Hp]. apply Forall_cons in Hp as [Hp _]. discriminate Hp. }
  destruct b as [|x b].
  - rewrite app_nil_r in Ha. cbn [fmap list_fmap app]. destruct t as [|e t].
    + exfalso. apply E. unfold Clean. rewrite Hr, Hb, app_nil_r, <-Ha. reflexivity.
    + assert (He : plain_name e = true).
      { rewrite Hb in Hpl. apply Forall_app in Hpl as [_ Hpl]. by inversion Hpl. }
      destruct (plain_rel e t He) as [-> ->]. split; [|done]. intros _. split; [done|]. exists (e :: t). by rewrite Ha.
  - cbn [fmap list_fmap app]. split.
    + destruct (climbing_rel (((fun _ => "..") <$> b) ++ t)) as [-> | ->]; cbn [negb andb]; [intros [=]|].
      rewrite andb_false_r. intros [=].
    + intros [_ [l Hl]]. exfalso. rewrite Ha in Hl. rewrite Hl, <-app_assoc in Hb. apply app_inv_head in Hb.
      destruct Hd as [Hd|[Hd|Hd]]; [done|by rewrite Hd in Hb|]. apply Hd. by rewrite <-Hb.
Qed.

Section directories.
Context `{env : HostEnv}.

Lemma ensurePrivateState_eq path : ensurePrivateStateDirectory path = ensurePrivateDir path.
Proof. reflexivity. Qed.

(** C30: Preparing the directory of the store loses no file: everything that was there keeps its
    contents.  Unless the directory is the agent's own state directory or below it, by the
    elements of its absolute path, permissions are left alone as well. *)
Theorem store_directory_safe storePath s : exists r s', ensureStoreDirectory storePath s = (Ret r, s') /\
  sys_host s' = sys_host s /\
  (forall p n, sys_fs s !! p = Some n -> exists pm, sys_fs s' !! p = Some (FNode (f_isdir n) (f_data n) pm)) /\
  (~ (rooted (Dir storePath) = true /\ exists l, elems (Dir storePath) = elems defaultStateDir ++ l) ->
     forall p n, sys_fs s !! p = Some n -> sys_fs s' !! p = Some n).
Proof.
  enough (W : wp (ensureStoreDirectory storePath) (fun _ s' => sys_host s' = sys_host s /\
    (forall p n, sys_fs s !! p = Some n -> exists pm, sys_fs s' !! p = Some (FNode (f_isdir n) (f_data n) pm)) /\
    (isWithinDefaultStateDirectory (Dir storePath) = false -> forall p n, sys_fs s !! p = Some n -> sys_fs s' !! p = Some n)) s).
  { apply wp_run in W as (r & s' & E & Hh & H1 & H2). exists r, s'. split_and!; [done|done|done|].
    intros Hn. apply H2. destruct (isWithinDefaultStateDirectory (Dir storePath)) eqn:Ew; [|done].
    by apply within_default in Ew. }
  assert (Hall : forall files h fl, h = sys_host s -> (forall p n, sys_fs s !! p = Some n -> files !! p = Some n) ->
    sys_host (MkSys files h fl) = sys_host s /\
    (forall p n, sys_fs s !! p = Some n -> exists pm, sys_fs (MkSys files h fl) !! p = Some (FNode (f_isdir n) (f_data n) pm)) /\
    (isWithinDefaultStateDirectory (Dir storePath) = false -> forall p n, sys_fs s !! p = Some n -> sys_fs (MkSys files h fl) !! p = Some n)).
  { intros files h fl -> Hf. cbn [sys_fs sys_host]. split_and!; [done| |auto]. intros p [] Hp%Hf. cbn. eauto. }
  unfold ensureStoreDirectory. cbv zeta. case_decide; [wp_step; destruct s as [fs0 h0 fl0]; by apply (Hall fs0 h0 fl0)|].
  destruct (isWithinDefaultStateDirectory (Dir storePath)) eqn:Ew.
  - rewrite ensurePrivateState_eq. eapply wp_mono; [apply wp_ensurePrivateDir|]. intros r s' [Hh Hf]. by split_and!.
  - wp_step. apply wp_Stat. intros [n|e] fl _; [destruct (f_isdir n); wp_step; by apply (Hall _ _ fl)|].
    destruct (err_notexist e); [|wp_step; by apply (Hall _ _ fl)]. apply wp_MkdirAll. cbn [sys_fs sys_host].
    intros r files fl1 Hf. by apply (Hall _ _ fl1).
Qed.

End directories.

(** ** The start *)

Section start.
Context `{env : HostEnv} `{B : Bolt} {L : BoltLaws B} `{Y : Yaml}.

#[local] Instance returns_MkdirAll p m : Returns (MkdirAll p m).
Proof. apply returns_syscall. Qed.
#[local] Instance returns_Chmod p m : Returns (Chmod p m).
Proof. apply returns_syscall. Qed.
#[local] Instance returns_private p : Returns (ensurePrivateStateDirectory p).
Proof. unfold ensurePrivateStateDirectory. returns_tac. Qed.
#[local] Instance returns_store_dir p : Returns (ensureStoreDirectory p).
Proof. unfold ensureStoreDirectory. cbv zeta. returns_tac. Qed.

Definition required (cfg : Config) : Prop :=
  CenterURL cfg <> "" /\ cfg_NodeID cfg <> "" /\ OurLLA cfg <> "" /\ OurWgPrivateKey cfg <> "".

#[local] Instance required_dec cfg : Decision (required cfg).
Proof. unfold required. apply _. Defined.

Lemma check_config_eq cfg : if decide (required cfg) then check_config cfg = Ok cfg else is_ok (check_config cfg) = false.
Proof. unfold check_config, required. repeat case_decide; naive_solver. Qed.

(** [Load]: the file is read and decoded over the defaults, and the result is complete. *)
Lemma Load_cases configPath s : exists sys1,
  (exists e, Load configPath s = (Ret (Err e), sys1) /\
     ((exists e', ReadFile configPath s = (Ret (Err e'), sys1)) \/
      exists data, ReadFile configPath s = (Ret (Ok data), sys1) /\
        ((exists e', yaml_unmarshal data config_defaults = Err e') \/
         exists cfg, yaml_unmarshal data config_defaults = Ok cfg /\ ~ required cfg))) \/
  exists data cfg, Load configPath s = (Ret (Ok cfg), sys1) /\ ReadFile configPath s = (Ret (Ok data), sys1) /\
    yaml_unmarshal data config_defaults = Ok cfg /\ required cfg.
Proof.
  destruct (returns_ReadFile configPath s) as (x & sys1 & E). exists sys1. unfold Load. rewrite (bind_run _ _ _ _ _ E).
  destruct x as [data|e]; [|left; eexists; split; [done|left; eauto]]. cbn [res_wrap res_bind].
  destruct (yaml_unmarshal data config_defaults) as [cfg|e] eqn:Ey; [|left; eexists; split; [done|right; eauto 6]].
  cbn [res_wrap res_bind]. pose proof (check_config_eq cfg) as Hc. case_decide as Hr.
  - right. exists data, cfg. by rewrite Hc.
  - left. destruct (check_config cfg) as [|e]; [done|]. exists e. split; [done|]. right. exists data. eauto.
Qed.

Definition store_path (cfg : Config) : string := or_default (StorePath cfg) (Join [defaultStateDir; "peers.db"]).

(** Why a start ends. *)
Inductive start_failure (configPath ver : string) (opened : string -> res db) (commits : list (option string)) (r : Rng) (s : Sys) : Prop :=
| sf_read e sys1 : ReadFile configPath s = (Ret (Err e), sys1) -> start_failure configPath ver opened commits r s
| sf_yaml data sys1 e : ReadFile configPath s = (Ret (Ok data), sys1) -> yaml_unmarshal data config_defaults = Err e ->
    start_failure configPath ver opened commits r s
| sf_incomplete data sys1 cfg : ReadFile configPath s = (Ret (Ok data), sys1) -> yaml_unmarshal data config_defaults = Ok cfg ->
    ~ required cfg -> start_failure configPath ver opened commits r s
| sf_store_dir cfg sys1 e sys2 : Load configPath s = (Ret (Ok cfg), sys1) ->
    ensureStoreDirectory (store_path cfg) sys1 = (Ret (Err e), sys2) -> start_failure configPath ver opened commits r s
| sf_state_dir cfg sys1 u sys2 e sys3 : Load configPath s = (Ret (Ok cfg), sys1) ->
    ensureStoreDirectory (store_path cfg) sys1 = (Ret (Ok u), sys2) ->
    ensurePrivateStateDirectory defaultStateDir sys2 = (Ret (Err e), sys3) -> start_failure configPath ver opened commits r s
| sf_open cfg sys1 e : Load configPath s = (Ret (Ok cfg), sys1) -> Open (opened (store_path cfg)) commits = Err e ->
    start_failure configPath ver opened commits r s
| sf_keys cfg sys1 st : Load configPath s = (Ret (Ok cfg), sys1) -> Open (opened (store_path cfg)) commits = Ok st ->
    (agent_keypair r (PutVersion ver st).2).1 = Halt (Exit 1) -> start_failure configPath ver opened commits r s.

(** The parts of the agent are set up from the configuration. *)
Record configured (cfg : Config) (ver : string) (ag : Agent) : Prop := {
  cd_wg : wgMgr (ag_handler ag) = Wg.MkManager (WgDir cfg) (BirdPeerDir cfg) (OurWgPrivateKey cfg) (OurLLA cfg);
  cd_bird : birdMgr (ag_handler ag) = Bird.MkManager (BirdPeerDir cfg) (BirdcPath cfg);
  cd_token : agentToken (ag_handler ag) = AgentToken cfg;
  cd_client : exists c, h_ws (ag_state ag) = Some c /\
    url c = CenterURL cfg +:+ "/api/v1/agent/ws?node_id=" +:+ cfg_NodeID cfg /\ token c = AgentToken cfg /\
    nodeID c = cfg_NodeID cfg /\ reconnMax c = wrap64 (ReconnectMaxInterval cfg * Ws.Second) /\ hasKeypair c = true /\
    serverPub c = default "" (a_server_pub (abs (st_db (h_store (ag_state ag))))) /\
    conn c = false /\ sendCh c = [] /\ encrypted c = false;
  cd_collector : interval (ag_collector ag) = wrap64 (HeartbeatInterval cfg * Ws.Second) /\
    birdDetailEvery (ag_collector ag) = (if BirdDetailInterval cfg <? 1 then 2 else BirdDetailInterval cfg) /\
    version (ag_collector ag) = ver /\ tickCount (ag_collector ag) = 0;
}.

(** A started agent: the configuration file was read, decoded and complete, the parts are set up
    from it, the key pair is the stored one, and the database holds the peers the opened one
    held. *)
Definition started (configPath ver : string) (opened : string -> res db) (s : Sys) (ag : Agent) : Prop :=
  exists data sys1 cfg d kp, ReadFile configPath s = (Ret (Ok data), sys1) /\
    yaml_unmarshal data config_defaults = Ok cfg /\ required cfg /\ configured cfg ver ag /\
    opened (store_path cfg) = Ok d /\ keypair (ag_handler ag) = Some kp /\ store_ok (h_store (ag_state ag)) /\
    stored_pair (abs (st_db (h_store (ag_state ag)))) = Some kp /\
    a_peers (abs (st_db (h_store (ag_state ag)))) = a_peers (abs d).

Lemma build_configured cfg ver kp r sys st : store_ok st -> configured cfg ver (build cfg ver kp r sys st).
Proof.
  intros [Ho Hb]. unfold has_buckets in Hb. rewrite !andb_true_iff in Hb. destruct Hb as [_ Hk].
  split; [done|done|done| |done]. unfold build. cbn [ag_state h_ws h_store]. eexists. split; [done|].
  unfold GetServerPubKey, View. rewrite Ho, Hk. cbn [abs a_server_pub].
  destruct (b_get bucketKeys keyServerPub (st_db st)) as [pub|]; cbn [fst default from_option]; [|done].
  case_decide as E; [by rewrite E|]. done.
Qed.

(** A key pair that cannot be made or stored ends the process. *)
Lemma agent_keypair_halts r st h st' : store_ok st -> agent_keypair r st = (Halt h, st') -> h = Exit 1.
Proof.
  intros Hs. unfold agent_keypair, mbind, M_bind. rewrite (load_keypair_spec st Hs).
  destruct (stored_pair _); [done|]. destruct (GenerateKeyPair r) as [[g|e] rg]; [|by intros [= <- _]].
  destruct (returns (m := PutKeyPair (PrivKeyHex (PrivateKey g)) (PubKeyHex (PublicKey g))) (Returns := returns_Update _) st) as (x & s4 & ->).
  destruct x; [done|]. by intros [= <- _].
Qed.

(** C22: The start either ends the process with status 1, and then because the configuration could
    not be read or decoded or lacks a required setting, a directory could not be made, the
    database could not be opened, or the key pair could not be made or stored; or it gives an
    agent all of whose parts are set up from the configuration file, whose required settings are
    all present, whose key pair is the one in its store, and whose store holds exactly the peers
    the database held. *)
Theorem main_starts configPath ver opened commits r s : rng_ok r ->
  wpo (main_start configPath ver opened commits r)
    (fun o _ => match o with
                | Halt h => h = Exit 1 /\ start_failure configPath ver opened commits r s
                | Ret ag => started configPath ver opened s ag
                end) s.
Proof.
  intros Hr. unfold wpo, main_start, mbind at 1, M_bind at 1.
  destruct (Load_cases configPath s) as [sys1 [(e & El & Hf)|(data & cfg & El & Ed & Ey & Hreq)]]; rewrite El.
  { split; [done|]. destruct Hf as [[e' H]|(data & H & [[e' Hy]|(cfg & Hy & Hn)])];
      [by eapply sf_read|by eapply sf_yaml|by eapply sf_incomplete]. }
  unfold mbind, M_bind, mret, M_ret, mhalt. fold (store_path cfg).
  destruct (returns_store_dir (store_path cfg) sys1) as (d1 & s2 & E1). rewrite E1.
  destruct d1; [|split; [done|by eapply sf_store_dir]]. destruct (returns_private defaultStateDir s2) as (d2 & s3 & E2). rewrite E2.
  destruct d2; [|split; [done|by eapply sf_state_dir]]. destruct (Open _ _) as [st|] eqn:Eo; [|split; [done|by eapply sf_open]].
  destruct (opened (store_path cfg)) as [d|] eqn:Eop; [|done]. pose proof Eo as [Hs Ha]%Open_ok.
  pose proof (wp_sexec (OpPutVersion ver) st Hs I) as W. unfold wp in W. cbn [sexec] in W.
  destruct (PutVersion ver st) as [[p|h] st1] eqn:Ev; [|done]. destruct W as [Hs1 Ha1].
  assert (Hp1 : a_peers (abs (st_db st1)) = a_peers (abs d)).
  { rewrite Ha1, <-Ha. destruct (is_ok p); [|done]. by destruct (abs (st_db st)) as [ps v u k w]. }
  destruct (agent_keypair r st1) as [[[kp r']|h] st2] eqn:Ek.
  - destruct (agent_keypair_stored _ _ _ _ _ Hs1 Hr Ek) as (Hs2 & Hk & Hp). exists data, sys1, cfg, d, kp.
    split_and!; try done; [by apply build_configured|]. cbn [build ag_state h_store]. congruence.
  - pose proof (agent_keypair_halts _ _ _ _ Hs1 Ek) as ->. split; [done|].
    eapply sf_keys; [done|by rewrite Eop|]. by rewrite Ev; cbn [snd]; rewrite Ek.
Qed.

End start.

(** ** Witnesses *)

Lemma keypair_persists_witness :
  let '(o, s') := agent_keypair test_rng mem_store in
  exists kp r', o = Ret (kp, r') /\ forall r2, agent_keypair r2 s' = (Ret (kp, r2), s').
Proof.
  destruct (agent_keypair test_rng mem_store) as [[[kp r']|h] s'] eqn:E.
  - exists kp, r'. split; [reflexivity|].
    refine (proj2 (keypair_persists test_rng mem_store kp r' s' _ test_rng_ok E)). split; vm_compute; reflexivity.
  - exfalso. apply (f_equal fst) in E. vm_compute in E. discriminate E.
Defined.

Definition test_config : Config :=
  MkConfig "wss://center" "token" "node" "/etc/bird/dn42/peer/" "/etc/wireguard/" "/usr/sbin/birdc" 4242420000 "fe80::1" "KEY=" 60 2 60 "".
#[local] Instance test_yaml : Yaml := fun _ _ => Ok test_config.
Definition config_sys : Sys :=
  MkSys (env := SimEnv) {[ "/etc/autopeer-agent/config.yaml" := FNode false "center_url: wss://center" 384 ]} sim0 [].
Definition test_start : M Sys Agent :=
  main_start "/etc/autopeer-agent/config.yaml" "1.0" (fun _ => Ok (st_db mem_store)) [] test_rng.

Lemma main_starts_witness : (match (test_start config_sys).1 with Ret _ => true | Halt _ => false end) = true /\
  wpo test_start (fun o _ => match o with
    | Halt h => h = Exit 1 /\ start_failure "/etc/autopeer-agent/config.yaml" "1.0" (fun _ => Ok (st_db mem_store)) [] test_rng config_sys
    | Ret ag => started "/etc/autopeer-agent/config.yaml" "1.0" (fun _ => Ok (st_db mem_store)) config_sys ag
    end) config_sys.
Proof.
  split; [vm_compute; reflexivity|].
  exact (main_starts "/etc/autopeer-agent/config.yaml" "1.0" (fun _ => Ok (st_db mem_store)) [] test_rng config_sys test_rng_ok).
Defined.
